(** * Trade simulation and risk engine of meme-bot: backtest and paper trader

    Shallow embedding of [backtest/models.py], [backtest/engine.py] and
    [app/paper_trader.py], of the price path generator of
    [backtest/simulator.py] and of [app/filters/scoring.py], and the
    properties of the engine checked on it.

    Modelling conventions.
    - Python floats are exact rationals ([Q]); literals such as [0.15] are
      the decimal fractions they denote.  Equalities between computed
      amounts are therefore stated up to [==] where arithmetic is involved.
    - A float division whose divisor is zero stops the evaluation: the
      model returns [None] there (Python floats raise [ZeroDivisionError],
      numpy floats yield an infinity or a NaN) and says nothing about the
      state left behind.
    - A trade object is shared between [trades] and [active_trades].  The
      model keeps the objects in [trades] (the store, in creation order)
      and [active_trades] holds handles, i.e. positions in the store.  A
      loop body works on the value of the object at hand and writes it
      back to the store before the turn ends.
    - Timestamps are integers: nanoseconds for [pd.Timestamp],
      microseconds for [datetime]. *)

From Stdlib Require Import QArith Qminmax Qabs Lqa Lia ZArith.
From stdpp Require Import gmap strings list fin_maps sorting.

(** ** Comparisons and arithmetic on amounts *)

Definition Qleb (x y : Q) : bool := Qle_bool x y.
Definition Qltb (x y : Q) : bool := negb (Qle_bool y x).
Definition Qgeb (x y : Q) : bool := Qleb y x.
Definition Qgtb (x y : Q) : bool := Qltb y x.

(** Python's [max(a, b)]: the first argument unless the second is larger. *)
Definition py_max (a b : Q) : Q := if Qgtb b a then b else a.

(** [a / b] on floats. *)
Definition div (a b : Q) : option Q :=
  if Qeq_bool b 0 then None else Some (a / b)%Q.

(** [sum] of a list of amounts. *)
Definition Qsum (l : list Q) : Q := foldr Qplus 0%Q l.

(** [l.remove(x)] on a list of handles: drops the first occurrence. *)
Fixpoint list_remove (x : nat) (l : list nat) : list nat :=
  match l with
  | [] => []
  | y :: l' => if Nat.eqb x y then l' else y :: list_remove x l'
  end.

(** [for h in list(handles): body(h)], stopping at the first error. *)
Fixpoint for_each {S : Type} (body : nat -> S -> option S)
    (handles : list nat) (self : S) : option S :=
  match handles with
  | [] => Some self
  | h :: rest =>
      match body h self with
      | Some self' => for_each body rest self'
      | None => None
      end
  end.

(** ** The backtest engine: [backtest/models.py], [backtest/engine.py] *)

Module Backtest.

Local Open Scope Q_scope.

(** [pd.Timestamp] and [pd.Timedelta], in nanoseconds. *)
Definition Timestamp := Z.

Definition Timedelta_minutes (n : Z) : Z := (n * 60000000000)%Z.

(** [ts.date()], as a day number. *)
Definition date (t : Timestamp) : Z := (t / 86400000000000)%Z.

(** [delta.total_seconds()]. *)
Definition total_seconds (delta : Z) : Q := inject_Z delta / 1000000000.

Record Signal := {
  sig_token_address : string;
  symbol : string;
  chain : string;
  signal_time : Timestamp;
  signal_score : Q;
  price_at_signal : Q
}.

(** The dataclass [Trade].  [units_sold] is a ghost ledger, not a field of
    the Python object: every close appends the number of units it sells
    (the quantity it multiplies by the price to form [proceeds]). *)
Record Trade := {
  token_address : string;
  entry_price : Q;
  entry_time : Timestamp;
  position_size_usd : Q;
  entry_score : Q;
  current_units : Q;
  realized_pnl : Q;
  status : string;
  ath_price : Q;
  stop_loss_price : Q;
  tp1_hit : bool;
  tp2_hit : bool;
  tp3_hit : bool;
  exit_reason : string;
  exit_time : option Timestamp;
  units_sold : list Q
}.

Definition set_current_units (v : Q) (t : Trade) : Trade :=
  {| token_address := token_address t; entry_price := entry_price t;
     entry_time := entry_time t; position_size_usd := position_size_usd t;
     entry_score := entry_score t; current_units := v;
     realized_pnl := realized_pnl t; status := status t;
     ath_price := ath_price t; stop_loss_price := stop_loss_price t;
     tp1_hit := tp1_hit t; tp2_hit := tp2_hit t; tp3_hit := tp3_hit t;
     exit_reason := exit_reason t; exit_time := exit_time t;
     units_sold := units_sold t |}.

Definition set_realized_pnl (v : Q) (t : Trade) : Trade :=
  {| token_address := token_address t; entry_price := entry_price t;
     entry_time := entry_time t; position_size_usd := position_size_usd t;
     entry_score := entry_score t; current_units := current_units t;
     realized_pnl := v; status := status t;
     ath_price := ath_price t; stop_loss_price := stop_loss_price t;
     tp1_hit := tp1_hit t; tp2_hit := tp2_hit t; tp3_hit := tp3_hit t;
     exit_reason := exit_reason t; exit_time := exit_time t;
     units_sold := units_sold t |}.

Definition set_status (v : string) (t : Trade) : Trade :=
  {| token_address := token_address t; entry_price := entry_price t;
     entry_time := entry_time t; position_size_usd := position_size_usd t;
     entry_score := entry_score t; current_units := current_units t;
     realized_pnl := realized_pnl t; status := v;
     ath_price := ath_price t; stop_loss_price := stop_loss_price t;
     tp1_hit := tp1_hit t; tp2_hit := tp2_hit t; tp3_hit := tp3_hit t;
     exit_reason := exit_reason t; exit_time := exit_time t;
     units_sold := units_sold t |}.

Definition set_ath_price (v : Q) (t : Trade) : Trade :=
  {| token_address := token_address t; entry_price := entry_price t;
     entry_time := entry_time t; position_size_usd := position_size_usd t;
     entry_score := entry_score t; current_units := current_units t;
     realized_pnl := realized_pnl t; status := status t;
     ath_price := v; stop_loss_price := stop_loss_price t;
     tp1_hit := tp1_hit t; tp2_hit := tp2_hit t; tp3_hit := tp3_hit t;
     exit_reason := exit_reason t; exit_time := exit_time t;
     units_sold := units_sold t |}.

Definition set_stop_loss_price (v : Q) (t : Trade) : Trade :=
  {| token_address := token_address t; entry_price := entry_price t;
     entry_time := entry_time t; position_size_usd := position_size_usd t;
     entry_score := entry_score t; current_units := current_units t;
     realized_pnl := realized_pnl t; status := status t;
     ath_price := ath_price t; stop_loss_price := v;
     tp1_hit := tp1_hit t; tp2_hit := tp2_hit t; tp3_hit := tp3_hit t;
     exit_reason := exit_reason t; exit_time := exit_time t;
     units_sold := units_sold t |}.

Definition set_tp1_hit (v : bool) (t : Trade) : Trade :=
  {| token_address := token_address t; entry_price := entry_price t;
     entry_time := entry_time t; position_size_usd := position_size_usd t;
     entry_score := entry_score t; current_units := current_units t;
     realized_pnl := realized_pnl t; status := status t;
     ath_price := ath_price t; stop_loss_price := stop_loss_price t;
     tp1_hit := v; tp2_hit := tp2_hit t; tp3_hit := tp3_hit t;
     exit_reason := exit_reason t; exit_time := exit_time t;
     units_sold := units_sold t |}.

Definition set_tp2_hit (v : bool) (t : Trade) : Trade :=
  {| token_address := token_address t; entry_price := entry_price t;
     entry_time := entry_time t; position_size_usd := position_size_usd t;
     entry_score := entry_score t; current_units := current_units t;
     realized_pnl := realized_pnl t; status := status t;
     ath_price := ath_price t; stop_loss_price := stop_loss_price t;
     tp1_hit := tp1_hit t; tp2_hit := v; tp3_hit := tp3_hit t;
     exit_reason := exit_reason t; exit_time := exit_time t;
     units_sold := units_sold t |}.

Definition set_tp3_hit (v : bool) (t : Trade) : Trade :=
  {| token_address := token_address t; entry_price := entry_price t;
     entry_time := entry_time t; position_size_usd := position_size_usd t;
     entry_score := entry_score t; current_units := current_units t;
     realized_pnl := realized_pnl t; status := status t;
     ath_price := ath_price t; stop_loss_price := stop_loss_price t;
     tp1_hit := tp1_hit t; tp2_hit := tp2_hit t; tp3_hit := v;
     exit_reason := exit_reason t; exit_time := exit_time t;
     units_sold := units_sold t |}.

Definition set_exit_reason (v : string) (t : Trade) : Trade :=
  {| token_address := token_address t; entry_price := entry_price t;
     entry_time := entry_time t; position_size_usd := position_size_usd t;
     entry_score := entry_score t; current_units := current_units t;
     realized_pnl := realized_pnl t; status := status t;
     ath_price := ath_price t; stop_loss_price := stop_loss_price t;
     tp1_hit := tp1_hit t; tp2_hit := tp2_hit t; tp3_hit := tp3_hit t;
     exit_reason := v; exit_time := exit_time t;
     units_sold := units_sold t |}.

Definition set_exit_time (v : option Timestamp) (t : Trade) : Trade :=
  {| token_address := token_address t; entry_price := entry_price t;
     entry_time := entry_time t; position_size_usd := position_size_usd t;
     entry_score := entry_score t; current_units := current_units t;
     realized_pnl := realized_pnl t; status := status t;
     ath_price := ath_price t; stop_loss_price := stop_loss_price t;
     tp1_hit := tp1_hit t; tp2_hit := tp2_hit t; tp3_hit := tp3_hit t;
     exit_reason := exit_reason t; exit_time := v;
     units_sold := units_sold t |}.

(** Ghost: record [units] in the ledger of the trade. *)
Definition record_sale (units : Q) (t : Trade) : Trade :=
  {| token_address := token_address t; entry_price := entry_price t;
     entry_time := entry_time t; position_size_usd := position_size_usd t;
     entry_score := entry_score t; current_units := current_units t;
     realized_pnl := realized_pnl t; status := status t;
     ath_price := ath_price t; stop_loss_price := stop_loss_price t;
     tp1_hit := tp1_hit t; tp2_hit := tp2_hit t; tp3_hit := tp3_hit t;
     exit_reason := exit_reason t; exit_time := exit_time t;
     units_sold := units_sold t ++ [units] |}.

(** One entry of [equity_curve]: the dict with keys time, equity, capital. *)
Record EquityPoint := {
  point_time : Timestamp;
  point_equity : Q;
  point_capital : Q
}.

(** The attributes of [BacktestEngine]. *)
Record Engine := {
  capital : Q;
  initial_capital : Q;
  equity : Q;
  trades : list Trade;
  active_trades : list nat;
  daily_start_equity : Q;
  current_day : option Z;
  daily_loss_limit_hit : bool;
  equity_curve : list EquityPoint
}.

Definition set_capital (v : Q) (s : Engine) : Engine :=
  {| capital := v; initial_capital := initial_capital s; equity := equity s;
     trades := trades s; active_trades := active_trades s;
     daily_start_equity := daily_start_equity s;
     current_day := current_day s;
     daily_loss_limit_hit := daily_loss_limit_hit s;
     equity_curve := equity_curve s |}.

Definition set_equity (v : Q) (s : Engine) : Engine :=
  {| capital := capital s; initial_capital := initial_capital s; equity := v;
     trades := trades s; active_trades := active_trades s;
     daily_start_equity := daily_start_equity s;
     current_day := current_day s;
     daily_loss_limit_hit := daily_loss_limit_hit s;
     equity_curve := equity_curve s |}.

Definition set_trades (v : list Trade) (s : Engine) : Engine :=
  {| capital := capital s; initial_capital := initial_capital s;
     equity := equity s;
     trades := v; active_trades := active_trades s;
     daily_start_equity := daily_start_equity s;
     current_day := current_day s;
     daily_loss_limit_hit := daily_loss_limit_hit s;
     equity_curve := equity_curve s |}.

Definition set_active_trades (v : list nat) (s : Engine) : Engine :=
  {| capital := capital s; initial_capital := initial_capital s;
     equity := equity s;
     trades := trades s; active_trades := v;
     daily_start_equity := daily_start_equity s;
     current_day := current_day s;
     daily_loss_limit_hit := daily_loss_limit_hit s;
     equity_curve := equity_curve s |}.

Definition set_daily_start_equity (v : Q) (s : Engine) : Engine :=
  {| capital := capital s; initial_capital := initial_capital s;
     equity := equity s;
     trades := trades s; active_trades := active_trades s;
     daily_start_equity := v;
     current_day := current_day s;
     daily_loss_limit_hit := daily_loss_limit_hit s;
     equity_curve := equity_curve s |}.

Definition set_current_day (v : option Z) (s : Engine) : Engine :=
  {| capital := capital s; initial_capital := initial_capital s;
     equity := equity s;
     trades := trades s; active_trades := active_trades s;
     daily_start_equity := daily_start_equity s;
     current_day := v;
     daily_loss_limit_hit := daily_loss_limit_hit s;
     equity_curve := equity_curve s |}.

Definition set_daily_loss_limit_hit (v : bool) (s : Engine) : Engine :=
  {| capital := capital s; initial_capital := initial_capital s;
     equity := equity s;
     trades := trades s; active_trades := active_trades s;
     daily_start_equity := daily_start_equity s;
     current_day := current_day s;
     daily_loss_limit_hit := v;
     equity_curve := equity_curve s |}.

Definition set_equity_curve (v : list EquityPoint) (s : Engine) : Engine :=
  {| capital := capital s; initial_capital := initial_capital s;
     equity := equity s;
     trades := trades s; active_trades := active_trades s;
     daily_start_equity := daily_start_equity s;
     current_day := current_day s;
     daily_loss_limit_hit := daily_loss_limit_hit s;
     equity_curve := v |}.

(** [BacktestEngine.__init__]. *)
Definition init (initial_capital : Q) : Engine :=
  {| capital := initial_capital; initial_capital := initial_capital;
     equity := initial_capital; trades := []; active_trades := [];
     daily_start_equity := initial_capital; current_day := None;
     daily_loss_limit_hit := false; equity_curve := [] |}.

(** A price frame: the rows (index timestamp, price) of the DataFrame, in
    row order.  The index is taken to hold each timestamp at most once. *)
Definition DataFrame := list (Timestamp * Q).

(** [df.loc[t]['price']]; [None] stands for the [KeyError]. *)
Fixpoint loc (df : DataFrame) (t : Timestamp) : option Q :=
  match df with
  | [] => None
  | (t', p) :: rest => if Z.eqb t' t then Some p else loc rest t
  end.


(** [df.index[-1]] together with [df.iloc[-1]['price']]; [None] when
    [df.empty]. *)
Definition last_row (df : DataFrame) : option (Timestamp * Q) := last df.

(** [BacktestEngine._close_trade]: sell all remaining units of the trade
    held under handle [h].  [trade] is the current value of that object; it
    is written back to the store and the handle leaves [active_trades].
    ([list.remove] compares dataclasses by value; the object is already
    marked CLOSED when it is searched for and the other active trades are
    OPEN, so the entry found is its own.) *)
Definition _close_trade (h : nat) (trade : Trade) (price : Q)
    (time : Timestamp) (reason : string) (self : Engine) : Engine :=
  let proceeds := current_units trade * price in
  let self := set_capital (capital self + proceeds) self in
  let trade :=
    set_realized_pnl
      (realized_pnl trade + (proceeds - current_units trade * entry_price trade))
      trade in
  let trade := record_sale (current_units trade) trade in
  let trade := set_current_units 0 trade in
  let trade := set_status "CLOSED" trade in
  let trade := set_exit_reason reason trade in
  let trade := set_exit_time (Some time) trade in
  let self := set_trades (<[h := trade]> (trades self)) self in
  set_active_trades (list_remove h (active_trades self)) self.

(** [BacktestEngine._partial_close]: sell [pct_of_initial] of the initial
    units, capped at the units held.  Returns the engine and the trade as
    mutated. *)
Definition _partial_close (trade : Trade) (pct_of_initial price : Q)
    (reason : string) (self : Engine) : option (Engine * Trade) :=
  initial_units ← div (position_size_usd trade) (entry_price trade);
  let units_to_sell := initial_units * pct_of_initial in
  let units_to_sell :=
    if Qgtb units_to_sell (current_units trade)
    then current_units trade else units_to_sell in
  let proceeds := units_to_sell * price in
  let self := set_capital (capital self + proceeds) self in
  let trade := record_sale units_to_sell trade in
  let trade := set_current_units (current_units trade - units_to_sell) trade in
  let cost := units_to_sell * entry_price trade in
  let trade := set_realized_pnl (realized_pnl trade + (proceeds - cost)) trade in
  Some (self, trade).

(** The sections of the loop body of [_update_trades], in source order. *)

(** "Update ATH". *)
Definition update_ath (current_price : Q) (trade : Trade) : Trade :=
  if Qgtb current_price (ath_price trade)
  then set_ath_price current_price trade else trade.

(** [minutes_in]. *)
Definition minutes_in (current_time : Timestamp) (trade : Trade) : Q :=
  total_seconds (current_time - entry_time trade) / 60.

(** "Phase 2: > 15 mins (-30% hard)". *)
Definition hard_stop_phase (minutes_in : Q) (trade : Trade) : Trade :=
  if Qgtb minutes_in 15 then
    let hard_stop := entry_price trade * 0.70 in
    if Qgtb (stop_loss_price trade) hard_stop then trade
    else set_stop_loss_price hard_stop trade
  else trade.

(** "Trailing Stop: ATH >= +40% -> Stop = ATH - 35%". *)
Definition trailing_stop (trade : Trade) : option Trade :=
  roi_ath ← div (ath_price trade - entry_price trade) (entry_price trade);
  if Qgeb roi_ath 0.40 then
    let trail_stop := ath_price trade * (1 - 0.35) in
    if Qgtb trail_stop (stop_loss_price trade)
    then Some (set_stop_loss_price trail_stop trade) else Some trade
  else Some trade.

(** "Take Profit Logic (V3)": the three tiers. *)
Definition take_profit_1 (roi current_price : Q) (trade : Trade)
    (self : Engine) : option (Engine * Trade) :=
  if Qgeb roi 0.40 && negb (tp1_hit trade) then
    '(self, trade) ← _partial_close trade 0.50 current_price "TP1" self;
    let trade := set_tp1_hit true trade in
    let trade :=
      set_stop_loss_price (py_max (stop_loss_price trade) (entry_price trade))
        trade in
    Some (self, trade)
  else Some (self, trade).

Definition take_profit_2 (roi current_price : Q) (trade : Trade)
    (self : Engine) : option (Engine * Trade) :=
  if Qgeb roi 1.00 && negb (tp2_hit trade) then
    '(self, trade) ← _partial_close trade 0.25 current_price "TP2" self;
    Some (self, set_tp2_hit true trade)
  else Some (self, trade).

Definition take_profit_3 (roi current_price : Q) (trade : Trade)
    (self : Engine) : option (Engine * Trade) :=
  if Qgeb roi 2.00 && negb (tp3_hit trade) then
    '(self, trade) ← _partial_close trade 0.15 current_price "TP3" self;
    Some (self, set_tp3_hit true trade)
  else Some (self, trade).

(** "Time Based Exit": the condition. *)
Definition time_exit_due (minutes_in roi : Q) : bool :=
  Qgeb minutes_in 90 && (Qleb (-0.10) roi && Qleb roi 0.20).

(** "Check Daily Loss Limit". *)
Definition check_daily_loss_limit (self : Engine) : Engine :=
  let day_pnl := equity self - daily_start_equity self in
  if Qltb day_pnl (- (daily_start_equity self * 0.10))
  then set_daily_loss_limit_hit true self else self.

(** One turn of the loop of [_update_trades], for the trade under handle
    [h]; the mutated trade is written back to the store on every path
    that changed it. *)
Definition update_trade (current_time : Timestamp)
    (price_data : gmap string DataFrame) (h : nat) (self : Engine)
    : option Engine :=
  match trades self !! h with
  | None => Some self
  | Some trade =>
    match price_data !! token_address trade with
    | None => Some self
    | Some df =>
      match loc df current_time with
      | None =>
          match last_row df with
          | Some (last_time, last_price) =>
              if (last_time <? current_time)%Z
              then Some (_close_trade h trade last_price last_time
                           "END_OF_DATA" self)
              else Some self
          | None => Some self
          end
      | Some current_price =>
          let trade := update_ath current_price trade in
          let minutes_in := minutes_in current_time trade in
          let trade := hard_stop_phase minutes_in trade in
          trade ← trailing_stop trade;
          if Qleb current_price (stop_loss_price trade)
          then Some (_close_trade h trade current_price current_time
                       "STOP_LOSS" self)
          else
            roi ← div (current_price - entry_price trade) (entry_price trade);
            '(self, trade) ← take_profit_1 roi current_price trade self;
            '(self, trade) ← take_profit_2 roi current_price trade self;
            '(self, trade) ← take_profit_3 roi current_price trade self;
            if time_exit_due minutes_in roi
            then Some (_close_trade h trade current_price current_time
                         "TIME_EXIT" self)
            else
              let self := check_daily_loss_limit self in
              Some (set_trades (<[h := trade]> (trades self)) self)
      end
    end
  end.

(** [BacktestEngine._update_trades]: the loop runs over a copy of
    [active_trades]. *)
Definition _update_trades (current_time : Timestamp)
    (price_data : gmap string DataFrame) (self : Engine) : option Engine :=
  for_each (update_trade current_time price_data) (active_trades self) self.

(** [BacktestEngine._process_signal].  A rejected signal returns the engine
    as it was. *)
Definition _process_signal (sig : Signal) (self : Engine) : option Engine :=
  if Qltb (signal_score sig) 80 then Some self
  else if (4 <=? length (active_trades self))%nat then Some self
  else if daily_loss_limit_hit self then Some self
  else
    let risk_pct :=
      if Qgeb (signal_score sig) 90 then 0.025
      else if Qgeb (signal_score sig) 85 then 0.020
      else 0.015 in
    let risk_amount := capital self * risk_pct in
    let initial_sl_pct := 0.15 in
    let pos_size_usd := risk_amount / initial_sl_pct in
    let pos_size_usd :=
      if Qgtb pos_size_usd (capital self) then capital self
      else pos_size_usd in
    let self := set_capital (capital self - pos_size_usd) self in
    units ← div pos_size_usd (price_at_signal sig);
    let trade :=
      {| token_address := sig_token_address sig;
         entry_price := price_at_signal sig;
         entry_time := signal_time sig;
         position_size_usd := pos_size_usd;
         entry_score := signal_score sig;
         current_units := units;
         realized_pnl := 0;
         status := "OPEN";
         ath_price := price_at_signal sig;
         stop_loss_price := price_at_signal sig * (1 - initial_sl_pct);
         tp1_hit := false; tp2_hit := false; tp3_hit := false;
         exit_reason := "";
         exit_time := None;
         units_sold := [] |} in
    let h := length (trades self) in
    let self := set_active_trades (active_trades self ++ [h]) self in
    Some (set_trades (trades self ++ [trade]) self).

(** [BacktestResult]; [metrics] is always the empty dict and is left out. *)
Record BacktestResult := {
  result_trades : list Trade;
  result_equity_curve : list EquityPoint;
  final_capital : Q
}.

(** [BacktestEngine._generate_results]. *)
Definition _generate_results (self : Engine) : BacktestResult :=
  {| result_trades := trades self;
     result_equity_curve := equity_curve self;
     final_capital := capital self |}.

(** [signals.sort(key=lambda x: x.signal_time)]: a stable sort. *)
Fixpoint insert_by_time (x : Signal) (l : list Signal) : list Signal :=
  match l with
  | [] => [x]
  | y :: l' =>
      if (signal_time x <=? signal_time y)%Z then x :: y :: l'
      else y :: insert_by_time x l'
  end.

Definition sort_signals (signals : list Signal) : list Signal :=
  foldr insert_by_time [] signals.

(** [all_times]: the index of every frame of [price_data]. *)
Definition all_times (price_data : gmap string DataFrame) : list Timestamp :=
  concat ((fun kv : string * DataFrame => fst <$> snd kv)
            <$> map_to_list price_data).

Definition min_of (l : list Z) : option Z :=
  match l with [] => None | x :: l' => Some (foldr Z.min x l') end.

Definition max_of (l : list Z) : option Z :=
  match l with [] => None | x :: l' => Some (foldr Z.max x l') end.

(** "1. Day Reset Logic". *)
Definition day_reset (current_time : Timestamp) (self : Engine) : Engine :=
  if bool_decide (current_day self <> Some (date current_time)) then
    let self := set_current_day (Some (date current_time)) self in
    let self := set_daily_start_equity (equity self) self in
    set_daily_loss_limit_hit false self
  else self.

(** "Calculate Equity": one turn of the loop adding up
    [current_unrealized_value], and the loop. *)
Definition add_unrealized (current_time : Timestamp)
    (price_data : gmap string DataFrame) (self : Engine)
    (current_unrealized_value : Q) (h : nat) : Q :=
  match trades self !! h with
  | None => current_unrealized_value
  | Some t =>
      match price_data !! token_address t with
      | None => current_unrealized_value
      | Some df =>
          match loc df current_time with
          | Some price => current_unrealized_value + current_units t * price
          | None => current_unrealized_value
          end
      end
  end.

Definition unrealized_value (current_time : Timestamp)
    (price_data : gmap string DataFrame) (self : Engine) : Q :=
  fold_left (add_unrealized current_time price_data self)
    (active_trades self) 0.

(** "3. Process New Signals": [pending] is [signals[signal_idx:]]; the
    signals left over are returned with the engine. *)
Fixpoint process_new_signals (current_time : Timestamp) (pending : list Signal)
    (self : Engine) : option (list Signal * Engine) :=
  match pending with
  | [] => Some ([], self)
  | sig :: rest =>
      if (signal_time sig <=? current_time)%Z then
        match _process_signal sig self with
        | Some self' => process_new_signals current_time rest self'
        | None => None
        end
      else Some (pending, self)
  end.

(** "Time Step" and the jump taken while no trade is active. *)
Definition next_time (current_time : Timestamp) (pending : list Signal)
    (self : Engine) : Timestamp :=
  let current_time := (current_time + Timedelta_minutes 1)%Z in
  match active_trades self, pending with
  | [], sig :: _ =>
      let next_sig_time := signal_time sig in
      if (current_time <? next_sig_time)%Z then
        let jump_to := (next_sig_time - Timedelta_minutes 1)%Z in
        if (current_time <? jump_to)%Z then jump_to else current_time
      else current_time
  | _, _ => current_time
  end.

(** The body of the [while current_time <= max_time] loop of [run]. *)
Definition run_iteration (price_data : gmap string DataFrame)
    (current_time : Timestamp) (pending : list Signal) (self : Engine)
    : option (Timestamp * list Signal * Engine) :=
  let self := day_reset current_time self in
  self ← _update_trades current_time price_data self;
  let current_unrealized_value :=
    unrealized_value current_time price_data self in
  let self := set_equity (capital self + current_unrealized_value) self in
  '(pending, self) ← process_new_signals current_time pending self;
  let self :=
    set_equity_curve
      (equity_curve self ++
         [{| point_time := current_time; point_equity := equity self;
             point_capital := capital self |}]) self in
  Some (next_time current_time pending self, pending, self).

(** The loop of [run], bounded by [fuel] iterations; it returns the loop
    variables on exit. *)
Fixpoint run_loop (fuel : nat) (price_data : gmap string DataFrame)
    (max_time current_time : Timestamp) (pending : list Signal)
    (self : Engine) : option (Timestamp * list Signal * Engine) :=
  if (current_time <=? max_time)%Z then
    match fuel with
    | O => Some (current_time, pending, self)
    | S fuel' =>
        match run_iteration price_data current_time pending self with
        | Some (current_time', pending', self') =>
            run_loop fuel' price_data max_time current_time' pending' self'
        | None => None
        end
    end
  else Some (current_time, pending, self).

(** Every iteration advances the clock by a minute at least, so this many
    iterations exhaust the range. *)
Definition iterations (min_time max_time : Timestamp) : nat :=
  Z.to_nat ((max_time - min_time) / Timedelta_minutes 1 + 1).

(** [BacktestEngine.run]: the engine after the run and the value returned
    ([None] for the bare [return] taken when there is no price data). *)
Definition run (signals : list Signal) (price_data : gmap string DataFrame)
    (self : Engine) : option (Engine * option BacktestResult) :=
  let signals := sort_signals signals in
  let all_times := all_times price_data in
  match min_of all_times, max_of all_times with
  | Some min_time, Some max_time =>
      '(_, _, self) ←
        run_loop (iterations min_time max_time) price_data max_time min_time
          signals self;
      Some (self, Some (_generate_results self))
  | _, _ => Some (self, None)
  end.

(** *** Notions used to state the properties *)

(** The units bought at entry, as [_partial_close] recomputes them. *)
Definition initial_units (t : Trade) : Q :=
  position_size_usd t / entry_price t.

(** What later states of a trade object have in common with an earlier
    one: the entry data are kept, the stop and the peak have not gone
    down, the units no longer held are in the ledger, and the tiers hit
    stay hit. *)
Definition evolves (t t' : Trade) : Prop :=
  token_address t' = token_address t /\
  entry_price t' = entry_price t /\
  entry_time t' = entry_time t /\
  position_size_usd t' = position_size_usd t /\
  stop_loss_price t <= stop_loss_price t' /\
  ath_price t <= ath_price t' /\
  current_units t' + Qsum (units_sold t') ==
    current_units t + Qsum (units_sold t) /\
  (tp1_hit t = true -> tp1_hit t' = true) /\
  (tp2_hit t = true -> tp2_hit t' = true) /\
  (tp3_hit t = true -> tp3_hit t' = true).

(** The same, for the objects of a store; the store may have grown. *)
Definition store_evolves (l l' : list Trade) : Prop :=
  forall h t, l !! h = Some t -> exists t', l' !! h = Some t' /\ evolves t t'.

(** A trade bought at a positive price with a non-negative amount. *)
Definition sound (t : Trade) : Prop :=
  0 <= current_units t /\ 0 <= position_size_usd t /\ 0 < entry_price t.

(** Units held and units sold add up to the units bought. *)
Definition conserved (t : Trade) : Prop :=
  current_units t + Qsum (units_sold t) == initial_units t.

(** A closed trade holds nothing. *)
Definition settled (t : Trade) : Prop :=
  status t = "CLOSED" -> current_units t == 0.


(** The handles of [active_trades] are distinct and name open trades. *)
Definition handles_ok (self : Engine) : Prop :=
  NoDup (active_trades self) /\
  forall h, h ∈ active_trades self ->
    exists t, trades self !! h = Some t /\ status t = "OPEN".

(** Every price of the frame is positive, resp. non-negative. *)
Definition prices_nonneg (price_data : gmap string DataFrame) : Prop :=
  forall k df, price_data !! k = Some df -> Forall (fun row => 0 <= row.2) df.

(** A call of one of the two operations of the engine, and a sequence of
    calls. *)
Inductive Call :=
  | ProcessSignal (sig : Signal)
  | UpdateTrades (current_time : Timestamp)
      (price_data : gmap string DataFrame).

Definition call (c : Call) (self : Engine) : option Engine :=
  match c with
  | ProcessSignal sig => _process_signal sig self
  | UpdateTrades current_time price_data =>
      _update_trades current_time price_data self
  end.

Fixpoint calls (cs : list Call) (self : Engine) : option Engine :=
  match cs with
  | [] => Some self
  | c :: cs' =>
      match call c self with
      | Some self' => calls cs' self'
      | None => None
      end
  end.

(** Inputs as the interfaces promise them: a signal carries a positive
    price, price samples are not negative. *)
Definition valid_call (c : Call) : Prop :=
  match c with
  | ProcessSignal sig => 0 < price_at_signal sig
  | UpdateTrades _ price_data => prices_nonneg price_data
  end.

(** The mark-to-market value of the active trades that have a price sample
    at [current_time]; a trade without one counts for nothing. *)
Definition priced_value (current_time : Timestamp)
    (price_data : gmap string DataFrame) (store : list Trade) (h : nat) : Q :=
  match store !! h with
  | Some t =>
      match price_data !! token_address t with
      | Some df =>
          match loc df current_time with
          | Some price => current_units t * price
          | None => 0
          end
      | None => 0
      end
  | None => 0
  end.

Definition mark_to_market (current_time : Timestamp)
    (price_data : gmap string DataFrame) (self : Engine) : Q :=
  Qsum (priced_value current_time price_data (trades self)
          <$> active_trades self).

(** The units a partial close of [pct_of_initial] sells: that share of
    the initial units, capped at the units held. *)
Definition sale_units (pct_of_initial : Q) (t : Trade) : Q :=
  let units_to_sell := initial_units t * pct_of_initial in
  if Qgtb units_to_sell (current_units t) then current_units t
  else units_to_sell.

(** The trade after [units] of it were sold at [price]. *)
Definition after_sale (units price : Q) (t : Trade) : Trade :=
  set_realized_pnl
    (realized_pnl t + (units * price - units * entry_price t))
    (set_current_units (current_units t - units) (record_sale units t)).

(** The trade once closed at [price]. *)
Definition closed_trade (price : Q) (time : Timestamp) (reason : string)
    (t : Trade) : Trade :=
  set_exit_time (Some time)
    (set_exit_reason reason
       (set_status "CLOSED"
          (set_current_units 0
             (record_sale (current_units t)
                (set_realized_pnl
                   (realized_pnl t +
                      (current_units t * price -
                         current_units t * entry_price t)) t))))).

(** Only the peak and the stop differ, and they have not gone down. *)
Definition only_levels (t t' : Trade) : Prop :=
  t' = set_stop_loss_price (stop_loss_price t')
         (set_ath_price (ath_price t') t) /\
  stop_loss_price t <= stop_loss_price t' /\
  ath_price t <= ath_price t'.

(** Only [capital] differs. *)
Definition only_capital (s s' : Engine) : Prop :=
  s' = set_capital (capital s') s.

(** What a section of the loop body of [_update_trades] may do to the
    engine and to the trade at hand, selling at [price]. *)
Definition body_step (price : Q) (s : Engine) (t : Trade) (s' : Engine)
    (t' : Trade) : Prop :=
  evolves t t' /\
  status t' = status t /\
  exit_reason t' = exit_reason t /\
  only_capital s s' /\
  (sound t -> 0 <= price -> sound t' /\ capital s <= capital s').

(** The attributes [_update_trades] and [_process_signal] never write. *)
Definition same_books (s s' : Engine) : Prop :=
  initial_capital s' = initial_capital s /\
  equity s' = equity s /\
  daily_start_equity s' = daily_start_equity s /\
  current_day s' = current_day s /\
  equity_curve s' = equity_curve s.


(** What one turn of the loop of [_update_trades] does for the trade [t]
    under handle [h]: the trade is kept or closed; [price_ok] stands for
    the assumption that the prices used are not negative. *)
Definition turn_outcome (h : nat) (price_ok : Prop) (s : Engine) (t : Trade)
    (s' : Engine) : Prop :=
  exists t',
    trades s' = <[h := t']> (trades s) /\
    evolves t t' /\
    same_books s s' /\
    ((status t' = status t /\ exit_reason t' = exit_reason t /\
      active_trades s' = active_trades s) \/
     (status t' = "CLOSED" /\ current_units t' = 0 /\
      active_trades s' = list_remove h (active_trades s))) /\
    (sound t -> price_ok -> sound t' /\ capital s <= capital s').



(** The books are in order: handles are distinct and name open trades,
    closed trades hold nothing, and no unit went missing. *)
Definition books_ok (self : Engine) : Prop :=
  handles_ok self /\
  Forall settled (trades self) /\
  Forall conserved (trades self).


(** The trade has nothing left to do at price [p] and time [ct]: the peak
    and the stop are where the sections of the loop body put them, the
    price is above the stop, every tier the return reaches is marked hit
    and the time exit is not due. *)
Definition levels_at_rest (ct : Timestamp) (p : Q) (t : Trade) : Prop :=
  0 < entry_price t /\
  p <= ath_price t /\
  (minutes_in ct t <= 15 \/
   entry_price t * 0.70 < stop_loss_price t \/
   stop_loss_price t = entry_price t * 0.70) /\
  ((ath_price t - entry_price t) / entry_price t < 0.40 \/
   ath_price t * (1 - 0.35) <= stop_loss_price t) /\
  stop_loss_price t < p.

Definition at_rest (ct : Timestamp) (p : Q) (t : Trade) : Prop :=
  levels_at_rest ct p t /\
  (0.40 <= (p - entry_price t) / entry_price t -> tp1_hit t = true) /\
  (1.00 <= (p - entry_price t) / entry_price t -> tp2_hit t = true) /\
  (2.00 <= (p - entry_price t) / entry_price t -> tp3_hit t = true) /\
  time_exit_due (minutes_in ct t) ((p - entry_price t) / entry_price t) =
    false.


(** Cash is not negative, in the engine and in every sample recorded. *)
Definition cash_ok (self : Engine) : Prop :=
  0 <= capital self /\
  Forall sound (trades self) /\
  Forall (fun pt => 0 <= point_capital pt) (equity_curve self).

(** *** Notions used for the further properties *)

(** The trade has no sample at [ct] and its feed, if it has rows at all,
    goes on to [ct] or beyond: the tick is skipped. *)
Definition data_gap (ct : Timestamp) (pd : gmap string DataFrame)
    (t : Trade) : Prop :=
  match pd !! token_address t with
  | None => True
  | Some df =>
      loc df ct = None /\
      match last_row df with
      | Some (last_time, _) => (ct <= last_time)%Z
      | None => True
      end
  end.

(** The trade has no sample at [ct] and the last row of its feed is
    earlier than [ct]. *)
Definition feed_ended (ct : Timestamp) (pd : gmap string DataFrame)
    (t : Trade) : Prop :=
  exists df last_time last_price,
    pd !! token_address t = Some df /\ loc df ct = None /\
    last_row df = Some (last_time, last_price) /\ (last_time < ct)%Z.

(** The fraction of the capital put at risk for a score, the local
    [risk_pct] of [_process_signal]. *)
Definition risk_pct (signal_score : Q) : Q :=
  if Qgeb signal_score 90 then 0.025
  else if Qgeb signal_score 85 then 0.020
  else 0.015.

(** The share of the initial units left by the tiers marked hit. *)
Definition ladder_share (t : Trade) : Q :=
  1 - (if tp1_hit t then 0.50 else 0) - (if tp2_hit t then 0.25 else 0)
    - (if tp3_hit t then 0.15 else 0).

(** What the units still held have cost. *)
Definition cost_basis (t : Trade) : Q := current_units t * entry_price t.

(** What identifies a trade, resp. a signal: token, price and time. *)
Definition trade_key (t : Trade) : string * Q * Timestamp :=
  (token_address t, entry_price t, entry_time t).

Definition signal_key (sig : Signal) : string * Q * Timestamp :=
  (sig_token_address sig, price_at_signal sig, signal_time sig).

(** The signals that pass the score filter. *)
Definition scored (signals : list Signal) : list Signal :=
  List.filter (fun sig => Qgeb (signal_score sig) 80) signals.

(** What a trade weighs in the books: the cost of the units held less the
    profit realized so far. *)
Definition book_value (t : Trade) : Q := cost_basis t - realized_pnl t.

(** Every trade of the store is active or closed. *)
Definition accounted (self : Engine) : Prop :=
  forall h t,
    trades self !! h = Some t -> h ∈ active_trades self \/ status t = "CLOSED".

(** An open trade holds the share of its initial units that the tiers hit
    have left. *)
Definition on_ladder (t : Trade) : Prop :=
  status t = "OPEN" -> current_units t == initial_units t * ladder_share t.

(** The stop is at the entry price or above once the first tier is hit,
    and at most 35 percent below the peak once the peak is 40 percent
    above the entry price; the peak is not below the entry price. *)
Definition gains_protected (t : Trade) : Prop :=
  (tp1_hit t = true -> entry_price t <= stop_loss_price t) /\
  (0.40 <= (ath_price t - entry_price t) / entry_price t ->
   ath_price t * (1 - 0.35) <= stop_loss_price t) /\
  entry_price t <= ath_price t.

(** The second sample is a minute later than the first, or more. *)
Definition a_minute_apart (a b : Timestamp) : Prop :=
  (a + Timedelta_minutes 1 <= b)%Z.

(** The first signal is not later than the second. *)
Definition not_later (a b : Signal) : Prop :=
  (signal_time a <= signal_time b)%Z.

(** A tier marked hit has seen the price that triggers it, and the tiers
    below it are marked hit as well. *)
Definition tiers_reached (t : Trade) : Prop :=
  (tp1_hit t = true -> entry_price t * 1.40 <= ath_price t) /\
  (tp2_hit t = true ->
   tp1_hit t = true /\ entry_price t * 2.00 <= ath_price t) /\
  (tp3_hit t = true ->
   tp2_hit t = true /\ entry_price t * 3.00 <= ath_price t).

End Backtest.

(** ** The paper trader: [app/paper_trader.py] *)

Module Paper.

Local Open Scope Q_scope.

(** [datetime], in microseconds.  The clock [datetime.utcnow()] is an
    argument [now] of the operations that read it; one call reads one
    value. *)
Definition Timestamp := Z.

(** [delta.total_seconds()]. *)
Definition total_seconds (delta : Z) : Q := inject_Z delta / 1000000.

(** [timedelta(minutes=n)]. *)
Definition timedelta_minutes (n : Z) : Z := (n * 60000000)%Z.

(** The dataclass [PaperTrade].  [units_sold] is a ghost ledger, not a
    field of the Python object: every close appends the number of units it
    sells. *)
Record PaperTrade := {
  token_address : string;
  symbol : string;
  chain : string;
  entry_mc : Q;
  entry_price_proxy : Q;
  entry_time : Timestamp;
  position_size_usd : Q;
  risk_pct : Q;
  initial_units : Q;
  current_units : Q;
  base_potential : Q;
  peak_mc : Q;
  peak_potential_used : Q;
  status : string;
  tp_levels_hit : list string;
  realized_pnl : Q;
  exit_reason : string;
  exit_time : option Timestamp;
  units_sold : list Q
}.

Definition set_current_units (v : Q) (t : PaperTrade) : PaperTrade :=
  {| token_address := token_address t; symbol := symbol t;
     chain := chain t; entry_mc := entry_mc t;
     entry_price_proxy := entry_price_proxy t; entry_time := entry_time t;
     position_size_usd := position_size_usd t; risk_pct := risk_pct t;
     initial_units := initial_units t; current_units := v;
     base_potential := base_potential t; peak_mc := peak_mc t;
     peak_potential_used := peak_potential_used t; status := status t;
     tp_levels_hit := tp_levels_hit t; realized_pnl := realized_pnl t;
     exit_reason := exit_reason t; exit_time := exit_time t;
     units_sold := units_sold t |}.

Definition set_peak_mc (v : Q) (t : PaperTrade) : PaperTrade :=
  {| token_address := token_address t; symbol := symbol t;
     chain := chain t; entry_mc := entry_mc t;
     entry_price_proxy := entry_price_proxy t; entry_time := entry_time t;
     position_size_usd := position_size_usd t; risk_pct := risk_pct t;
     initial_units := initial_units t; current_units := current_units t;
     base_potential := base_potential t; peak_mc := v;
     peak_potential_used := peak_potential_used t; status := status t;
     tp_levels_hit := tp_levels_hit t; realized_pnl := realized_pnl t;
     exit_reason := exit_reason t; exit_time := exit_time t;
     units_sold := units_sold t |}.

Definition set_status (v : string) (t : PaperTrade) : PaperTrade :=
  {| token_address := token_address t; symbol := symbol t;
     chain := chain t; entry_mc := entry_mc t;
     entry_price_proxy := entry_price_proxy t; entry_time := entry_time t;
     position_size_usd := position_size_usd t; risk_pct := risk_pct t;
     initial_units := initial_units t; current_units := current_units t;
     base_potential := base_potential t; peak_mc := peak_mc t;
     peak_potential_used := peak_potential_used t; status := v;
     tp_levels_hit := tp_levels_hit t; realized_pnl := realized_pnl t;
     exit_reason := exit_reason t; exit_time := exit_time t;
     units_sold := units_sold t |}.

Definition set_tp_levels_hit (v : list string) (t : PaperTrade) : PaperTrade :=
  {| token_address := token_address t; symbol := symbol t;
     chain := chain t; entry_mc := entry_mc t;
     entry_price_proxy := entry_price_proxy t; entry_time := entry_time t;
     position_size_usd := position_size_usd t; risk_pct := risk_pct t;
     initial_units := initial_units t; current_units := current_units t;
     base_potential := base_potential t; peak_mc := peak_mc t;
     peak_potential_used := peak_potential_used t; status := status t;
     tp_levels_hit := v; realized_pnl := realized_pnl t;
     exit_reason := exit_reason t; exit_time := exit_time t;
     units_sold := units_sold t |}.

Definition set_realized_pnl (v : Q) (t : PaperTrade) : PaperTrade :=
  {| token_address := token_address t; symbol := symbol t;
     chain := chain t; entry_mc := entry_mc t;
     entry_price_proxy := entry_price_proxy t; entry_time := entry_time t;
     position_size_usd := position_size_usd t; risk_pct := risk_pct t;
     initial_units := initial_units t; current_units := current_units t;
     base_potential := base_potential t; peak_mc := peak_mc t;
     peak_potential_used := peak_potential_used t; status := status t;
     tp_levels_hit := tp_levels_hit t; realized_pnl := v;
     exit_reason := exit_reason t; exit_time := exit_time t;
     units_sold := units_sold t |}.

Definition set_exit_reason (v : string) (t : PaperTrade) : PaperTrade :=
  {| token_address := token_address t; symbol := symbol t;
     chain := chain t; entry_mc := entry_mc t;
     entry_price_proxy := entry_price_proxy t; entry_time := entry_time t;
     position_size_usd := position_size_usd t; risk_pct := risk_pct t;
     initial_units := initial_units t; current_units := current_units t;
     base_potential := base_potential t; peak_mc := peak_mc t;
     peak_potential_used := peak_potential_used t; status := status t;
     tp_levels_hit := tp_levels_hit t; realized_pnl := realized_pnl t;
     exit_reason := v; exit_time := exit_time t;
     units_sold := units_sold t |}.

Definition set_exit_time (v : option Timestamp) (t : PaperTrade) : PaperTrade :=
  {| token_address := token_address t; symbol := symbol t;
     chain := chain t; entry_mc := entry_mc t;
     entry_price_proxy := entry_price_proxy t; entry_time := entry_time t;
     position_size_usd := position_size_usd t; risk_pct := risk_pct t;
     initial_units := initial_units t; current_units := current_units t;
     base_potential := base_potential t; peak_mc := peak_mc t;
     peak_potential_used := peak_potential_used t; status := status t;
     tp_levels_hit := tp_levels_hit t; realized_pnl := realized_pnl t;
     exit_reason := exit_reason t; exit_time := v;
     units_sold := units_sold t |}.

(** Ghost: record the units [v] in the ledger of the trade. *)
Definition record_sale (v : Q) (t : PaperTrade) : PaperTrade :=
  {| token_address := token_address t; symbol := symbol t;
     chain := chain t; entry_mc := entry_mc t;
     entry_price_proxy := entry_price_proxy t; entry_time := entry_time t;
     position_size_usd := position_size_usd t; risk_pct := risk_pct t;
     initial_units := initial_units t; current_units := current_units t;
     base_potential := base_potential t; peak_mc := peak_mc t;
     peak_potential_used := peak_potential_used t; status := status t;
     tp_levels_hit := tp_levels_hit t; realized_pnl := realized_pnl t;
     exit_reason := exit_reason t; exit_time := exit_time t;
     units_sold := units_sold t ++ [v] |}.

(** The attributes of [PaperTrader]. *)
Record PaperTrader := {
  capital : Q;
  initial_capital : Q;
  trades : list PaperTrade;
  active_trades : list nat;
  risk_per_trade : Q;
  max_trades : nat
}.

Definition set_capital (v : Q) (s : PaperTrader) : PaperTrader :=
  {| capital := v; initial_capital := initial_capital s; trades := trades s;
     active_trades := active_trades s; risk_per_trade := risk_per_trade s;
     max_trades := max_trades s |}.

Definition set_trades (v : list PaperTrade) (s : PaperTrader) : PaperTrader :=
  {| capital := capital s; initial_capital := initial_capital s; trades := v;
     active_trades := active_trades s; risk_per_trade := risk_per_trade s;
     max_trades := max_trades s |}.

Definition set_active_trades (v : list nat) (s : PaperTrader) : PaperTrader :=
  {| capital := capital s; initial_capital := initial_capital s;
     trades := trades s; active_trades := v;
     risk_per_trade := risk_per_trade s; max_trades := max_trades s |}.

(** [PaperTrader.__init__]. *)
Definition init (initial_capital : Q) : PaperTrader :=
  {| capital := initial_capital; initial_capital := initial_capital;
     trades := []; active_trades := [];
     risk_per_trade := 0.02; max_trades := 4 |}.

(** The keys of the pair dict that [process_signal] reads; [None] is a
    missing key. *)
Record PairDict := {
  baseToken_symbol : option string;
  baseToken_address : option string;
  chainId : option string;
  priceUsd : option Q;
  marketCap : option Q;
  liquidity_usd : option Q
}.

(** Python's [a or b] on numbers. *)
Definition py_or (a b : Q) : Q := if Qeq_bool a 0 then b else a.

(** [float(signal_data.get("priceUsd", 0) or 0)]. *)
Definition price_usd_of (signal_data : PairDict) : Q :=
  py_or (default 0 (priceUsd signal_data)) 0.

(** [signal_data.get("marketCap", 0) or (liquidity.get("usd", 0) * 5)]. *)
Definition mc_of (signal_data : PairDict) : Q :=
  py_or (default 0 (marketCap signal_data))
        (default 0 (liquidity_usd signal_data) * 5).

(** [PaperTrader.process_signal]: the trader afterwards and the value
    returned, the handle of the new trade or [None]. *)
Definition process_signal (now : Timestamp) (signal_data : PairDict)
    (self : PaperTrader) : PaperTrader * option nat :=
  if (max_trades self <=? length (active_trades self))%nat then (self, None)
  else if Qleb (capital self) 0 then (self, None)
  else
    let symbol := default "UNK" (baseToken_symbol signal_data) in
    let addr := default "" (baseToken_address signal_data) in
    let chain := default "" (chainId signal_data) in
    let price_usd := price_usd_of signal_data in
    let mc := mc_of signal_data in
    let base_potential := 2.0 in
    let risk_amount := capital self * risk_per_trade self in
    let position_size := capital self * risk_per_trade self * 2.5 in
    let position_size := capital self * 0.05 in
    let units :=
      if Qeq_bool price_usd 0 then 0 else position_size / price_usd in
    let trade :=
      {| token_address := addr; symbol := symbol; chain := chain;
         entry_mc := mc; entry_price_proxy := price_usd;
         entry_time := now;
         position_size_usd := position_size; risk_pct := 5.0;
         initial_units := units; current_units := units;
         base_potential := base_potential; peak_mc := mc;
         peak_potential_used := 0.0;
         status := "OPEN"; tp_levels_hit := [];
         realized_pnl := 0.0; exit_reason := ""; exit_time := None;
         units_sold := [] |} in
    let self := set_capital (capital self - position_size) self in
    let h := length (trades self) in
    let self := set_active_trades (active_trades self ++ [h]) self in
    let self := set_trades (trades self ++ [trade]) self in
    (self, Some h).

(** [PaperTrader._close_trade], for the trade under handle [h] whose
    current value is [trade]. *)
Definition _close_trade (now : Timestamp) (h : nat) (trade : PaperTrade)
    (current_mc : Q) (reason : string) (self : PaperTrader)
    : option PaperTrader :=
  price_ratio ← div current_mc (entry_mc trade);
  let exit_price_proxy := entry_price_proxy trade * price_ratio in
  let proceeds := current_units trade * exit_price_proxy in
  let self := set_capital (capital self + proceeds) self in
  let cost_basis := current_units trade * entry_price_proxy trade in
  let pnl := proceeds - cost_basis in
  let trade := set_realized_pnl (realized_pnl trade + pnl) trade in
  let trade := record_sale (current_units trade) trade in
  let trade := set_current_units 0 trade in
  let trade := set_status "CLOSED" trade in
  let trade := set_exit_reason reason trade in
  let trade := set_exit_time (Some now) trade in
  let self := set_trades (<[h := trade]> (trades self)) self in
  Some (set_active_trades (list_remove h (active_trades self)) self).

(** [PaperTrader._partial_close]. *)
Definition _partial_close (trade : PaperTrade) (pct_to_sell current_mc : Q)
    (reason : string) (self : PaperTrader)
    : option (PaperTrader * PaperTrade) :=
  let units_to_sell := initial_units trade * pct_to_sell in
  let units_to_sell :=
    if Qgtb units_to_sell (current_units trade)
    then current_units trade else units_to_sell in
  price_ratio ← div current_mc (entry_mc trade);
  let exit_price_proxy := entry_price_proxy trade * price_ratio in
  let proceeds := units_to_sell * exit_price_proxy in
  let self := set_capital (capital self + proceeds) self in
  let cost_basis := units_to_sell * entry_price_proxy trade in
  let pnl := proceeds - cost_basis in
  let trade := set_realized_pnl (realized_pnl trade + pnl) trade in
  let trade := record_sale units_to_sell trade in
  let trade := set_current_units (current_units trade - units_to_sell) trade in
  Some (self, trade).

(** An entry of the list [updates] returned by [update_trades]. *)
Inductive Update :=
  | CLOSE (h : nat)
  | TP (h : nat) (fraction : Q).

(** The sections of the loop body of [update_trades], in source order. *)

(** "Update Peak". *)
Definition update_peak (current_mc : Q) (trade : PaperTrade) : PaperTrade :=
  if Qgtb current_mc (peak_mc trade) then set_peak_mc current_mc trade
  else trade.

(** "Calc Potential Used": [potential_pct] is computed (and may divide by
    zero) although only [pct_used] is used afterwards. *)
Definition potential_used (current_mc : Q) (trade : PaperTrade) : option Q :=
  potential_used_x ← div current_mc (entry_mc trade);
  potential_pct ← div (potential_used_x - 1.0) (base_potential trade - 1.0);
  if Qleb (base_potential trade) 1.0 then Some 0
  else
    let target_mc := entry_mc trade * base_potential trade in
    div (current_mc - entry_mc trade) (target_mc - entry_mc trade).

(** [duration_mins]. *)
Definition duration_mins (now : Timestamp) (trade : PaperTrade) : Q :=
  total_seconds (now - entry_time trade) / 60.

(** ["level" in trade.tp_levels_hit]. *)
Definition level_hit (level : string) (trade : PaperTrade) : bool :=
  bool_decide (level ∈ tp_levels_hit trade).

(** "Take Profit Rules": one tier. *)
Definition take_profit (threshold pct_to_sell : Q) (level reason : string)
    (pct_used current_mc : Q) (h : nat) (trade : PaperTrade)
    (self : PaperTrader) (updates : list Update)
    : option (PaperTrader * PaperTrade * list Update) :=
  if Qgeb pct_used threshold && negb (level_hit level trade) then
    '(self, trade) ← _partial_close trade pct_to_sell current_mc reason self;
    let trade := set_tp_levels_hit (tp_levels_hit trade ++ [level]) trade in
    Some (self, trade, updates ++ [TP h pct_to_sell])
  else Some (self, trade, updates).

(** One turn of the loop of [update_trades], for the trade under handle
    [h]. *)
Definition update_trade (now : Timestamp) (current_data_map : gmap string Q)
    (h : nat) (state : PaperTrader * list Update)
    : option (PaperTrader * list Update) :=
  let '(self, updates) := state in
  match trades self !! h with
  | None => Some state
  | Some trade =>
    match current_data_map !! token_address trade with
    | None => Some state
    | Some current_mc =>
      if Qeq_bool current_mc 0 then Some state
      else
        let trade := update_peak current_mc trade in
        pct_used ← potential_used current_mc trade;
        loss_pct ← div (entry_mc trade - current_mc) (entry_mc trade);
        if Qgeb loss_pct 0.30 then
          self ← _close_trade now h trade current_mc "STOP_LOSS_30_PCT" self;
          Some (self, updates ++ [CLOSE h])
        else
          let duration_mins := duration_mins now trade in
          if Qgtb duration_mins 90 && Qltb pct_used 0.30 then
            self ← _close_trade now h trade current_mc "TIME_EXIT_STAGNANT"
                     self;
            Some (self, updates ++ [CLOSE h])
          else
            '(self, trade, updates) ←
              take_profit 0.30 0.20 "30%" "TP_30_PCT" pct_used current_mc h
                trade self updates;
            '(self, trade, updates) ←
              take_profit 0.50 0.25 "50%" "TP_50_PCT" pct_used current_mc h
                trade self updates;
            '(self, trade, updates) ←
              take_profit 0.70 0.30 "70%" "TP_70_PCT" pct_used current_mc h
                trade self updates;
            Some (set_trades (<[h := trade]> (trades self)) self, updates)
    end
  end.

(** [PaperTrader.update_trades]: the trader afterwards and the list
    returned. *)
Definition update_trades (now : Timestamp) (current_data_map : gmap string Q)
    (self : PaperTrader) : option (PaperTrader * list Update) :=
  for_each (update_trade now current_data_map) (active_trades self)
    (self, []).

(** The dict returned by [get_stats]: the three counts, and the amounts
    that its entries "balance", "roi" and "win_rate" print, the first with
    two decimals after a dollar sign, the other two with one decimal
    before a percent sign.  The printing of an amount is not modelled. *)
Record Stats := {
  stat_balance : Q;
  stat_roi : Q;
  stat_trades : nat;
  stat_wins : nat;
  stat_losses : nat;
  stat_win_rate : Q
}.

(** The locals [wins], [losses] and [win_rate] of [get_stats]. *)
Definition wins (self : PaperTrader) : nat :=
  length (List.filter
            (fun t => Qgtb (realized_pnl t) 0 && String.eqb (status t) "CLOSED")
            (trades self)).

Definition losses (self : PaperTrader) : nat :=
  length (List.filter
            (fun t => Qleb (realized_pnl t) 0 && String.eqb (status t) "CLOSED")
            (trades self)).

Definition win_rate (self : PaperTrader) : Q :=
  if (0 <? wins self + losses self)%nat then
    (inject_Z (Z.of_nat (wins self)) /
       inject_Z (Z.of_nat (wins self + losses self))) * 100
  else 0.

(** [PaperTrader.get_stats]; [None] stands for the [ZeroDivisionError] of
    the return on a trader created without capital. *)
Definition get_stats (self : PaperTrader) : option Stats :=
  let total_trades := length (trades self) in
  let wins := wins self in
  let losses := losses self in
  let win_rate := win_rate self in
  roi ← div (capital self - initial_capital self) (initial_capital self);
  Some {| stat_balance := capital self;
          stat_roi := roi * 100;
          stat_trades := total_trades;
          stat_wins := wins;
          stat_losses := losses;
          stat_win_rate := win_rate |}.

(** The two traders created when the module is loaded. *)
Definition safe_trader : PaperTrader := init 200.0.
Definition degen_trader : PaperTrader := init 200.0.

(** *** Notions used to state the properties *)

(** What later states of a trade object have in common with an earlier
    one: the entry data are kept, the peak has not gone down, the levels
    hit stay hit, and the units no longer held are in the ledger. *)
Definition evolves (t t' : PaperTrade) : Prop :=
  token_address t' = token_address t /\
  entry_mc t' = entry_mc t /\
  entry_price_proxy t' = entry_price_proxy t /\
  entry_time t' = entry_time t /\
  initial_units t' = initial_units t /\
  base_potential t' = base_potential t /\
  peak_mc t <= peak_mc t' /\
  tp_levels_hit t ⊆ tp_levels_hit t' /\
  current_units t' + Qsum (units_sold t') ==
    current_units t + Qsum (units_sold t).

Definition store_evolves (l l' : list PaperTrade) : Prop :=
  forall h t, l !! h = Some t -> exists t', l' !! h = Some t' /\ evolves t t'.

(** A trade entered on a positive market cap at a non-negative price, with
    a target above the entry. *)
Definition sound (t : PaperTrade) : Prop :=
  0 <= current_units t /\ 0 <= initial_units t /\
  0 <= entry_price_proxy t /\ 0 < entry_mc t /\ 1 < base_potential t.

(** Units held and units sold add up to the units bought. *)
Definition conserved (t : PaperTrade) : Prop :=
  current_units t + Qsum (units_sold t) == initial_units t.

(** A closed trade holds nothing. *)
Definition settled (t : PaperTrade) : Prop :=
  status t = "CLOSED" -> current_units t == 0.

(** The handles of [active_trades] are distinct and name open trades. *)
Definition handles_ok (self : PaperTrader) : Prop :=
  NoDup (active_trades self) /\
  forall h, h ∈ active_trades self ->
    exists t, trades self !! h = Some t /\ status t = "OPEN".

Definition books_ok (self : PaperTrader) : Prop :=
  handles_ok self /\
  Forall settled (trades self) /\
  Forall conserved (trades self).

(** No market cap of the map is negative. *)
Definition caps_nonneg (current_data_map : gmap string Q) : Prop :=
  forall k v, current_data_map !! k = Some v -> 0 <= v.

(** A call of one of the two operations of the trader, and a sequence of
    calls; the list returned by [update_trades] is dropped. *)
Inductive Call :=
  | ProcessSignal (now : Timestamp) (signal_data : PairDict)
  | UpdateTrades (now : Timestamp) (current_data_map : gmap string Q).

Definition call (c : Call) (self : PaperTrader) : option PaperTrader :=
  match c with
  | ProcessSignal now signal_data =>
      Some (process_signal now signal_data self).1
  | UpdateTrades now current_data_map =>
      fst <$> update_trades now current_data_map self
  end.

Fixpoint calls (cs : list Call) (self : PaperTrader) : option PaperTrader :=
  match cs with
  | [] => Some self
  | c :: cs' =>
      match call c self with
      | Some self' => calls cs' self'
      | None => None
      end
  end.

(** Inputs as the interfaces promise them: a pair carries a positive
    market cap and no negative price, updates are not negative. *)
Definition valid_call (c : Call) : Prop :=
  match c with
  | ProcessSignal _ signal_data =>
      0 <= price_usd_of signal_data /\ 0 < mc_of signal_data
  | UpdateTrades _ current_data_map => caps_nonneg current_data_map
  end.

(** The units a partial close of [pct_to_sell] sells. *)
Definition sale_units (pct_to_sell : Q) (t : PaperTrade) : Q :=
  let units_to_sell := initial_units t * pct_to_sell in
  if Qgtb units_to_sell (current_units t) then current_units t
  else units_to_sell.

(** The price proxy at market cap [current_mc]. *)
Definition exit_price_proxy (current_mc : Q) (t : PaperTrade) : Q :=
  entry_price_proxy t * (current_mc / entry_mc t).

(** The trade after [units] of it were sold at market cap [current_mc]. *)
Definition after_sale (units current_mc : Q) (t : PaperTrade) : PaperTrade :=
  set_current_units (current_units t - units)
    (record_sale units
       (set_realized_pnl
          (realized_pnl t +
             (units * exit_price_proxy current_mc t -
                units * entry_price_proxy t)) t)).

(** The trade once closed at market cap [current_mc]. *)
Definition closed_trade (now : Timestamp) (current_mc : Q) (reason : string)
    (t : PaperTrade) : PaperTrade :=
  set_exit_time (Some now)
    (set_exit_reason reason
       (set_status "CLOSED"
          (set_current_units 0
             (record_sale (current_units t)
                (set_realized_pnl
                   (realized_pnl t +
                      (current_units t * exit_price_proxy current_mc t -
                         current_units t * entry_price_proxy t)) t))))).

(** Only [capital] differs. *)
Definition only_capital (s s' : PaperTrader) : Prop :=
  s' = set_capital (capital s') s.

(** What a take-profit tier may do to the trader and to the trade at
    hand. *)
Definition body_step (current_mc : Q) (s : PaperTrader) (t : PaperTrade)
    (s' : PaperTrader) (t' : PaperTrade) : Prop :=
  evolves t t' /\
  status t' = status t /\
  exit_reason t' = exit_reason t /\
  only_capital s s' /\
  (sound t -> 0 <= current_mc -> sound t' /\ capital s <= capital s').

(** What one turn of the loop of [update_trades] does for the trade [t]
    under handle [h]: the trade is kept or closed; [cap_ok] stands for the
    assumption that the market cap used is not negative. *)
Definition turn_outcome (h : nat) (cap_ok : Prop) (s : PaperTrader)
    (t : PaperTrade) (s' : PaperTrader) : Prop :=
  exists t',
    trades s' = <[h := t']> (trades s) /\
    evolves t t' /\
    initial_capital s' = initial_capital s /\
    risk_per_trade s' = risk_per_trade s /\
    max_trades s' = max_trades s /\
    ((status t' = status t /\ exit_reason t' = exit_reason t /\
      active_trades s' = active_trades s) \/
     (status t' = "CLOSED" /\ current_units t' = 0 /\
      active_trades s' = list_remove h (active_trades s))) /\
    (sound t -> cap_ok -> sound t' /\ capital s <= capital s').

(** *** Notions used for the further properties *)

(** The map has no market cap for the trade, or a market cap of zero: the
    trade is skipped. *)
Definition no_data (current_data_map : gmap string Q) (t : PaperTrade)
    : Prop :=
  match current_data_map !! token_address t with
  | None => True
  | Some current_mc => current_mc == 0
  end.

(** What the units still held have cost. *)
Definition cost_basis (t : PaperTrade) : Q :=
  current_units t * entry_price_proxy t.

(** The amount paid for a position entered at a price of zero, which buys
    no unit. *)
Definition unpriced_stake (t : PaperTrade) : Q :=
  if Qeq_bool (entry_price_proxy t) 0 then position_size_usd t else 0.

(** What a trade weighs in the books. *)
Definition book_value (t : PaperTrade) : Q :=
  cost_basis t + unpriced_stake t - realized_pnl t.

(** The number of closed trades. *)
Definition closed_count (self : PaperTrader) : nat :=
  length (List.filter (fun t => String.eqb (status t) "CLOSED")
            (trades self)).

(** Every trade of the store is active or closed. *)
Definition accounted (self : PaperTrader) : Prop :=
  forall h t,
    trades self !! h = Some t -> h ∈ active_trades self \/ status t = "CLOSED".

(** The share of the initial units left by the levels hit. *)
Definition ladder_share (t : PaperTrade) : Q :=
  1 - (if level_hit "30%" t then 0.20 else 0)
    - (if level_hit "50%" t then 0.25 else 0)
    - (if level_hit "70%" t then 0.30 else 0).

(** An open trade holds the share of its initial units that the levels hit
    have left. *)
Definition on_ladder (t : PaperTrade) : Prop :=
  status t = "OPEN" -> current_units t == initial_units t * ladder_share t.

(** A level hit has seen the market cap that triggers it, as a share of
    the way from the entry to the target, and the levels below it are hit
    as well. *)
Definition levels_reached (t : PaperTrade) : Prop :=
  let way := entry_mc t * base_potential t - entry_mc t in
  (level_hit "30%" t = true -> entry_mc t + 0.30 * way <= peak_mc t) /\
  (level_hit "50%" t = true ->
   level_hit "30%" t = true /\ entry_mc t + 0.50 * way <= peak_mc t) /\
  (level_hit "70%" t = true ->
   level_hit "50%" t = true /\ entry_mc t + 0.70 * way <= peak_mc t).

End Paper.

(** ** Sample inputs *)

Module Scenarios.

Local Open Scope Q_scope.

(** [n] minutes after the epoch, for the backtest clock. *)
Definition minute (n : Z) : Z := Backtest.Timedelta_minutes n.

(** A signal on token A at the epoch, scored 90, priced at 1. *)
Definition signal_A : Backtest.Signal :=
  {| Backtest.sig_token_address := "A"; Backtest.symbol := "MEMEA";
     Backtest.chain := "solana"; Backtest.signal_time := 0%Z;
     Backtest.signal_score := 90; Backtest.price_at_signal := 1 |}.

(** Token A rises to 1.5 and 2.5, then falls to 0.5. *)
Definition frame_A : Backtest.DataFrame :=
  [(minute 0, 1); (minute 1, 1.5); (minute 2, 2.5); (minute 3, 0.5)].

Definition prices_A : gmap string Backtest.DataFrame := {[ "A" := frame_A ]}.

(** Entry on A, then three price updates. *)
Definition backtest_calls : list Backtest.Call :=
  [Backtest.ProcessSignal signal_A;
   Backtest.UpdateTrades (minute 1) prices_A;
   Backtest.UpdateTrades (minute 2) prices_A;
   Backtest.UpdateTrades (minute 3) prices_A].

(** A pair priced at 0.5 with a market cap of one million. *)
Definition pair_A : Paper.PairDict :=
  {| Paper.baseToken_symbol := Some "MEMEA";
     Paper.baseToken_address := Some "0xA";
     Paper.chainId := Some "solana";
     Paper.priceUsd := Some 0.5;
     Paper.marketCap := Some 1000000;
     Paper.liquidity_usd := None |}.

(** Entry on the pair at time 0, a rise to 1.3 million a minute later and
    a fall to 0.6 million after two minutes. *)
Definition paper_calls : list Paper.Call :=
  [Paper.ProcessSignal 0%Z pair_A;
   Paper.UpdateTrades (Paper.timedelta_minutes 1) {[ "0xA" := 1300000 ]};
   Paper.UpdateTrades (Paper.timedelta_minutes 2) {[ "0xA" := 600000 ]}].


(** The states the two sample sequences end in, from 200 of capital. *)
Definition backtest_final : Backtest.Engine :=
  default (Backtest.init 200)
    (Backtest.calls backtest_calls (Backtest.init 200)).

Definition paper_final : Paper.PaperTrader :=
  default (Paper.init 200) (Paper.calls paper_calls (Paper.init 200)).

(** The engine after the entry on A, and the trade it created. *)
Definition backtest_entered : Backtest.Engine :=
  default (Backtest.init 200)
    (Backtest._process_signal signal_A (Backtest.init 200)).

Definition trade_A : Backtest.Trade :=
  {| Backtest.token_address := "A"; Backtest.entry_price := 1;
     Backtest.entry_time := 0%Z;
     Backtest.position_size_usd := 200 * 0.025 / 0.15;
     Backtest.entry_score := 90;
     Backtest.current_units := 200 * 0.025 / 0.15 / 1;
     Backtest.realized_pnl := 0; Backtest.status := "OPEN";
     Backtest.ath_price := 1; Backtest.stop_loss_price := 1 * (1 - 0.15);
     Backtest.tp1_hit := false; Backtest.tp2_hit := false;
     Backtest.tp3_hit := false; Backtest.exit_reason := "";
     Backtest.exit_time := None; Backtest.units_sold := [] |}.

(** A score below the admission threshold. *)
Definition signal_low : Backtest.Signal :=
  {| Backtest.sig_token_address := "L"; Backtest.symbol := "LOW";
     Backtest.chain := "solana"; Backtest.signal_time := 0%Z;
     Backtest.signal_score := 75; Backtest.price_at_signal := 1 |}.


(** The engine after the first price update of the sample sequence, which
    fires the first take-profit tier at 1.5. *)
Definition backtest_after_tp1 : Backtest.Engine :=
  default backtest_entered
    (Backtest.update_trade (minute 1) prices_A 0%nat backtest_entered).

(** The paper trader after the entry on the pair at time 0, and after the
    update to 1.3 million a minute later, which fires the 30 percent
    tier. *)
Definition paper_entered : Paper.PaperTrader :=
  (Paper.process_signal 0%Z pair_A (Paper.init 200)).1.

Definition caps_A : gmap string Q := {[ "0xA" := 1300000 ]}.

Definition paper_after_tp : Paper.PaperTrader :=
  default paper_entered
    (fst <$> Paper.update_trade (Paper.timedelta_minutes 1) caps_A 0%nat
               (paper_entered, [])).


(** The market cap of the pair unchanged at one million, and the paper
    trader updated with it exactly 90 minutes after the entry. *)
Definition caps_flat : gmap string Q := {[ "0xA" := 1000000 ]}.

Definition paper_at_90 : option (Paper.PaperTrader * list Paper.Update) :=
  Paper.update_trades (Paper.timedelta_minutes 90) caps_flat paper_entered.

(** A backtest position on A, entered at the epoch at price 1, and a frame
    where the price is 1.05 ninety minutes later. *)
Definition frame_flat : Backtest.DataFrame := [(minute 90, 1.05)].

Definition prices_flat : gmap string Backtest.DataFrame :=
  {[ "A" := frame_flat ]}.


(** A second signal, on token B two minutes after the epoch. *)
Definition signal_B : Backtest.Signal :=
  {| Backtest.sig_token_address := "B"; Backtest.symbol := "MEMEB";
     Backtest.chain := "solana"; Backtest.signal_time := minute 2;
     Backtest.signal_score := 90; Backtest.price_at_signal := 1 |}.

(** Token A loses 90 percent in its second minute; token B trades at 1. *)
Definition frame_crash : Backtest.DataFrame :=
  [(minute 0, 1); (minute 1, 0.1); (minute 2, 0.1)].

Definition prices_crash : gmap string Backtest.DataFrame :=
  <[ "A" := frame_crash ]> {[ "B" := [(minute 2, 1); (minute 3, 1)] ]}.

(** The same crash with the data ending after the second minute. *)
Definition prices_crash_short : gmap string Backtest.DataFrame :=
  {[ "A" := [(minute 0, 1); (minute 1, 0.1)] ]}.

(** Token A with no sample in its second minute. *)
Definition prices_gap : gmap string Backtest.DataFrame :=
  {[ "A" := [(minute 0, 1); (minute 2, 1)] ]}.

(** A pair with neither price nor market cap nor liquidity. *)
Definition pair_unpriced : Paper.PairDict :=
  {| Paper.baseToken_symbol := Some "MEMEU";
     Paper.baseToken_address := Some "0xU";
     Paper.chainId := Some "solana";
     Paper.priceUsd := None;
     Paper.marketCap := None;
     Paper.liquidity_usd := None |}.

(** A paper trader holding four positions on the pair A. *)
Definition paper_full : Paper.PaperTrader :=
  (Paper.process_signal 3%Z pair_A
     (Paper.process_signal 2%Z pair_A
        (Paper.process_signal 1%Z pair_A paper_entered).1).1).1.


(** One iteration of the loop of [run] at minute 1, from the engine that
    has entered A: the clock, the pending signals and the engine it
    yields. *)
Definition iteration_A
    : Backtest.Timestamp * list Backtest.Signal * Backtest.Engine :=
  default (0%Z, [], Backtest.init 0)
    (Backtest.run_iteration prices_A (minute 1) [] backtest_entered).


(** Token A at 0.65 twenty minutes after the entry. *)
Definition prices_drop : gmap string Backtest.DataFrame :=
  {[ "A" := [(minute 20, 0.65)] ]}.

(** A signal carrying a negative price, and the data of its token with
    one sample, at the time of the signal. *)
Definition signal_negative : Backtest.Signal :=
  {| Backtest.sig_token_address := "N"; Backtest.symbol := "MEMEN";
     Backtest.chain := "solana"; Backtest.signal_time := 0%Z;
     Backtest.signal_score := 90; Backtest.price_at_signal := -1 |}.

Definition prices_negative : gmap string Backtest.DataFrame :=
  {[ "N" := [(minute 0, 10)] ]}.

(** A negative market cap for the pair A. *)
Definition caps_negative : gmap string Q := {[ "0xA" := -100000000 ]}.

End Scenarios.

(** ** The final score: [app/filters/scoring.py] *)

Module Scoring.

Local Open Scope Q_scope.

(** Python's [min(a, b)]: the first argument unless the second is
    smaller. *)
Definition py_min (a b : Q) : Q := if Qltb b a then b else a.

(** [ScoringEngine.calculate_score]. *)
Definition calculate_score (hard_filter_passed : bool)
    (ai_score social_score : Q) : Q :=
  if negb hard_filter_passed then 0.0
  else
    let base_score := 70.0 in
    let ai_contribution := (100 - ai_score) * 0.20 in
    let social_contribution := social_score * 0.10 in
    let final := base_score + ai_contribution + social_contribution in
    py_min 100.0 final.

End Scoring.

(** ** The price path generator: [backtest/simulator.py] *)

Module Simulator.
Import Backtest.

Local Open Scope Q_scope.

(** The profile chosen by [random.choice]. *)
Inductive Profile := moon | dump | chop | volatile_up.

(** What one call of [_generate_price_path] draws from the random
    generators: the profile, the elements of the array of base noise
    [np.random.normal(0, 0.02, minutes)], those of the array
    [np.random.normal(0.0005, 0.01, minutes)] drawn for the profile
    volatile_up, the value of [random.random()] and that of
    [random.randint(10, 200)], drawn when the former is below 0.1. *)
Record Draws := {
  profile : Profile;
  noise : nat -> Q;
  drift_noise : nat -> Q;
  rug_roll : Q;
  rug_idx : nat
}.

(** An array of [size] draws. *)
Definition normal (draw : nat -> Q) (size : nat) : list Q :=
  draw <$> seq 0 size.

(** [np.linspace(start, stop, num)]. *)
Definition linspace (start stop : Q) (num : nat) : list Q :=
  (fun i =>
     start + inject_Z (Z.of_nat i) *
               ((stop - start) / inject_Z (Z.of_nat (num - 1))))
    <$> seq 0 num.

(** [pd.date_range(start, periods=periods, freq="1min")]. *)
Definition date_range (start : Timestamp) (periods : nat) : list Timestamp :=
  (fun i => (start + Timedelta_minutes (Z.of_nat i))%Z) <$> seq 0 periods.

(** The value of [drift]: an array, or the integer of the last branch. *)
Inductive Drift :=
  | DriftArray (a : list Q)
  | DriftInt (n : Z).

(** The loop appending to [price_series]. *)
Fixpoint append_prices (pairs : list (Q * Q)) (price_series : list Q)
    : list Q :=
  match pairs with
  | [] => price_series
  | (r, d) :: rest =>
      let change := r + d in
      let new_price := default 0 (last price_series) * (1 + change) in
      append_prices rest (price_series ++ [py_max new_price 0.00000001])
  end.

(** [pd.DataFrame({"price": values}, index=index)]: a list of the length
    of the index gives one row per element of the index; a list of one
    element is repeated over the index; [None] stands for the
    [ValueError] raised for a list of any other length. *)
Definition make_frame (values : list Q) (index : list Timestamp)
    : option DataFrame :=
  if (length values =? length index)%nat then Some (zip index values)
  else
    match values with
    | [v] => Some ((fun t => (t, v)) <$> index)
    | _ => None
    end.

(** [MarketSimulator._generate_price_path]; [None] stands for the
    [IndexError] of the assignment to [returns]. *)
Definition _generate_price_path (draws : Draws) (start_time : Timestamp)
    (start_price : Q) : option DataFrame :=
  let minutes := 1440%nat in
  let time_index := date_range start_time minutes in
  let returns := normal (noise draws) minutes in
  let drift :=
    match profile draws with
    | moon => DriftArray (linspace 0 0.002 minutes)
    | dump => DriftArray (linspace 0 (-0.003) minutes)
    | volatile_up => DriftArray (normal (drift_noise draws) minutes)
    | chop => DriftInt 0
    end in
  returns ←
    (if Qltb (rug_roll draws) 0.1 then
       if (rug_idx draws <? length returns)%nat
       then Some (<[rug_idx draws := -0.90]> returns) else None
     else Some returns);
  let price_series := [start_price] in
  let price_series :=
    append_prices
      (zip returns
         (match drift with
          | DriftInt n => [inject_Z n]
          | DriftArray a => a
          end))
      price_series in
  make_frame (drop 1 price_series) time_index.

End Simulator.

(** * Properties *)

(** ** Amounts: comparisons, division, sums *)

Section Amounts.
Local Open Scope Q_scope.

Lemma Qleb_true (x y : Q) : Qleb x y = true <-> x <= y.
Proof. unfold Qleb. apply Qle_bool_iff. Qed.

Lemma Qleb_false (x y : Q) : Qleb x y = false <-> y < x.
Proof.
  unfold Qleb. split; intros H.
  - apply Qnot_le_lt. intros Hle. apply Qle_bool_iff in Hle. congruence.
  - destruct (Qle_bool x y) eqn:E; [|reflexivity].
    apply Qle_bool_iff in E. lra.
Qed.

Lemma Qltb_true (x y : Q) : Qltb x y = true <-> x < y.
Proof.
  unfold Qltb. rewrite negb_true_iff. apply (Qleb_false y x).
Qed.

Lemma Qltb_false (x y : Q) : Qltb x y = false <-> y <= x.
Proof.
  unfold Qltb. rewrite negb_false_iff. apply (Qleb_true y x).
Qed.

Lemma Qgeb_true (x y : Q) : Qgeb x y = true <-> y <= x.
Proof. apply Qleb_true. Qed.

Lemma Qgeb_false (x y : Q) : Qgeb x y = false <-> x < y.
Proof. apply Qleb_false. Qed.

Lemma Qgtb_true (x y : Q) : Qgtb x y = true <-> y < x.
Proof. apply Qltb_true. Qed.

Lemma Qgtb_false (x y : Q) : Qgtb x y = false <-> x <= y.
Proof. apply Qltb_false. Qed.

Lemma div_Some (a b q : Q) : div a b = Some q -> ~ b == 0 /\ q = a / b.
Proof.
  unfold div. destruct (Qeq_bool b 0) eqn:E; [discriminate|].
  intros [= <-]. split; [|reflexivity].
  intros Hb. apply Qeq_bool_iff in Hb. congruence.
Qed.

Lemma div_defined (a b : Q) : ~ b == 0 -> div a b = Some (a / b).
Proof.
  intros Hb. unfold div. destruct (Qeq_bool b 0) eqn:E; [|reflexivity].
  apply Qeq_bool_iff in E. contradiction.
Qed.

Lemma Qdiv_nonneg (a b : Q) : 0 <= a -> 0 < b -> 0 <= a / b.
Proof. intros Ha Hb. apply Qle_shift_div_l; lra. Qed.

Lemma Qsum_cons (x : Q) (l : list Q) : Qsum (x :: l) == x + Qsum l.
Proof. reflexivity. Qed.

Lemma Qsum_snoc (l : list Q) (x : Q) : Qsum (l ++ [x]) == Qsum l + x.
Proof.
  induction l as [|y l IH]; simpl.
  - lra.
  - rewrite IH. lra.
Qed.

Lemma py_max_ge_l (a b : Q) : a <= py_max a b.
Proof.
  unfold py_max. destruct (Qgtb b a) eqn:E.
  - apply Qgtb_true in E. lra.
  - lra.
Qed.

End Amounts.

(** Turns the boolean comparisons among the hypotheses into
    propositions. *)
Ltac qprop :=
  repeat match goal with
  | H : Qleb _ _ = true |- _ => apply Qleb_true in H
  | H : Qleb _ _ = false |- _ => apply Qleb_false in H
  | H : Qltb _ _ = true |- _ => apply Qltb_true in H
  | H : Qltb _ _ = false |- _ => apply Qltb_false in H
  | H : Qgeb _ _ = true |- _ => apply Qgeb_true in H
  | H : Qgeb _ _ = false |- _ => apply Qgeb_false in H
  | H : Qgtb _ _ = true |- _ => apply Qgtb_true in H
  | H : Qgtb _ _ = false |- _ => apply Qgtb_false in H
  end.

(** ** Lists of handles *)

Lemma list_remove_subseteq (x : nat) (l : list nat) : list_remove x l ⊆ l.
Proof.
  induction l as [|y l IH]; simpl; [done|].
  destruct (Nat.eqb x y).
  - intros z Hz. by apply list_elem_of_further.
  - intros z Hz. apply elem_of_cons in Hz as [->|Hz].
    + apply list_elem_of_here.
    + apply list_elem_of_further, IH, Hz.
Qed.

Lemma list_remove_NoDup (x : nat) (l : list nat) :
  NoDup l -> NoDup (list_remove x l) /\ x ∉ list_remove x l.
Proof.
  induction 1 as [|y l Hy Hl IH]; simpl.
  - split; [constructor | apply not_elem_of_nil].
  - destruct (Nat.eqb_spec x y) as [->|Hne]; [done|].
    destruct IH as [IH1 IH2]. split.
    + constructor; [|done].
      intros Hin. apply Hy. by apply (list_remove_subseteq x l).
    + intros Hin. apply elem_of_cons in Hin as [->|Hin]; done.
Qed.

Lemma list_remove_elem_ne (x y : nat) (l : list nat) :
  y ∈ l -> y <> x -> y ∈ list_remove x l.
Proof.
  induction l as [|z l IH]; simpl; [done|].
  intros Hy Hne. apply elem_of_cons in Hy as [->|Hy].
  - destruct (Nat.eqb_spec x z) as [->|Hxz]; [done|].
    apply list_elem_of_here.
  - destruct (Nat.eqb_spec x z) as [->|Hxz]; [done|].
    apply list_elem_of_further. by apply IH.
Qed.

(** ** Loops over handles *)

Lemma for_each_invariant {S : Type} (body : nat -> S -> option S)
    (I : list nat -> S -> Prop) :
  (forall h rest s s', I (h :: rest) s -> body h s = Some s' -> I rest s') ->
  forall l s s', I l s -> for_each body l s = Some s' -> I [] s'.
Proof.
  intros Hstep l. induction l as [|h rest IH]; simpl; intros s s' HI Hrun.
  - by injection Hrun as <-.
  - destruct (body h s) as [s1|] eqn:Hb; [|discriminate].
    eapply IH; [|exact Hrun]. eapply Hstep; eassumption.
Qed.

Lemma for_each_defined {S : Type} (body : nat -> S -> option S)
    (P : S -> Prop) :
  (forall h s, P s -> exists s', body h s = Some s' /\ P s') ->
  forall l s, P s -> exists s', for_each body l s = Some s' /\ P s'.
Proof.
  intros Hstep l. induction l as [|h rest IH]; simpl; intros s HP.
  - by exists s.
  - destruct (Hstep h s HP) as (s1 & -> & HP1). by apply IH.
Qed.


(** ** The backtest engine *)

Module BacktestFacts.
Import Backtest.
Local Open Scope Q_scope.

(** *** The relations between states of a trade *)

Lemma evolves_refl (t : Trade) : evolves t t.
Proof. unfold evolves. repeat split; (lra || done). Qed.

Lemma evolves_trans (t1 t2 t3 : Trade) :
  evolves t1 t2 -> evolves t2 t3 -> evolves t1 t3.
Proof.
  unfold evolves.
  intros (A1 & A2 & A3 & A4 & A5 & A6 & A7 & A8 & A9 & A10)
         (B1 & B2 & B3 & B4 & B5 & B6 & B7 & B8 & B9 & B10).
  repeat split; try congruence; try lra; tauto.
Qed.

Lemma only_levels_refl (t : Trade) : only_levels t t.
Proof. unfold only_levels. destruct t; simpl. repeat split; lra. Qed.

Lemma only_levels_trans (t1 t2 t3 : Trade) :
  only_levels t1 t2 -> only_levels t2 t3 -> only_levels t1 t3.
Proof.
  unfold only_levels. intros (E1 & A1 & B1) (E2 & A2 & B2).
  split; [|split; lra].
  rewrite E2 at 1. rewrite E1 at 1. destruct t1; reflexivity.
Qed.

Lemma only_levels_evolves (t t' : Trade) : only_levels t t' -> evolves t t'.
Proof.
  unfold only_levels, evolves. intros (E & A & B).
  rewrite E. simpl. repeat split; (lra || done).
Qed.

Lemma only_levels_body_step (price : Q) (s : Engine) (t t' : Trade) :
  only_levels t t' -> body_step price s t s t'.
Proof.
  intros H. pose proof (only_levels_evolves _ _ H) as Hev.
  destruct H as (E & _ & _).
  unfold body_step. split; [exact Hev|].
  rewrite E. simpl. split; [reflexivity|]. split; [reflexivity|]. split.
  - unfold only_capital. destruct s; reflexivity.
  - unfold sound. simpl. intros Hs _. split; [exact Hs | lra].
Qed.

Lemma body_step_refl (price : Q) (s : Engine) (t : Trade) :
  body_step price s t s t.
Proof. apply only_levels_body_step, only_levels_refl. Qed.

Lemma body_step_trans (price : Q) (s1 s2 s3 : Engine) (t1 t2 t3 : Trade) :
  body_step price s1 t1 s2 t2 -> body_step price s2 t2 s3 t3 ->
  body_step price s1 t1 s3 t3.
Proof.
  unfold body_step, only_capital.
  intros (E1 & S1 & R1 & C1 & K1) (E2 & S2 & R2 & C2 & K2).
  split; [eapply evolves_trans; eassumption|].
  split; [congruence|]. split; [congruence|]. split.
  - rewrite C2 at 1. rewrite C1 at 1. destruct s1; reflexivity.
  - intros Hs Hp. destruct (K1 Hs Hp) as [Hs2 Hc1].
    destruct (K2 Hs2 Hp) as [Hs3 Hc2]. split; [exact Hs3 | lra].
Qed.

(** *** The sections that move the peak and the stop *)

Lemma update_ath_levels (p : Q) (t : Trade) : only_levels t (update_ath p t).
Proof.
  unfold update_ath, only_levels.
  destruct (Qgtb p (ath_price t)) eqn:E; qprop; destruct t; simpl in *;
    repeat split; lra.
Qed.

Lemma update_ath_reached (p : Q) (t : Trade) : p <= ath_price (update_ath p t).
Proof.
  unfold update_ath.
  destruct (Qgtb p (ath_price t)) eqn:E; qprop; simpl; lra.
Qed.

Lemma hard_stop_phase_levels (m : Q) (t : Trade) :
  only_levels t (hard_stop_phase m t).
Proof.
  unfold hard_stop_phase, only_levels.
  destruct (Qgtb m 15); [|apply only_levels_refl].
  destruct (Qgtb (stop_loss_price t) (entry_price t * 0.70)) eqn:E;
    [apply only_levels_refl|].
  qprop; destruct t; simpl in *. repeat split; lra.
Qed.

Lemma trailing_stop_levels (t t' : Trade) :
  trailing_stop t = Some t' -> only_levels t t' /\ ~ entry_price t == 0.
Proof.
  unfold trailing_stop.
  destruct (div (ath_price t - entry_price t) (entry_price t)) as [r|] eqn:D;
    [|discriminate].
  apply div_Some in D as [Hne _]. simpl.
  destruct (Qgeb r 0.40).
  - destruct (Qgtb (ath_price t * (1 - 0.35)) (stop_loss_price t)) eqn:E;
      intros [= <-]; (split; [|exact Hne]); [|apply only_levels_refl].
    qprop. unfold only_levels. destruct t; simpl in *. repeat split; lra.
  - intros [= <-]. split; [apply only_levels_refl | exact Hne].
Qed.


(** *** Partial closes and the take-profit tiers *)

Lemma initial_units_nonneg (t : Trade) : sound t -> 0 <= initial_units t.
Proof.
  intros (_ & Hp & He). unfold initial_units. by apply Qdiv_nonneg.
Qed.

Lemma sale_units_bounds (pct : Q) (t : Trade) :
  sound t -> 0 <= pct ->
  0 <= sale_units pct t /\ sale_units pct t <= current_units t.
Proof.
  intros Hs Hpct. pose proof (initial_units_nonneg t Hs) as Hi.
  destruct Hs as (Hu & _ & _). unfold sale_units.
  destruct (Qgtb (initial_units t * pct) (current_units t)) eqn:E; qprop.
  - lra.
  - split; [nra | lra].
Qed.

Lemma _partial_close_eq (t t' : Trade) (pct price : Q) (reason : string)
    (s s' : Engine) :
  _partial_close t pct price reason s = Some (s', t') ->
  ~ entry_price t == 0 /\
  s' = set_capital (capital s + sale_units pct t * price) s /\
  t' = after_sale (sale_units pct t) price t.
Proof.
  unfold _partial_close.
  destruct (div (position_size_usd t) (entry_price t)) as [u|] eqn:D;
    [|discriminate].
  apply div_Some in D as [Hne ->]. simpl. intros [= <- <-].
  split; [exact Hne|]. split; reflexivity.
Qed.

Lemma _partial_close_defined (t : Trade) (pct price : Q) (reason : string)
    (s : Engine) :
  ~ entry_price t == 0 ->
  _partial_close t pct price reason s =
    Some (set_capital (capital s + sale_units pct t * price) s,
          after_sale (sale_units pct t) price t).
Proof.
  intros Hne. unfold _partial_close. rewrite (div_defined _ _ Hne).
  reflexivity.
Qed.

Lemma after_sale_evolves (u price : Q) (t : Trade) :
  evolves t (after_sale u price t).
Proof.
  unfold evolves, after_sale. simpl. repeat split; try lra; try done.
  rewrite Qsum_snoc. lra.
Qed.

Lemma sale_body_step (pct price : Q) (s : Engine) (t : Trade) :
  0 <= pct ->
  body_step price s t
    (set_capital (capital s + sale_units pct t * price) s)
    (after_sale (sale_units pct t) price t).
Proof.
  intros Hpct. unfold body_step.
  split; [apply after_sale_evolves|].
  split; [reflexivity|]. split; [reflexivity|]. split.
  - unfold only_capital. destruct s; reflexivity.
  - intros Hs Hp. destruct (sale_units_bounds pct t Hs Hpct) as [H0 H1].
    destruct Hs as (Hu & Hpos & He). unfold sound. simpl.
    repeat split; try lra. nra.
Qed.

(** Setting a tier flag or raising the stop after a sale. *)
Lemma body_step_adjust (price : Q) (s s' : Engine) (t t' t'' : Trade) :
  body_step price s t s' t' ->
  only_levels (set_tp3_hit (tp3_hit t'')
                 (set_tp2_hit (tp2_hit t'')
                    (set_tp1_hit (tp1_hit t'') t'))) t'' ->
  (tp1_hit t' = true -> tp1_hit t'' = true) ->
  (tp2_hit t' = true -> tp2_hit t'' = true) ->
  (tp3_hit t' = true -> tp3_hit t'' = true) ->
  body_step price s t s' t''.
Proof.
  intros H (E & A & B) F1 F2 F3. simpl in A, B.
  eapply body_step_trans; [exact H|].
  unfold body_step, evolves, sound. rewrite E. simpl.
  repeat split; try lra; try done.
  unfold only_capital. destruct s'; reflexivity.
Qed.

Lemma take_profit_1_body_step (roi price : Q) (t t' : Trade)
    (s s' : Engine) :
  take_profit_1 roi price t s = Some (s', t') -> body_step price s t s' t'.
Proof.
  unfold take_profit_1.
  destruct (Qgeb roi 0.40 && negb (tp1_hit t));
    [|intros [= <- <-]; apply body_step_refl].
  destruct (_partial_close t 0.50 price "TP1" s) as [[s1 t1]|] eqn:P;
    [|discriminate].
  apply _partial_close_eq in P as (_ & -> & ->). simpl. intros [= <- <-].
  eapply body_step_adjust; [apply sale_body_step; lra| |done..].
  unfold only_levels. simpl. split; [reflexivity|].
  split; [apply py_max_ge_l | lra].
Qed.

Lemma take_profit_2_body_step (roi price : Q) (t t' : Trade)
    (s s' : Engine) :
  take_profit_2 roi price t s = Some (s', t') -> body_step price s t s' t'.
Proof.
  unfold take_profit_2.
  destruct (Qgeb roi 1.00 && negb (tp2_hit t));
    [|intros [= <- <-]; apply body_step_refl].
  destruct (_partial_close t 0.25 price "TP2" s) as [[s1 t1]|] eqn:P;
    [|discriminate].
  apply _partial_close_eq in P as (_ & -> & ->). simpl. intros [= <- <-].
  eapply body_step_adjust; [apply sale_body_step; lra| |done..].
  unfold only_levels. simpl. split; [reflexivity|]. split; lra.
Qed.

Lemma take_profit_3_body_step (roi price : Q) (t t' : Trade)
    (s s' : Engine) :
  take_profit_3 roi price t s = Some (s', t') -> body_step price s t s' t'.
Proof.
  unfold take_profit_3.
  destruct (Qgeb roi 2.00 && negb (tp3_hit t));
    [|intros [= <- <-]; apply body_step_refl].
  destruct (_partial_close t 0.15 price "TP3" s) as [[s1 t1]|] eqn:P;
    [|discriminate].
  apply _partial_close_eq in P as (_ & -> & ->). simpl. intros [= <- <-].
  eapply body_step_adjust; [apply sale_body_step; lra| |done..].
  unfold only_levels. simpl. split; [reflexivity|]. split; lra.
Qed.

(** *** Full closes *)

Lemma _close_trade_eq (h : nat) (t : Trade) (price : Q) (time : Timestamp)
    (reason : string) (s : Engine) :
  _close_trade h t price time reason s =
    set_active_trades (list_remove h (active_trades s))
      (set_trades (<[h := closed_trade price time reason t]> (trades s))
         (set_capital (capital s + current_units t * price) s)).
Proof. reflexivity. Qed.

Lemma closed_trade_evolves (price : Q) (time : Timestamp) (reason : string)
    (t : Trade) :
  evolves t (closed_trade price time reason t).
Proof.
  unfold evolves, closed_trade. simpl. repeat split; try lra; try done.
  rewrite Qsum_snoc. lra.
Qed.

Lemma closed_trade_sound (price : Q) (time : Timestamp) (reason : string)
    (t : Trade) :
  sound t -> sound (closed_trade price time reason t).
Proof. unfold sound. simpl. intros (_ & H1 & H2). repeat split; lra. Qed.


(** *** One turn of the loop of [_update_trades] *)

Lemma loc_elem (df : DataFrame) (ct : Timestamp) (p : Q) :
  loc df ct = Some p -> (ct, p) ∈ df.
Proof.
  induction df as [|[t' q] df IH]; simpl; [discriminate|].
  destruct (Z.eqb_spec t' ct) as [->|Hne].
  - intros [= ->]. apply list_elem_of_here.
  - intros H. apply list_elem_of_further, IH, H.
Qed.

Lemma prices_nonneg_loc (pd : gmap string DataFrame) (k : string)
    (df : DataFrame) (ct : Timestamp) (p : Q) :
  prices_nonneg pd -> pd !! k = Some df -> loc df ct = Some p -> 0 <= p.
Proof.
  intros Hpd Hdf Hloc. specialize (Hpd k df Hdf).
  rewrite Forall_forall in Hpd.
  apply (Hpd (ct, p)), loc_elem, Hloc.
Qed.

Lemma prices_nonneg_last (pd : gmap string DataFrame) (k : string)
    (df : DataFrame) (lt : Timestamp) (lp : Q) :
  prices_nonneg pd -> pd !! k = Some df -> last_row df = Some (lt, lp) ->
  0 <= lp.
Proof.
  intros Hpd Hdf Hlast. specialize (Hpd k df Hdf).
  rewrite Forall_forall in Hpd.
  apply (Hpd (lt, lp)). unfold last_row in Hlast.
  apply last_Some in Hlast as [l' ->]. set_solver.
Qed.

Lemma same_books_refl (s : Engine) : same_books s s.
Proof. unfold same_books. repeat split. Qed.

Lemma same_books_trans (s1 s2 s3 : Engine) :
  same_books s1 s2 -> same_books s2 s3 -> same_books s1 s3.
Proof.
  unfold same_books. intros (A1 & A2 & A3 & A4 & A5) (B1 & B2 & B3 & B4 & B5).
  repeat split; congruence.
Qed.

Lemma turn_outcome_skip (h : nat) (price_ok : Prop) (s : Engine)
    (t : Trade) :
  trades s !! h = Some t -> turn_outcome h price_ok s t s.
Proof.
  intros Ht. exists t. split; [symmetry; by apply list_insert_id|].
  split; [apply evolves_refl|]. split; [apply same_books_refl|].
  split; [left; done|]. intros Hs _. split; [exact Hs | lra].
Qed.

Lemma turn_outcome_kept (h : nat) (price_ok : Prop) (p : Q) (s s1 : Engine)
    (t t1 : Trade) :
  body_step p s t s1 t1 -> (price_ok -> 0 <= p) ->
  turn_outcome h price_ok s t
    (set_trades (<[h := t1]> (trades (check_daily_loss_limit s1)))
       (check_daily_loss_limit s1)).
Proof.
  intros (Hev & Hst & Hre & Hcap & Hk) Hp. exists t1.
  unfold only_capital in Hcap. rewrite Hcap. unfold check_daily_loss_limit.
  destruct (Qltb _ _); simpl;
    (split; [reflexivity|]; split; [exact Hev|];
     split; [by unfold same_books|]; split; [left; done|];
     intros Hs Hok; apply Hk; [exact Hs | apply Hp, Hok]).
Qed.

Lemma turn_outcome_closed (h : nat) (price_ok : Prop) (p : Q)
    (time : Timestamp) (reason : string) (s s1 : Engine) (t t1 : Trade) :
  body_step p s t s1 t1 -> (price_ok -> 0 <= p) ->
  turn_outcome h price_ok s t (_close_trade h t1 p time reason s1).
Proof.
  intros (Hev & Hst & Hre & Hcap & Hk) Hp.
  exists (closed_trade p time reason t1). rewrite _close_trade_eq.
  unfold only_capital in Hcap. rewrite Hcap. simpl.
  split; [reflexivity|].
  split; [eapply evolves_trans; [exact Hev | apply closed_trade_evolves]|].
  split; [by unfold same_books|]. split; [right; done|].
  intros Hs Hok. destruct (Hk Hs (Hp Hok)) as [Hs1 Hc].
  split; [by apply closed_trade_sound|].
  destruct Hs1 as (Hu & _ & _). specialize (Hp Hok). nra.
Qed.

Lemma update_trade_outcome (ct : Timestamp) (pd : gmap string DataFrame)
    (h : nat) (s s' : Engine) (t : Trade) :
  update_trade ct pd h s = Some s' -> trades s !! h = Some t ->
  turn_outcome h (prices_nonneg pd) s t s'.
Proof.
  intros Hup Ht. unfold update_trade in Hup. rewrite Ht in Hup.
  destruct (pd !! token_address t) as [df|] eqn:Hdf;
    [|injection Hup as <-; by apply turn_outcome_skip].
  destruct (loc df ct) as [p|] eqn:Hloc.
  - assert (Hp : prices_nonneg pd -> 0 <= p)
      by (intros Hpd; eapply prices_nonneg_loc; eassumption).
    pose proof (update_ath_levels p t) as L1.
    set (t1 := update_ath p t) in *.
    pose proof (hard_stop_phase_levels (minutes_in ct t1) t1) as L2.
    set (t2 := hard_stop_phase (minutes_in ct t1) t1) in *.
    destruct (trailing_stop t2) as [t3|] eqn:Htr; [|discriminate].
    apply trailing_stop_levels in Htr as [L3 _].
    assert (B3 : body_step p s t s t3).
    { apply only_levels_body_step.
      eapply only_levels_trans; [|exact L3].
      eapply only_levels_trans; eassumption. }
    simpl in Hup.
    destruct (Qleb p (stop_loss_price t3));
      [injection Hup as <-; by apply turn_outcome_closed|].
    destruct (div (p - entry_price t3) (entry_price t3)) as [roi|];
      [|discriminate].
    simpl in Hup.
    destruct (take_profit_1 roi p t3 s) as [[s4 t4]|] eqn:T1; [|discriminate].
    apply take_profit_1_body_step in T1. simpl in Hup.
    destruct (take_profit_2 roi p t4 s4) as [[s5 t5]|] eqn:T2;
      [|discriminate].
    apply take_profit_2_body_step in T2. simpl in Hup.
    destruct (take_profit_3 roi p t5 s5) as [[s6 t6]|] eqn:T3;
      [|discriminate].
    apply take_profit_3_body_step in T3. simpl in Hup.
    assert (B6 : body_step p s t s6 t6).
    { eapply body_step_trans; [exact B3|].
      eapply body_step_trans; [exact T1|].
      eapply body_step_trans; eassumption. }
    destruct (time_exit_due (minutes_in ct t1) roi); injection Hup as <-.
    + by apply turn_outcome_closed.
    + by apply turn_outcome_kept with (p := p).
  - destruct (last_row df) as [[lt lp]|] eqn:Hlast;
      [|injection Hup as <-; by apply turn_outcome_skip].
    destruct (lt <? ct)%Z; injection Hup as <-;
      [|by apply turn_outcome_skip].
    apply turn_outcome_closed; [apply body_step_refl|].
    intros Hpd. eapply prices_nonneg_last; eassumption.
Qed.

Lemma update_trade_no_trade (ct : Timestamp) (pd : gmap string DataFrame)
    (h : nat) (s : Engine) :
  trades s !! h = None -> update_trade ct pd h s = Some s.
Proof. intros Ht. unfold update_trade. by rewrite Ht. Qed.


(** *** [_update_trades] as a whole *)

Lemma store_evolves_refl (l : list Trade) : store_evolves l l.
Proof. intros h t Ht. exists t. split; [exact Ht | apply evolves_refl]. Qed.

Lemma store_evolves_trans (l1 l2 l3 : list Trade) :
  store_evolves l1 l2 -> store_evolves l2 l3 -> store_evolves l1 l3.
Proof.
  intros H12 H23 h t Ht. destruct (H12 h t Ht) as (t2 & Ht2 & E12).
  destruct (H23 h t2 Ht2) as (t3 & Ht3 & E23).
  exists t3. split; [exact Ht3 | eapply evolves_trans; eassumption].
Qed.

Lemma store_evolves_insert (l : list Trade) (h : nat) (t t' : Trade) :
  l !! h = Some t -> evolves t t' -> store_evolves l (<[h := t']> l).
Proof.
  intros Ht Hev j tj Hj. destruct (decide (j = h)) as [->|Hne].
  - exists t'. split.
    + apply list_lookup_insert_eq. by eapply lookup_lt_Some.
    + congruence.
  - exists tj. split; [by rewrite list_lookup_insert_ne | apply evolves_refl].
Qed.

Lemma store_evolves_app (l l' : list Trade) : store_evolves l (l ++ l').
Proof.
  intros h t Ht. exists t.
  split; [by apply lookup_app_l_Some | apply evolves_refl].
Qed.

Lemma store_evolves_Forall (P : Trade -> Prop) (l l' : list Trade) :
  (forall t t', P t -> evolves t t' -> P t') ->
  store_evolves l l' -> length l' = length l -> Forall P l -> Forall P l'.
Proof.
  intros HP Hev Hlen Hl. apply Forall_lookup. intros h t' Ht'.
  destruct (l !! h) as [t|] eqn:Ht.
  - destruct (Hev h t Ht) as (t2 & Ht2 & E).
    rewrite Ht' in Ht2. injection Ht2 as <-.
    eapply HP; [|exact E]. eapply Forall_lookup_1; eassumption.
  - apply lookup_ge_None in Ht. apply lookup_lt_Some in Ht'. lia.
Qed.

Lemma update_trade_store (ct : Timestamp) (pd : gmap string DataFrame)
    (h : nat) (s s' : Engine) :
  update_trade ct pd h s = Some s' ->
  store_evolves (trades s) (trades s') /\
  length (trades s') = length (trades s) /\
  same_books s s' /\
  active_trades s' ⊆ active_trades s.
Proof.
  intros Hup. destruct (trades s !! h) as [t|] eqn:Ht.
  - destruct (update_trade_outcome _ _ _ _ _ _ Hup Ht)
      as (t' & -> & Hev & Hb & Hact & _).
    split; [by eapply store_evolves_insert|].
    split; [apply length_insert|]. split; [exact Hb|].
    destruct Hact as [(_ & _ & ->)|(_ & _ & ->)];
      [done | apply list_remove_subseteq].
  - rewrite (update_trade_no_trade _ _ _ _ Ht) in Hup. injection Hup as <-.
    split; [apply store_evolves_refl|]. split; [done|].
    split; [apply same_books_refl | done].
Qed.

Lemma _update_trades_store (ct : Timestamp) (pd : gmap string DataFrame)
    (s s' : Engine) :
  _update_trades ct pd s = Some s' ->
  store_evolves (trades s) (trades s') /\
  length (trades s') = length (trades s) /\
  same_books s s' /\
  active_trades s' ⊆ active_trades s.
Proof.
  unfold _update_trades. intros Hrun.
  apply (for_each_invariant (update_trade ct pd)
           (fun _ s1 =>
              store_evolves (trades s) (trades s1) /\
              length (trades s1) = length (trades s) /\
              same_books s s1 /\
              active_trades s1 ⊆ active_trades s))
    with (l := active_trades s) (s := s); [| |exact Hrun].
  - intros h rest s1 s2 (A1 & A2 & A3 & A4) Hb.
    apply update_trade_store in Hb as (B1 & B2 & B3 & B4).
    split; [eapply store_evolves_trans; eassumption|].
    split; [congruence|].
    split; [eapply same_books_trans; eassumption | set_solver].
  - split; [apply store_evolves_refl|]. split; [done|].
    split; [apply same_books_refl | done].
Qed.

Lemma update_trade_sound (ct : Timestamp) (pd : gmap string DataFrame)
    (h : nat) (s s' : Engine) :
  prices_nonneg pd -> Forall sound (trades s) ->
  update_trade ct pd h s = Some s' ->
  Forall sound (trades s') /\ capital s <= capital s'.
Proof.
  intros Hpd Hs Hup. destruct (trades s !! h) as [t|] eqn:Ht.
  - destruct (update_trade_outcome _ _ _ _ _ _ Hup Ht)
      as (t' & -> & _ & _ & _ & Hk).
    destruct Hk as [Hs' Hc]; [by eapply Forall_lookup_1 | exact Hpd|].
    split; [by apply Forall_insert | exact Hc].
  - rewrite (update_trade_no_trade _ _ _ _ Ht) in Hup. injection Hup as <-.
    split; [exact Hs | lra].
Qed.

Lemma _update_trades_sound (ct : Timestamp) (pd : gmap string DataFrame)
    (s s' : Engine) :
  prices_nonneg pd -> Forall sound (trades s) ->
  _update_trades ct pd s = Some s' ->
  Forall sound (trades s') /\ capital s <= capital s'.
Proof.
  unfold _update_trades. intros Hpd Hs Hrun.
  apply (for_each_invariant (update_trade ct pd)
           (fun _ s1 => Forall sound (trades s1) /\ capital s <= capital s1))
    with (l := active_trades s) (s := s); [| |exact Hrun].
  - intros h rest s1 s2 [A1 A2] Hb.
    destruct (update_trade_sound _ _ _ _ _ Hpd A1 Hb) as [B1 B2].
    split; [exact B1 | lra].
  - split; [exact Hs | lra].
Qed.


(** *** No division by zero on trades bought at a non-zero price *)

Lemma only_levels_entry_price (t t' : Trade) :
  only_levels t t' -> entry_price t' = entry_price t.
Proof. intros H. apply only_levels_evolves in H. apply H. Qed.

Lemma trailing_stop_defined (t : Trade) :
  ~ entry_price t == 0 -> exists t', trailing_stop t = Some t'.
Proof.
  intros Hne. unfold trailing_stop. rewrite (div_defined _ _ Hne). simpl.
  destruct (Qgeb _ 0.40); [|by eexists].
  destruct (Qgtb _ _); by eexists.
Qed.

Lemma take_profit_1_defined (roi p : Q) (t : Trade) (s : Engine) :
  ~ entry_price t == 0 ->
  exists s' t', take_profit_1 roi p t s = Some (s', t').
Proof.
  intros Hne. unfold take_profit_1.
  destruct (Qgeb roi 0.40 && negb (tp1_hit t)); [|by do 2 eexists].
  rewrite (_partial_close_defined _ _ _ _ _ Hne). simpl. by do 2 eexists.
Qed.

Lemma take_profit_2_defined (roi p : Q) (t : Trade) (s : Engine) :
  ~ entry_price t == 0 ->
  exists s' t', take_profit_2 roi p t s = Some (s', t').
Proof.
  intros Hne. unfold take_profit_2.
  destruct (Qgeb roi 1.00 && negb (tp2_hit t)); [|by do 2 eexists].
  rewrite (_partial_close_defined _ _ _ _ _ Hne). simpl. by do 2 eexists.
Qed.

Lemma take_profit_3_defined (roi p : Q) (t : Trade) (s : Engine) :
  ~ entry_price t == 0 ->
  exists s' t', take_profit_3 roi p t s = Some (s', t').
Proof.
  intros Hne. unfold take_profit_3.
  destruct (Qgeb roi 2.00 && negb (tp3_hit t)); [|by do 2 eexists].
  rewrite (_partial_close_defined _ _ _ _ _ Hne). simpl. by do 2 eexists.
Qed.

Lemma body_step_entry_price (p : Q) (s s' : Engine) (t t' : Trade) :
  body_step p s t s' t' -> entry_price t' = entry_price t.
Proof. intros (Hev & _). apply Hev. Qed.

Lemma update_trade_defined (ct : Timestamp) (pd : gmap string DataFrame)
    (h : nat) (s : Engine) :
  Forall sound (trades s) -> exists s', update_trade ct pd h s = Some s'.
Proof.
  intros Hs. unfold update_trade.
  destruct (trades s !! h) as [t|] eqn:Ht; [|by eexists].
  assert (Hne : ~ entry_price t == 0).
  { pose proof (Forall_lookup_1 _ _ _ _ Hs Ht) as (_ & _ & He). lra. }
  destruct (pd !! token_address t) as [df|]; [|by eexists].
  destruct (loc df ct) as [p|].
  - pose proof (update_ath_levels p t) as L1.
    set (t1 := update_ath p t) in *.
    pose proof (hard_stop_phase_levels (minutes_in ct t1) t1) as L2.
    set (t2 := hard_stop_phase (minutes_in ct t1) t1) in *.
    assert (E2 : entry_price t2 = entry_price t).
    { rewrite (only_levels_entry_price _ _ L2).
      apply (only_levels_entry_price _ _ L1). }
    destruct (trailing_stop_defined t2) as [t3 Htr]; [by rewrite E2|].
    rewrite Htr. simpl.
    apply trailing_stop_levels in Htr as [L3 _].
    assert (E3 : entry_price t3 = entry_price t).
    { by rewrite (only_levels_entry_price _ _ L3). }
    destruct (Qleb p (stop_loss_price t3)); [by eexists|].
    rewrite div_defined by (by rewrite E3). simpl.
    set (roi := (p - entry_price t3) / entry_price t3).
    destruct (take_profit_1_defined roi p t3 s) as (s4 & t4 & T1);
      [by rewrite E3|].
    rewrite T1. simpl. apply take_profit_1_body_step in T1.
    apply body_step_entry_price in T1.
    destruct (take_profit_2_defined roi p t4 s4) as (s5 & t5 & T2);
      [by rewrite T1, E3|].
    rewrite T2. simpl. apply take_profit_2_body_step in T2.
    apply body_step_entry_price in T2.
    destruct (take_profit_3_defined roi p t5 s5) as (s6 & t6 & T3);
      [by rewrite T2, T1, E3|].
    rewrite T3. simpl.
    destruct (time_exit_due _ _); by eexists.
  - destruct (last_row df) as [[lt lp]|]; [|by eexists].
    destruct (lt <? ct)%Z; by eexists.
Qed.

Lemma _update_trades_defined (ct : Timestamp) (pd : gmap string DataFrame)
    (s : Engine) :
  prices_nonneg pd -> Forall sound (trades s) ->
  exists s', _update_trades ct pd s = Some s'.
Proof.
  intros Hpd Hs. unfold _update_trades.
  destruct (for_each_defined (update_trade ct pd)
              (fun s1 => Forall sound (trades s1))) with
    (l := active_trades s) (s := s) as (s' & Hrun & _); [|exact Hs|by exists s'].
  intros h s1 Hs1. destruct (update_trade_defined ct pd h s1 Hs1) as [s2 Hb].
  exists s2. split; [exact Hb|].
  by destruct (update_trade_sound _ _ _ _ _ Hpd Hs1 Hb).
Qed.

(** *** [_process_signal] *)

Lemma Qdiv_015 (x : Q) : x / 0.15 == x * (20 # 3).
Proof. field. Qed.

Lemma _process_signal_cases (sig : Signal) (s s' : Engine) :
  _process_signal sig s = Some s' ->
  s' = s \/
  exists t,
    trades s' = trades s ++ [t] /\
    active_trades s' = active_trades s ++ [length (trades s)] /\
    same_books s s' /\
    daily_loss_limit_hit s' = daily_loss_limit_hit s /\
    capital s' = capital s - position_size_usd t /\
    (0 <= capital s ->
     0 <= position_size_usd t /\ position_size_usd t <= capital s) /\
    entry_price t = price_at_signal sig /\
    ~ price_at_signal sig == 0 /\
    current_units t = position_size_usd t / entry_price t /\
    units_sold t = [] /\
    status t = "OPEN" /\
    stop_loss_price t = entry_price t * (1 - 0.15).
Proof.
  unfold _process_signal.
  destruct (Qltb (signal_score sig) 80); [intros [= <-]; by left|].
  destruct (4 <=? length (active_trades s))%nat; [intros [= <-]; by left|].
  destruct (daily_loss_limit_hit s) eqn:Hflag; [intros [= <-]; by left|].
  set (risk_pct := if Qgeb (signal_score sig) 90 then 0.025
                   else if Qgeb (signal_score sig) 85 then 0.020 else 0.015).
  assert (Hr : 0 <= risk_pct /\ risk_pct <= 0.025).
  { unfold risk_pct. destruct (Qgeb _ 90); [lra|].
    destruct (Qgeb _ 85); lra. }
  set (pos0 := capital s * risk_pct / 0.15).
  set (pos := if Qgtb pos0 (capital s) then capital s else pos0).
  simpl.
  destruct (div pos (price_at_signal sig)) as [u|] eqn:D; [|discriminate].
  apply div_Some in D as [Hne ->]. simpl. intros [= <-]. right.
  eexists. simpl. split; [reflexivity|]. split; [reflexivity|].
  split; [by unfold same_books|]. split; [done|]. split; [reflexivity|].
  split; [|done].
  intros Hc. simpl. unfold pos.
  destruct (Qgtb pos0 (capital s)) eqn:E; qprop.
  - split; lra.
  - split; [|lra]. unfold pos0. rewrite Qdiv_015. nra.
Qed.


(** *** Handles, closed trades and the ledger *)

Lemma evolves_conserved (t t' : Trade) :
  conserved t -> evolves t t' -> conserved t'.
Proof.
  unfold conserved, initial_units, evolves.
  intros Hc (_ & -> & _ & -> & _ & _ & -> & _). exact Hc.
Qed.


Lemma update_trade_handles (ct : Timestamp) (pd : gmap string DataFrame)
    (h : nat) (s s' : Engine) :
  handles_ok s -> Forall settled (trades s) -> h ∈ active_trades s ->
  update_trade ct pd h s = Some s' ->
  handles_ok s' /\ Forall settled (trades s') /\
  (forall j, j ∈ active_trades s -> j <> h -> j ∈ active_trades s').
Proof.
  intros [Hnd Hopen] Hset Hh Hup.
  destruct (Hopen h Hh) as (t & Ht & Hst).
  destruct (update_trade_outcome _ _ _ _ _ _ Hup Ht)
    as (t' & Htr & _ & _ & Hact & _).
  pose proof (lookup_lt_Some _ _ _ Ht) as Hlt.
  destruct Hact as [(Hst' & _ & Ha)|(Hst' & Hu & Ha)].
  - split; [|split].
    + split; [by rewrite Ha|]. intros j Hj. rewrite Ha in Hj. rewrite Htr.
      destruct (decide (j = h)) as [->|Hne].
      * exists t'. split; [by apply list_lookup_insert_eq | congruence].
      * rewrite list_lookup_insert_ne by done. by apply Hopen.
    + rewrite Htr. apply Forall_insert; [exact Hset|].
      intros Hc. rewrite Hst', Hst in Hc. discriminate.
    + intros j Hj _. by rewrite Ha.
  - destruct (list_remove_NoDup h _ Hnd) as [Hnd' Hnot].
    split; [|split].
    + split; [by rewrite Ha|]. intros j Hj. rewrite Ha in Hj. rewrite Htr.
      assert (j <> h) by (intros ->; contradiction).
      rewrite list_lookup_insert_ne by done.
      apply Hopen. by apply (list_remove_subseteq h).
    + rewrite Htr. apply Forall_insert; [exact Hset|].
      intros _. rewrite Hu. reflexivity.
    + intros j Hj Hne. rewrite Ha. by apply list_remove_elem_ne.
Qed.

Lemma _update_trades_handles (ct : Timestamp) (pd : gmap string DataFrame)
    (s s' : Engine) :
  handles_ok s -> Forall settled (trades s) ->
  _update_trades ct pd s = Some s' ->
  handles_ok s' /\ Forall settled (trades s').
Proof.
  unfold _update_trades. intros Hok Hset Hrun.
  cut (handles_ok s' /\ Forall settled (trades s') /\
       NoDup (@nil nat) /\ [] ⊆ active_trades s'); [tauto|].
  apply (for_each_invariant (update_trade ct pd)
           (fun rest s1 =>
              handles_ok s1 /\ Forall settled (trades s1) /\
              NoDup rest /\ rest ⊆ active_trades s1))
    with (l := active_trades s) (s := s); [| |exact Hrun].
  - intros h rest s1 s2 (A1 & A2 & A3 & A4) Hb.
    apply NoDup_cons in A3 as [Hh A3].
    destruct (update_trade_handles _ _ _ _ _ A1 A2 (A4 h ltac:(set_solver)) Hb)
      as (B1 & B2 & B3).
    split; [exact B1|]. split; [exact B2|]. split; [exact A3|].
    intros j Hj. apply B3; [set_solver|]. intros ->. contradiction.
  - split; [exact Hok|]. split; [exact Hset|].
    split; [apply Hok | done].
Qed.

Lemma _update_trades_books (ct : Timestamp) (pd : gmap string DataFrame)
    (s s' : Engine) :
  books_ok s -> _update_trades ct pd s = Some s' -> books_ok s'.
Proof.
  intros (H1 & H2 & H3) Hrun.
  destruct (_update_trades_handles _ _ _ _ H1 H2 Hrun) as [H1' H2'].
  destruct (_update_trades_store _ _ _ _ Hrun) as (Hev & Hlen & _).
  split; [exact H1'|]. split; [exact H2'|].
  eapply store_evolves_Forall; [apply evolves_conserved | | |]; eassumption.
Qed.

Lemma _process_signal_books (sig : Signal) (s s' : Engine) :
  books_ok s -> _process_signal sig s = Some s' -> books_ok s'.
Proof.
  intros ([Hnd Hopen] & H2 & H3) Hrun.
  apply _process_signal_cases in Hrun as [->|(t & Htr & Ha & _ & _ & _ & _ &
    He & Hne & Hu & Hsold & Hst & _)]; [done|].
  split; [split|split].
  - rewrite Ha. apply NoDup_app. split; [exact Hnd|].
    split; [|apply NoDup_singleton].
    intros j Hj Hj'. apply list_elem_of_singleton in Hj' as ->.
    destruct (Hopen _ Hj) as (tj & Htj & _).
    apply lookup_lt_Some in Htj. lia.
  - intros j Hj. rewrite Ha in Hj. rewrite Htr.
    apply elem_of_app in Hj as [Hj|Hj].
    + destruct (Hopen _ Hj) as (tj & Htj & Hs). exists tj.
      split; [by apply lookup_app_l_Some | exact Hs].
    + apply list_elem_of_singleton in Hj as ->. exists t.
      split; [|exact Hst]. rewrite lookup_app_r by lia.
      by rewrite Nat.sub_diag.
  - rewrite Htr. apply Forall_app. split; [exact H2|].
    apply Forall_singleton. intros Hc. rewrite Hst in Hc. discriminate.
  - rewrite Htr. apply Forall_app. split; [exact H3|].
    apply Forall_singleton. unfold conserved, initial_units.
    rewrite Hu, Hsold. simpl. lra.
Qed.

Lemma init_books (c : Q) : books_ok (init c).
Proof.
  unfold books_ok, handles_ok. simpl.
  split; [split; [constructor | set_solver]|]. split; constructor.
Qed.

Lemma calls_books (cs : list Call) (s s' : Engine) :
  books_ok s -> calls cs s = Some s' -> books_ok s'.
Proof.
  revert s. induction cs as [|c cs IH]; simpl; intros s Hok Hrun.
  - by injection Hrun as <-.
  - destruct (call c s) as [s1|] eqn:Hc; [|discriminate].
    apply (IH s1); [|exact Hrun].
    destruct c as [sig|ct pd]; simpl in Hc.
    + eapply _process_signal_books; eassumption.
    + eapply _update_trades_books; eassumption.
Qed.

(** *** Sequences of calls: the store, the cash and the stop floor *)

Lemma call_store (c : Call) (s s' : Engine) :
  call c s = Some s' -> store_evolves (trades s) (trades s').
Proof.
  destruct c as [sig|ct pd]; simpl; intros Hc.
  - apply _process_signal_cases in Hc as [->|(t & -> & _)].
    + apply store_evolves_refl.
    + apply store_evolves_app.
  - by apply _update_trades_store in Hc as [? _].
Qed.

Lemma calls_store (cs : list Call) (s s' : Engine) :
  calls cs s = Some s' -> store_evolves (trades s) (trades s').
Proof.
  revert s. induction cs as [|c cs IH]; simpl; intros s Hrun.
  - injection Hrun as <-. apply store_evolves_refl.
  - destruct (call c s) as [s1|] eqn:Hc; [|discriminate].
    eapply store_evolves_trans; [by eapply call_store | by apply IH].
Qed.

Lemma _process_signal_defined (sig : Signal) (s : Engine) :
  0 < price_at_signal sig -> exists s', _process_signal sig s = Some s'.
Proof.
  intros Hp. unfold _process_signal.
  destruct (Qltb _ 80); [by eexists|].
  destruct (4 <=? _)%nat; [by eexists|].
  destruct (daily_loss_limit_hit s); [by eexists|].
  simpl. rewrite div_defined by lra. simpl. by eexists.
Qed.

Lemma call_cash (c : Call) (s : Engine) :
  valid_call c -> 0 <= capital s -> Forall sound (trades s) ->
  exists s', call c s = Some s' /\ 0 <= capital s' /\ Forall sound (trades s').
Proof.
  destruct c as [sig|ct pd]; simpl; intros Hv Hc Hs.
  - destruct (_process_signal_defined sig s Hv) as [s' Hrun].
    exists s'. split; [exact Hrun|].
    apply _process_signal_cases in Hrun as [->|(t & Htr & _ & _ & _ & Hcap &
      Hpos & He & _ & Hu & _)]; [done|].
    destruct (Hpos Hc) as [Hp0 Hp1]. split; [rewrite Hcap; lra|].
    rewrite Htr. apply Forall_app. split; [exact Hs|].
    apply Forall_singleton. unfold sound. rewrite Hu, He.
    split; [|split; [exact Hp0 | exact Hv]]. by apply Qdiv_nonneg.
  - destruct (_update_trades_defined ct pd s Hv Hs) as [s' Hrun].
    exists s'. split; [exact Hrun|].
    destruct (_update_trades_sound _ _ _ _ Hv Hs Hrun) as [Hs' Hc'].
    split; [lra | exact Hs'].
Qed.

Lemma calls_cash (cs : list Call) (s : Engine) :
  Forall valid_call cs -> 0 <= capital s -> Forall sound (trades s) ->
  exists s',
    calls cs s = Some s' /\ 0 <= capital s' /\ Forall sound (trades s').
Proof.
  intros Hv. revert s. induction Hv as [|c cs Hc Hcs IH]; simpl; intros s H0 Hs.
  - by exists s.
  - destruct (call_cash c s Hc H0 Hs) as (s1 & -> & H1 & Hs1). by apply IH.
Qed.



(** *** The stop floor at work *)



Lemma update_trade_stop_loss (ct : Timestamp) (pd : gmap string DataFrame)
    (h : nat) (s : Engine) (t : Trade) (df : DataFrame) (p : Q) :
  trades s !! h = Some t ->
  pd !! token_address t = Some df -> loc df ct = Some p ->
  ~ entry_price t == 0 -> p <= stop_loss_price t ->
  exists t',
    update_trade ct pd h s = Some (_close_trade h t' p ct "STOP_LOSS" s).
Proof.
  intros Ht Hdf Hloc Hne Hp. unfold update_trade. rewrite Ht, Hdf, Hloc.
  pose proof (update_ath_levels p t) as L1.
  set (t1 := update_ath p t) in *.
  pose proof (hard_stop_phase_levels (minutes_in ct t1) t1) as L2.
  set (t2 := hard_stop_phase (minutes_in ct t1) t1) in *.
  pose proof (only_levels_trans _ _ _ L1 L2) as L12.
  destruct (trailing_stop_defined t2) as [t3 Htr].
  { by rewrite (only_levels_entry_price _ _ L12). }
  rewrite Htr. simpl. apply trailing_stop_levels in Htr as [L3 _].
  destruct (only_levels_trans _ _ _ L12 L3) as (_ & Hst & _).
  destruct (Qleb p (stop_loss_price t3)) eqn:E; [by exists t3|].
  qprop. lra.
Qed.

Lemma _close_trade_lookup (h : nat) (t : Trade) (p : Q) (time : Timestamp)
    (reason : string) (s : Engine) :
  (h < length (trades s))%nat ->
  trades (_close_trade h t p time reason s) !! h =
    Some (closed_trade p time reason t).
Proof. intros Hlt. rewrite _close_trade_eq. simpl. by apply list_lookup_insert_eq. Qed.


Lemma sale_units_min (pct : Q) (t : Trade) :
  sale_units pct t == Qmin (pct * initial_units t) (current_units t).
Proof.
  unfold sale_units.
  destruct (Qgtb (initial_units t * pct) (current_units t)) eqn:E; qprop.
  - rewrite Q.min_r; lra.
  - rewrite Q.min_l; lra.
Qed.


(** *** Evaluating the same tick twice *)

Lemma minutes_in_same (ct : Timestamp) (t t' : Trade) :
  entry_time t' = entry_time t -> minutes_in ct t' = minutes_in ct t.
Proof. unfold minutes_in. by intros ->. Qed.

Lemma roi_above_entry (p e : Q) : 0 < e -> 0.40 <= (p - e) / e -> e < p.
Proof.
  intros He Hroi. assert (Hm : (p - e) / e * e == p - e) by (field; lra).
  nra.
Qed.

Lemma levels_phase_rest (ct : Timestamp) (p : Q) (t t3 : Trade) :
  0 < entry_price t ->
  trailing_stop
    (hard_stop_phase (minutes_in ct (update_ath p t)) (update_ath p t)) =
    Some t3 ->
  Qleb p (stop_loss_price t3) = false ->
  levels_at_rest ct p t3.
Proof.
  intros He.
  pose proof (update_ath_levels p t) as L1.
  pose proof (update_ath_reached p t) as R1.
  set (t1 := update_ath p t) in *.
  assert (M1 : minutes_in ct t1 = minutes_in ct t).
  { apply minutes_in_same. destruct L1 as [-> _]. reflexivity. }
  assert (E1 : entry_price t1 = entry_price t)
    by (apply only_levels_entry_price, L1).
  assert (T1 : entry_time t1 = entry_time t)
    by (destruct L1 as [-> _]; reflexivity).
  rewrite M1. clearbody t1. clear L1.
  unfold hard_stop_phase, trailing_stop, levels_at_rest.
  destruct (Qgtb (minutes_in ct t) 15) eqn:Hm;
    [destruct (Qgtb (stop_loss_price t1) (entry_price t1 * 0.70)) eqn:Hh|];
    simpl;
    (destruct (div _ _) as [r|] eqn:D; [|discriminate]);
    apply div_Some in D as [_ ->]; simpl;
    (destruct (Qgeb _ 0.40) eqn:Hr;
     [destruct (Qgtb (ath_price _ * _) _) eqn:Hg|]);
    intros [= <-] Hstop; unfold minutes_in in *; simpl in *; qprop;
    rewrite ?E1, ?T1 in *;
    (split; [exact He|]); (split; [exact R1|]);
    (split;
     [first [ left; lra | right; left; lra | right; right; reflexivity ]|]);
    (split; [first [ left; lra | right; lra ] | lra]).
Qed.

Lemma take_profit_1_rest (ct : Timestamp) (p : Q) (t t' : Trade)
    (s s' : Engine) :
  levels_at_rest ct p t ->
  take_profit_1 ((p - entry_price t) / entry_price t) p t s = Some (s', t') ->
  levels_at_rest ct p t' /\
  (0.40 <= (p - entry_price t) / entry_price t -> tp1_hit t' = true) /\
  tp2_hit t' = tp2_hit t /\ tp3_hit t' = tp3_hit t /\
  entry_price t' = entry_price t /\ entry_time t' = entry_time t.
Proof.
  intros (He & Ha & Hh & Htr & Hs). unfold take_profit_1.
  destruct (Qgeb _ 0.40) eqn:Hr; simpl.
  - destruct (tp1_hit t) eqn:Hhit; simpl.
    { intros [= <- <-]. by repeat split. }
    destruct (_partial_close t 0.50 p "TP1" s) as [[s1 t1]|] eqn:P;
      [|discriminate].
    apply _partial_close_eq in P as (_ & -> & ->). simpl. intros [= <- <-].
    qprop. pose proof (roi_above_entry _ _ He Hr) as Hp.
    unfold levels_at_rest, minutes_in, py_max. simpl.
    destruct (Qgtb (entry_price t) (stop_loss_price t)) eqn:Hg; qprop;
      repeat split; try done; try lra.
  - intros [= <- <-]. qprop. repeat split; try done. intros. lra.
Qed.

Lemma take_profit_2_rest (ct : Timestamp) (p : Q) (t t' : Trade)
    (s s' : Engine) :
  levels_at_rest ct p t ->
  take_profit_2 ((p - entry_price t) / entry_price t) p t s = Some (s', t') ->
  levels_at_rest ct p t' /\
  (1.00 <= (p - entry_price t) / entry_price t -> tp2_hit t' = true) /\
  tp1_hit t' = tp1_hit t /\ tp3_hit t' = tp3_hit t /\
  entry_price t' = entry_price t /\ entry_time t' = entry_time t.
Proof.
  intros Hrest. unfold take_profit_2.
  destruct (Qgeb _ 1.00) eqn:Hr; simpl.
  - destruct (tp2_hit t) eqn:Hhit; simpl.
    { intros [= <- <-]. split; [exact Hrest|]. by repeat split. }
    destruct (_partial_close t 0.25 p "TP2" s) as [[s1 t1]|] eqn:P;
      [|discriminate].
    apply _partial_close_eq in P as (_ & -> & ->). simpl. intros [= <- <-].
    split; [exact Hrest|]. by repeat split.
  - intros [= <- <-]. qprop. split; [exact Hrest|].
    repeat split; try done. intros. lra.
Qed.

Lemma take_profit_3_rest (ct : Timestamp) (p : Q) (t t' : Trade)
    (s s' : Engine) :
  levels_at_rest ct p t ->
  take_profit_3 ((p - entry_price t) / entry_price t) p t s = Some (s', t') ->
  levels_at_rest ct p t' /\
  (2.00 <= (p - entry_price t) / entry_price t -> tp3_hit t' = true) /\
  tp1_hit t' = tp1_hit t /\ tp2_hit t' = tp2_hit t /\
  entry_price t' = entry_price t /\ entry_time t' = entry_time t.
Proof.
  intros Hrest. unfold take_profit_3.
  destruct (Qgeb _ 2.00) eqn:Hr; simpl.
  - destruct (tp3_hit t) eqn:Hhit; simpl.
    { intros [= <- <-]. split; [exact Hrest|]. by repeat split. }
    destruct (_partial_close t 0.15 p "TP3" s) as [[s1 t1]|] eqn:P;
      [|discriminate].
    apply _partial_close_eq in P as (_ & -> & ->). simpl. intros [= <- <-].
    split; [exact Hrest|]. by repeat split.
  - intros [= <- <-]. qprop. split; [exact Hrest|].
    repeat split; try done. intros. lra.
Qed.


Lemma check_daily_loss_limit_again (l : list Trade) (s : Engine) :
  check_daily_loss_limit (set_trades l (check_daily_loss_limit s)) =
    set_trades l (check_daily_loss_limit s).
Proof.
  unfold check_daily_loss_limit.
  destruct (Qltb (equity s - daily_start_equity s)
              (- (daily_start_equity s * 0.10))) eqn:E; simpl; by rewrite E.
Qed.

Lemma at_rest_turn (ct : Timestamp) (pd : gmap string DataFrame) (h : nat)
    (s : Engine) (t : Trade) (df : DataFrame) (p : Q) :
  trades s !! h = Some t ->
  pd !! token_address t = Some df -> loc df ct = Some p ->
  at_rest ct p t -> check_daily_loss_limit s = s ->
  update_trade ct pd h s = Some s.
Proof.
  intros Ht Hdf Hloc ((He & Ha & Hh & Htr & Hs) & F1 & F2 & F3 & Hx) Hchk.
  unfold update_trade. rewrite Ht, Hdf, Hloc.
  assert (U1 : update_ath p t = t).
  { unfold update_ath. destruct (Qgtb p (ath_price t)) eqn:E; [|done].
    qprop. lra. }
  rewrite U1.
  assert (U2 : hard_stop_phase (minutes_in ct t) t = t).
  { unfold hard_stop_phase.
    destruct (Qgtb (minutes_in ct t) 15) eqn:Em; [|done].
    destruct (Qgtb (stop_loss_price t) (entry_price t * 0.70)) eqn:E;
      [done|].
    qprop. destruct Hh as [Hh|[Hh|Hh]]; [lra | lra|].
    rewrite <- Hh. by destruct t. }
  rewrite U2.
  assert (U3 : trailing_stop t = Some t).
  { unfold trailing_stop. rewrite div_defined by lra. simpl.
    destruct (Qgeb _ 0.40) eqn:Er; [|done].
    destruct (Qgtb (ath_price t * (1 - 0.35)) (stop_loss_price t)) eqn:E;
      [|done].
    qprop. lra. }
  rewrite U3. simpl.
  assert (U4 : Qleb p (stop_loss_price t) = false) by (apply Qleb_false; lra).
  rewrite U4. rewrite div_defined by lra. simpl.
  set (roi := (p - entry_price t) / entry_price t) in *.
  assert (T1 : take_profit_1 roi p t s = Some (s, t)).
  { unfold take_profit_1. destruct (Qgeb roi 0.40) eqn:E; [|done].
    qprop. by rewrite (F1 E). }
  assert (T2 : take_profit_2 roi p t s = Some (s, t)).
  { unfold take_profit_2. destruct (Qgeb roi 1.00) eqn:E; [|done].
    qprop. by rewrite (F2 E). }
  assert (T3 : take_profit_3 roi p t s = Some (s, t)).
  { unfold take_profit_3. destruct (Qgeb roi 2.00) eqn:E; [|done].
    qprop. by rewrite (F3 E). }
  rewrite T1. simpl. rewrite T2. simpl. rewrite T3. simpl.
  rewrite Hx, Hchk. rewrite list_insert_id by done. by destruct s.
Qed.

Lemma update_trade_open_rest (ct : Timestamp) (pd : gmap string DataFrame)
    (h : nat) (s s1 : Engine) (t t1 : Trade) (df : DataFrame) (p : Q) :
  trades s !! h = Some t -> 0 < entry_price t ->
  pd !! token_address t = Some df -> loc df ct = Some p ->
  update_trade ct pd h s = Some s1 ->
  trades s1 !! h = Some t1 -> status t1 = "OPEN" ->
  at_rest ct p t1 /\ token_address t1 = token_address t /\
  check_daily_loss_limit s1 = s1.
Proof.
  intros Ht He Hdf Hloc Hup Ht1 Hopen.
  pose proof (lookup_lt_Some _ _ _ Ht) as Hlt.
  unfold update_trade in Hup. rewrite Ht, Hdf, Hloc in Hup.
  destruct (trailing_stop _) as [t3|] eqn:Htr; [|discriminate].
  simpl in Hup.
  pose proof (update_ath_levels p t) as L1.
  destruct (trailing_stop_levels _ _ Htr) as [L3 _].
  pose proof (only_levels_trans _ _ _
                (only_levels_trans _ _ _ L1 (hard_stop_phase_levels _ _)) L3)
    as [E03 _].
  assert (Htime : entry_time t3 = entry_time t) by (by rewrite E03).
  assert (Htok : token_address t3 = token_address t) by (by rewrite E03).
  destruct (Qleb p (stop_loss_price t3)) eqn:Hstop.
  { injection Hup as <-. rewrite _close_trade_lookup in Ht1 by done.
    injection Ht1 as <-. discriminate. }
  pose proof (levels_phase_rest ct p t t3 He Htr Hstop) as R3.
  destruct (div (p - entry_price t3) (entry_price t3)) as [roi|] eqn:D;
    [|discriminate].
  apply div_Some in D as [_ ->]. simpl in Hup.
  destruct (take_profit_1 _ p t3 s) as [[s4 t4]|] eqn:T1; [|discriminate].
  simpl in Hup.
  destruct (take_profit_1_rest ct p _ _ _ _ R3 T1)
    as (R4 & F1 & G12 & G13 & E4 & M4).
  apply take_profit_1_body_step in T1 as ((Hk4 & _) & _ & _ & C4 & _).
  rewrite <- E4 in Hup.
  destruct (take_profit_2 _ p t4 s4) as [[s5 t5]|] eqn:T2; [|discriminate].
  simpl in Hup.
  destruct (take_profit_2_rest ct p _ _ _ _ R4 T2)
    as (R5 & F2 & G21 & G23 & E5 & M5).
  apply take_profit_2_body_step in T2 as ((Hk5 & _) & _ & _ & C5 & _).
  rewrite <- E5 in Hup.
  destruct (take_profit_3 _ p t5 s5) as [[s6 t6]|] eqn:T3; [|discriminate].
  simpl in Hup.
  destruct (take_profit_3_rest ct p _ _ _ _ R5 T3)
    as (R6 & F3 & G31 & G32 & E6 & M6).
  apply take_profit_3_body_step in T3 as ((Hk6 & _) & _ & _ & C6 & _).
  assert (Hmin : minutes_in ct (update_ath p t) = minutes_in ct t6).
  { unfold minutes_in. rewrite M6, M5, M4, Htime.
    by destruct L1 as [-> _]. }
  rewrite Hmin, <- E6 in Hup.
  destruct (time_exit_due _ _) eqn:Hx.
  { injection Hup as <-.
    rewrite _close_trade_lookup in Ht1.
    - injection Ht1 as <-. discriminate.
    - unfold only_capital in C4, C5, C6. rewrite C6, C5, C4. done. }
  injection Hup as <-. split; [|split].
  - assert (t1 = t6) as ->.
    { simpl in Ht1. rewrite list_lookup_insert_eq in Ht1; [congruence|].
      unfold only_capital in C4, C5, C6. rewrite C6, C5, C4.
      unfold check_daily_loss_limit. by destruct (Qltb _ _). }
    split; [exact R6|]. rewrite E6, E5, E4 in *.
    split; [intros Hr; rewrite G31, G21; by apply F1|].
    split; [intros Hr; rewrite G32; by apply F2|].
    split; [exact F3 | exact Hx].
  - assert (t1 = t6) as ->.
    { simpl in Ht1. rewrite list_lookup_insert_eq in Ht1; [congruence|].
      unfold only_capital in C4, C5, C6. rewrite C6, C5, C4.
      unfold check_daily_loss_limit. by destruct (Qltb _ _). }
    congruence.
  - apply check_daily_loss_limit_again.
Qed.

Lemma update_trade_twice (ct : Timestamp) (pd : gmap string DataFrame)
    (h : nat) (s s1 : Engine) (t t1 : Trade) :
  trades s !! h = Some t -> 0 < entry_price t ->
  update_trade ct pd h s = Some s1 ->
  trades s1 !! h = Some t1 -> status t1 = "OPEN" ->
  update_trade ct pd h s1 = Some s1.
Proof.
  intros Ht He Hup Ht1 Hopen.
  pose proof (lookup_lt_Some _ _ _ Ht) as Hlt.
  destruct (pd !! token_address t) as [df|] eqn:Hdf.
  - destruct (loc df ct) as [p|] eqn:Hloc.
    + destruct (update_trade_open_rest _ _ _ _ _ _ _ _ _ Ht He Hdf Hloc Hup
                  Ht1 Hopen) as (Hrest & Htok & Hchk).
      apply (at_rest_turn ct pd h s1 t1 df p); try done. by rewrite Htok.
    + pose proof Hup as Hup'. unfold update_trade in Hup'.
      rewrite Ht, Hdf, Hloc in Hup'.
      destruct (last_row df) as [[lt lp]|]; [|congruence].
      destruct (lt <? ct)%Z; [|congruence].
      injection Hup' as <-. rewrite _close_trade_lookup in Ht1 by done.
      injection Ht1 as <-. discriminate.
  - pose proof Hup as Hup'. unfold update_trade in Hup'.
    rewrite Ht, Hdf in Hup'. congruence.
Qed.


(** *** A tier that was hit does not fire again *)

Lemma take_profit_1_hit (roi p : Q) (t : Trade) (s : Engine) :
  tp1_hit t = true -> take_profit_1 roi p t s = Some (s, t).
Proof.
  intros H. unfold take_profit_1. rewrite H. by rewrite andb_false_r.
Qed.

Lemma take_profit_2_hit (roi p : Q) (t : Trade) (s : Engine) :
  tp2_hit t = true -> take_profit_2 roi p t s = Some (s, t).
Proof.
  intros H. unfold take_profit_2. rewrite H. by rewrite andb_false_r.
Qed.

Lemma take_profit_3_hit (roi p : Q) (t : Trade) (s : Engine) :
  tp3_hit t = true -> take_profit_3 roi p t s = Some (s, t).
Proof.
  intros H. unfold take_profit_3. rewrite H. by rewrite andb_false_r.
Qed.



(** A tier that fires was not hit before and is hit afterwards. *)
Lemma take_profit_1_fires (roi p : Q) (t t' : Trade) (s s' : Engine) :
  take_profit_1 roi p t s = Some (s', t') ->
  (s' = s /\ t' = t) \/ (tp1_hit t = false /\ tp1_hit t' = true).
Proof.
  unfold take_profit_1. destruct (Qgeb roi 0.40); simpl.
  - destruct (tp1_hit t); simpl; [intros [= <- <-]; by left|].
    destruct (_partial_close t 0.50 p "TP1" s) as [[s1 t1]|]; [|discriminate].
    simpl. intros [= <- <-]. by right.
  - intros [= <- <-]. by left.
Qed.

Lemma take_profit_2_fires (roi p : Q) (t t' : Trade) (s s' : Engine) :
  take_profit_2 roi p t s = Some (s', t') ->
  (s' = s /\ t' = t) \/ (tp2_hit t = false /\ tp2_hit t' = true).
Proof.
  unfold take_profit_2. destruct (Qgeb roi 1.00); simpl.
  - destruct (tp2_hit t); simpl; [intros [= <- <-]; by left|].
    destruct (_partial_close t 0.25 p "TP2" s) as [[s1 t1]|]; [|discriminate].
    simpl. intros [= <- <-]. by right.
  - intros [= <- <-]. by left.
Qed.

Lemma take_profit_3_fires (roi p : Q) (t t' : Trade) (s s' : Engine) :
  take_profit_3 roi p t s = Some (s', t') ->
  (s' = s /\ t' = t) \/ (tp3_hit t = false /\ tp3_hit t' = true).
Proof.
  unfold take_profit_3. destruct (Qgeb roi 2.00); simpl.
  - destruct (tp3_hit t); simpl; [intros [= <- <-]; by left|].
    destruct (_partial_close t 0.15 p "TP3" s) as [[s1 t1]|]; [|discriminate].
    simpl. intros [= <- <-]. by right.
  - intros [= <- <-]. by left.
Qed.

(** *** The time exit *)

Lemma minutes_in_elapsed (ct : Timestamp) (t : Trade) (n : Z) :
  (entry_time t + Timedelta_minutes n <= ct)%Z ->
  inject_Z n <= minutes_in ct t.
Proof.
  intros H. unfold minutes_in, total_seconds, Timedelta_minutes in *.
  assert (Hq : inject_Z (n * 60000000000) <= inject_Z (ct - entry_time t)).
  { rewrite <- Zle_Qle. lia. }
  rewrite inject_Z_mult in Hq.
  assert (Hc : inject_Z 60000000000 == 60000000000) by reflexivity.
  rewrite Hc in Hq.
  apply Qle_shift_div_l; [lra|]. apply Qle_shift_div_l; lra.
Qed.

Lemma update_trade_time_exit (ct : Timestamp) (pd : gmap string DataFrame)
    (h : nat) (s : Engine) (t : Trade) (df : DataFrame) (p : Q) :
  trades s !! h = Some t ->
  pd !! token_address t = Some df -> loc df ct = Some p ->
  ~ entry_price t == 0 ->
  90 <= minutes_in ct t ->
  -0.10 <= (p - entry_price t) / entry_price t ->
  (p - entry_price t) / entry_price t <= 0.20 ->
  exists t' reason,
    (reason = "STOP_LOSS" \/ reason = "TIME_EXIT") /\
    update_trade ct pd h s = Some (_close_trade h t' p ct reason s).
Proof.
  intros Ht Hdf Hloc Hne Hmin Hlo Hhi. unfold update_trade.
  rewrite Ht, Hdf, Hloc.
  pose proof (update_ath_levels p t) as L1.
  set (t1 := update_ath p t) in *.
  assert (M1 : minutes_in ct t1 = minutes_in ct t).
  { apply minutes_in_same. destruct L1 as [-> _]. reflexivity. }
  pose proof (hard_stop_phase_levels (minutes_in ct t1) t1) as L2.
  set (t2 := hard_stop_phase (minutes_in ct t1) t1) in *.
  pose proof (only_levels_trans _ _ _ L1 L2) as L12.
  destruct (trailing_stop_defined t2) as [t3 Htr].
  { by rewrite (only_levels_entry_price _ _ L12). }
  rewrite Htr. simpl. apply trailing_stop_levels in Htr as [L3 _].
  pose proof (only_levels_entry_price _ _ (only_levels_trans _ _ _ L12 L3))
    as E3.
  destruct (Qleb p (stop_loss_price t3)).
  { exists t3, "STOP_LOSS". split; [by left | done]. }
  rewrite E3. rewrite div_defined by done. simpl.
  set (roi := (p - entry_price t) / entry_price t) in *.
  assert (T1 : take_profit_1 roi p t3 s = Some (s, t3)).
  { unfold take_profit_1. destruct (Qgeb roi 0.40) eqn:E; [|done].
    qprop. lra. }
  assert (T2 : take_profit_2 roi p t3 s = Some (s, t3)).
  { unfold take_profit_2. destruct (Qgeb roi 1.00) eqn:E; [|done].
    qprop. lra. }
  assert (T3 : take_profit_3 roi p t3 s = Some (s, t3)).
  { unfold take_profit_3. destruct (Qgeb roi 2.00) eqn:E; [|done].
    qprop. lra. }
  rewrite T1. simpl. rewrite T2. simpl. rewrite T3. simpl.
  assert (Hx : time_exit_due (minutes_in ct t1) roi = true).
  { unfold time_exit_due. rewrite M1.
    rewrite !andb_true_iff. unfold Qgeb. rewrite !Qleb_true. done. }
  rewrite Hx. exists t3, "TIME_EXIT". split; [by right | done].
Qed.


(** *** The loop of [run] *)

Lemma add_unrealized_priced (ct : Timestamp) (pd : gmap string DataFrame)
    (s : Engine) (acc : Q) (h : nat) :
  add_unrealized ct pd s acc h == acc + priced_value ct pd (trades s) h.
Proof.
  unfold add_unrealized, priced_value.
  destruct (trades s !! h) as [t|]; [|lra].
  destruct (pd !! token_address t) as [df|]; [|lra].
  destruct (loc df ct); lra.
Qed.

Lemma fold_unrealized (ct : Timestamp) (pd : gmap string DataFrame)
    (s : Engine) (l : list nat) (acc : Q) :
  fold_left (add_unrealized ct pd s) l acc ==
    acc + Qsum (priced_value ct pd (trades s) <$> l).
Proof.
  revert acc. induction l as [|h l IH]; intros acc.
  - rewrite fmap_nil. simpl. lra.
  - rewrite fmap_cons. simpl. rewrite IH, add_unrealized_priced. lra.
Qed.

Lemma unrealized_value_mark_to_market (ct : Timestamp)
    (pd : gmap string DataFrame) (s : Engine) :
  unrealized_value ct pd s == mark_to_market ct pd s.
Proof. unfold unrealized_value, mark_to_market. rewrite fold_unrealized. lra. Qed.

Lemma process_new_signals_books (ct : Timestamp) (pending pending' : list Signal)
    (s s' : Engine) :
  process_new_signals ct pending s = Some (pending', s') ->
  exists new,
    trades s' = trades s ++ new /\
    capital s' == capital s - Qsum (position_size_usd <$> new) /\
    same_books s s' /\
    (new = [] -> s' = s).
Proof.
  revert s. induction pending as [|sig rest IH]; simpl; intros s Hrun.
  - injection Hrun as <- <-. exists []. rewrite app_nil_r. simpl.
    split; [done|]. split; [lra|]. split; [apply same_books_refl | done].
  - destruct (signal_time sig <=? ct)%Z.
    + destruct (_process_signal sig s) as [s1|] eqn:Hp; [|discriminate].
      destruct (IH s1 Hrun) as (new & Htr & Hcap & Hb & Hnil).
      apply _process_signal_cases in Hp as [->|(t & Htr1 & _ & Hb1 & _ &
        Hcap1 & _)].
      * by exists new.
      * exists (t :: new).
        split; [by rewrite Htr, Htr1, <- app_assoc|].
        split; [rewrite fmap_cons, Qsum_cons, Hcap, Hcap1; lra|].
        split; [eapply same_books_trans; eassumption | discriminate].
    + injection Hrun as <- <-. exists []. rewrite app_nil_r. simpl.
      split; [done|]. split; [lra|]. split; [apply same_books_refl | done].
Qed.

Lemma run_iteration_sample (pd : gmap string DataFrame) (ct ct' : Timestamp)
    (pending pending' : list Signal) (s s' : Engine) :
  run_iteration pd ct pending s = Some (ct', pending', s') ->
  exists s1 new pt,
    _update_trades ct pd (day_reset ct s) = Some s1 /\
    trades s' = trades s1 ++ new /\
    equity_curve s' = equity_curve s ++ [pt] /\
    point_time pt = ct /\
    point_capital pt = capital s' /\
    point_equity pt == capital s1 + mark_to_market ct pd s1 /\
    point_equity pt ==
      point_capital pt + mark_to_market ct pd s1 +
      Qsum (position_size_usd <$> new).
Proof.
  unfold run_iteration. intros Hrun.
  destruct (_update_trades ct pd (day_reset ct s)) as [s1|] eqn:Hup;
    [|discriminate].
  simpl in Hrun.
  destruct (process_new_signals ct pending _) as [[pending1 s2]|] eqn:Had;
    [|discriminate].
  simpl in Hrun. injection Hrun as <- <- <-.
  destruct (process_new_signals_books _ _ _ _ _ Had)
    as (new & Htr & Hcap & (_ & Heq & _ & _ & Hcurve) & _).
  simpl in Htr, Hcap, Heq, Hcurve.
  destruct (_update_trades_store _ _ _ _ Hup) as (_ & _ & Hb & _).
  assert (Hc1 : equity_curve s1 = equity_curve s).
  { destruct Hb as (_ & _ & _ & _ & ->). unfold day_reset.
    by destruct (bool_decide _). }
  eexists s1, new, _. simpl.
  split; [done|]. split; [exact Htr|].
  split; [by rewrite Hcurve, Hc1|]. split; [done|]. split; [done|].
  rewrite Heq. pose proof (unrealized_value_mark_to_market ct pd s1) as Hm.
  simpl. split; [lra|]. rewrite Hcap. lra.
Qed.

Lemma next_time_advances (ct : Timestamp) (pending : list Signal)
    (s : Engine) :
  (ct + Timedelta_minutes 1 <= next_time ct pending s)%Z.
Proof.
  unfold next_time. destruct (active_trades s); [|lia].
  destruct pending as [|sig rest]; [lia|].
  destruct (_ <? signal_time sig)%Z; [|lia].
  destruct (Z.ltb_spec (ct + Timedelta_minutes 1)
              (signal_time sig - Timedelta_minutes 1)); lia.
Qed.

Lemma run_iteration_advances (pd : gmap string DataFrame)
    (ct ct' : Timestamp) (pending pending' : list Signal) (s s' : Engine) :
  run_iteration pd ct pending s = Some (ct', pending', s') ->
  (ct + Timedelta_minutes 1 <= ct')%Z.
Proof.
  unfold run_iteration. intros Hrun.
  destruct (_update_trades ct pd (day_reset ct s)) as [s1|]; [|discriminate].
  simpl in Hrun.
  destruct (process_new_signals ct pending _) as [[pending1 s2]|]; [|discriminate].
  simpl in Hrun. injection Hrun as <- <- <-. apply next_time_advances.
Qed.

(** The loop leaves because the clock passed [max_time], not because the
    iterations allotted ran out. *)
Lemma run_loop_exits (fuel : nat) (pd : gmap string DataFrame)
    (max_time ct ct' : Timestamp) (pending pending' : list Signal)
    (s s' : Engine) :
  (max_time - ct < Z.of_nat fuel * Timedelta_minutes 1)%Z ->
  run_loop fuel pd max_time ct pending s = Some (ct', pending', s') ->
  (max_time < ct')%Z.
Proof.
  revert ct pending s.
  induction fuel as [|fuel IH]; intros ct pending s Hfuel; simpl.
  - destruct (Z.leb_spec ct max_time) as [Hle|Hgt].
    + lia.
    + intros [= <- <- <-]. lia.
  - destruct (Z.leb_spec ct max_time) as [Hle|Hgt].
    + destruct (run_iteration pd ct pending s) as [[[ct1 p1] s1]|] eqn:Hit;
        [|discriminate].
      apply run_iteration_advances in Hit. apply IH.
      unfold Timedelta_minutes in *. lia.
    + intros [= <- <- <-]. lia.
Qed.

Lemma iterations_enough (min_time max_time : Timestamp) :
  (max_time - min_time <
     Z.of_nat (iterations min_time max_time) * Timedelta_minutes 1)%Z.
Proof.
  unfold iterations.
  assert (Hm : Timedelta_minutes 1 = 60000000000%Z) by reflexivity.
  rewrite Hm.
  destruct (Z.le_gt_cases min_time max_time) as [Hle|Hgt].
  - assert (0 <= (max_time - min_time) / 60000000000)%Z
      by (apply Z.div_pos; lia).
    rewrite Z2Nat.id by lia.
    pose proof (Z.mul_succ_div_gt (max_time - min_time) 60000000000
                  ltac:(lia)). lia.
  - lia.
Qed.


Lemma run_completes (signals : list Signal) (pd : gmap string DataFrame)
    (min_time max_time ct' : Timestamp) (pending' : list Signal)
    (s s' : Engine) :
  run_loop (iterations min_time max_time) pd max_time min_time
    (sort_signals signals) s = Some (ct', pending', s') ->
  (max_time < ct')%Z.
Proof. apply run_loop_exits, iterations_enough. Qed.


(** *** A whole run on well-formed inputs *)

Lemma insert_by_time_Forall (P : Signal -> Prop) (x : Signal)
    (l : list Signal) :
  P x -> Forall P l -> Forall P (insert_by_time x l).
Proof.
  intros Hx. induction 1 as [|y l Hy Hl IH]; simpl.
  - by repeat constructor.
  - destruct (_ <=? _)%Z; by repeat constructor.
Qed.

Lemma sort_signals_Forall (P : Signal -> Prop) (l : list Signal) :
  Forall P l -> Forall P (sort_signals l).
Proof.
  induction 1 as [|x l Hx Hl IH]; simpl; [constructor|].
  by apply insert_by_time_Forall.
Qed.

Lemma process_new_signals_cash (ct : Timestamp) (pending : list Signal)
    (s : Engine) :
  Forall (fun sig => 0 < price_at_signal sig) pending -> cash_ok s ->
  exists pending' s',
    process_new_signals ct pending s = Some (pending', s') /\
    Forall (fun sig => 0 < price_at_signal sig) pending' /\
    cash_ok s'.
Proof.
  intros Hv. revert s.
  induction Hv as [|sig rest Hsig Hrest IH]; simpl; intros s Hok.
  - exists [], s. split; [done|]. split; [constructor | exact Hok].
  - destruct (signal_time sig <=? ct)%Z.
    + destruct Hok as (Hc & Hs & Hcurve).
      destruct (call_cash (ProcessSignal sig) s Hsig Hc Hs)
        as (s1 & Hp & Hc1 & Hs1).
      simpl in Hp. rewrite Hp. apply IH.
      split; [exact Hc1|]. split; [exact Hs1|].
      apply _process_signal_cases in Hp
        as [->|(t & _ & _ & (_ & _ & _ & _ & ->) & _)]; exact Hcurve.
    + exists (sig :: rest), s. split; [done|]. split; [|done].
      by constructor.
Qed.

Lemma run_iteration_cash (pd : gmap string DataFrame) (ct : Timestamp)
    (pending : list Signal) (s : Engine) :
  prices_nonneg pd ->
  Forall (fun sig => 0 < price_at_signal sig) pending -> cash_ok s ->
  exists ct' pending' s',
    run_iteration pd ct pending s = Some (ct', pending', s') /\
    Forall (fun sig => 0 < price_at_signal sig) pending' /\
    cash_ok s'.
Proof.
  intros Hpd Hv (Hc & Hs & Hcurve). unfold run_iteration.
  assert (Hs0 : Forall sound (trades (day_reset ct s))).
  { unfold day_reset. by destruct (bool_decide _). }
  assert (Hc0 : capital (day_reset ct s) = capital s).
  { unfold day_reset. by destruct (bool_decide _). }
  assert (Hcurve0 : equity_curve (day_reset ct s) = equity_curve s).
  { unfold day_reset. by destruct (bool_decide _). }
  destruct (_update_trades_defined ct pd _ Hpd Hs0) as [s1 Hup].
  rewrite Hup. simpl.
  destruct (_update_trades_sound _ _ _ _ Hpd Hs0 Hup) as [Hs1 Hc1].
  destruct (_update_trades_store _ _ _ _ Hup)
    as (_ & _ & (_ & _ & _ & _ & Hcurve1) & _).
  set (s2 := set_equity _ s1).
  destruct (process_new_signals_cash ct pending s2 Hv)
    as (pending' & s3 & Had & Hv' & Hc3 & Hs3 & Hcurve3).
  { unfold s2. rewrite Hc0 in Hc1. split; [simpl; lra|]. split; [exact Hs1|].
    simpl. by rewrite Hcurve1, Hcurve0. }
  rewrite Had. simpl. do 3 eexists. split; [reflexivity|].
  split; [exact Hv'|]. split; [exact Hc3|]. split; [exact Hs3|].
  simpl. apply Forall_app. split; [exact Hcurve3|]. by repeat constructor.
Qed.

Lemma run_loop_cash (fuel : nat) (pd : gmap string DataFrame)
    (max_time ct : Timestamp) (pending : list Signal) (s : Engine) :
  prices_nonneg pd ->
  Forall (fun sig => 0 < price_at_signal sig) pending -> cash_ok s ->
  exists ct' pending' s',
    run_loop fuel pd max_time ct pending s = Some (ct', pending', s') /\
    cash_ok s'.
Proof.
  intros Hpd. revert ct pending s.
  induction fuel as [|fuel IH]; intros ct pending s Hv Hok; simpl.
  - destruct (ct <=? max_time)%Z; by do 3 eexists.
  - destruct (ct <=? max_time)%Z; [|by do 3 eexists].
    destruct (run_iteration_cash pd ct pending s Hpd Hv Hok)
      as (ct1 & p1 & s1 & -> & Hv1 & Hok1).
    by apply IH.
Qed.

Lemma run_cash (signals : list Signal) (pd : gmap string DataFrame)
    (c0 : Q) :
  0 <= c0 -> prices_nonneg pd ->
  Forall (fun sig => 0 < price_at_signal sig) signals ->
  exists s r, run signals pd (init c0) = Some (s, r) /\ cash_ok s.
Proof.
  intros Hc0 Hpd Hv. unfold run.
  assert (Hinit : cash_ok (init c0)) by (by repeat split; [simpl|constructor..]).
  destruct (min_of (all_times pd)) as [min_time|]; [|by do 2 eexists].
  destruct (max_of (all_times pd)) as [max_time|]; [|by do 2 eexists].
  destruct (run_loop_cash (iterations min_time max_time) pd max_time min_time
              (sort_signals signals) (init c0) Hpd)
    as (ct' & p' & s' & -> & Hok); [by apply sort_signals_Forall | done|].
  simpl. by do 2 eexists.
Qed.


(** More iterations than [iterations] allots change nothing. *)
Lemma run_loop_more_fuel (fuel fuel' : nat) (pd : gmap string DataFrame)
    (max_time ct ct' : Timestamp) (pending pending' : list Signal)
    (s s' : Engine) :
  run_loop fuel pd max_time ct pending s = Some (ct', pending', s') ->
  (max_time < ct')%Z -> (fuel <= fuel')%nat ->
  run_loop fuel' pd max_time ct pending s = Some (ct', pending', s').
Proof.
  revert fuel' ct pending s.
  induction fuel as [|fuel IH]; intros fuel' ct pending s; simpl.
  - destruct (Z.leb_spec ct max_time) as [Hle|Hgt].
    + intros [= <- <- <-]. lia.
    + intros Hrun _ _. destruct fuel'; simpl;
        destruct (Z.leb_spec ct max_time); (lia || done).
  - destruct (Z.leb_spec ct max_time) as [Hle|Hgt].
    + destruct (run_iteration pd ct pending s) as [[[ct1 p1] s1]|] eqn:Hit;
        [|discriminate].
      intros Hrun Hexit Hfuel. destruct fuel' as [|fuel']; [lia|]. simpl.
      destruct (Z.leb_spec ct max_time); [|lia]. rewrite Hit.
      apply IH; [done | done | lia].
    + intros Hrun _ _. destruct fuel'; simpl;
        destruct (Z.leb_spec ct max_time); (lia || done).
Qed.

Lemma run_loop_fuel_irrelevant (fuel : nat) (signals : list Signal)
    (pd : gmap string DataFrame) (min_time max_time ct' : Timestamp)
    (pending' : list Signal) (s s' : Engine) :
  run_loop (iterations min_time max_time) pd max_time min_time
    (sort_signals signals) s = Some (ct', pending', s') ->
  (iterations min_time max_time <= fuel)%nat ->
  run_loop fuel pd max_time min_time (sort_signals signals) s =
    Some (ct', pending', s').
Proof.
  intros Hrun Hfuel. eapply run_loop_more_fuel; [exact Hrun| |exact Hfuel].
  by eapply run_completes.
Qed.


(** *** The store and the books across the loop of [run] *)

Lemma day_reset_books (ct : Timestamp) (s : Engine) :
  trades (day_reset ct s) = trades s /\
  active_trades (day_reset ct s) = active_trades s.
Proof. unfold day_reset. by destruct (bool_decide _). Qed.

Lemma process_new_signals_keeps_books (ct : Timestamp)
    (pending pending' : list Signal) (s s' : Engine) :
  books_ok s -> process_new_signals ct pending s = Some (pending', s') ->
  books_ok s'.
Proof.
  revert s. induction pending as [|sig rest IH]; simpl; intros s Hok Hrun.
  - by injection Hrun as <- <-.
  - destruct (signal_time sig <=? ct)%Z.
    + destruct (_process_signal sig s) as [s1|] eqn:Hp; [|discriminate].
      apply (IH s1); [|exact Hrun]. by eapply _process_signal_books.
    + by injection Hrun as <- <-.
Qed.

Lemma run_iteration_books (pd : gmap string DataFrame) (ct ct' : Timestamp)
    (pending pending' : list Signal) (s s' : Engine) :
  run_iteration pd ct pending s = Some (ct', pending', s') ->
  store_evolves (trades s) (trades s') /\ (books_ok s -> books_ok s').
Proof.
  unfold run_iteration. intros Hrun.
  destruct (_update_trades ct pd (day_reset ct s)) as [s1|] eqn:Hup;
    [|discriminate].
  simpl in Hrun.
  destruct (process_new_signals ct pending _) as [[pending1 s2]|] eqn:Had;
    [|discriminate].
  simpl in Hrun. injection Hrun as <- <- <-. simpl.
  destruct (day_reset_books ct s) as [Htr Hact].
  destruct (_update_trades_store _ _ _ _ Hup) as (Hev & _).
  rewrite Htr in Hev.
  destruct (process_new_signals_books _ _ _ _ _ Had) as (new & Hnew & _).
  simpl in Hnew. split.
  - eapply store_evolves_trans; [exact Hev|]. rewrite Hnew.
    apply store_evolves_app.
  - intros Hok.
    assert (Hok0 : books_ok (day_reset ct s)).
    { unfold books_ok, handles_ok. by rewrite Htr, Hact. }
    pose proof (_update_trades_books _ _ _ _ Hok0 Hup) as Hok1.
    assert (Hok2 : books_ok s2).
    { eapply process_new_signals_keeps_books; [|exact Had]. exact Hok1. }
    exact Hok2.
Qed.

Lemma run_loop_books (fuel : nat) (pd : gmap string DataFrame)
    (max_time ct ct' : Timestamp) (pending pending' : list Signal)
    (s s' : Engine) :
  run_loop fuel pd max_time ct pending s = Some (ct', pending', s') ->
  store_evolves (trades s) (trades s') /\ (books_ok s -> books_ok s').
Proof.
  revert ct pending s.
  induction fuel as [|fuel IH]; intros ct pending s; simpl.
  - destruct (ct <=? max_time)%Z; intros [= <- <- <-];
      (split; [apply store_evolves_refl | done]).
  - destruct (ct <=? max_time)%Z.
    + destruct (run_iteration pd ct pending s) as [[[ct1 p1] s1]|] eqn:Hit;
        [|discriminate].
      intros Hrun. apply run_iteration_books in Hit as [E1 B1].
      apply IH in Hrun as [E2 B2].
      split; [eapply store_evolves_trans; eassumption | tauto].
    + intros [= <- <- <-]. split; [apply store_evolves_refl | done].
Qed.

Lemma run_books (signals : list Signal) (pd : gmap string DataFrame)
    (s s' : Engine) (r : option BacktestResult) :
  run signals pd s = Some (s', r) ->
  store_evolves (trades s) (trades s') /\ (books_ok s -> books_ok s').
Proof.
  unfold run.
  destruct (min_of (all_times pd)) as [min_time|];
    [|intros [= <- <-]; split; [apply store_evolves_refl | done]].
  destruct (max_of (all_times pd)) as [max_time|];
    [|intros [= <- <-]; split; [apply store_evolves_refl | done]].
  destruct (run_loop _ _ _ _ _ _) as [[[ct' p'] s1]|] eqn:Hloop;
    [|discriminate].
  simpl. intros [= <- <-]. by eapply run_loop_books.
Qed.

End BacktestFacts.

(** ** The paper trader *)

Module PaperFacts.
Import Paper.
Local Open Scope Q_scope.

(** *** The relations between states of a trade *)

Lemma pt_evolves_refl (t : PaperTrade) : evolves t t.
Proof. unfold evolves. repeat split; try lra; done. Qed.

Lemma pt_evolves_trans (t1 t2 t3 : PaperTrade) :
  evolves t1 t2 -> evolves t2 t3 -> evolves t1 t3.
Proof.
  unfold evolves.
  intros (A1 & A2 & A3 & A4 & A5 & A6 & A7 & A8 & A9)
         (B1 & B2 & B3 & B4 & B5 & B6 & B7 & B8 & B9).
  repeat split; try congruence; try lra.
  by etrans.
Qed.

Lemma pt_body_step_refl (mc : Q) (s : PaperTrader) (t : PaperTrade) :
  body_step mc s t s t.
Proof.
  unfold body_step. split; [apply pt_evolves_refl|].
  split; [done|]. split; [done|]. split.
  - unfold only_capital. by destruct s.
  - intros Hs _. split; [exact Hs | lra].
Qed.

Lemma pt_body_step_trans (mc : Q) (s1 s2 s3 : PaperTrader)
    (t1 t2 t3 : PaperTrade) :
  body_step mc s1 t1 s2 t2 -> body_step mc s2 t2 s3 t3 ->
  body_step mc s1 t1 s3 t3.
Proof.
  unfold body_step, only_capital.
  intros (E1 & S1 & R1 & C1 & K1) (E2 & S2 & R2 & C2 & K2).
  split; [eapply pt_evolves_trans; eassumption|].
  split; [congruence|]. split; [congruence|]. split.
  - rewrite C2 at 1. rewrite C1 at 1. by destruct s1.
  - intros Hs Hp. destruct (K1 Hs Hp) as [Hs2 Hc1].
    destruct (K2 Hs2 Hp) as [Hs3 Hc2]. split; [exact Hs3 | lra].
Qed.

(** *** The peak and the potential used *)

Lemma update_peak_evolves (mc : Q) (t : PaperTrade) :
  evolves t (update_peak mc t) /\
  update_peak mc t = set_peak_mc (peak_mc (update_peak mc t)) t.
Proof.
  unfold update_peak.
  destruct (Qgtb mc (peak_mc t)) eqn:E; qprop.
  - split; [|done]. unfold evolves. simpl. repeat split; try lra; done.
  - split; [apply pt_evolves_refl | by destruct t].
Qed.

Lemma update_peak_sound (mc : Q) (t : PaperTrade) :
  sound t -> sound (update_peak mc t).
Proof.
  destruct (update_peak_evolves mc t) as [_ ->]. by unfold sound.
Qed.

Lemma update_peak_status (mc : Q) (t : PaperTrade) :
  status (update_peak mc t) = status t /\
  exit_reason (update_peak mc t) = exit_reason t.
Proof.
  destruct (update_peak_evolves mc t) as [_ ->]. by split.
Qed.

Lemma target_gap_nonzero (t : PaperTrade) :
  ~ entry_mc t == 0 -> ~ base_potential t - 1.0 == 0 ->
  ~ entry_mc t * base_potential t - entry_mc t == 0.
Proof.
  intros He Hb Hz.
  assert (Hm : entry_mc t * (base_potential t - 1.0) == 0) by lra.
  apply Qmult_integral in Hm. tauto.
Qed.

Lemma potential_used_defined (mc : Q) (t : PaperTrade) :
  ~ entry_mc t == 0 -> ~ base_potential t - 1.0 == 0 ->
  exists pct, potential_used mc t = Some pct.
Proof.
  intros He Hb. unfold potential_used.
  rewrite (div_defined _ _ He). simpl. rewrite (div_defined _ _ Hb). simpl.
  destruct (Qleb _ _); [by eexists|].
  rewrite div_defined by (by apply target_gap_nonzero). by eexists.
Qed.

Lemma potential_used_Some (mc pct : Q) (t : PaperTrade) :
  potential_used mc t = Some pct -> ~ entry_mc t == 0.
Proof.
  unfold potential_used.
  destruct (div mc (entry_mc t)) as [x|] eqn:D; [|discriminate].
  by apply div_Some in D as [He _].
Qed.

(** *** Partial closes and the take-profit tiers *)

Lemma pt_sale_units_bounds (pct : Q) (t : PaperTrade) :
  sound t -> 0 <= pct ->
  0 <= sale_units pct t /\ sale_units pct t <= current_units t.
Proof.
  intros (Hu & Hi & _) Hpct. unfold sale_units.
  destruct (Qgtb (initial_units t * pct) (current_units t)) eqn:E; qprop.
  - lra.
  - split; [nra | lra].
Qed.

Lemma exit_price_proxy_nonneg (mc : Q) (t : PaperTrade) :
  sound t -> 0 <= mc -> 0 <= exit_price_proxy mc t.
Proof.
  intros (_ & _ & Hp & He & _) Hmc. unfold exit_price_proxy.
  pose proof (Qdiv_nonneg mc (entry_mc t) Hmc He). nra.
Qed.

Lemma pt_partial_close_eq (t t' : PaperTrade) (pct mc : Q) (reason : string)
    (s s' : PaperTrader) :
  _partial_close t pct mc reason s = Some (s', t') ->
  ~ entry_mc t == 0 /\
  s' = set_capital
         (capital s + sale_units pct t * exit_price_proxy mc t) s /\
  t' = after_sale (sale_units pct t) mc t.
Proof.
  unfold _partial_close.
  destruct (div mc (entry_mc t)) as [r|] eqn:D; [|discriminate].
  apply div_Some in D as [Hne ->]. simpl. intros [= <- <-].
  split; [exact Hne|]. split; reflexivity.
Qed.

Lemma pt_partial_close_defined (t : PaperTrade) (pct mc : Q)
    (reason : string) (s : PaperTrader) :
  ~ entry_mc t == 0 ->
  _partial_close t pct mc reason s =
    Some (set_capital
            (capital s + sale_units pct t * exit_price_proxy mc t) s,
          after_sale (sale_units pct t) mc t).
Proof.
  intros Hne. unfold _partial_close. rewrite (div_defined _ _ Hne).
  reflexivity.
Qed.

Lemma take_profit_body_step (th pct : Q) (level reason : string)
    (pct_used mc : Q) (h : nat) (t t' : PaperTrade) (s s' : PaperTrader)
    (ups ups' : list Update) :
  0 <= pct ->
  take_profit th pct level reason pct_used mc h t s ups = Some (s', t', ups') ->
  body_step mc s t s' t'.
Proof.
  intros Hpct. unfold take_profit.
  destruct (Qgeb pct_used th && negb (level_hit level t));
    [|intros [= <- <- <-]; apply pt_body_step_refl].
  destruct (_partial_close t pct mc reason s) as [[s1 t1]|] eqn:P;
    [|discriminate].
  apply pt_partial_close_eq in P as (_ & -> & ->). simpl. intros [= <- <- <-].
  unfold body_step. split.
  - unfold evolves. simpl. repeat split; try lra; try done.
    + set_solver.
    + rewrite Qsum_snoc. lra.
  - split; [done|]. split; [done|]. split.
    + unfold only_capital. by destruct s.
    + intros Hs Hmc. destruct (pt_sale_units_bounds pct t Hs Hpct) as [H0 H1].
      pose proof (exit_price_proxy_nonneg mc t Hs Hmc) as Hx.
      destruct Hs as (Hu & Hi & Hp & He & Hb). unfold sound. simpl.
      repeat split; try lra. nra.
Qed.

Lemma take_profit_defined (th pct : Q) (level reason : string)
    (pct_used mc : Q) (h : nat) (t : PaperTrade) (s : PaperTrader)
    (ups : list Update) :
  ~ entry_mc t == 0 ->
  exists s' t' ups',
    take_profit th pct level reason pct_used mc h t s ups =
      Some (s', t', ups').
Proof.
  intros Hne. unfold take_profit.
  destruct (Qgeb pct_used th && negb (level_hit level t)); [|by do 3 eexists].
  rewrite (pt_partial_close_defined _ _ _ _ _ Hne). simpl. by do 3 eexists.
Qed.

(** *** Full closes *)

Lemma pt_close_trade_eq (now : Timestamp) (h : nat) (t : PaperTrade)
    (mc : Q) (reason : string) (s s' : PaperTrader) :
  _close_trade now h t mc reason s = Some s' ->
  ~ entry_mc t == 0 /\
  s' = set_active_trades (list_remove h (active_trades s))
         (set_trades (<[h := closed_trade now mc reason t]> (trades s))
            (set_capital
               (capital s + current_units t * exit_price_proxy mc t) s)).
Proof.
  unfold _close_trade.
  destruct (div mc (entry_mc t)) as [r|] eqn:D; [|discriminate].
  apply div_Some in D as [Hne ->]. simpl. intros [= <-]. by split.
Qed.

Lemma pt_close_trade_defined (now : Timestamp) (h : nat) (t : PaperTrade)
    (mc : Q) (reason : string) (s : PaperTrader) :
  ~ entry_mc t == 0 ->
  exists s', _close_trade now h t mc reason s = Some s'.
Proof.
  intros Hne. unfold _close_trade. rewrite (div_defined _ _ Hne).
  by eexists.
Qed.

Lemma pt_closed_trade_evolves (now : Timestamp) (mc : Q) (reason : string)
    (t : PaperTrade) :
  evolves t (closed_trade now mc reason t).
Proof.
  unfold evolves, closed_trade. simpl. repeat split; try lra; try done.
  rewrite Qsum_snoc. lra.
Qed.

(** *** One turn of the loop of [update_trades] *)

Lemma pt_turn_outcome_skip (h : nat) (cap_ok : Prop) (s : PaperTrader)
    (t : PaperTrade) :
  trades s !! h = Some t -> turn_outcome h cap_ok s t s.
Proof.
  intros Ht. exists t. split; [symmetry; by apply list_insert_id|].
  split; [apply pt_evolves_refl|]. do 3 (split; [done|]).
  split; [left; done|]. intros Hs _. split; [exact Hs | lra].
Qed.

Lemma pt_turn_outcome_closed (now : Timestamp) (h : nat) (cap_ok : Prop)
    (mc : Q) (reason : string) (s s' : PaperTrader) (t t1 : PaperTrade) :
  evolves t t1 -> (sound t -> sound t1) -> (cap_ok -> 0 <= mc) ->
  _close_trade now h t1 mc reason s = Some s' ->
  turn_outcome h cap_ok s t s'.
Proof.
  intros Hev Hs1 Hmc Hc. apply pt_close_trade_eq in Hc as [_ ->].
  exists (closed_trade now mc reason t1). simpl.
  split; [done|].
  split; [eapply pt_evolves_trans; [exact Hev|apply pt_closed_trade_evolves]|].
  do 3 (split; [done|]). split; [right; done|].
  intros Hs Hok. specialize (Hs1 Hs). specialize (Hmc Hok).
  pose proof (exit_price_proxy_nonneg mc t1 Hs1 Hmc) as Hx.
  destruct Hs1 as (Hu & Hi & Hp & He & Hb). unfold sound. simpl.
  repeat split; try lra. nra.
Qed.

Lemma pt_update_trade_outcome (now : Timestamp) (m : gmap string Q)
    (h : nat) (s s' : PaperTrader) (ups ups' : list Update)
    (t : PaperTrade) :
  update_trade now m h (s, ups) = Some (s', ups') ->
  trades s !! h = Some t ->
  turn_outcome h (caps_nonneg m) s t s'.
Proof.
  intros Hup Ht. unfold update_trade in Hup. rewrite Ht in Hup.
  destruct (m !! token_address t) as [mc|] eqn:Hm;
    [|injection Hup as <- <-; by apply pt_turn_outcome_skip].
  destruct (Qeq_bool mc 0);
    [injection Hup as <- <-; by apply pt_turn_outcome_skip|].
  assert (Hmc : caps_nonneg m -> 0 <= mc) by (intros Hc; by eapply Hc).
  destruct (update_peak_evolves mc t) as [L1 _].
  pose proof (update_peak_sound mc t) as S1.
  destruct (update_peak_status mc t) as [R1a R1b].
  set (t1 := update_peak mc t) in *.
  destruct (potential_used mc t1) as [pct_used|]; [|discriminate].
  simpl in Hup.
  destruct (div (entry_mc t1 - mc) (entry_mc t1)) as [loss_pct|];
    [|discriminate].
  simpl in Hup.
  destruct (Qgeb loss_pct 0.30).
  { destruct (_close_trade now h t1 mc "STOP_LOSS_30_PCT" s) as [s1|] eqn:C;
      [|discriminate].
    injection Hup as <- <-. by eapply pt_turn_outcome_closed. }
  destruct (Qgtb (duration_mins now t1) 90 && Qltb pct_used 0.30).
  { destruct (_close_trade now h t1 mc "TIME_EXIT_STAGNANT" s) as [s1|] eqn:C;
      [|discriminate].
    injection Hup as <- <-. by eapply pt_turn_outcome_closed. }
  destruct (take_profit 0.30 0.20 "30%" "TP_30_PCT" pct_used mc h t1 s ups)
    as [[[s2 t2] u2]|] eqn:T1; [|discriminate].
  apply take_profit_body_step in T1; [|lra]. simpl in Hup.
  destruct (take_profit 0.50 0.25 "50%" "TP_50_PCT" pct_used mc h t2 s2 u2)
    as [[[s3 t3] u3]|] eqn:T2; [|discriminate].
  apply take_profit_body_step in T2; [|lra]. simpl in Hup.
  destruct (take_profit 0.70 0.30 "70%" "TP_70_PCT" pct_used mc h t3 s3 u3)
    as [[[s4 t4] u4]|] eqn:T3; [|discriminate].
  apply take_profit_body_step in T3; [|lra]. simpl in Hup.
  injection Hup as <- <-.
  pose proof (pt_body_step_trans _ _ _ _ _ _ _ T1
                (pt_body_step_trans _ _ _ _ _ _ _ T2 T3))
    as (Hev & Hst & Hre & Hcap & Hk).
  exists t4. unfold only_capital in Hcap. rewrite Hcap. simpl.
  split; [done|]. split; [eapply pt_evolves_trans; eassumption|].
  do 3 (split; [done|]).
  split; [left; by rewrite Hst, Hre, R1a, R1b|].
  intros Hs Hok. apply Hk; [by apply S1 | by apply Hmc].
Qed.


Lemma pt_update_trade_no_trade (now : Timestamp) (m : gmap string Q)
    (h : nat) (st : PaperTrader * list Update) :
  trades st.1 !! h = None -> update_trade now m h st = Some st.
Proof.
  destruct st as [s ups]. cbn [fst]. intros Ht. unfold update_trade.
  by rewrite Ht.
Qed.

(** *** [update_trades] as a whole *)

Lemma pt_store_evolves_refl (l : list PaperTrade) : store_evolves l l.
Proof.
  intros h t Ht. exists t. split; [exact Ht | apply pt_evolves_refl].
Qed.

Lemma pt_store_evolves_trans (l1 l2 l3 : list PaperTrade) :
  store_evolves l1 l2 -> store_evolves l2 l3 -> store_evolves l1 l3.
Proof.
  intros H12 H23 h t Ht. destruct (H12 h t Ht) as (t2 & Ht2 & E12).
  destruct (H23 h t2 Ht2) as (t3 & Ht3 & E23).
  exists t3. split; [exact Ht3 | eapply pt_evolves_trans; eassumption].
Qed.

Lemma pt_store_evolves_insert (l : list PaperTrade) (h : nat)
    (t t' : PaperTrade) :
  l !! h = Some t -> evolves t t' -> store_evolves l (<[h := t']> l).
Proof.
  intros Ht Hev j tj Hj. destruct (decide (j = h)) as [->|Hne].
  - exists t'. split.
    + apply list_lookup_insert_eq. by eapply lookup_lt_Some.
    + congruence.
  - exists tj.
    split; [by rewrite list_lookup_insert_ne | apply pt_evolves_refl].
Qed.

Lemma pt_store_evolves_Forall (P : PaperTrade -> Prop)
    (l l' : list PaperTrade) :
  (forall t t', P t -> evolves t t' -> P t') ->
  store_evolves l l' -> length l' = length l -> Forall P l -> Forall P l'.
Proof.
  intros HP Hev Hlen Hl. apply Forall_lookup. intros h t' Ht'.
  destruct (l !! h) as [t|] eqn:Ht.
  - destruct (Hev h t Ht) as (t2 & Ht2 & E).
    rewrite Ht' in Ht2. injection Ht2 as <-.
    eapply HP; [|exact E]. eapply Forall_lookup_1; eassumption.
  - apply lookup_ge_None in Ht. apply lookup_lt_Some in Ht'. lia.
Qed.

Lemma pt_update_trade_store (now : Timestamp) (m : gmap string Q) (h : nat)
    (st st' : PaperTrader * list Update) :
  update_trade now m h st = Some st' ->
  store_evolves (trades st.1) (trades st'.1) /\
  length (trades st'.1) = length (trades st.1) /\
  active_trades st'.1 ⊆ active_trades st.1.
Proof.
  destruct st as [s ups], st' as [s' ups']. cbn [fst snd]. intros Hup.
  destruct (trades s !! h) as [t|] eqn:Ht.
  - destruct (pt_update_trade_outcome _ _ _ _ _ _ _ _ Hup Ht)
      as (t' & -> & Hev & _ & _ & _ & Hact & _).
    split; [by eapply pt_store_evolves_insert|].
    split; [apply length_insert|].
    destruct Hact as [(_ & _ & ->)|(_ & _ & ->)];
      [done | apply list_remove_subseteq].
  - rewrite (pt_update_trade_no_trade _ _ _ (s, ups) Ht) in Hup.
    injection Hup as <- <-.
    split; [apply pt_store_evolves_refl|]. by split.
Qed.

Lemma pt_update_trades_store (now : Timestamp) (m : gmap string Q)
    (s s' : PaperTrader) (ups' : list Update) :
  update_trades now m s = Some (s', ups') ->
  store_evolves (trades s) (trades s') /\
  length (trades s') = length (trades s) /\
  active_trades s' ⊆ active_trades s.
Proof.
  unfold update_trades. intros Hrun.
  apply (for_each_invariant (update_trade now m)
           (fun _ st1 =>
              store_evolves (trades s) (trades st1.1) /\
              length (trades st1.1) = length (trades s) /\
              active_trades st1.1 ⊆ active_trades s))
    with (l := active_trades s) (s := (s, [])) (s' := (s', ups'));
    [| |exact Hrun].
  - intros h rest st1 st2 (A1 & A2 & A3) Hb.
    apply pt_update_trade_store in Hb as (B1 & B2 & B3).
    split; [eapply pt_store_evolves_trans; eassumption|].
    split; [congruence | set_solver].
  - simpl. split; [apply pt_store_evolves_refl|]. by split.
Qed.

Lemma pt_update_trade_sound (now : Timestamp) (m : gmap string Q) (h : nat)
    (st st' : PaperTrader * list Update) :
  caps_nonneg m -> Forall sound (trades st.1) ->
  update_trade now m h st = Some st' ->
  Forall sound (trades st'.1) /\ capital st.1 <= capital st'.1.
Proof.
  destruct st as [s ups], st' as [s' ups']. cbn [fst snd]. intros Hm Hs Hup.
  destruct (trades s !! h) as [t|] eqn:Ht.
  - destruct (pt_update_trade_outcome _ _ _ _ _ _ _ _ Hup Ht)
      as (t' & -> & _ & _ & _ & _ & _ & Hk).
    destruct Hk as [Hs' Hc]; [by eapply Forall_lookup_1 | exact Hm|].
    split; [by apply Forall_insert | exact Hc].
  - rewrite (pt_update_trade_no_trade _ _ _ (s, ups) Ht) in Hup.
    injection Hup as <- <-. split; [exact Hs | lra].
Qed.

Lemma pt_update_trade_defined (now : Timestamp) (m : gmap string Q)
    (h : nat) (st : PaperTrader * list Update) :
  Forall sound (trades st.1) -> exists st', update_trade now m h st = Some st'.
Proof.
  destruct st as [s ups]. cbn [fst]. intros Hs. unfold update_trade.
  destruct (trades s !! h) as [t|] eqn:Ht; [|by eexists].
  pose proof (Forall_lookup_1 _ _ _ _ Hs Ht) as Hsound.
  destruct (m !! token_address t) as [mc|]; [|by eexists].
  destruct (Qeq_bool mc 0); [by eexists|].
  apply (update_peak_sound mc) in Hsound.
  set (t1 := update_peak mc t) in *.
  assert (He : ~ entry_mc t1 == 0) by (destruct Hsound as (_&_&_&?&_); lra).
  assert (Hb : ~ base_potential t1 - 1.0 == 0)
    by (destruct Hsound as (_&_&_&_&?); lra).
  destruct (potential_used_defined mc t1 He Hb) as [pct_used ->]. simpl.
  rewrite (div_defined _ _ He). simpl.
  destruct (Qgeb _ 0.30).
  { destruct (pt_close_trade_defined now h t1 mc "STOP_LOSS_30_PCT" s He)
      as [s1 ->]. by eexists. }
  destruct (Qgtb _ 90 && Qltb pct_used 0.30).
  { destruct (pt_close_trade_defined now h t1 mc "TIME_EXIT_STAGNANT" s He)
      as [s1 ->]. by eexists. }
  destruct (take_profit_defined 0.30 0.20 "30%" "TP_30_PCT" pct_used mc h
              t1 s ups He) as (s2 & t2 & u2 & T1).
  rewrite T1. simpl. apply take_profit_body_step in T1; [|lra].
  destruct T1 as ((_ & E2 & _) & _).
  destruct (take_profit_defined 0.50 0.25 "50%" "TP_50_PCT" pct_used mc h
              t2 s2 u2) as (s3 & t3 & u3 & T2); [by rewrite E2|].
  rewrite T2. simpl. apply take_profit_body_step in T2; [|lra].
  destruct T2 as ((_ & E3 & _) & _).
  destruct (take_profit_defined 0.70 0.30 "70%" "TP_70_PCT" pct_used mc h
              t3 s3 u3) as (s4 & t4 & u4 & T3); [by rewrite E3, E2|].
  rewrite T3. simpl. by eexists.
Qed.

Lemma pt_update_trades_cash (now : Timestamp) (m : gmap string Q)
    (s : PaperTrader) :
  caps_nonneg m -> Forall sound (trades s) ->
  exists s' ups',
    update_trades now m s = Some (s', ups') /\
    Forall sound (trades s') /\ capital s <= capital s'.
Proof.
  intros Hm Hs. unfold update_trades.
  destruct (for_each_defined (update_trade now m)
              (fun st1 => Forall sound (trades st1.1) /\
                          capital s <= capital st1.1)) with
    (l := active_trades s) (s := (s, @nil Update))
    as ([s' ups'] & Hrun & Hs' & Hc).
  - intros h st1 [Hs1 Hc1].
    destruct (pt_update_trade_defined now m h st1 Hs1) as [st2 Hb].
    exists st2. split; [exact Hb|].
    destruct (pt_update_trade_sound _ _ _ _ _ Hm Hs1 Hb) as [Hs2 Hc2].
    split; [exact Hs2 | lra].
  - simpl. split; [exact Hs | lra].
  - by exists s', ups'.
Qed.

(** *** [process_signal] *)

Lemma process_signal_cases (now : Timestamp) (sd : PairDict)
    (s : PaperTrader) :
  process_signal now sd s = (s, None) \/
  exists t,
    (process_signal now sd s).2 = Some (length (trades s)) /\
    trades (process_signal now sd s).1 = trades s ++ [t] /\
    active_trades (process_signal now sd s).1 =
      active_trades s ++ [length (trades s)] /\
    capital (process_signal now sd s).1 = capital s - capital s * 0.05 /\
    0 < capital s /\
    (length (active_trades s) < max_trades s)%nat /\
    entry_mc t = mc_of sd /\
    entry_price_proxy t = price_usd_of sd /\
    base_potential t = 2.0 /\
    initial_units t = current_units t /\
    current_units t =
      (if Qeq_bool (price_usd_of sd) 0 then 0
       else capital s * 0.05 / price_usd_of sd) /\
    units_sold t = [] /\
    status t = "OPEN".
Proof.
  unfold process_signal.
  destruct (max_trades s <=? length (active_trades s))%nat eqn:Hm;
    [by left|].
  destruct (Qleb (capital s) 0) eqn:Hc; [by left|].
  right. qprop. apply Nat.leb_gt in Hm.
  eexists. simpl. repeat split; try reflexivity; done.
Qed.


(** *** Handles, closed trades and the ledger *)

Lemma pt_evolves_conserved (t t' : PaperTrade) :
  conserved t -> evolves t t' -> conserved t'.
Proof.
  unfold conserved, evolves.
  intros Hc (_ & _ & _ & _ & -> & _ & _ & _ & ->). exact Hc.
Qed.

Lemma pt_update_trade_handles (now : Timestamp) (m : gmap string Q)
    (h : nat) (st st' : PaperTrader * list Update) :
  handles_ok st.1 -> Forall settled (trades st.1) ->
  h ∈ active_trades st.1 ->
  update_trade now m h st = Some st' ->
  handles_ok st'.1 /\ Forall settled (trades st'.1) /\
  (forall j, j ∈ active_trades st.1 -> j <> h -> j ∈ active_trades st'.1).
Proof.
  destruct st as [s ups], st' as [s' ups']. cbn [fst snd].
  intros [Hnd Hopen] Hset Hh Hup.
  destruct (Hopen h Hh) as (t & Ht & Hst).
  destruct (pt_update_trade_outcome _ _ _ _ _ _ _ _ Hup Ht)
    as (t' & Htr & _ & _ & _ & _ & Hact & _).
  pose proof (lookup_lt_Some _ _ _ Ht) as Hlt.
  destruct Hact as [(Hst' & _ & Ha)|(Hst' & Hu & Ha)].
  - split; [|split].
    + split; [by rewrite Ha|]. intros j Hj. rewrite Ha in Hj. rewrite Htr.
      destruct (decide (j = h)) as [->|Hne].
      * exists t'. split; [by apply list_lookup_insert_eq | congruence].
      * rewrite list_lookup_insert_ne by done. by apply Hopen.
    + rewrite Htr. apply Forall_insert; [exact Hset|].
      intros Hc. rewrite Hst', Hst in Hc. discriminate.
    + intros j Hj _. by rewrite Ha.
  - destruct (list_remove_NoDup h _ Hnd) as [Hnd' Hnot].
    split; [|split].
    + split; [by rewrite Ha|]. intros j Hj. rewrite Ha in Hj. rewrite Htr.
      assert (j <> h) by (intros ->; contradiction).
      rewrite list_lookup_insert_ne by done.
      apply Hopen. by apply (list_remove_subseteq h).
    + rewrite Htr. apply Forall_insert; [exact Hset|].
      intros _. rewrite Hu. reflexivity.
    + intros j Hj Hne. rewrite Ha. by apply list_remove_elem_ne.
Qed.

Lemma pt_update_trades_books (now : Timestamp) (m : gmap string Q)
    (s s' : PaperTrader) (ups' : list Update) :
  books_ok s -> update_trades now m s = Some (s', ups') -> books_ok s'.
Proof.
  intros (H1 & H2 & H3) Hrun.
  destruct (pt_update_trades_store _ _ _ _ _ Hrun) as (Hev & Hlen & _).
  cut (handles_ok s' /\ Forall settled (trades s')).
  { intros [H1' H2']. split; [exact H1'|]. split; [exact H2'|].
    eapply pt_store_evolves_Forall; [apply pt_evolves_conserved | | |];
      eassumption. }
  unfold update_trades in Hrun.
  cut (handles_ok (s', ups').1 /\ Forall settled (trades (s', ups').1) /\
       NoDup (@nil nat) /\ [] ⊆ active_trades (s', ups').1); [simpl; tauto|].
  apply (for_each_invariant (update_trade now m)
           (fun rest st1 =>
              handles_ok st1.1 /\ Forall settled (trades st1.1) /\
              NoDup rest /\ rest ⊆ active_trades st1.1))
    with (l := active_trades s) (s := (s, [])); [| |exact Hrun].
  - intros h rest st1 st2 (A1 & A2 & A3 & A4) Hb.
    apply NoDup_cons in A3 as [Hh A3].
    destruct (pt_update_trade_handles _ _ _ _ _ A1 A2
                (A4 h ltac:(set_solver)) Hb) as (B1 & B2 & B3).
    split; [exact B1|]. split; [exact B2|]. split; [exact A3|].
    intros j Hj. apply B3; [set_solver|]. intros ->. contradiction.
  - simpl. split; [exact H1|]. split; [exact H2|]. split; [apply H1 | done].
Qed.

Lemma process_signal_books (now : Timestamp) (sd : PairDict)
    (s : PaperTrader) :
  books_ok s -> books_ok (process_signal now sd s).1.
Proof.
  intros ([Hnd Hopen] & H2 & H3).
  destruct (process_signal_cases now sd s) as [->|(t & _ & Htr & Ha & _ & _ &
    _ & _ & _ & _ & Hi & _ & Hsold & Hst)]; [done|].
  split; [split|split].
  - rewrite Ha. apply NoDup_app. split; [exact Hnd|].
    split; [|apply NoDup_singleton].
    intros j Hj Hj'. apply list_elem_of_singleton in Hj' as ->.
    destruct (Hopen _ Hj) as (tj & Htj & _).
    apply lookup_lt_Some in Htj. lia.
  - intros j Hj. rewrite Ha in Hj. rewrite Htr.
    apply elem_of_app in Hj as [Hj|Hj].
    + destruct (Hopen _ Hj) as (tj & Htj & Hs). exists tj.
      split; [by apply lookup_app_l_Some | exact Hs].
    + apply list_elem_of_singleton in Hj as ->. exists t.
      split; [|exact Hst]. rewrite lookup_app_r by lia.
      by rewrite Nat.sub_diag.
  - rewrite Htr. apply Forall_app. split; [exact H2|].
    apply Forall_singleton. intros Hc. rewrite Hst in Hc. discriminate.
  - rewrite Htr. apply Forall_app. split; [exact H3|].
    apply Forall_singleton. unfold conserved.
    rewrite Hi, Hsold. simpl. lra.
Qed.

Lemma pt_init_books (c : Q) : books_ok (init c).
Proof.
  unfold books_ok, handles_ok. simpl.
  split; [split; [constructor | set_solver]|]. split; constructor.
Qed.

Lemma pt_calls_books (cs : list Call) (s s' : PaperTrader) :
  books_ok s -> calls cs s = Some s' -> books_ok s'.
Proof.
  revert s. induction cs as [|c cs IH]; simpl; intros s Hok Hrun.
  - by injection Hrun as <-.
  - destruct (call c s) as [s1|] eqn:Hc; [|discriminate].
    apply (IH s1); [|exact Hrun].
    destruct c as [now sd|now m]; simpl in Hc.
    + injection Hc as <-. by apply process_signal_books.
    + destruct (update_trades now m s) as [[s2 ups]|] eqn:Hu; [|discriminate].
      injection Hc as <-. by eapply pt_update_trades_books.
Qed.

(** *** Sequences of calls: the cash *)

Lemma pt_call_cash (c : Call) (s : PaperTrader) :
  valid_call c -> 0 <= capital s -> Forall sound (trades s) ->
  exists s', call c s = Some s' /\ 0 <= capital s' /\ Forall sound (trades s').
Proof.
  destruct c as [now sd|now m]; simpl; intros Hv Hc Hs.
  - eexists. split; [reflexivity|].
    destruct (process_signal_cases now sd s) as [->|(t & _ & Htr & _ & Hcap &
      Hpos & _ & Hmc & Hpr & Hbp & Hi & Hu & _)]; [done|].
    split; [rewrite Hcap; lra|].
    rewrite Htr. apply Forall_app. split; [exact Hs|].
    apply Forall_singleton. destruct Hv as [Hp0 Hm0].
    assert (H0 : 0 <= current_units t).
    { rewrite Hu. destruct (Qeq_bool (price_usd_of sd) 0) eqn:E; [lra|].
      apply Qdiv_nonneg; [lra|].
      assert (~ price_usd_of sd == 0)
        by (intros Hz; apply Qeq_bool_iff in Hz; congruence).
      lra. }
    unfold sound. rewrite Hi, Hpr, Hmc, Hbp. repeat split; try done.
  - destruct (pt_update_trades_cash now m s Hv Hs)
      as (s' & ups' & -> & Hs' & Hc').
    exists s'. split; [done|]. split; [lra | exact Hs'].
Qed.

Lemma pt_calls_cash (cs : list Call) (s : PaperTrader) :
  Forall valid_call cs -> 0 <= capital s -> Forall sound (trades s) ->
  exists s',
    calls cs s = Some s' /\ 0 <= capital s' /\ Forall sound (trades s').
Proof.
  intros Hv. revert s. induction Hv as [|c cs Hc Hcs IH]; simpl; intros s H0 Hs.
  - by exists s.
  - destruct (pt_call_cash c s Hc H0 Hs) as (s1 & -> & H1 & Hs1). by apply IH.
Qed.


Lemma pt_sale_units_min (pct : Q) (t : PaperTrade) :
  sale_units pct t == Qmin (pct * initial_units t) (current_units t).
Proof.
  unfold sale_units.
  destruct (Qgtb (initial_units t * pct) (current_units t)) eqn:E; qprop.
  - rewrite Q.min_r; lra.
  - rewrite Q.min_l; lra.
Qed.


(** *** Evaluating the same update twice *)

Lemma update_peak_reached (mc : Q) (t : PaperTrade) :
  mc <= peak_mc (update_peak mc t).
Proof.
  unfold update_peak. destruct (Qgtb mc (peak_mc t)) eqn:E; qprop; simpl; lra.
Qed.

Lemma update_peak_idle (mc : Q) (t : PaperTrade) :
  mc <= peak_mc t -> update_peak mc t = t.
Proof.
  intros H. unfold update_peak.
  destruct (Qgtb mc (peak_mc t)) eqn:E; [|done]. qprop. lra.
Qed.

Lemma potential_used_same (mc : Q) (t t' : PaperTrade) :
  evolves t t' -> potential_used mc t' = potential_used mc t.
Proof.
  intros (_ & Hmc & _ & _ & _ & Hbp & _). unfold potential_used.
  by rewrite Hmc, Hbp.
Qed.

Lemma duration_mins_same (now : Timestamp) (t t' : PaperTrade) :
  evolves t t' -> duration_mins now t' = duration_mins now t.
Proof. intros (_ & _ & _ & Ht & _). unfold duration_mins. by rewrite Ht. Qed.

Lemma take_profit_hits (th pct : Q) (level reason : string)
    (pct_used mc : Q) (h : nat) (t t' : PaperTrade) (s s' : PaperTrader)
    (ups ups' : list Update) :
  take_profit th pct level reason pct_used mc h t s ups = Some (s', t', ups') ->
  Qgeb pct_used th = true -> level_hit level t' = true.
Proof.
  unfold take_profit. intros Htp Hge. rewrite Hge in Htp. simpl in Htp.
  destruct (level_hit level t) eqn:Hhit; simpl in Htp.
  - by injection Htp as <- <- <-.
  - destruct (_partial_close t pct mc reason s) as [[s1 t1]|] eqn:P;
      [|discriminate].
    simpl in Htp. injection Htp as <- <- <-.
    unfold level_hit. simpl. apply bool_decide_eq_true. set_solver.
Qed.

Lemma take_profit_idle (th pct : Q) (level reason : string)
    (pct_used mc : Q) (h : nat) (t : PaperTrade) (s : PaperTrader)
    (ups : list Update) :
  (Qgeb pct_used th = true -> level_hit level t = true) ->
  take_profit th pct level reason pct_used mc h t s ups = Some (s, t, ups).
Proof.
  intros H. unfold take_profit.
  destruct (Qgeb pct_used th); [|done]. by rewrite H.
Qed.

Lemma level_hit_mono (level : string) (t t' : PaperTrade) :
  evolves t t' -> level_hit level t = true -> level_hit level t' = true.
Proof.
  intros (_ & _ & _ & _ & _ & _ & _ & Hsub & _). unfold level_hit.
  rewrite !bool_decide_eq_true. apply Hsub.
Qed.

Lemma pt_close_trade_lookup (now : Timestamp) (h : nat) (t : PaperTrade)
    (mc : Q) (reason : string) (s s' : PaperTrader) :
  (h < length (trades s))%nat ->
  _close_trade now h t mc reason s = Some s' ->
  trades s' !! h = Some (closed_trade now mc reason t).
Proof.
  intros Hlt Hc. apply pt_close_trade_eq in Hc as [_ ->]. simpl.
  by apply list_lookup_insert_eq.
Qed.

Lemma pt_update_trade_twice (now : Timestamp) (m : gmap string Q) (h : nat)
    (s s1 : PaperTrader) (ups ups1 ups2 : list Update) (t t1 : PaperTrade) :
  trades s !! h = Some t ->
  update_trade now m h (s, ups) = Some (s1, ups1) ->
  trades s1 !! h = Some t1 -> status t1 = "OPEN" ->
  update_trade now m h (s1, ups2) = Some (s1, ups2).
Proof.
  intros Ht Hup Ht1 Hopen.
  pose proof (lookup_lt_Some _ _ _ Ht) as Hlt.
  unfold update_trade in Hup. rewrite Ht in Hup.
  destruct (m !! token_address t) as [mc|] eqn:Hm.
  2: { injection Hup as <- <-. unfold update_trade. by rewrite Ht, Hm. }
  destruct (Qeq_bool mc 0) eqn:Hz.
  { injection Hup as <- <-. unfold update_trade. by rewrite Ht, Hm, Hz. }
  destruct (update_peak_evolves mc t) as [L0 _].
  pose proof (update_peak_reached mc t) as R0.
  set (t0 := update_peak mc t) in *.
  destruct (potential_used mc t0) as [pct_used|] eqn:Hpot; [|discriminate].
  simpl in Hup.
  destruct (div (entry_mc t0 - mc) (entry_mc t0)) as [loss_pct|] eqn:Hloss;
    [|discriminate].
  simpl in Hup.
  destruct (Qgeb loss_pct 0.30) eqn:Hsl.
  { destruct (_close_trade now h t0 mc "STOP_LOSS_30_PCT" s) as [s2|] eqn:C;
      [|discriminate].
    injection Hup as <- <-.
    rewrite (pt_close_trade_lookup _ _ _ _ _ _ _ Hlt C) in Ht1.
    injection Ht1 as <-. discriminate. }
  destruct (Qgtb (duration_mins now t0) 90 && Qltb pct_used 0.30) eqn:Hte.
  { destruct (_close_trade now h t0 mc "TIME_EXIT_STAGNANT" s) as [s2|] eqn:C;
      [|discriminate].
    injection Hup as <- <-.
    rewrite (pt_close_trade_lookup _ _ _ _ _ _ _ Hlt C) in Ht1.
    injection Ht1 as <-. discriminate. }
  destruct (take_profit 0.30 0.20 "30%" "TP_30_PCT" pct_used mc h t0 s ups)
    as [[[s2 t2] u2]|] eqn:T1; [|discriminate].
  simpl in Hup.
  destruct (take_profit 0.50 0.25 "50%" "TP_50_PCT" pct_used mc h t2 s2 u2)
    as [[[s3 t3] u3]|] eqn:T2; [|discriminate].
  simpl in Hup.
  destruct (take_profit 0.70 0.30 "70%" "TP_70_PCT" pct_used mc h t3 s3 u3)
    as [[[s4 t4] u4]|] eqn:T3; [|discriminate].
  simpl in Hup. injection Hup as <- <-.
  pose proof (take_profit_hits _ _ _ _ _ _ _ _ _ _ _ _ _ T1) as H1.
  pose proof (take_profit_hits _ _ _ _ _ _ _ _ _ _ _ _ _ T2) as H2.
  pose proof (take_profit_hits _ _ _ _ _ _ _ _ _ _ _ _ _ T3) as H3.
  apply take_profit_body_step in T1 as (E1 & _ & _ & C1 & _); [|lra].
  apply take_profit_body_step in T2 as (E2 & _ & _ & C2 & _); [|lra].
  apply take_profit_body_step in T3 as (E3 & _ & _ & C3 & _); [|lra].
  pose proof (pt_evolves_trans _ _ _ E2 E3) as E24.
  pose proof (pt_evolves_trans _ _ _ E1 E24) as E04.
  pose proof (pt_evolves_trans _ _ _ L0 E04) as Et4.
  unfold only_capital in C1, C2, C3.
  assert (Hlen : (h < length (trades s4))%nat) by (by rewrite C3, C2, C1).
  simpl in Ht1. rewrite list_lookup_insert_eq in Ht1 by done.
  injection Ht1 as <-.
  unfold update_trade. simpl. rewrite list_lookup_insert_eq by done.
  destruct Et4 as (Htok & Hrest). rewrite Htok, Hm, Hz.
  rewrite update_peak_idle by (destruct E04 as (_&_&_&_&_&_&Hp&_); lra).
  rewrite (potential_used_same mc _ _ E04), Hpot. simpl.
  assert (Hmc : entry_mc t4 = entry_mc t0) by apply E04.
  rewrite Hmc, Hloss. simpl. rewrite Hsl.
  rewrite (duration_mins_same now _ _ E04), Hte.
  set (s5 := set_trades (<[h := t4]> (trades s4)) s4).
  rewrite (take_profit_idle 0.30 0.20 "30%" "TP_30_PCT" pct_used mc h t4 s5).
  2: { intros Hge. eapply level_hit_mono; [exact E24 | by apply H1]. }
  simpl.
  rewrite (take_profit_idle 0.50 0.25 "50%" "TP_50_PCT" pct_used mc h t4 s5).
  2: { intros Hge. eapply level_hit_mono; [exact E3 | by apply H2]. }
  simpl.
  rewrite (take_profit_idle 0.70 0.30 "70%" "TP_70_PCT" pct_used mc h t4 s5).
  2: { exact H3. }
  simpl. do 2 f_equal. unfold s5. simpl.
  rewrite list_insert_insert_eq. reflexivity.
Qed.


(** *** A level that was hit does not fire again *)

Lemma take_profit_hit (th pct : Q) (level reason : string)
    (pct_used mc : Q) (h : nat) (t : PaperTrade) (s : PaperTrader)
    (ups : list Update) :
  level_hit level t = true ->
  take_profit th pct level reason pct_used mc h t s ups = Some (s, t, ups).
Proof. intros H. by apply take_profit_idle. Qed.

Lemma pt_calls_store (cs : list Call) (s s' : PaperTrader) :
  calls cs s = Some s' -> store_evolves (trades s) (trades s').
Proof.
  revert s. induction cs as [|c cs IH]; simpl; intros s Hrun.
  - injection Hrun as <-. apply pt_store_evolves_refl.
  - destruct (call c s) as [s1|] eqn:Hc; [|discriminate].
    eapply pt_store_evolves_trans; [|by apply IH].
    destruct c as [now sd|now m]; simpl in Hc.
    + injection Hc as <-.
      destruct (process_signal_cases now sd s) as [->|(t & _ & -> & _)].
      * apply pt_store_evolves_refl.
      * intros h t0 Ht0. exists t0.
        split; [by apply lookup_app_l_Some | apply pt_evolves_refl].
    + destruct (update_trades now m s) as [[s2 ups]|] eqn:Hu; [|discriminate].
      injection Hc as <-. by apply pt_update_trades_store in Hu as [? _].
Qed.



(** A level that fires was not hit before and is hit afterwards. *)
Lemma take_profit_fires (th pct : Q) (level reason : string)
    (pct_used mc : Q) (h : nat) (t t' : PaperTrade) (s s' : PaperTrader)
    (ups ups' : list Update) :
  take_profit th pct level reason pct_used mc h t s ups = Some (s', t', ups') ->
  (s' = s /\ t' = t /\ ups' = ups) \/
  ((level ∉ tp_levels_hit t) /\ (level ∈ tp_levels_hit t')).
Proof.
  unfold take_profit. destruct (Qgeb pct_used th); simpl.
  - destruct (level_hit level t) eqn:Hhit; simpl;
      [intros [= <- <- <-]; by left|].
    destruct (_partial_close t pct mc reason s) as [[s1 t1]|] eqn:P;
      [|discriminate].
    apply pt_partial_close_eq in P as (_ & _ & ->).
    simpl. intros [= <- <- <-]. right. split.
    + unfold level_hit in Hhit. by apply bool_decide_eq_false in Hhit.
    + simpl. apply elem_of_app. right. apply list_elem_of_singleton. done.
  - intros [= <- <- <-]. by left.
Qed.

(** *** The time exit *)

Lemma duration_mins_elapsed (now : Timestamp) (t : PaperTrade) (n : Z) :
  (entry_time t + timedelta_minutes n < now)%Z ->
  inject_Z n < duration_mins now t.
Proof.
  intros H. unfold duration_mins, total_seconds, timedelta_minutes in *.
  assert (Hq : inject_Z (n * 60000000) < inject_Z (now - entry_time t)).
  { rewrite <- Zlt_Qlt. lia. }
  rewrite inject_Z_mult in Hq.
  assert (Hc : inject_Z 60000000 == 60000000) by reflexivity.
  rewrite Hc in Hq.
  apply Qlt_shift_div_l; [lra|]. apply Qlt_shift_div_l; lra.
Qed.

Lemma potential_used_update_peak (mc : Q) (t : PaperTrade) :
  potential_used mc (update_peak mc t) = potential_used mc t.
Proof. apply potential_used_same, update_peak_evolves. Qed.

Lemma pt_update_trade_time_exit (now : Timestamp) (m : gmap string Q)
    (h : nat) (s : PaperTrader) (ups : list Update) (t : PaperTrade)
    (mc pct_used : Q) :
  trades s !! h = Some t ->
  m !! token_address t = Some mc -> ~ mc == 0 ->
  potential_used mc t = Some pct_used ->
  90 < duration_mins now t -> pct_used < 0.30 ->
  exists s' reason,
    (reason = "STOP_LOSS_30_PCT" \/ reason = "TIME_EXIT_STAGNANT") /\
    _close_trade now h (update_peak mc t) mc reason s = Some s' /\
    update_trade now m h (s, ups) = Some (s', ups ++ [CLOSE h]).
Proof.
  intros Ht Hm Hmc Hpot Hdur Hpct. unfold update_trade. rewrite Ht, Hm.
  destruct (Qeq_bool mc 0) eqn:Hz; [by apply Qeq_bool_iff in Hz|].
  rewrite potential_used_update_peak, Hpot. simpl.
  destruct (update_peak_evolves mc t) as [L0 _].
  rewrite (duration_mins_same now _ _ L0).
  assert (Hmceq : entry_mc (update_peak mc t) = entry_mc t) by apply L0.
  pose proof (potential_used_Some _ _ _ Hpot) as He.
  rewrite Hmceq. rewrite div_defined by done. simpl.
  destruct (Qgeb _ 0.30).
  - destruct (pt_close_trade_defined now h (update_peak mc t) mc
                "STOP_LOSS_30_PCT" s) as [s' Hc]; [by rewrite Hmceq|].
    exists s', "STOP_LOSS_30_PCT". rewrite Hc. by repeat split; [left|..].
  - assert (Hte : Qgtb (duration_mins now t) 90 && Qltb pct_used 0.30 = true).
    { rewrite andb_true_iff. by rewrite Qgtb_true, Qltb_true. }
    rewrite Hte.
    destruct (pt_close_trade_defined now h (update_peak mc t) mc
                "TIME_EXIT_STAGNANT" s) as [s' Hc]; [by rewrite Hmceq|].
    exists s', "TIME_EXIT_STAGNANT". rewrite Hc. by repeat split; [right|..].
Qed.

End PaperFacts.

(** ** The properties of the specification *)

Section Claims.
Local Open Scope Q_scope.

(** Sample inputs are well formed. *)

Lemma prices_nonneg_singleton (k : string) (df : Backtest.DataFrame) :
  Forall (fun row => 0 <= row.2) df -> Backtest.prices_nonneg {[ k := df ]}.
Proof.
  intros Hdf k' df' Hk. apply lookup_singleton_Some in Hk as [_ <-]. exact Hdf.
Qed.

Lemma caps_nonneg_singleton (k : string) (v : Q) :
  0 <= v -> Paper.caps_nonneg {[ k := v ]}.
Proof.
  intros Hv k' v' Hk. apply lookup_singleton_Some in Hk as [_ <-]. exact Hv.
Qed.

Lemma backtest_calls_valid :
  Forall Backtest.valid_call Scenarios.backtest_calls.
Proof.
  assert (Backtest.prices_nonneg Scenarios.prices_A).
  { apply prices_nonneg_singleton. repeat constructor; simpl; lra. }
  repeat constructor; simpl; (done || lra).
Qed.

Lemma paper_calls_valid : Forall Paper.valid_call Scenarios.paper_calls.
Proof.
  repeat constructor; simpl;
    try (apply caps_nonneg_singleton; lra); by vm_compute.
Qed.

(** Two runs of the model on the examples the specification gives. *)

(** Entry market cap 1,000,000 with base potential 2.0; at 1,300,000 the
    potential used is 0.30: the 30 percent tier fires and sells 20 percent
    of the initial 20 units. *)
Example paper_tier_at_30_percent :
  exists t,
    Paper.trades Scenarios.paper_after_tp !! 0%nat = Some t /\
    Paper.potential_used 1300000 t = Some ((1300000 - 1000000) /
                                             (1000000 * 2.0 - 1000000)) /\
    (1300000 - 1000000) / (1000000 * 2.0 - 1000000) == 0.30 /\
    Paper.tp_levels_hit t = ["30%"] /\
    Qred <$> Paper.units_sold t = [4] /\
    Paper.initial_units t == 20 /\
    Paper.current_units t == 16.
Proof.
  eexists. split; [by vm_compute|]. split; [by vm_compute|].
  split; [by vm_compute|]. split; [by vm_compute|].
  split; [by vm_compute|]. split; by vm_compute.
Qed.

(** Entry price 1.00; at 20 minutes the price is 0.65: the position is
    closed with STOP_LOSS. *)
Example backtest_stop_loss_at_minus_35_percent :
  exists s t,
    Backtest._update_trades (Scenarios.minute 20) Scenarios.prices_drop
      Scenarios.backtest_entered = Some s /\
    Backtest.trades s !! 0%nat = Some t /\
    Backtest.status t = "CLOSED" /\
    Backtest.exit_reason t = "STOP_LOSS" /\
    Backtest.active_trades s = [].
Proof.
  do 2 eexists. split; [by vm_compute|]. split; [by vm_compute|].
  split; [by vm_compute|]. split; by vm_compute.
Qed.

(** C1, as stated, fails on inputs that neither engine refuses.  A signal
    priced -1 makes the backtest engine buy a negative number of units, and
    the close at the end of the data, at the price 10, debits the cash
    down to -500/3.  A market cap of -100000000 in an update of the paper
    trader closes the position on the pair A at a negative price and takes
    the cash from 190 down to -810. *)
Lemma cash_negative_on_negative_input_counterexample :
  (exists s,
     Backtest.calls
       [Backtest.ProcessSignal Scenarios.signal_negative;
        Backtest.UpdateTrades (Scenarios.minute 1) Scenarios.prices_negative]
       (Backtest.init 200) = Some s /\
     Backtest.capital s == - (500 # 3) /\ Backtest.capital s < 0) /\
  (exists s,
     Paper.calls
       [Paper.ProcessSignal 0%Z Scenarios.pair_A;
        Paper.UpdateTrades (Paper.timedelta_minutes 1)
          Scenarios.caps_negative]
       (Paper.init 200) = Some s /\
     Paper.capital s == - 810 /\ Paper.capital s < 0).
Proof.
  split.
  - eexists. split; [by vm_compute|]. split; by vm_compute.
  - eexists. split; [by vm_compute|]. split; by vm_compute.
Qed.

(** C1: starting from positive initial capital, the cash balance is never
    negative after any sequence of [process_signal] and price-update calls
    on well-formed inputs (positive signal prices and market caps,
    non-negative price samples), in the backtest engine and in the paper
    trader, and such a sequence never stops on an error.  In every state
    so reached, [process_signal] debits at most the cash available and at
    least nothing, and a price update, that is every partial or full
    close, only credits cash.  A whole backtest run on such inputs
    returns, and the cash is not negative at its end nor in any sample of
    its equity curve. *)
Theorem cash_never_negative :
  (forall (c0 : Q) (cs : list Backtest.Call),
     0 < c0 -> Forall Backtest.valid_call cs ->
     exists s,
       Backtest.calls cs (Backtest.init c0) = Some s /\
       0 <= Backtest.capital s /\
       (forall sig s',
          Backtest._process_signal sig s = Some s' ->
          0 <= Backtest.capital s' /\
          Backtest.capital s' <= Backtest.capital s) /\
       (forall ct pd s',
          Backtest.prices_nonneg pd ->
          Backtest._update_trades ct pd s = Some s' ->
          Backtest.capital s <= Backtest.capital s')) /\
  (forall (c0 : Q) (cs : list Paper.Call),
     0 < c0 -> Forall Paper.valid_call cs ->
     exists s,
       Paper.calls cs (Paper.init c0) = Some s /\
       0 <= Paper.capital s /\
       (forall now sd,
          0 <= Paper.capital (Paper.process_signal now sd s).1 /\
          Paper.capital (Paper.process_signal now sd s).1 <=
            Paper.capital s) /\
       (forall now m s' ups,
          Paper.caps_nonneg m ->
          Paper.update_trades now m s = Some (s', ups) ->
          Paper.capital s <= Paper.capital s')) /\
  (forall (c0 : Q) (signals : list Backtest.Signal)
          (pd : gmap string Backtest.DataFrame),
     0 < c0 ->
     Forall (fun sig => 0 < Backtest.price_at_signal sig) signals ->
     Backtest.prices_nonneg pd ->
     exists s r,
       Backtest.run signals pd (Backtest.init c0) = Some (s, r) /\
       0 <= Backtest.capital s /\
       Forall (fun pt => 0 <= Backtest.point_capital pt)
         (Backtest.equity_curve s)).
Proof.
  split; [|split]; [intros c0 cs Hc0 Hcs..|].
  - destruct (BacktestFacts.calls_cash cs (Backtest.init c0) Hcs)
      as (s & Hrun & Hcap & Hsound); [simpl; lra | constructor|].
    exists s. split; [exact Hrun|]. split; [exact Hcap|]. split.
    + intros sig s' Hp.
      apply BacktestFacts._process_signal_cases in Hp
        as [->|(t & _ & _ & _ & _ & Hc & Hpos & _)]; [lra|].
      destruct (Hpos Hcap). rewrite Hc. lra.
    + intros ct pd s' Hpd Hup.
      by destruct (BacktestFacts._update_trades_sound _ _ _ _ Hpd Hsound Hup).
  - destruct (PaperFacts.pt_calls_cash cs (Paper.init c0) Hcs)
      as (s & Hrun & Hcap & Hsound); [simpl; lra | constructor|].
    exists s. split; [exact Hrun|]. split; [exact Hcap|]. split.
    + intros now sd.
      destruct (PaperFacts.process_signal_cases now sd s)
        as [->|(t & _ & _ & _ & Hc & Hpos & _)]; [simpl; lra|].
      rewrite Hc. lra.
    + intros now m s' ups Hm Hup.
      destruct (PaperFacts.pt_update_trades_cash now m s Hm Hsound)
        as (s2 & ups2 & Hup2 & _ & Hle).
      rewrite Hup in Hup2. by injection Hup2 as -> ->.
  - intros c0 signals pd Hc0 Hsig Hpd.
    destruct (BacktestFacts.run_cash signals pd c0 ltac:(lra) Hpd Hsig)
      as (s & r & Hrun & Hcap & _ & Hcurve).
    by exists s, r.
Qed.

Lemma cash_never_negative_witness :
  (exists s,
     Backtest.calls Scenarios.backtest_calls (Backtest.init 200) = Some s /\
     0 <= Backtest.capital s) /\
  (exists s,
     Paper.calls Scenarios.paper_calls (Paper.init 200) = Some s /\
     0 <= Paper.capital s) /\
  (exists s r,
     Backtest.run [Scenarios.signal_A] Scenarios.prices_A
       (Backtest.init 200) = Some (s, r) /\
     0 <= Backtest.capital s).
Proof.
  destruct cash_never_negative as (HB & HP & HR). split; [|split].
  - destruct (HB 200 Scenarios.backtest_calls) as (s & Hrun & Hcap & _);
      [lra | exact backtest_calls_valid|].
    exists s. split; [exact Hrun | exact Hcap].
  - destruct (HP 200 Scenarios.paper_calls) as (s & Hrun & Hcap & _);
      [lra | exact paper_calls_valid|].
    exists s. split; [exact Hrun | exact Hcap].
  - destruct (HR 200 [Scenarios.signal_A] Scenarios.prices_A)
      as (s & r & Hrun & Hcap & _).
    + lra.
    + repeat constructor.
    + apply prices_nonneg_singleton. repeat constructor; simpl; lra.
    + exists s, r. split; [exact Hrun | exact Hcap].
Defined.

(** C2: for every position at every point of its life, the units held plus
    the units sold by all partial and full closes equal the initial units,
    and a closed position holds none; a partial close sells the given
    fraction of the initial units, capped at the units still held.  Both
    engines, from any initial capital and over any sequence of calls, and
    at the end of any backtest run. *)
Theorem units_accounted :
  (forall (c0 : Q) (cs : list Backtest.Call) (s : Backtest.Engine)
          (t : Backtest.Trade),
     Backtest.calls cs (Backtest.init c0) = Some s -> t ∈ Backtest.trades s ->
     Backtest.current_units t + Qsum (Backtest.units_sold t) ==
       Backtest.initial_units t /\
     (Backtest.status t = "CLOSED" -> Backtest.current_units t == 0)) /\
  (forall (t t' : Backtest.Trade) (pct price : Q) (reason : string)
          (s s' : Backtest.Engine),
     Backtest._partial_close t pct price reason s = Some (s', t') ->
     exists sold,
       sold == Qmin (pct * Backtest.initial_units t)
                 (Backtest.current_units t) /\
       Backtest.units_sold t' = Backtest.units_sold t ++ [sold] /\
       Backtest.current_units t' == Backtest.current_units t - sold) /\
  (forall (c0 : Q) (cs : list Paper.Call) (s : Paper.PaperTrader)
          (t : Paper.PaperTrade),
     Paper.calls cs (Paper.init c0) = Some s -> t ∈ Paper.trades s ->
     Paper.current_units t + Qsum (Paper.units_sold t) ==
       Paper.initial_units t /\
     (Paper.status t = "CLOSED" -> Paper.current_units t == 0)) /\
  (forall (t t' : Paper.PaperTrade) (pct mc : Q) (reason : string)
          (s s' : Paper.PaperTrader),
     Paper._partial_close t pct mc reason s = Some (s', t') ->
     exists sold,
       sold == Qmin (pct * Paper.initial_units t) (Paper.current_units t) /\
       Paper.units_sold t' = Paper.units_sold t ++ [sold] /\
       Paper.current_units t' == Paper.current_units t - sold) /\
  (forall (c0 : Q) (signals : list Backtest.Signal)
          (pd : gmap string Backtest.DataFrame) (s : Backtest.Engine)
          (r : option Backtest.BacktestResult) (t : Backtest.Trade),
     Backtest.run signals pd (Backtest.init c0) = Some (s, r) ->
     t ∈ Backtest.trades s ->
     Backtest.current_units t + Qsum (Backtest.units_sold t) ==
       Backtest.initial_units t /\
     (Backtest.status t = "CLOSED" -> Backtest.current_units t == 0)).
Proof.
  split; [|split; [|split; [|split]]].
  - intros c0 cs s t Hrun Ht.
    destruct (BacktestFacts.calls_books cs _ _ (BacktestFacts.init_books c0)
                Hrun) as (_ & Hset & Hcons).
    rewrite Forall_forall in Hset, Hcons.
    split; [apply (Hcons t Ht) | apply (Hset t Ht)].
  - intros t t' pct price reason s s' Hp.
    apply BacktestFacts._partial_close_eq in Hp as (_ & _ & ->).
    exists (Backtest.sale_units pct t).
    split; [apply BacktestFacts.sale_units_min|]. split; [done|].
    simpl. lra.
  - intros c0 cs s t Hrun Ht.
    destruct (PaperFacts.pt_calls_books cs _ _ (PaperFacts.pt_init_books c0)
                Hrun) as (_ & Hset & Hcons).
    rewrite Forall_forall in Hset, Hcons.
    split; [apply (Hcons t Ht) | apply (Hset t Ht)].
  - intros t t' pct mc reason s s' Hp.
    apply PaperFacts.pt_partial_close_eq in Hp as (_ & _ & ->).
    exists (Paper.sale_units pct t).
    split; [apply PaperFacts.pt_sale_units_min|]. split; [done|].
    simpl. lra.
  - intros c0 signals pd s r t Hrun Ht.
    apply BacktestFacts.run_books in Hrun as [_ Hok].
    destruct (Hok (BacktestFacts.init_books c0)) as (_ & Hset & Hcons).
    rewrite Forall_forall in Hset, Hcons.
    split; [apply (Hcons t Ht) | apply (Hset t Ht)].
Qed.

Lemma units_accounted_witness :
  (forall t, t ∈ Backtest.trades Scenarios.backtest_final ->
     Backtest.current_units t + Qsum (Backtest.units_sold t) ==
       Backtest.initial_units t /\
     (Backtest.status t = "CLOSED" -> Backtest.current_units t == 0)) /\
  (forall t, t ∈ Paper.trades Scenarios.paper_final ->
     Paper.current_units t + Qsum (Paper.units_sold t) ==
       Paper.initial_units t /\
     (Paper.status t = "CLOSED" -> Paper.current_units t == 0)).
Proof.
  destruct units_accounted as (HB & _ & HP & _). split.
  - intros t. apply (HB 200 Scenarios.backtest_calls). by vm_compute.
  - intros t. apply (HP 200 Scenarios.paper_calls). by vm_compute.
Defined.

(** C3, as stated, fails at a step where an active position has no price
    sample: token A has samples at minutes 0 and 2 only; the position
    entered at minute 0 holds 100/3 units throughout (it is still open
    and has sold nothing at the end of the run), yet the sample recorded
    at minute 1 has equity equal to cash, so that no positive price makes
    equity = cash + units x price. *)
Lemma equity_sample_without_price_counterexample :
  exists s r t pt,
    Backtest.run [Scenarios.signal_A] Scenarios.prices_gap
      (Backtest.init 200) = Some (s, Some r) /\
    Backtest.equity_curve s !! 1%nat = Some pt /\
    Backtest.point_time pt = Scenarios.minute 1 /\
    Backtest.active_trades s = [0%nat] /\
    Backtest.trades s !! 0%nat = Some t /\
    Backtest.status t = "OPEN" /\
    Backtest.units_sold t = [] /\
    Backtest.current_units t == 100 # 3 /\
    Backtest.point_equity pt == Backtest.point_capital pt /\
    forall price : Q,
      0 < price ->
      ~ Backtest.point_equity pt ==
          Backtest.point_capital pt + Backtest.current_units t * price.
Proof.
  do 4 eexists.
  split; [by vm_compute|]. split; [by vm_compute|].
  split; [by vm_compute|]. split; [by vm_compute|].
  split; [by vm_compute|]. split; [by vm_compute|].
  split; [by vm_compute|]. split; [by vm_compute|].
  split; [by vm_compute|].
  intros price Hprice. simpl. intros Heq.
  assert (Hu : 0 < 200 * 0.025 / 0.15 / 1) by (by vm_compute).
  set (u := 200 * 0.025 / 0.15 / 1) in *. nra.
Qed.

(** C3, amended: at every step of a backtest run the appended sample has
    equity = the cash balance left by that step's price update + the sum,
    over the positions then active that have a price sample for the
    timestamp, of units held x that price; an active position without a
    sample counts for nothing.  In terms of the cash recorded in the
    sample: equity = recorded cash + that sum + the entry cost of the
    positions admitted at that step. *)
Theorem equity_sample_composition :
  forall (pd : gmap string Backtest.DataFrame) (ct ct' : Backtest.Timestamp)
         (pending pending' : list Backtest.Signal) (s s' : Backtest.Engine),
    Backtest.run_iteration pd ct pending s = Some (ct', pending', s') ->
    exists s1 new pt,
      Backtest._update_trades ct pd (Backtest.day_reset ct s) = Some s1 /\
      Backtest.trades s' = Backtest.trades s1 ++ new /\
      Backtest.equity_curve s' = Backtest.equity_curve s ++ [pt] /\
      Backtest.point_time pt = ct /\
      Backtest.point_capital pt = Backtest.capital s' /\
      Backtest.point_equity pt ==
        Backtest.capital s1 + Backtest.mark_to_market ct pd s1 /\
      Backtest.point_equity pt ==
        Backtest.point_capital pt + Backtest.mark_to_market ct pd s1 +
        Qsum (Backtest.position_size_usd <$> new).
Proof. apply BacktestFacts.run_iteration_sample. Qed.

Lemma equity_sample_composition_witness :
  exists s1 new pt,
    Backtest._update_trades (Scenarios.minute 1) Scenarios.prices_A
      (Backtest.day_reset (Scenarios.minute 1) Scenarios.backtest_entered) =
      Some s1 /\
    Backtest.trades Scenarios.iteration_A.2 = Backtest.trades s1 ++ new /\
    Backtest.equity_curve Scenarios.iteration_A.2 =
      Backtest.equity_curve Scenarios.backtest_entered ++ [pt] /\
    Backtest.point_time pt = Scenarios.minute 1 /\
    Backtest.point_capital pt = Backtest.capital Scenarios.iteration_A.2 /\
    Backtest.point_equity pt ==
      Backtest.capital s1 +
      Backtest.mark_to_market (Scenarios.minute 1) Scenarios.prices_A s1 /\
    Backtest.point_equity pt ==
      Backtest.point_capital pt +
      Backtest.mark_to_market (Scenarios.minute 1) Scenarios.prices_A s1 +
      Qsum (Backtest.position_size_usd <$> new).
Proof.
  apply (equity_sample_composition Scenarios.prices_A (Scenarios.minute 1)
           Scenarios.iteration_A.1.1 [] Scenarios.iteration_A.1.2
           Scenarios.backtest_entered Scenarios.iteration_A.2).
  by vm_compute.
Defined.

(** C4: in backtest mode the stop of a position never goes down, from
    creation to close, whatever calls are made and from any point of the
    loop of a run to any later one; in particular the
    hard-floor update after 15 minutes, the trailing update (which, once
    the peak is 40 percent above entry, sets the stop to the larger of
    the stop and 65 percent of the peak) and the raise to the entry price
    after the first take-profit leave it at or above its previous value. *)
Theorem stop_never_lowered :
  (forall (cs : list Backtest.Call) (s s' : Backtest.Engine) (h : nat)
          (t : Backtest.Trade),
     Backtest.calls cs s = Some s' -> Backtest.trades s !! h = Some t ->
     exists t',
       Backtest.trades s' !! h = Some t' /\
       Backtest.stop_loss_price t <= Backtest.stop_loss_price t') /\
  (forall (m : Q) (t : Backtest.Trade),
     Backtest.stop_loss_price t <=
       Backtest.stop_loss_price (Backtest.hard_stop_phase m t)) /\
  (forall (t t' : Backtest.Trade),
     Backtest.trailing_stop t = Some t' ->
     Backtest.stop_loss_price t <= Backtest.stop_loss_price t' /\
     (0.40 <= (Backtest.ath_price t - Backtest.entry_price t) /
                Backtest.entry_price t ->
      Backtest.stop_loss_price t' ==
        Qmax (Backtest.stop_loss_price t)
             (Backtest.ath_price t * (1 - 0.35)))) /\
  (forall (roi p : Q) (t t' : Backtest.Trade) (s s' : Backtest.Engine),
     Backtest.take_profit_1 roi p t s = Some (s', t') ->
     Backtest.stop_loss_price t <= Backtest.stop_loss_price t') /\
  (forall (fuel : nat) (pd : gmap string Backtest.DataFrame)
          (max_time ct ct' : Backtest.Timestamp)
          (pending pending' : list Backtest.Signal)
          (s s' : Backtest.Engine) (h : nat) (t : Backtest.Trade),
     Backtest.run_loop fuel pd max_time ct pending s =
       Some (ct', pending', s') ->
     Backtest.trades s !! h = Some t ->
     exists t',
       Backtest.trades s' !! h = Some t' /\
       Backtest.stop_loss_price t <= Backtest.stop_loss_price t').
Proof.
  split; [|split; [|split; [|split]]].
  - intros cs s s' h t Hrun Ht.
    destruct (BacktestFacts.calls_store cs s s' Hrun h t Ht) as (t' & Ht' & Hev).
    exists t'. split; [exact Ht' | apply Hev].
  - intros m t. apply (BacktestFacts.hard_stop_phase_levels m t).
  - intros t t' Htr. split.
    + by apply BacktestFacts.trailing_stop_levels in Htr as [(_ & ? & _) _].
    + intros Hroi. unfold Backtest.trailing_stop in Htr.
      destruct (div _ _) as [r|] eqn:D; [|discriminate].
      apply div_Some in D as [_ ->]. simpl in Htr.
      destruct (Qgeb _ 0.40) eqn:E; qprop; [|lra].
      destruct (Qgtb _ _) eqn:E2; qprop; injection Htr as <-; simpl.
      * rewrite Q.max_r; lra.
      * rewrite Q.max_l; lra.
  - intros roi p t t' s s' Htp.
    apply BacktestFacts.take_profit_1_body_step in Htp as (Hev & _).
    apply Hev.
  - intros fuel pd max_time ct ct' pending pending' s s' h t Hrun Ht.
    apply BacktestFacts.run_loop_books in Hrun as [Hev _].
    destruct (Hev h t Ht) as (t' & Ht' & Hevt).
    exists t'. split; [exact Ht' | apply Hevt].
Qed.

Lemma stop_never_lowered_witness :
  exists t',
    Backtest.trades Scenarios.backtest_final !! 0%nat = Some t' /\
    Backtest.stop_loss_price Scenarios.trade_A <=
      Backtest.stop_loss_price t'.
Proof.
  apply (proj1 stop_never_lowered
           (tail Scenarios.backtest_calls) Scenarios.backtest_entered);
    by vm_compute.
Defined.

(** C5, the code at a failing input.  Capital 200; the position on A
    entered at minute 0 is stopped out at minute 1 at a tenth of its entry
    price, and the equity recorded at minute 1 is 170, more than 10
    percent below the 200 the day started with.  The turn of the loop of
    [_update_trades] that closes the trade ends before the daily loss
    check, and no other trade is active, so the breaker is not set: it is
    still clear when the run ends there, and when the run goes on, the
    signal on B two minutes into the same day is admitted. *)
Theorem breaker_missed_after_stop_loss :
  (exists s r,
     Backtest.run [Scenarios.signal_A] Scenarios.prices_crash_short
       (Backtest.init 200) = Some (s, Some r) /\
     Qred (Backtest.daily_start_equity s) = 200 /\
     Qred (Backtest.equity s) = 170 /\
     Backtest.equity s - Backtest.daily_start_equity s <
       - (Backtest.daily_start_equity s * 0.10) /\
     Backtest.daily_loss_limit_hit s = false) /\
  (exists s r t,
     Backtest.run [Scenarios.signal_A; Scenarios.signal_B]
       Scenarios.prices_crash (Backtest.init 200) = Some (s, Some r) /\
     (fun pt => (Backtest.point_time pt, Qred (Backtest.point_equity pt)))
       <$> Backtest.equity_curve s =
       [(Scenarios.minute 0, 200); (Scenarios.minute 1, 170);
        (Scenarios.minute 2, 170); (Scenarios.minute 3, 170)] /\
     Backtest.date (Scenarios.minute 2) = Backtest.date (Scenarios.minute 1) /\
     Backtest.trades s !! 1%nat = Some t /\
     Backtest.token_address t = "B" /\
     Backtest.entry_time t = Scenarios.minute 2 /\
     Backtest.active_trades s = [1%nat]).
Proof.
  split.
  - do 2 eexists. split; [by vm_compute|]. split; [by vm_compute|].
    split; [by vm_compute|]. split; by vm_compute.
  - do 3 eexists. split; [by vm_compute|]. split; [by vm_compute|].
    split; [by vm_compute|]. split; [by vm_compute|].
    split; [by vm_compute|]. split; by vm_compute.
Qed.

(** C6: evaluating the exit rules a second time for a position, with the
    same value and at the same time, changes nothing, neither in the
    position nor in the account: no unit is sold, and the units held, the
    realized profit and the tiers hit stay as they are.  Each take-profit
    tier fires at most once: a tier marked hit sells nothing, a mark is
    never removed, and a tier that sells was unmarked before and is
    marked afterwards.  Backtest (positions entered at a positive price)
    and paper mode. *)
Theorem reevaluation_changes_nothing :
  (forall (ct : Backtest.Timestamp) (pd : gmap string Backtest.DataFrame)
          (h : nat) (s s1 : Backtest.Engine) (t t1 : Backtest.Trade),
     Backtest.trades s !! h = Some t -> 0 < Backtest.entry_price t ->
     Backtest.update_trade ct pd h s = Some s1 ->
     Backtest.trades s1 !! h = Some t1 -> Backtest.status t1 = "OPEN" ->
     Backtest.update_trade ct pd h s1 = Some s1) /\
  (forall (now : Paper.Timestamp) (m : gmap string Q) (h : nat)
          (s s1 : Paper.PaperTrader) (ups ups1 ups2 : list Paper.Update)
          (t t1 : Paper.PaperTrade),
     Paper.trades s !! h = Some t ->
     Paper.update_trade now m h (s, ups) = Some (s1, ups1) ->
     Paper.trades s1 !! h = Some t1 -> Paper.status t1 = "OPEN" ->
     Paper.update_trade now m h (s1, ups2) = Some (s1, ups2)) /\
  (forall (roi p : Q) (t : Backtest.Trade) (s : Backtest.Engine),
     (Backtest.tp1_hit t = true ->
      Backtest.take_profit_1 roi p t s = Some (s, t)) /\
     (Backtest.tp2_hit t = true ->
      Backtest.take_profit_2 roi p t s = Some (s, t)) /\
     (Backtest.tp3_hit t = true ->
      Backtest.take_profit_3 roi p t s = Some (s, t))) /\
  (forall (cs : list Backtest.Call) (s s' : Backtest.Engine) (h : nat)
          (t : Backtest.Trade),
     Backtest.calls cs s = Some s' -> Backtest.trades s !! h = Some t ->
     exists t',
       Backtest.trades s' !! h = Some t' /\
       (Backtest.tp1_hit t = true -> Backtest.tp1_hit t' = true) /\
       (Backtest.tp2_hit t = true -> Backtest.tp2_hit t' = true) /\
       (Backtest.tp3_hit t = true -> Backtest.tp3_hit t' = true)) /\
  (forall (th pct : Q) (level reason : string) (pct_used mc : Q) (h : nat)
          (t : Paper.PaperTrade) (s : Paper.PaperTrader)
          (ups : list Paper.Update),
     level ∈ Paper.tp_levels_hit t ->
     Paper.take_profit th pct level reason pct_used mc h t s ups =
       Some (s, t, ups)) /\
  (forall (cs : list Paper.Call) (s s' : Paper.PaperTrader) (h : nat)
          (t : Paper.PaperTrade),
     Paper.calls cs s = Some s' -> Paper.trades s !! h = Some t ->
     exists t',
       Paper.trades s' !! h = Some t' /\
       Paper.tp_levels_hit t ⊆ Paper.tp_levels_hit t') /\
  (forall (roi p : Q) (t t' : Backtest.Trade) (s s' : Backtest.Engine),
     (Backtest.take_profit_1 roi p t s = Some (s', t') ->
      (s' = s /\ t' = t) \/
      (Backtest.tp1_hit t = false /\ Backtest.tp1_hit t' = true)) /\
     (Backtest.take_profit_2 roi p t s = Some (s', t') ->
      (s' = s /\ t' = t) \/
      (Backtest.tp2_hit t = false /\ Backtest.tp2_hit t' = true)) /\
     (Backtest.take_profit_3 roi p t s = Some (s', t') ->
      (s' = s /\ t' = t) \/
      (Backtest.tp3_hit t = false /\ Backtest.tp3_hit t' = true))) /\
  (forall (th pct : Q) (level reason : string) (pct_used mc : Q) (h : nat)
          (t t' : Paper.PaperTrade) (s s' : Paper.PaperTrader)
          (ups ups' : list Paper.Update),
     Paper.take_profit th pct level reason pct_used mc h t s ups =
       Some (s', t', ups') ->
     (s' = s /\ t' = t /\ ups' = ups) \/
     ((level ∉ Paper.tp_levels_hit t) /\
      (level ∈ Paper.tp_levels_hit t'))).
Proof.
  split; [|split; [|split; [|split; [|split; [|split; [|split]]]]]].
  - intros ct pd h s s1 t t1.
    apply BacktestFacts.update_trade_twice.
  - intros now m h s s1 ups ups1 ups2 t t1.
    apply PaperFacts.pt_update_trade_twice.
  - intros roi p t s. split; [|split].
    + apply BacktestFacts.take_profit_1_hit.
    + apply BacktestFacts.take_profit_2_hit.
    + apply BacktestFacts.take_profit_3_hit.
  - intros cs s s' h t Hrun Ht.
    destruct (BacktestFacts.calls_store cs s s' Hrun h t Ht) as (t' & Ht' & Hev).
    exists t'. split; [exact Ht'|].
    destruct Hev as (_ & _ & _ & _ & _ & _ & _ & F1 & F2 & F3). by repeat split.
  - intros th pct level reason pct_used mc h t s ups Hin.
    apply PaperFacts.take_profit_hit. unfold Paper.level_hit.
    by apply bool_decide_eq_true.
  - intros cs s s' h t Hrun Ht.
    destruct (PaperFacts.pt_calls_store cs s s' Hrun h t Ht) as (t' & Ht' & Hev).
    exists t'. split; [exact Ht' | apply Hev].
  - intros roi p t t' s s'. split; [|split].
    + apply BacktestFacts.take_profit_1_fires.
    + apply BacktestFacts.take_profit_2_fires.
    + apply BacktestFacts.take_profit_3_fires.
  - intros th pct level reason pct_used mc h t t' s s' ups ups'.
    apply PaperFacts.take_profit_fires.
Qed.

Lemma reevaluation_changes_nothing_witness :
  Backtest.update_trade (Scenarios.minute 1) Scenarios.prices_A 0
    Scenarios.backtest_after_tp1 = Some Scenarios.backtest_after_tp1 /\
  Paper.update_trade (Paper.timedelta_minutes 1) Scenarios.caps_A 0
    (Scenarios.paper_after_tp, []) = Some (Scenarios.paper_after_tp, []).
Proof.
  destruct reevaluation_changes_nothing as (HB & HP & _). split.
  - eapply (HB (Scenarios.minute 1) Scenarios.prices_A 0%nat
              Scenarios.backtest_entered Scenarios.backtest_after_tp1
              Scenarios.trade_A).
    + by vm_compute.
    + simpl. lra.
    + by vm_compute.
    + by vm_compute.
    + by vm_compute.
  - eapply (HP (Paper.timedelta_minutes 1) Scenarios.caps_A 0%nat
              Scenarios.paper_entered Scenarios.paper_after_tp [] _ []).
    + by vm_compute.
    + by vm_compute.
    + by vm_compute.
    + by vm_compute.
Defined.

(** C7, as stated, fails: a pair without price, market cap or liquidity
    (reference value 0) makes the paper trader open a position of 0 units
    and debit 5 percent of its cash; and the backtest engine with no cash
    opens a position of size 0 on a valid signal. *)
Lemma rejection_of_invalid_signal_counterexample :
  (exists s' t,
     Paper.process_signal 0%Z Scenarios.pair_unpriced (Paper.init 200) =
       (s', Some 0%nat) /\
     Paper.price_usd_of Scenarios.pair_unpriced == 0 /\
     Paper.mc_of Scenarios.pair_unpriced == 0 /\
     Paper.capital s' == 190 /\
     Paper.active_trades s' = [0%nat] /\
     Paper.trades s' = [t] /\
     Paper.entry_mc t == 0 /\ Paper.current_units t == 0) /\
  (exists s' t,
     Backtest._process_signal Scenarios.signal_A (Backtest.init 0) = Some s' /\
     Backtest.capital (Backtest.init 0) <= 0 /\
     Backtest.active_trades s' = [0%nat] /\
     Backtest.trades s' = [t] /\
     Backtest.position_size_usd t == 0).
Proof.
  split.
  - do 2 eexists. split; [by vm_compute|]. split; [by vm_compute|].
    split; [by vm_compute|]. split; [by vm_compute|].
    split; [by vm_compute|]. split; [by vm_compute|].
    split; by vm_compute.
  - do 2 eexists. split; [by vm_compute|]. split; [by vm_compute|].
    split; [by vm_compute|]. split; by vm_compute.
Qed.

(** C7, amended: [process_signal] rejects a signal, creating no position
    and leaving the account as it was, whenever the active set is full
    (both modes) and, in paper mode, whenever the cash balance is not
    positive or the computed size is 0.  (Neither engine tests the
    reference value; the backtest engine tests neither the cash nor the
    size.) *)
Theorem full_or_broke_rejected :
  (forall (now : Paper.Timestamp) (sd : Paper.PairDict)
          (s : Paper.PaperTrader),
     (Paper.max_trades s <= length (Paper.active_trades s))%nat \/
     Paper.capital s <= 0 \/ Paper.capital s * 0.05 == 0 ->
     Paper.process_signal now sd s = (s, None)) /\
  (forall (sig : Backtest.Signal) (s : Backtest.Engine),
     (4 <= length (Backtest.active_trades s))%nat ->
     Backtest._process_signal sig s = Some s).
Proof.
  split.
  - intros now sd s H. unfold Paper.process_signal.
    destruct (Paper.max_trades s <=? length (Paper.active_trades s))%nat
      eqn:Hfull; [done|].
    apply Nat.leb_gt in Hfull.
    assert (Hc : Qleb (Paper.capital s) 0 = true).
    { apply Qleb_true. destruct H as [H|[H|H]]; [lia | lra | lra]. }
    by rewrite Hc.
  - intros sig s H. unfold Backtest._process_signal.
    destruct (Qltb (Backtest.signal_score sig) 80); [done|].
    apply Nat.leb_le in H. by rewrite H.
Qed.

Lemma full_or_broke_rejected_witness :
  Paper.process_signal 4%Z Scenarios.pair_A Scenarios.paper_full =
    (Scenarios.paper_full, None) /\
  Paper.process_signal 0%Z Scenarios.pair_A (Paper.init 0) =
    (Paper.init 0, None).
Proof.
  destruct full_or_broke_rejected as [HP _]. split.
  - apply (HP 4%Z Scenarios.pair_A Scenarios.paper_full). left.
    vm_compute. lia.
  - apply (HP 0%Z Scenarios.pair_A (Paper.init 0)). right. left.
    simpl. lra.
Defined.

(** C8, as stated, fails in paper mode at exactly 90 minutes: the position
    entered at time 0 on a market cap of one million is evaluated 90
    minutes later at the same market cap (potential used 0, below 0.30,
    no stop-loss), and stays open. *)
Lemma time_exit_at_90_minutes_counterexample :
  exists t s' t' pct_used,
    Paper.trades Scenarios.paper_entered !! 0%nat = Some t /\
    (Paper.entry_time t + Paper.timedelta_minutes 90 =
       Paper.timedelta_minutes 90)%Z /\
    Paper.duration_mins (Paper.timedelta_minutes 90) t == 90 /\
    Paper.potential_used 1000000 t = Some pct_used /\
    pct_used < 0.30 /\
    Scenarios.paper_at_90 = Some (s', []) /\
    Paper.trades s' !! 0%nat = Some t' /\
    Paper.status t' = "OPEN" /\
    Paper.status t' <> "CLOSED" /\
    Paper.exit_reason t' = "" /\
    Paper.active_trades s' = [0%nat].
Proof.
  do 4 eexists.
  split; [by vm_compute|]. split; [by vm_compute|].
  split; [by vm_compute|]. split; [by vm_compute|].
  split; [by vm_compute|]. split; [by vm_compute|].
  split; [by vm_compute|]. split; [by vm_compute|].
  split; [by vm_compute|]. split; by vm_compute.
Qed.

(** C8, amended: an open position evaluated at a tick where no stop-loss
    close fires is fully closed by the time exit when, in backtest mode,
    at least 90 minutes have elapsed since entry and the return lies in
    [-0.10, 0.20] (reason TIME_EXIT), and when, in paper mode, more than
    90 minutes have elapsed and the potential used is below 0.30 (reason
    TIME_EXIT_STAGNANT).  In backtest mode the close fires at exactly 90
    minutes. *)
Theorem time_exit_fires :
  (forall (ct : Backtest.Timestamp) (pd : gmap string Backtest.DataFrame)
          (h : nat) (s : Backtest.Engine) (t : Backtest.Trade)
          (df : Backtest.DataFrame) (p : Q),
     Backtest.trades s !! h = Some t ->
     pd !! Backtest.token_address t = Some df ->
     Backtest.loc df ct = Some p ->
     ~ Backtest.entry_price t == 0 ->
     (Backtest.entry_time t + Backtest.Timedelta_minutes 90 <= ct)%Z ->
     -0.10 <= (p - Backtest.entry_price t) / Backtest.entry_price t ->
     (p - Backtest.entry_price t) / Backtest.entry_price t <= 0.20 ->
     exists s' t',
       Backtest.update_trade ct pd h s = Some s' /\
       Backtest.trades s' !! h = Some t' /\
       Backtest.status t' = "CLOSED" /\
       Backtest.current_units t' = 0 /\
       (Backtest.exit_reason t' <> "STOP_LOSS" ->
        Backtest.exit_reason t' = "TIME_EXIT")) /\
  (forall (now : Paper.Timestamp) (m : gmap string Q) (h : nat)
          (s : Paper.PaperTrader) (ups : list Paper.Update)
          (t : Paper.PaperTrade) (mc pct_used : Q),
     Paper.trades s !! h = Some t ->
     m !! Paper.token_address t = Some mc -> ~ mc == 0 ->
     Paper.potential_used mc t = Some pct_used ->
     pct_used < 0.30 ->
     (Paper.entry_time t + Paper.timedelta_minutes 90 < now)%Z ->
     exists s' ups' t',
       Paper.update_trade now m h (s, ups) = Some (s', ups') /\
       Paper.trades s' !! h = Some t' /\
       Paper.status t' = "CLOSED" /\
       Paper.current_units t' = 0 /\
       (Paper.exit_reason t' <> "STOP_LOSS_30_PCT" ->
        Paper.exit_reason t' = "TIME_EXIT_STAGNANT")).
Proof.
  split.
  - intros ct pd h s t df p Ht Hdf Hloc Hne Hel Hlo Hhi.
    pose proof (BacktestFacts.minutes_in_elapsed ct t 90 Hel) as Hmin.
    destruct (BacktestFacts.update_trade_time_exit ct pd h s t df p Ht Hdf
                Hloc Hne Hmin Hlo Hhi) as (t3 & reason & Hr & Hup).
    exists (Backtest._close_trade h t3 p ct reason s),
           (Backtest.closed_trade p ct reason t3).
    split; [exact Hup|]. split.
    { apply BacktestFacts._close_trade_lookup. by eapply lookup_lt_Some. }
    split; [done|]. split; [done|]. simpl. intros Hns.
    destruct Hr as [->| ->]; done.
  - intros now m h s ups t mc pct_used Ht Hm Hmc Hpot Hpct Hel.
    pose proof (PaperFacts.duration_mins_elapsed now t 90 Hel) as Hdur.
    destruct (PaperFacts.pt_update_trade_time_exit now m h s ups t mc pct_used
                Ht Hm Hmc Hpot Hdur Hpct) as (s' & reason & Hr & Hc & Hup).
    exists s', (ups ++ [Paper.CLOSE h]),
           (Paper.closed_trade now mc reason (Paper.update_peak mc t)).
    split; [exact Hup|]. split.
    { eapply PaperFacts.pt_close_trade_lookup; [|exact Hc].
      by eapply lookup_lt_Some. }
    split; [done|]. split; [done|]. simpl. intros Hns.
    destruct Hr as [->| ->]; done.
Qed.

Lemma time_exit_fires_witness :
  (exists s' t',
     Backtest.update_trade (Scenarios.minute 90) Scenarios.prices_flat 0
       Scenarios.backtest_entered = Some s' /\
     Backtest.trades s' !! 0%nat = Some t' /\
     Backtest.status t' = "CLOSED" /\
     Backtest.current_units t' = 0 /\
     (Backtest.exit_reason t' <> "STOP_LOSS" ->
      Backtest.exit_reason t' = "TIME_EXIT")) /\
  (exists s' ups' t',
     Paper.update_trade (Paper.timedelta_minutes 91) Scenarios.caps_flat 0
       (Scenarios.paper_entered, []) = Some (s', ups') /\
     Paper.trades s' !! 0%nat = Some t' /\
     Paper.status t' = "CLOSED" /\
     Paper.current_units t' = 0 /\
     (Paper.exit_reason t' <> "STOP_LOSS_30_PCT" ->
      Paper.exit_reason t' = "TIME_EXIT_STAGNANT")).
Proof.
  destruct time_exit_fires as [HB HP]. split.
  - apply (HB (Scenarios.minute 90) Scenarios.prices_flat 0%nat
             Scenarios.backtest_entered Scenarios.trade_A
             Scenarios.frame_flat 1.05); by vm_compute.
  - eapply (HP (Paper.timedelta_minutes 91) Scenarios.caps_flat 0%nat
              Scenarios.paper_entered [] _ 1000000 _).
    + by vm_compute.
    + by vm_compute.
    + by vm_compute.
    + by vm_compute.
    + by vm_compute.
    + by vm_compute.
Defined.

(** C9: in backtest mode a signal scored below 80 creates no trade and
    leaves the engine, hence capital, [active_trades] and [trades],
    as it was, whatever the capacity, the circuit breaker and the capital
    are. *)
Theorem low_score_rejected :
  forall (sig : Backtest.Signal) (s : Backtest.Engine),
    Backtest.signal_score sig < 80 ->
    Backtest._process_signal sig s = Some s.
Proof.
  intros sig s Hscore. unfold Backtest._process_signal.
  apply Qltb_true in Hscore. by rewrite Hscore.
Qed.

Lemma low_score_rejected_witness :
  Backtest._process_signal Scenarios.signal_low Scenarios.backtest_entered =
    Some Scenarios.backtest_entered.
Proof.
  apply (low_score_rejected Scenarios.signal_low Scenarios.backtest_entered).
  simpl. lra.
Defined.



End Claims.
(** ** Further facts on sums and lists of handles *)

Section MoreAmounts.
Local Open Scope Q_scope.

Lemma Qsum_fmap_insert {A : Type} (f : A -> Q) (l : list A) (h : nat)
    (x x' : A) :
  l !! h = Some x ->
  Qsum (f <$> <[h := x']> l) == Qsum (f <$> l) - f x + f x'.
Proof.
  revert h. induction l as [|y l IH]; intros h Hl; [done|].
  destruct h as [|h].
  - simpl in Hl. inversion Hl; subst.
    change (<[0%nat := x']> (x :: l)) with (x' :: l).
    rewrite !fmap_cons, !Qsum_cons. lra.
  - simpl in Hl. change (<[S h := x']> (y :: l)) with (y :: <[h := x']> l).
    rewrite !fmap_cons, !Qsum_cons. rewrite (IH h Hl). lra.
Qed.

Lemma Qsum_fmap_app {A : Type} (f : A -> Q) (l l' : list A) :
  Qsum (f <$> (l ++ l')) == Qsum (f <$> l) + Qsum (f <$> l').
Proof.
  induction l as [|y l IH].
  - rewrite app_nil_l, fmap_nil. simpl. lra.
  - rewrite <- app_comm_cons, !fmap_cons, !Qsum_cons, IH. lra.
Qed.

Lemma Qsum_fmap_minus {A : Type} (f g : A -> Q) (l : list A) :
  Qsum ((fun x => f x - g x) <$> l) == Qsum (f <$> l) - Qsum (g <$> l).
Proof.
  induction l as [|y l IH].
  - rewrite !fmap_nil. simpl. lra.
  - rewrite !fmap_cons, !Qsum_cons, IH. lra.
Qed.

Lemma Qsum_fmap_plus {A : Type} (f g : A -> Q) (l : list A) :
  Qsum ((fun x => f x + g x) <$> l) == Qsum (f <$> l) + Qsum (g <$> l).
Proof.
  induction l as [|y l IH].
  - rewrite !fmap_nil. simpl. lra.
  - rewrite !fmap_cons, !Qsum_cons, IH. lra.
Qed.

Lemma Qsum_fmap_zero {A : Type} (f : A -> Q) (l : list A) :
  Forall (fun x => f x == 0) l -> Qsum (f <$> l) == 0.
Proof.
  induction 1 as [|y l Hy _ IH].
  - rewrite fmap_nil. simpl. lra.
  - rewrite fmap_cons, Qsum_cons, IH, Hy. lra.
Qed.

Lemma list_remove_length (x : nat) (l : list nat) :
  (length (list_remove x l) <= length l)%nat.
Proof.
  induction l as [|y l IH]; simpl; [lia|].
  destruct (Nat.eqb x y); simpl; lia.
Qed.

Lemma list_remove_length_elem (x : nat) (l : list nat) :
  x ∈ l -> S (length (list_remove x l)) = length l.
Proof.
  induction l as [|y l IH]; intros Hx; [by apply elem_of_nil in Hx|].
  simpl. destruct (Nat.eqb x y) eqn:Hxy; [done|].
  apply Nat.eqb_neq in Hxy. apply elem_of_cons in Hx as [->|Hx]; [done|].
  simpl. by rewrite IH.
Qed.

Lemma py_max_ge_r (a b : Q) : b <= py_max a b.
Proof. unfold py_max. destruct (Qgtb b a) eqn:H; qprop; lra. Qed.

Lemma filter_length_insert {A : Type} (f : A -> bool) (l : list A) (h : nat)
    (x x' : A) :
  l !! h = Some x ->
  (length (List.filter f (<[h := x']> l)) + (if f x then 1 else 0) =
     length (List.filter f l) + (if f x' then 1 else 0))%nat.
Proof.
  revert h. induction l as [|y l IH]; intros h Hl; [done|].
  destruct h as [|h].
  - simpl in Hl. inversion Hl; subst.
    change (<[0%nat := x']> (x :: l)) with (x' :: l). simpl.
    destruct (f x), (f x'); simpl; lia.
  - simpl in Hl. change (<[S h := x']> (y :: l)) with (y :: <[h := x']> l).
    simpl. specialize (IH h Hl). destruct (f y); simpl; lia.
Qed.

End MoreAmounts.

(** ** Further facts on the backtest engine *)

Module BacktestMore.
Import Backtest BacktestFacts.
Local Open Scope Q_scope.

(** *** The paths through one turn of the loop of [_update_trades] *)

Lemma update_trade_cases (ct : Timestamp) (pd : gmap string DataFrame)
    (h : nat) (s s' : Engine) (t : Trade) :
  update_trade ct pd h s = Some s' -> trades s !! h = Some t ->
  (s' = s /\ data_gap ct pd t) \/
  (exists df last_time last_price,
     pd !! token_address t = Some df /\ loc df ct = None /\
     last_row df = Some (last_time, last_price) /\ (last_time < ct)%Z /\
     s' = _close_trade h t last_price last_time "END_OF_DATA" s) \/
  (exists df p t1,
     pd !! token_address t = Some df /\ loc df ct = Some p /\
     trailing_stop
       (hard_stop_phase (minutes_in ct (update_ath p t)) (update_ath p t)) =
       Some t1 /\
     ((p <= stop_loss_price t1 /\
       s' = _close_trade h t1 p ct "STOP_LOSS" s) \/
      (stop_loss_price t1 < p /\ ~ entry_price t1 == 0 /\
       exists sa ta sb tb sc tc,
         take_profit_1 ((p - entry_price t1) / entry_price t1) p t1 s =
           Some (sa, ta) /\
         take_profit_2 ((p - entry_price t1) / entry_price t1) p ta sa =
           Some (sb, tb) /\
         take_profit_3 ((p - entry_price t1) / entry_price t1) p tb sb =
           Some (sc, tc) /\
         ((time_exit_due (minutes_in ct (update_ath p t))
             ((p - entry_price t1) / entry_price t1) = true /\
           s' = _close_trade h tc p ct "TIME_EXIT" sc) \/
          (time_exit_due (minutes_in ct (update_ath p t))
             ((p - entry_price t1) / entry_price t1) = false /\
           s' = set_trades (<[h := tc]> (trades (check_daily_loss_limit sc)))
                  (check_daily_loss_limit sc)))))).
Proof.
  intros Hu Ht. unfold update_trade in Hu. rewrite Ht in Hu.
  unfold data_gap.
  destruct (pd !! token_address t) as [df|] eqn:Hdf; [|left; by inversion Hu].
  destruct (loc df ct) as [p|] eqn:Hloc.
  - right; right. exists df, p.
    destruct (trailing_stop _) as [t1|] eqn:Htr; [|discriminate].
    exists t1. split; [done|]. split; [done|]. split; [done|].
    cbn [mbind option_bind] in Hu.
    destruct (Qleb p (stop_loss_price t1)) eqn:Hstop.
    + left. qprop. split; [done|]. by inversion Hu.
    + right. qprop. split; [done|].
      destruct (div _ _) as [roi|] eqn:Hroi; [|discriminate].
      apply div_Some in Hroi as [Hne ->]. split; [done|].
      cbn [mbind option_bind] in Hu.
      destruct (take_profit_1 _ _ _ _) as [[sa ta]|] eqn:H1; [|discriminate].
      cbn [mbind option_bind] in Hu.
      destruct (take_profit_2 _ _ _ _) as [[sb tb]|] eqn:H2; [|discriminate].
      cbn [mbind option_bind] in Hu.
      destruct (take_profit_3 _ _ _ _) as [[sc tc]|] eqn:H3; [|discriminate].
      cbn [mbind option_bind] in Hu.
      exists sa, ta, sb, tb, sc, tc. repeat (split; [done|]).
      destruct (time_exit_due _ _) eqn:Hte; [left|right]; split; try done;
        by inversion Hu.
  - destruct (last_row df) as [[lt lp]|] eqn:Hlast.
    + destruct (lt <? ct)%Z eqn:Hlt.
      * right; left. exists df, lt, lp. apply Z.ltb_lt in Hlt.
        repeat (split; [done|]). by inversion Hu.
      * left. apply Z.ltb_ge in Hlt. split; [by inversion Hu|]. done.
    + left. split; [by inversion Hu|]. done.
Qed.


(** *** The take-profit tiers, when they fire *)

Lemma take_profit_1_eq (roi p : Q) (t t' : Trade) (s s' : Engine) :
  take_profit_1 roi p t s = Some (s', t') ->
  (s' = s /\ t' = t) \/
  (tp1_hit t = false /\ 0.40 <= roi /\ ~ entry_price t == 0 /\
   s' = set_capital (capital s + sale_units 0.50 t * p) s /\
   t' = set_stop_loss_price (py_max (stop_loss_price t) (entry_price t))
          (set_tp1_hit true (after_sale (sale_units 0.50 t) p t))).
Proof.
  unfold take_profit_1. intros H.
  destruct (Qgeb roi 0.40) eqn:Hr; cbn [andb] in H; [|left; by inversion H].
  destruct (tp1_hit t) eqn:Hh; cbn [negb] in H; [left; by inversion H|].
  destruct (_partial_close _ _ _ _ _) as [[s1 t1]|] eqn:Hpc; [|discriminate].
  apply _partial_close_eq in Hpc as (Hne & -> & ->).
  cbn [mbind option_bind] in H. inversion H; subst. qprop.
  right. repeat (split; [done|]). reflexivity.
Qed.

Lemma take_profit_2_eq (roi p : Q) (t t' : Trade) (s s' : Engine) :
  take_profit_2 roi p t s = Some (s', t') ->
  (s' = s /\ t' = t) \/
  (tp2_hit t = false /\ 1.00 <= roi /\ ~ entry_price t == 0 /\
   s' = set_capital (capital s + sale_units 0.25 t * p) s /\
   t' = set_tp2_hit true (after_sale (sale_units 0.25 t) p t)).
Proof.
  unfold take_profit_2. intros H.
  destruct (Qgeb roi 1.00) eqn:Hr; cbn [andb] in H; [|left; by inversion H].
  destruct (tp2_hit t) eqn:Hh; cbn [negb] in H; [left; by inversion H|].
  destruct (_partial_close _ _ _ _ _) as [[s1 t1]|] eqn:Hpc; [|discriminate].
  apply _partial_close_eq in Hpc as (Hne & -> & ->).
  cbn [mbind option_bind] in H. inversion H; subst. qprop.
  right. repeat (split; [done|]). reflexivity.
Qed.

Lemma take_profit_3_eq (roi p : Q) (t t' : Trade) (s s' : Engine) :
  take_profit_3 roi p t s = Some (s', t') ->
  (s' = s /\ t' = t) \/
  (tp3_hit t = false /\ 2.00 <= roi /\ ~ entry_price t == 0 /\
   s' = set_capital (capital s + sale_units 0.15 t * p) s /\
   t' = set_tp3_hit true (after_sale (sale_units 0.15 t) p t)).
Proof.
  unfold take_profit_3. intros H.
  destruct (Qgeb roi 2.00) eqn:Hr; cbn [andb] in H; [|left; by inversion H].
  destruct (tp3_hit t) eqn:Hh; cbn [negb] in H; [left; by inversion H|].
  destruct (_partial_close _ _ _ _ _) as [[s1 t1]|] eqn:Hpc; [|discriminate].
  apply _partial_close_eq in Hpc as (Hne & -> & ->).
  cbn [mbind option_bind] in H. inversion H; subst. qprop.
  right. repeat (split; [done|]). reflexivity.
Qed.

(** *** Invariants of the engine, in general *)

Lemma update_trade_books (ct : Timestamp) (pd : gmap string DataFrame)
    (h : nat) (s s' : Engine) :
  books_ok s -> h ∈ active_trades s -> update_trade ct pd h s = Some s' ->
  books_ok s' /\
  (forall j, j ∈ active_trades s -> j <> h -> j ∈ active_trades s').
Proof.
  intros (H1 & H2 & H3) Hh Hup.
  destruct (update_trade_handles _ _ _ _ _ H1 H2 Hh Hup) as (A & B & C).
  destruct (update_trade_store _ _ _ _ _ Hup) as (Hev & Hlen & _).
  split; [|exact C]. split; [exact A|]. split; [exact B|].
  eapply store_evolves_Forall; [apply evolves_conserved | | |]; eassumption.
Qed.

(** An invariant kept by every turn taken for an active, open trade is
    kept by [_update_trades]. *)
Lemma _update_trades_inv (I : Engine -> Prop) (ct : Timestamp)
    (pd : gmap string DataFrame) :
  (forall h s s' t,
     books_ok s -> I s -> h ∈ active_trades s ->
     trades s !! h = Some t -> status t = "OPEN" ->
     update_trade ct pd h s = Some s' -> I s') ->
  forall s s', books_ok s -> I s -> _update_trades ct pd s = Some s' -> I s'.
Proof.
  intros Hbody s s' Hok HI Hrun. unfold _update_trades in Hrun.
  cut (books_ok s' /\ I s' /\ NoDup (@nil nat) /\ [] ⊆ active_trades s');
    [tauto|].
  apply (for_each_invariant (update_trade ct pd)
           (fun rest s1 =>
              books_ok s1 /\ I s1 /\ NoDup rest /\ rest ⊆ active_trades s1))
    with (l := active_trades s) (s := s); [| |exact Hrun].
  - intros h rest s1 s2 (A1 & A2 & A3 & A4) Hb.
    apply NoDup_cons in A3 as [Hh A3].
    assert (Hin : h ∈ active_trades s1) by (apply A4; set_solver).
    destruct (update_trade_books _ _ _ _ _ A1 Hin Hb) as (B1 & B3).
    destruct (proj2 (proj1 A1) h Hin) as (t & Ht & Hst).
    split; [exact B1|]. split.
    + exact (Hbody h s1 s2 t A1 A2 Hin Ht Hst Hb).
    + split; [exact A3|].
      intros j Hj. apply B3; [set_solver|]. intros ->. contradiction.
  - split; [exact Hok|]. split; [exact HI|].
    split; [apply Hok | done].
Qed.

(** An invariant kept by every call is kept by a sequence of calls. *)
Lemma calls_inv (I : Engine -> Prop) (ok : Call -> Prop) :
  (forall c s s', ok c -> books_ok s -> I s -> call c s = Some s' -> I s') ->
  forall cs s s',
    Forall ok cs -> books_ok s -> I s -> calls cs s = Some s' -> I s'.
Proof.
  intros Hcall cs. induction cs as [|c cs IH]; intros s s' Hok Hb HI Hrun.
  - simpl in Hrun. by inversion Hrun; subst.
  - simpl in Hrun. destruct (call c s) as [s1|] eqn:Hc; [|discriminate].
    apply Forall_cons in Hok as [Hc1 Hok].
    apply (IH s1 s'); [exact Hok| | |exact Hrun].
    + apply (calls_books [c] s s1 Hb). simpl. by rewrite Hc.
    + by apply (Hcall c s s1).
Qed.

Lemma day_reset_keeps_books (ct : Timestamp) (s : Engine) :
  books_ok s -> books_ok (day_reset ct s).
Proof.
  unfold day_reset. destruct (bool_decide _); [|done].
  intros [[A B] [C D]]. split; [split|split]; assumption.
Qed.

(** An invariant kept by the steps of an iteration is kept by the loop of
    [run]; [ok] is what is known of the signals. *)
Lemma run_loop_inv (I : Engine -> Prop) (ok : Signal -> Prop)
    (pd : gmap string DataFrame) :
  (forall ct s, I s -> I (day_reset ct s)) ->
  (forall v s, I s -> I (set_equity v s)) ->
  (forall v s, I s -> I (set_equity_curve v s)) ->
  (forall sig s s',
     ok sig -> books_ok s -> I s -> _process_signal sig s = Some s' -> I s') ->
  (forall ct s s',
     books_ok s -> I s -> _update_trades ct pd s = Some s' -> I s') ->
  forall fuel max_time ct pending s ct' pending' s',
    Forall ok pending -> books_ok s -> I s ->
    run_loop fuel pd max_time ct pending s = Some (ct', pending', s') ->
    I s'.
Proof.
  intros Hday Heq Hcurve Hsig Hupd.
  assert (Hnew : forall ct pending s pending' s',
            Forall ok pending -> books_ok s -> I s ->
            process_new_signals ct pending s = Some (pending', s') ->
            Forall ok pending' /\ I s').
  { intros ct pending. induction pending as [|sig rest IH];
      intros s pending' s' Hok Hb HI Hrun.
    - simpl in Hrun. by inversion Hrun; subst.
    - simpl in Hrun. apply Forall_cons in Hok as [Hs Hok].
      destruct (signal_time sig <=? ct)%Z.
      + destruct (_process_signal sig s) as [s1|] eqn:Hp; [|discriminate].
        apply (IH s1); [exact Hok| | |exact Hrun].
        * by apply (_process_signal_books sig s).
        * by apply (Hsig sig s).
      + inversion Hrun; subst. split; [by apply Forall_cons|done]. }
  intros fuel. induction fuel as [|fuel IH];
    intros max_time ct pending s ct' pending' s' Hok Hb HI Hrun.
  - simpl in Hrun. destruct (ct <=? max_time)%Z; by inversion Hrun; subst.
  - simpl in Hrun. destruct (ct <=? max_time)%Z; [|by inversion Hrun; subst].
    destruct (run_iteration pd ct pending s) as [[[ct1 pending1] s1]|] eqn:Hit;
      [|discriminate].
    pose proof (run_iteration_books _ _ _ _ _ _ _ Hit) as [_ Hb1].
    unfold run_iteration in Hit.
    destruct (_update_trades ct pd (day_reset ct s)) as [s2|] eqn:Hu;
      [|discriminate].
    cbn [mbind option_bind] in Hit.
    destruct (process_new_signals _ _ _) as [[pending2 s3]|] eqn:Hn;
      [|discriminate].
    cbn [mbind option_bind] in Hit. inversion Hit; subst. clear Hit.
    assert (Hb2 : books_ok s2).
    { eapply _update_trades_books; [|exact Hu]. by apply day_reset_keeps_books. }
    assert (HI2 : I s2).
    { eapply Hupd; [| |exact Hu]; [by apply day_reset_keeps_books|].
      by apply Hday. }
    destruct (Hnew ct pending
                (set_equity (capital s2 + unrealized_value ct pd s2) s2)
                pending1 s3 Hok) as [Hok1 HI3]; [| |exact Hn|].
    + destruct Hb2 as [[A B] [C D]]. split; [split|split]; assumption.
    + by apply Heq.
    + eapply IH; [exact Hok1| | |exact Hrun]; [by apply Hb1|].
      by apply Hcurve.
Qed.


(** *** Admission, in full *)

Lemma _process_signal_admits (sig : Signal) (s s' : Engine) :
  _process_signal sig s = Some s' ->
  s' = s \/
  (80 <= signal_score sig /\ (length (active_trades s) < 4)%nat /\
   daily_loss_limit_hit s = false /\ ~ price_at_signal sig == 0 /\
   exists t,
     s' = set_trades (trades s ++ [t])
            (set_active_trades (active_trades s ++ [length (trades s)])
               (set_capital (capital s - position_size_usd t) s)) /\
     token_address t = sig_token_address sig /\
     entry_price t = price_at_signal sig /\
     entry_time t = signal_time sig /\
     entry_score t = signal_score sig /\
     position_size_usd t =
       (if Qgtb (capital s * risk_pct (signal_score sig) / 0.15) (capital s)
        then capital s
        else capital s * risk_pct (signal_score sig) / 0.15) /\
     current_units t = position_size_usd t / price_at_signal sig /\
     realized_pnl t = 0 /\ status t = "OPEN" /\
     ath_price t = price_at_signal sig /\
     stop_loss_price t = price_at_signal sig * (1 - 0.15) /\
     tp1_hit t = false /\ tp2_hit t = false /\ tp3_hit t = false /\
     units_sold t = []).
Proof.
  unfold _process_signal. intros H.
  destruct (Qltb (signal_score sig) 80) eqn:Hsc; [left; by inversion H|].
  destruct (4 <=? length (active_trades s))%nat eqn:Hfull;
    [left; by inversion H|].
  destruct (daily_loss_limit_hit s) eqn:Hhit; [left; by inversion H|].
  destruct (div _ (price_at_signal sig)) as [units|] eqn:Hdiv; [|discriminate].
  apply div_Some in Hdiv as [Hne ->].
  cbn [mbind option_bind] in H. inversion H; subst; clear H.
  right. qprop. apply Nat.leb_gt in Hfull.
  repeat (split; [done|]).
  match goal with
  | |- exists t, set_trades (_ ++ [?T]) _ = _ /\ _ => exists T
  end.
  repeat split; reflexivity.
Qed.

(** *** At most four active trades *)

Lemma update_trade_active_length (ct : Timestamp)
    (pd : gmap string DataFrame) (h : nat) (s s' : Engine) :
  update_trade ct pd h s = Some s' ->
  (length (active_trades s') <= length (active_trades s))%nat.
Proof.
  intros Hu. destruct (trades s !! h) as [t|] eqn:Ht.
  - destruct (update_trade_outcome _ _ _ _ _ _ Hu Ht)
      as (t' & _ & _ & _ & [(_ & _ & ->)|(_ & _ & ->)] & _);
      [lia | apply list_remove_length].
  - rewrite update_trade_no_trade in Hu by done. by inversion Hu.
Qed.

Lemma _update_trades_active_length (ct : Timestamp)
    (pd : gmap string DataFrame) (s s' : Engine) :
  _update_trades ct pd s = Some s' ->
  (length (active_trades s') <= length (active_trades s))%nat.
Proof.
  unfold _update_trades. intros Hrun.
  apply (for_each_invariant (update_trade ct pd)
           (fun _ s1 =>
              (length (active_trades s1) <= length (active_trades s))%nat))
    with (l := active_trades s) (s := s); [|lia|exact Hrun].
  intros h rest s1 s2 Hle Hb.
  apply update_trade_active_length in Hb. lia.
Qed.

Lemma _process_signal_capacity (sig : Signal) (s s' : Engine) :
  _process_signal sig s = Some s' ->
  (length (active_trades s) <= 4)%nat -> (length (active_trades s') <= 4)%nat.
Proof.
  intros H Hle.
  apply _process_signal_admits in H
    as [->|(_ & Hlt & _ & _ & t & -> & _)]; [done|].
  cbn. rewrite length_app. simpl. lia.
Qed.

Lemma calls_capacity (cs : list Call) (s s' : Engine) :
  calls cs s = Some s' ->
  (length (active_trades s) <= 4)%nat -> (length (active_trades s') <= 4)%nat.
Proof.
  revert s. induction cs as [|c cs IH]; intros s Hrun Hle.
  - simpl in Hrun. by inversion Hrun; subst.
  - simpl in Hrun. destruct (call c s) as [s1|] eqn:Hc; [|discriminate].
    apply (IH s1 Hrun). destruct c as [sig|ct pd]; simpl in Hc.
    + by apply (_process_signal_capacity sig s).
    + apply _update_trades_active_length in Hc. lia.
Qed.

Lemma run_capacity (signals : list Signal) (pd : gmap string DataFrame)
    (s s' : Engine) (r : option BacktestResult) :
  books_ok s -> run signals pd s = Some (s', r) ->
  (length (active_trades s) <= 4)%nat -> (length (active_trades s') <= 4)%nat.
Proof.
  intros Hb Hrun Hle. unfold run in Hrun.
  destruct (min_of _) as [mn|]; [|by inversion Hrun; subst].
  destruct (max_of _) as [mx|]; [|by inversion Hrun; subst].
  destruct (run_loop _ _ _ _ _ _) as [[[ct' pending'] s1]|] eqn:Hloop;
    [|discriminate].
  cbn [mbind option_bind] in Hrun. inversion Hrun; subst.
  apply (run_loop_inv (fun s => (length (active_trades s) <= 4)%nat)
           (fun _ => True) pd)
    with (fuel := iterations mn mx) (max_time := mx) (ct := mn)
         (pending := sort_signals signals) (s := s) (ct' := ct')
         (pending' := pending'); try done.
  - intros ct s0 H0. unfold day_reset. by destruct (bool_decide _).
  - intros sig s0 s1' _ _ H0 Hp. by apply (_process_signal_capacity sig s0).
  - intros ct s0 s1' _ H0 Hu. apply _update_trades_active_length in Hu. lia.
  - by apply sort_signals_Forall, Forall_true.
Qed.


(** *** The books balance *)

Lemma only_levels_fields (t t' : Trade) :
  only_levels t t' ->
  current_units t' = current_units t /\ realized_pnl t' = realized_pnl t /\
  entry_price t' = entry_price t /\
  position_size_usd t' = position_size_usd t /\
  status t' = status t /\ tp1_hit t' = tp1_hit t /\
  tp2_hit t' = tp2_hit t /\ tp3_hit t' = tp3_hit t /\
  token_address t' = token_address t /\ entry_time t' = entry_time t.
Proof. intros [E _]. rewrite E. repeat split. Qed.

Lemma levels_phase_levels (ct : Timestamp) (p : Q) (t t1 : Trade) :
  trailing_stop
    (hard_stop_phase (minutes_in ct (update_ath p t)) (update_ath p t)) =
    Some t1 ->
  only_levels t t1.
Proof.
  intros H. apply trailing_stop_levels in H as [H _].
  eapply only_levels_trans; [|exact H].
  eapply only_levels_trans; [apply update_ath_levels|].
  apply hard_stop_phase_levels.
Qed.

Lemma only_capital_refl (s : Engine) : only_capital s s.
Proof. unfold only_capital. by destruct s. Qed.

Lemma only_capital_trans (s1 s2 s3 : Engine) :
  only_capital s1 s2 -> only_capital s2 s3 -> only_capital s1 s3.
Proof. unfold only_capital. intros E1 E2. rewrite E2, E1. reflexivity. Qed.

Lemma only_capital_fields (s s' : Engine) :
  only_capital s s' ->
  trades s' = trades s /\ active_trades s' = active_trades s /\
  same_books s s' /\ daily_loss_limit_hit s' = daily_loss_limit_hit s.
Proof. unfold only_capital, same_books. intros ->. repeat split. Qed.

Lemma check_daily_loss_limit_fields (s : Engine) :
  trades (check_daily_loss_limit s) = trades s /\
  active_trades (check_daily_loss_limit s) = active_trades s /\
  capital (check_daily_loss_limit s) = capital s /\
  same_books s (check_daily_loss_limit s).
Proof.
  unfold check_daily_loss_limit, same_books.
  destruct (Qltb _ _); repeat split.
Qed.

Lemma take_profit_1_value (roi p : Q) (t t' : Trade) (s s' : Engine) :
  take_profit_1 roi p t s = Some (s', t') ->
  only_capital s s' /\
  capital s' + book_value t' == capital s + book_value t.
Proof.
  intros H. apply take_profit_1_eq in H
    as [[-> ->]|(_ & _ & _ & -> & ->)].
  - split; [apply only_capital_refl | lra].
  - split; [reflexivity|].
    unfold book_value, cost_basis, after_sale. simpl. ring.
Qed.

Lemma take_profit_2_value (roi p : Q) (t t' : Trade) (s s' : Engine) :
  take_profit_2 roi p t s = Some (s', t') ->
  only_capital s s' /\
  capital s' + book_value t' == capital s + book_value t.
Proof.
  intros H. apply take_profit_2_eq in H
    as [[-> ->]|(_ & _ & _ & -> & ->)].
  - split; [apply only_capital_refl | lra].
  - split; [reflexivity|].
    unfold book_value, cost_basis, after_sale. simpl. ring.
Qed.

Lemma take_profit_3_value (roi p : Q) (t t' : Trade) (s s' : Engine) :
  take_profit_3 roi p t s = Some (s', t') ->
  only_capital s s' /\
  capital s' + book_value t' == capital s + book_value t.
Proof.
  intros H. apply take_profit_3_eq in H
    as [[-> ->]|(_ & _ & _ & -> & ->)].
  - split; [apply only_capital_refl | lra].
  - split; [reflexivity|].
    unfold book_value, cost_basis, after_sale. simpl. ring.
Qed.

Lemma closed_trade_value (p : Q) (time : Timestamp) (reason : string)
    (t : Trade) :
  current_units t * p + book_value (closed_trade p time reason t) ==
    book_value t.
Proof. unfold book_value, cost_basis, closed_trade. simpl. ring. Qed.

(** One turn of the loop moves value between the cash and the trade at
    hand, and nowhere else. *)
Lemma update_trade_value (ct : Timestamp) (pd : gmap string DataFrame)
    (h : nat) (s s' : Engine) (t : Trade) :
  update_trade ct pd h s = Some s' -> trades s !! h = Some t ->
  exists t',
    trades s' = <[h := t']> (trades s) /\
    capital s' + book_value t' == capital s + book_value t.
Proof.
  intros Hu Ht.
  destruct (update_trade_cases _ _ _ _ _ _ Hu Ht)
    as [[-> _]|[(df & lt & lp & _ & _ & _ & _ & ->)|
        (df & p & t1 & _ & _ & Hlev & Hrest)]].
  - exists t. split; [by rewrite list_insert_id | lra].
  - rewrite _close_trade_eq. eexists. split; [reflexivity|]. simpl.
    pose proof (closed_trade_value lp lt "END_OF_DATA" t). lra.
  - apply levels_phase_levels in Hlev.
    assert (Hbv : book_value t1 == book_value t).
    { destruct (only_levels_fields _ _ Hlev) as (E1 & E2 & E3 & _).
      unfold book_value, cost_basis. rewrite E1, E2, E3. lra. }
    destruct Hrest as [[_ ->]|(_ & _ & sa & ta & sb & tb & sc & tc &
      H1 & H2 & H3 & Hend)].
    + rewrite _close_trade_eq. eexists. split; [reflexivity|]. simpl.
      pose proof (closed_trade_value p ct "STOP_LOSS" t1). lra.
    + apply take_profit_1_value in H1 as [C1 V1].
      apply take_profit_2_value in H2 as [C2 V2].
      apply take_profit_3_value in H3 as [C3 V3].
      pose proof (only_capital_trans _ _ _ (only_capital_trans _ _ _ C1 C2) C3)
        as C.
      destruct (only_capital_fields _ _ C) as (Etr & _).
      destruct Hend as [[_ ->]|[_ ->]].
      * rewrite _close_trade_eq. eexists. simpl. rewrite Etr.
        split; [reflexivity|].
        pose proof (closed_trade_value p ct "TIME_EXIT" tc). lra.
      * destruct (check_daily_loss_limit_fields sc) as (E1 & _ & E2 & _).
        exists tc. simpl. rewrite E1, E2, Etr. split; [reflexivity|]. lra.
Qed.

Lemma _update_trades_inv0 (I : Engine -> Prop) (ct : Timestamp)
    (pd : gmap string DataFrame) :
  (forall h s s' t,
     I s -> trades s !! h = Some t -> update_trade ct pd h s = Some s' ->
     I s') ->
  forall s s', I s -> _update_trades ct pd s = Some s' -> I s'.
Proof.
  intros Hbody s s' HI Hrun. unfold _update_trades in Hrun.
  apply (for_each_invariant (update_trade ct pd) (fun _ s1 => I s1))
    with (l := active_trades s) (s := s); [|exact HI|exact Hrun].
  intros h rest s1 s2 H1 Hb. destruct (trades s1 !! h) as [t|] eqn:Ht.
  - by apply (Hbody h s1 s2 t).
  - rewrite update_trade_no_trade in Hb by done. by inversion Hb; subst.
Qed.

Lemma _update_trades_ledger (ct : Timestamp) (pd : gmap string DataFrame)
    (c0 : Q) (s s' : Engine) :
  capital s + Qsum (book_value <$> trades s) == c0 ->
  _update_trades ct pd s = Some s' ->
  capital s' + Qsum (book_value <$> trades s') == c0.
Proof.
  apply (_update_trades_inv0
           (fun s => capital s + Qsum (book_value <$> trades s) == c0)).
  intros h s1 s2 t HI Ht Hu.
  destruct (update_trade_value _ _ _ _ _ _ Hu Ht) as (t' & -> & Hv).
  rewrite (Qsum_fmap_insert book_value _ _ _ t' Ht). lra.
Qed.

Lemma _process_signal_ledger (sig : Signal) (c0 : Q) (s s' : Engine) :
  capital s + Qsum (book_value <$> trades s) == c0 ->
  _process_signal sig s = Some s' ->
  capital s' + Qsum (book_value <$> trades s') == c0.
Proof.
  intros HI H.
  apply _process_signal_admits in H
    as [->|(_ & _ & _ & Hne & t & -> & _ & Hp & _ & _ & _ & Hu & Hr & _)];
    [done|].
  cbn [capital trades set_trades set_active_trades set_capital].
  rewrite Qsum_fmap_app, fmap_cons, fmap_nil, Qsum_cons.
  change (Qsum []) with 0.
  unfold book_value at 2. unfold cost_basis. rewrite Hu, Hr, Hp.
  assert (position_size_usd t / price_at_signal sig * price_at_signal sig ==
            position_size_usd t) by (field; exact Hne).
  lra.
Qed.

Lemma calls_ledger (cs : list Call) (c0 : Q) (s s' : Engine) :
  capital s + Qsum (book_value <$> trades s) == c0 ->
  calls cs s = Some s' ->
  capital s' + Qsum (book_value <$> trades s') == c0.
Proof.
  revert s. induction cs as [|c cs IH]; intros s HI Hrun.
  - simpl in Hrun. by inversion Hrun; subst.
  - simpl in Hrun. destruct (call c s) as [s1|] eqn:Hc; [|discriminate].
    apply (IH s1); [|exact Hrun]. destruct c as [sig|ct pd]; simpl in Hc.
    + by apply (_process_signal_ledger sig c0 s).
    + by apply (_update_trades_ledger ct pd c0 s).
Qed.

(** *** Every trade is active or closed *)

Lemma update_trade_accounted (ct : Timestamp) (pd : gmap string DataFrame)
    (h : nat) (s s' : Engine) (t : Trade) :
  accounted s -> h ∈ active_trades s -> trades s !! h = Some t ->
  update_trade ct pd h s = Some s' -> accounted s'.
Proof.
  intros Hacc Hh Ht Hu.
  destruct (update_trade_outcome _ _ _ _ _ _ Hu Ht)
    as (t' & Htr & _ & _ & Hact & _).
  pose proof (lookup_lt_Some _ _ _ Ht) as Hlt.
  intros j tj Hj. rewrite Htr in Hj.
  destruct (decide (j = h)) as [->|Hne].
  - rewrite list_lookup_insert_eq in Hj by done. inversion Hj; subst.
    destruct Hact as [(_ & _ & ->)|(Hc & _ & _)]; [by left | by right].
  - rewrite list_lookup_insert_ne in Hj by done.
    destruct (Hacc j tj Hj) as [Hin|Hc]; [|by right]. left.
    destruct Hact as [(_ & _ & ->)|(_ & _ & ->)]; [done|].
    by apply list_remove_elem_ne.
Qed.

Lemma _update_trades_accounted (ct : Timestamp) (pd : gmap string DataFrame)
    (s s' : Engine) :
  books_ok s -> accounted s -> _update_trades ct pd s = Some s' ->
  accounted s'.
Proof.
  apply (_update_trades_inv accounted).
  intros h s1 s2 t _ Hacc Hh Ht _ Hu.
  by apply (update_trade_accounted ct pd h s1 s2 t).
Qed.

Lemma _process_signal_accounted (sig : Signal) (s s' : Engine) :
  accounted s -> _process_signal sig s = Some s' -> accounted s'.
Proof.
  intros Hacc H.
  apply _process_signal_admits in H
    as [->|(_ & _ & _ & _ & t & -> & _)]; [done|].
  intros j tj Hj. simpl in *.
  apply lookup_app_Some in Hj as [Hj|[Hlen Hj]].
  - destruct (Hacc j tj Hj) as [Hin|Hc]; [|by right].
    left. apply elem_of_app. by left.
  - left. apply elem_of_app. right.
    destruct (j - length (trades s))%nat as [|k] eqn:Hk; [|done].
    assert (j = length (trades s)) as -> by lia.
    by apply list_elem_of_singleton.
Qed.

Lemma calls_accounted (cs : list Call) (s s' : Engine) :
  books_ok s -> accounted s -> calls cs s = Some s' -> accounted s'.
Proof.
  intros Hb Hacc Hrun.
  apply (calls_inv accounted (fun _ => True)) with (cs := cs) (s := s);
    try done; [|by apply Forall_true].
  intros c s1 s2 _ Hb1 H1 Hc. destruct c as [sig|ct pd]; simpl in Hc.
  - by apply (_process_signal_accounted sig s1).
  - by apply (_update_trades_accounted ct pd s1).
Qed.

Lemma init_accounted (c : Q) : accounted (init c).
Proof. intros h t Hh. simpl in Hh. by rewrite lookup_nil in Hh. Qed.

(** With no trade active, no unit is held. *)
Lemma flat_holds_nothing (s : Engine) :
  books_ok s -> accounted s -> active_trades s = [] ->
  Qsum (cost_basis <$> trades s) == 0.
Proof.
  intros (_ & Hset & _) Hacc Hflat. apply Qsum_fmap_zero.
  apply Forall_lookup. intros h t Ht.
  destruct (Hacc h t Ht) as [Hin|Hc].
  - rewrite Hflat in Hin. by apply elem_of_nil in Hin.
  - rewrite Forall_lookup in Hset. specialize (Hset h t Ht Hc).
    unfold cost_basis. rewrite Hset. lra.
Qed.


Lemma run_loop_ledger (pd : gmap string DataFrame) (c0 : Q) (fuel : nat)
    (max_time ct ct' : Timestamp) (pending pending' : list Signal)
    (s s' : Engine) :
  books_ok s -> accounted s ->
  capital s + Qsum (book_value <$> trades s) == c0 ->
  run_loop fuel pd max_time ct pending s = Some (ct', pending', s') ->
  accounted s' /\ capital s' + Qsum (book_value <$> trades s') == c0.
Proof.
  intros Hb Hacc HI Hrun.
  apply (run_loop_inv
           (fun s => accounted s /\
                     capital s + Qsum (book_value <$> trades s) == c0)
           (fun _ => True) pd)
    with (fuel := fuel) (max_time := max_time) (ct := ct)
         (pending := pending) (s := s) (ct' := ct') (pending' := pending');
    try done.
  - intros ct0 s0 H0. unfold day_reset. by destruct (bool_decide _).
  - intros sig s0 s1 _ _ [A B] Hp. split.
    + by apply (_process_signal_accounted sig s0).
    + by apply (_process_signal_ledger sig c0 s0).
  - intros ct0 s0 s1 Hb0 [A B] Hu. split.
    + by apply (_update_trades_accounted ct0 pd s0).
    + by apply (_update_trades_ledger ct0 pd c0 s0).
  - by apply Forall_true.
Qed.

(** *** The circuit breaker *)

Lemma update_trade_breaker (ct : Timestamp) (pd : gmap string DataFrame)
    (h : nat) (s s' : Engine) (t : Trade) :
  update_trade ct pd h s = Some s' -> trades s !! h = Some t ->
  daily_loss_limit_hit s' = daily_loss_limit_hit s \/
  (daily_loss_limit_hit s' = true /\
   equity s - daily_start_equity s < - (daily_start_equity s * 0.10)).
Proof.
  intros Hu Ht.
  destruct (update_trade_cases _ _ _ _ _ _ Hu Ht)
    as [[-> _]|[(df & lt & lp & _ & _ & _ & _ & ->)|
        (df & p & t1 & _ & _ & Hlev & Hrest)]]; [by left | by left|].
  destruct Hrest as [[_ ->]|(_ & _ & sa & ta & sb & tb & sc & tc &
    H1 & H2 & H3 & Hend)]; [by left|].
  apply take_profit_1_value in H1 as [C1 _].
  apply take_profit_2_value in H2 as [C2 _].
  apply take_profit_3_value in H3 as [C3 _].
  pose proof (only_capital_trans _ _ _ (only_capital_trans _ _ _ C1 C2) C3)
    as C.
  destruct (only_capital_fields _ _ C) as (_ & _ & (_ & Eq & Ed & _) & Eh).
  destruct Hend as [[_ ->]|[_ ->]]; [by left|].
  cbn [daily_loss_limit_hit set_trades]. unfold check_daily_loss_limit.
  rewrite Eq, Ed.
  destruct (Qltb _ _) eqn:Hc; [|by left].
  right. qprop. split; [reflexivity | exact Hc].
Qed.

Lemma _update_trades_breaker (ct : Timestamp) (pd : gmap string DataFrame)
    (s s' : Engine) :
  _update_trades ct pd s = Some s' ->
  daily_loss_limit_hit s' = daily_loss_limit_hit s \/
  (daily_loss_limit_hit s' = true /\
   equity s - daily_start_equity s < - (daily_start_equity s * 0.10)).
Proof.
  intros Hrun.
  cut (same_books s s' /\
       (daily_loss_limit_hit s' = daily_loss_limit_hit s \/
        (daily_loss_limit_hit s' = true /\
         equity s - daily_start_equity s < - (daily_start_equity s * 0.10))));
    [tauto|].
  apply (_update_trades_inv0
           (fun s1 =>
              same_books s s1 /\
              (daily_loss_limit_hit s1 = daily_loss_limit_hit s \/
               (daily_loss_limit_hit s1 = true /\
                equity s - daily_start_equity s <
                  - (daily_start_equity s * 0.10)))) ct pd)
    with (s := s); [| |exact Hrun].
  - intros h s1 s2 t [Hsb Hf] Ht Hu.
    destruct (update_trade_store _ _ _ _ _ Hu) as (_ & _ & Hsb' & _).
    split; [by eapply same_books_trans|].
    destruct Hsb as (_ & Eq & Ed & _).
    destruct (update_trade_breaker _ _ _ _ _ _ Hu Ht) as [E|[E Hc]].
    + rewrite E. exact Hf.
    + right. split; [exact E|]. by rewrite <- Eq, <- Ed.
  - split; [apply same_books_refl | by left].
Qed.

Lemma calls_breaker_latched (cs : list Call) (s s' : Engine) :
  daily_loss_limit_hit s = true -> calls cs s = Some s' ->
  daily_loss_limit_hit s' = true /\
  length (trades s') = length (trades s) /\
  active_trades s' ⊆ active_trades s.
Proof.
  revert s. induction cs as [|c cs IH]; intros s Hhit Hrun.
  - simpl in Hrun. by inversion Hrun; subst.
  - simpl in Hrun. destruct (call c s) as [s1|] eqn:Hc; [|discriminate].
    destruct c as [sig|ct pd]; simpl in Hc.
    + apply _process_signal_admits in Hc as [->|(_ & _ & Hf & _)];
        [by apply IH | congruence].
    + destruct (_update_trades_store _ _ _ _ Hc) as (_ & Hlen & _ & Hsub).
      assert (Hhit1 : daily_loss_limit_hit s1 = true).
      { destruct (_update_trades_breaker _ _ _ _ Hc) as [E|[E _]];
          congruence. }
      destruct (IH s1 Hhit1 Hrun) as (A & B & C).
      split; [exact A|]. split; [congruence|].
      intros j Hj. apply Hsub, C, Hj.
Qed.

(** *** Invariants of one trade *)

Lemma update_trade_local (P : Trade -> Prop) (ct : Timestamp)
    (pd : gmap string DataFrame) (h : nat) (s s' : Engine) (t : Trade) :
  (forall p time reason t, P t -> P (closed_trade p time reason t)) ->
  (forall p t t1,
     P t ->
     trailing_stop
       (hard_stop_phase (minutes_in ct (update_ath p t)) (update_ath p t)) =
       Some t1 ->
     P t1) ->
  (forall roi p t t' s s',
     P t -> take_profit_1 roi p t s = Some (s', t') -> P t') ->
  (forall roi p t t' s s',
     P t -> take_profit_2 roi p t s = Some (s', t') -> P t') ->
  (forall roi p t t' s s',
     P t -> take_profit_3 roi p t s = Some (s', t') -> P t') ->
  update_trade ct pd h s = Some s' -> trades s !! h = Some t ->
  Forall P (trades s) -> Forall P (trades s').
Proof.
  intros Hclose Hlevels Htp1 Htp2 Htp3 Hu Ht Hall.
  assert (HP : P t) by (rewrite Forall_lookup in Hall; by apply (Hall h)).
  destruct (update_trade_cases _ _ _ _ _ _ Hu Ht)
    as [[-> _]|[(df & lt & lp & _ & _ & _ & _ & ->)|
        (df & p & t1 & _ & _ & Hlev & Hrest)]]; [done| |].
  - rewrite _close_trade_eq. simpl. apply Forall_insert; [done|].
    by apply Hclose.
  - pose proof (Hlevels _ _ _ HP Hlev) as HP1.
    destruct Hrest as [[_ ->]|(_ & _ & sa & ta & sb & tb & sc & tc &
      H1 & H2 & H3 & Hend)].
    + rewrite _close_trade_eq. simpl. apply Forall_insert; [done|].
      by apply Hclose.
    + pose proof (Htp1 _ _ _ _ _ _ HP1 H1) as HPa.
      pose proof (Htp2 _ _ _ _ _ _ HPa H2) as HPb.
      pose proof (Htp3 _ _ _ _ _ _ HPb H3) as HPc.
      apply take_profit_1_value in H1 as [C1 _].
      apply take_profit_2_value in H2 as [C2 _].
      apply take_profit_3_value in H3 as [C3 _].
      pose proof (only_capital_trans _ _ _ (only_capital_trans _ _ _ C1 C2) C3)
        as C.
      destruct (only_capital_fields _ _ C) as (Etr & _).
      destruct Hend as [[_ ->]|[_ ->]].
      * rewrite _close_trade_eq. simpl. rewrite Etr.
        apply Forall_insert; [done|]. by apply Hclose.
      * destruct (check_daily_loss_limit_fields sc) as (E1 & _).
        simpl. rewrite E1, Etr. by apply Forall_insert.
Qed.

Lemma gains_protected_closed (p : Q) (time : Timestamp) (reason : string)
    (t : Trade) :
  gains_protected t -> gains_protected (closed_trade p time reason t).
Proof. intros H. exact H. Qed.

Lemma gains_protected_levels (ct : Timestamp) (p : Q) (t t1 : Trade) :
  gains_protected t ->
  trailing_stop
    (hard_stop_phase (minutes_in ct (update_ath p t)) (update_ath p t)) =
    Some t1 ->
  gains_protected t1.
Proof.
  intros (A & B & C) H.
  pose proof (update_ath_levels p t) as L1.
  pose proof (hard_stop_phase_levels (minutes_in ct (update_ath p t))
                (update_ath p t)) as L2.
  pose proof (only_levels_trans _ _ _ L1 L2) as L12.
  destruct (only_levels_fields _ _ L12) as (_ & _ & Ee & _ & _ & E1 & _).
  destruct L12 as (_ & Ls & La).
  set (t0 := hard_stop_phase (minutes_in ct (update_ath p t)) (update_ath p t))
    in *.
  unfold trailing_stop in H.
  destruct (div _ _) as [roi|] eqn:Hroi; [|discriminate].
  apply div_Some in Hroi as [Hne ->]. cbn [mbind option_bind] in H.
  destruct (Qgeb _ 0.40) eqn:Hr.
  - destruct (Qgtb _ (stop_loss_price t0)) eqn:Hg; inversion H; subst; qprop.
    + unfold gains_protected. simpl. rewrite Ee, E1.
      split; [intros Hh; specialize (A Hh); lra|]. split; lra.
    + unfold gains_protected. rewrite Ee, E1.
      split; [intros Hh; specialize (A Hh); lra|]. split; lra.
  - inversion H; subst. qprop. unfold gains_protected. rewrite Ee, E1.
    split; [intros Hh; specialize (A Hh); lra|]. split; [|lra].
    intros Hc. rewrite Ee in Hr. lra.
Qed.

Lemma gains_protected_tp1 (roi p : Q) (t t' : Trade) (s s' : Engine) :
  gains_protected t -> take_profit_1 roi p t s = Some (s', t') ->
  gains_protected t'.
Proof.
  intros (A & B & C) H.
  apply take_profit_1_eq in H as [[-> ->]|(_ & _ & _ & -> & ->)]; [done|].
  unfold gains_protected. simpl.
  pose proof (py_max_ge_l (stop_loss_price t) (entry_price t)).
  pose proof (py_max_ge_r (stop_loss_price t) (entry_price t)).
  split; [done|]. split; [|done]. intros Hc. specialize (B Hc). lra.
Qed.

Lemma gains_protected_tp2 (roi p : Q) (t t' : Trade) (s s' : Engine) :
  gains_protected t -> take_profit_2 roi p t s = Some (s', t') ->
  gains_protected t'.
Proof.
  intros HP H.
  apply take_profit_2_eq in H as [[-> ->]|(_ & _ & _ & -> & ->)]; [done|].
  exact HP.
Qed.

Lemma gains_protected_tp3 (roi p : Q) (t t' : Trade) (s s' : Engine) :
  gains_protected t -> take_profit_3 roi p t s = Some (s', t') ->
  gains_protected t'.
Proof.
  intros HP H.
  apply take_profit_3_eq in H as [[-> ->]|(_ & _ & _ & -> & ->)]; [done|].
  exact HP.
Qed.

Lemma _update_trades_protected (ct : Timestamp) (pd : gmap string DataFrame)
    (s s' : Engine) :
  Forall gains_protected (trades s) -> _update_trades ct pd s = Some s' ->
  Forall gains_protected (trades s').
Proof.
  apply (_update_trades_inv0 (fun s => Forall gains_protected (trades s))).
  intros h s1 s2 t Hall Ht Hu.
  apply (update_trade_local gains_protected ct pd h s1 s2 t);
    [apply gains_protected_closed | apply gains_protected_levels |
     apply gains_protected_tp1 | apply gains_protected_tp2 |
     apply gains_protected_tp3 | exact Hu | exact Ht | exact Hall].
Qed.

Lemma _process_signal_protected (sig : Signal) (s s' : Engine) :
  Forall gains_protected (trades s) -> _process_signal sig s = Some s' ->
  Forall gains_protected (trades s').
Proof.
  intros Hall H.
  apply _process_signal_admits in H
    as [->|(_ & _ & _ & Hne & t & -> & _ & He & _ & _ & _ & _ & _ & _ &
            Ha & Hs & H1 & _)]; [done|].
  simpl. apply Forall_app. split; [done|]. apply Forall_singleton.
  unfold gains_protected. rewrite He, Ha, H1.
  split; [done|]. split; [|lra].
  intros Hc.
  assert (E : (price_at_signal sig - price_at_signal sig) /
                price_at_signal sig == 0) by (field; exact Hne).
  rewrite E in Hc. lra.
Qed.

Lemma calls_protected (cs : list Call) (s s' : Engine) :
  Forall gains_protected (trades s) -> calls cs s = Some s' ->
  Forall gains_protected (trades s').
Proof.
  revert s. induction cs as [|c cs IH]; intros s HI Hrun.
  - simpl in Hrun. by inversion Hrun; subst.
  - simpl in Hrun. destruct (call c s) as [s1|] eqn:Hc; [|discriminate].
    apply (IH s1); [|exact Hrun]. destruct c as [sig|ct pd]; simpl in Hc.
    + by apply (_process_signal_protected sig s).
    + by apply (_update_trades_protected ct pd s).
Qed.


(** *** The take-profit ladder *)

Lemma ladder_closed (p : Q) (time : Timestamp) (reason : string)
    (t : Trade) :
  sound t /\ on_ladder t ->
  sound (closed_trade p time reason t) /\
  on_ladder (closed_trade p time reason t).
Proof.
  intros [Hs _]. split; [by apply closed_trade_sound|].
  unfold on_ladder. simpl. discriminate.
Qed.

Lemma ladder_levels (ct : Timestamp) (p : Q) (t t1 : Trade) :
  sound t /\ on_ladder t ->
  trailing_stop
    (hard_stop_phase (minutes_in ct (update_ath p t)) (update_ath p t)) =
    Some t1 ->
  sound t1 /\ on_ladder t1.
Proof.
  intros [Hs Hl] H. apply levels_phase_levels in H.
  destruct (only_levels_fields _ _ H)
    as (E1 & E2 & E3 & E4 & E5 & E6 & E7 & E8 & _).
  unfold sound, on_ladder, initial_units, ladder_share in *.
  rewrite E1, E3, E4, E5, E6, E7, E8. by split.
Qed.

Lemma ladder_tp1 (roi p : Q) (t t' : Trade) (s s' : Engine) :
  sound t /\ on_ladder t -> take_profit_1 roi p t s = Some (s', t') ->
  sound t' /\ on_ladder t'.
Proof.
  intros [Hs Hl] H.
  apply take_profit_1_eq in H as [[-> ->]|(Hh & _ & _ & -> & ->)]; [done|].
  pose proof (sale_units_bounds 0.50 t Hs ltac:(lra)) as [B1 B2].
  pose proof (initial_units_nonneg t Hs) as Hi.
  split.
  - destruct Hs as (S1 & S2 & S3). unfold sound. simpl.
    repeat split; try done. lra.
  - unfold on_ladder in *. simpl. intros Ho. specialize (Hl Ho).
    unfold ladder_share in *. simpl. rewrite Hh in Hl.
    unfold sale_units in *. unfold initial_units in *. simpl.
    set (iu := position_size_usd t / entry_price t) in *.
    destruct (Qgtb (iu * 0.50) (current_units t)) eqn:Hg; qprop;
      destruct (tp2_hit t), (tp3_hit t); lra.
Qed.

Lemma ladder_tp2 (roi p : Q) (t t' : Trade) (s s' : Engine) :
  sound t /\ on_ladder t -> take_profit_2 roi p t s = Some (s', t') ->
  sound t' /\ on_ladder t'.
Proof.
  intros [Hs Hl] H.
  apply take_profit_2_eq in H as [[-> ->]|(Hh & _ & _ & -> & ->)]; [done|].
  pose proof (sale_units_bounds 0.25 t Hs ltac:(lra)) as [B1 B2].
  pose proof (initial_units_nonneg t Hs) as Hi.
  split.
  - destruct Hs as (S1 & S2 & S3). unfold sound. simpl.
    repeat split; try done. lra.
  - unfold on_ladder in *. simpl. intros Ho. specialize (Hl Ho).
    unfold ladder_share in *. simpl. rewrite Hh in Hl.
    unfold sale_units in *. unfold initial_units in *. simpl.
    set (iu := position_size_usd t / entry_price t) in *.
    destruct (Qgtb (iu * 0.25) (current_units t)) eqn:Hg; qprop;
      destruct (tp1_hit t), (tp3_hit t); lra.
Qed.

Lemma ladder_tp3 (roi p : Q) (t t' : Trade) (s s' : Engine) :
  sound t /\ on_ladder t -> take_profit_3 roi p t s = Some (s', t') ->
  sound t' /\ on_ladder t'.
Proof.
  intros [Hs Hl] H.
  apply take_profit_3_eq in H as [[-> ->]|(Hh & _ & _ & -> & ->)]; [done|].
  pose proof (sale_units_bounds 0.15 t Hs ltac:(lra)) as [B1 B2].
  pose proof (initial_units_nonneg t Hs) as Hi.
  split.
  - destruct Hs as (S1 & S2 & S3). unfold sound. simpl.
    repeat split; try done. lra.
  - unfold on_ladder in *. simpl. intros Ho. specialize (Hl Ho).
    unfold ladder_share in *. simpl. rewrite Hh in Hl.
    unfold sale_units in *. unfold initial_units in *. simpl.
    set (iu := position_size_usd t / entry_price t) in *.
    destruct (Qgtb (iu * 0.15) (current_units t)) eqn:Hg; qprop;
      destruct (tp1_hit t), (tp2_hit t); lra.
Qed.

Lemma _update_trades_ladder (ct : Timestamp) (pd : gmap string DataFrame)
    (s s' : Engine) :
  Forall (fun t => sound t /\ on_ladder t) (trades s) ->
  _update_trades ct pd s = Some s' ->
  Forall (fun t => sound t /\ on_ladder t) (trades s').
Proof.
  apply (_update_trades_inv0
           (fun s => Forall (fun t => sound t /\ on_ladder t) (trades s))).
  intros h s1 s2 t Hall Ht Hu.
  apply (update_trade_local (fun t => sound t /\ on_ladder t)
           ct pd h s1 s2 t);
    [apply ladder_closed | apply ladder_levels | apply ladder_tp1 |
     apply ladder_tp2 | apply ladder_tp3 | exact Hu | exact Ht | exact Hall].
Qed.

Lemma _process_signal_ladder (sig : Signal) (s s' : Engine) :
  0 < price_at_signal sig -> 0 <= capital s ->
  Forall (fun t => sound t /\ on_ladder t) (trades s) ->
  _process_signal sig s = Some s' ->
  Forall (fun t => sound t /\ on_ladder t) (trades s').
Proof.
  intros Hp Hc Hall H.
  pose proof H as H'.
  apply _process_signal_cases in H'
    as [->|(t0 & Htr0 & _ & _ & _ & _ & Hpos & _)]; [done|].
  apply _process_signal_admits in H
    as [->|(_ & _ & _ & Hne & t & -> & _ & He & _ & _ & Hsz & Hu & _ & Hst &
            _ & _ & H1 & H2 & H3 & _)]; [done|].
  simpl in Htr0. apply app_inj_tail in Htr0 as [_ <-].
  destruct (Hpos Hc) as [Hp0 _].
  simpl. apply Forall_app. split; [done|]. apply Forall_singleton.
  assert (Hu0 : 0 <= current_units t).
  { rewrite Hu. by apply Qdiv_nonneg. }
  split.
  - unfold sound. rewrite He. by repeat split.
  - unfold on_ladder, initial_units, ladder_share.
    rewrite H1, H2, H3, Hu, He. intros _. lra.
Qed.

Lemma calls_ladder (cs : list Call) (s s' : Engine) :
  Forall valid_call cs -> 0 <= capital s ->
  Forall (fun t => sound t /\ on_ladder t) (trades s) ->
  calls cs s = Some s' ->
  0 <= capital s' /\ Forall (fun t => sound t /\ on_ladder t) (trades s').
Proof.
  revert s. induction cs as [|c cs IH]; intros s Hok Hc HI Hrun.
  - simpl in Hrun. by inversion Hrun; subst.
  - simpl in Hrun. destruct (call c s) as [s1|] eqn:Hcall; [|discriminate].
    apply Forall_cons in Hok as [Hv Hok].
    assert (Hsound : Forall sound (trades s)).
    { eapply Forall_impl; [exact HI|]. by intros t [A _]. }
    destruct (call_cash c s Hv Hc Hsound) as (s1' & Hc' & Hcap & _).
    rewrite Hcall in Hc'. inversion Hc'; subst s1'.
    apply (IH s1); [exact Hok|exact Hcap| |exact Hrun].
    destruct c as [sig|ct pd]; simpl in Hcall, Hv.
    + by apply (_process_signal_ladder sig s).
    + by apply (_update_trades_ladder ct pd s).
Qed.

(** *** Ticks without a sample *)

Lemma update_trade_gap (ct : Timestamp) (pd : gmap string DataFrame)
    (h : nat) (s : Engine) (t : Trade) :
  trades s !! h = Some t -> data_gap ct pd t ->
  update_trade ct pd h s = Some s.
Proof.
  intros Ht Hg. unfold update_trade, data_gap in *. rewrite Ht.
  destruct (pd !! token_address t) as [df|]; [|done].
  destruct Hg as [-> Hl].
  destruct (last_row df) as [[lt lp]|]; [|done].
  apply Z.ltb_ge in Hl. by rewrite Hl.
Qed.

Lemma _update_trades_gap (ct : Timestamp) (pd : gmap string DataFrame)
    (s : Engine) :
  (forall h t,
     h ∈ active_trades s -> trades s !! h = Some t -> data_gap ct pd t) ->
  _update_trades ct pd s = Some s.
Proof.
  unfold _update_trades. generalize (active_trades s) as l.
  induction l as [|h l IH]; intros Hg; [done|].
  cbn [for_each]. destruct (trades s !! h) as [t|] eqn:Ht.
  - rewrite (update_trade_gap ct pd h s t Ht); [|apply (Hg h); set_solver].
    apply IH. intros j tj Hj. apply Hg. set_solver.
  - rewrite update_trade_no_trade by done.
    apply IH. intros j tj Hj. apply Hg. set_solver.
Qed.

Lemma data_gap_not_ended (ct : Timestamp) (pd : gmap string DataFrame)
    (t : Trade) :
  data_gap ct pd t -> ~ feed_ended ct pd t.
Proof.
  unfold data_gap. intros Hg (df & lt & lp & Hdf & Hloc & Hlast & Hlt).
  rewrite Hdf in Hg. destruct Hg as [_ Hg]. rewrite Hlast in Hg. lia.
Qed.

Lemma update_trade_feed (ct : Timestamp) (pd : gmap string DataFrame)
    (h : nat) (s s' : Engine) (t t' : Trade) :
  books_ok s -> h ∈ active_trades s -> trades s !! h = Some t ->
  update_trade ct pd h s = Some s' ->
  h ∈ active_trades s' -> trades s' !! h = Some t' ->
  ~ feed_ended ct pd t'.
Proof.
  intros Hb Hh Ht Hu Hh' Ht'.
  pose proof (lookup_lt_Some _ _ _ Ht) as Hlt.
  destruct (update_trade_outcome _ _ _ _ _ _ Hu Ht)
    as (t2 & Htr & Hev & _ & Hact & _).
  rewrite Htr, list_lookup_insert_eq in Ht' by done.
  inversion Ht'; subst t2. clear Ht'.
  destruct Hev as (Etok & _).
  destruct (update_trade_cases _ _ _ _ _ _ Hu Ht)
    as [[-> Hg]|[(df & lt & lp & _ & _ & _ & _ & ->)|
        (df & p & t1 & Hdf & Hloc & _)]].
  - intros Hf. apply (data_gap_not_ended ct pd t Hg).
    destruct Hf as (df & lt & lp & A & B). exists df, lt, lp.
    by rewrite <- Etok.
  - rewrite _close_trade_eq in Hh'. simpl in Hh'.
    destruct Hb as ([Hnd _] & _).
    destruct (list_remove_NoDup h _ Hnd) as [_ Hnot]. contradiction.
  - intros (df' & lt & lp & A & B & _). rewrite Etok, Hdf in A.
    inversion A; subst. congruence.
Qed.

Lemma _update_trades_feeds (ct : Timestamp) (pd : gmap string DataFrame)
    (s s' : Engine) :
  books_ok s -> _update_trades ct pd s = Some s' ->
  forall h t,
    h ∈ active_trades s' -> trades s' !! h = Some t -> ~ feed_ended ct pd t.
Proof.
  intros Hb Hrun. unfold _update_trades in Hrun.
  cut (books_ok s' /\ NoDup (@nil nat) /\ [] ⊆ active_trades s' /\
       forall j tj,
         j ∈ active_trades s' -> j ∉ (@nil nat) -> trades s' !! j = Some tj ->
         ~ feed_ended ct pd tj).
  { intros (_ & _ & _ & H) h t Hh Ht. apply (H h t Hh); [|exact Ht].
    apply not_elem_of_nil. }
  apply (for_each_invariant (update_trade ct pd)
           (fun rest s1 =>
              books_ok s1 /\ NoDup rest /\ rest ⊆ active_trades s1 /\
              forall j tj,
                j ∈ active_trades s1 -> j ∉ rest ->
                trades s1 !! j = Some tj -> ~ feed_ended ct pd tj))
    with (l := active_trades s) (s := s); [| |exact Hrun].
  - intros h rest s1 s2 (A1 & A2 & A3 & A4) Hu.
    apply NoDup_cons in A2 as [Hh A2].
    assert (Hin : h ∈ active_trades s1) by (apply A3; set_solver).
    destruct (update_trade_books _ _ _ _ _ A1 Hin Hu) as (B1 & B3).
    destruct (proj2 (proj1 A1) h Hin) as (t & Ht & _).
    destruct (update_trade_outcome _ _ _ _ _ _ Hu Ht) as (t2 & Htr & _).
    destruct (update_trade_store _ _ _ _ _ Hu) as (_ & _ & _ & Hsub).
    split; [exact B1|]. split; [exact A2|]. split.
    + intros j Hj. apply B3; [apply A3; set_solver|].
      intros ->. contradiction.
    + intros j tj Hj Hnr Htj. destruct (decide (j = h)) as [->|Hne].
      * by apply (update_trade_feed ct pd h s1 s2 t tj).
      * apply (A4 j tj); [by apply Hsub| |].
        -- intros Hc. apply elem_of_cons in Hc as [Hc|Hc]; contradiction.
        -- rewrite Htr in Htj. by rewrite list_lookup_insert_ne in Htj.
  - split; [exact Hb|]. split; [apply Hb|]. split; [done|].
    intros j tj Hj Hn. contradiction.
Qed.


(** *** The samples of the equity curve *)

Lemma run_iteration_point (pd : gmap string DataFrame) (ct ct' : Timestamp)
    (pending pending' : list Signal) (s s' : Engine) :
  run_iteration pd ct pending s = Some (ct', pending', s') ->
  exists pt,
    equity_curve s' = equity_curve s ++ [pt] /\
    point_time pt = ct /\ point_capital pt = capital s'.
Proof.
  intros H. apply run_iteration_sample in H
    as (s1 & new & pt & _ & _ & E & Ht & Hc & _).
  by exists pt.
Qed.

Lemma run_loop_curve (fuel : nat) (pd : gmap string DataFrame)
    (max_time ct ct' : Timestamp) (pending pending' : list Signal)
    (s s' : Engine) :
  run_loop fuel pd max_time ct pending s = Some (ct', pending', s') ->
  exists new,
    equity_curve s' = equity_curve s ++ new /\
    Forall (fun pt => (ct <= point_time pt <= max_time)%Z) new /\
    Sorted a_minute_apart (point_time <$> new) /\
    (forall pt, head new = Some pt -> point_time pt = ct) /\
    (forall pt, last new = Some pt -> point_capital pt = capital s') /\
    (new = [] -> s' = s) /\
    ((ct <= max_time)%Z -> (0 < fuel)%nat -> new <> []).
Proof.
  revert ct pending s. induction fuel as [|fuel IH]; intros ct pending s Hrun.
  - exists []. simpl in Hrun.
    assert (s' = s) as -> by (destruct (ct <=? max_time)%Z; by inversion Hrun).
    rewrite app_nil_r. repeat split; try done; try constructor; lia.
  - simpl in Hrun. destruct (ct <=? max_time)%Z eqn:Hle.
    + apply Z.leb_le in Hle.
      destruct (run_iteration pd ct pending s) as [[[ct1 pending1] s1]|] eqn:Hit;
        [|discriminate].
      pose proof (run_iteration_advances _ _ _ _ _ _ _ Hit) as Hadv.
      destruct (run_iteration_point _ _ _ _ _ _ _ Hit) as (pt & Ec & Et & Ecap).
      destruct (IH ct1 pending1 s1 Hrun)
        as (new & En & Hall & Hsort & Hhead & Hlast & Hnil & _).
      assert (Hm : (0 <= Timedelta_minutes 1)%Z) by (unfold Timedelta_minutes; lia).
      exists (pt :: new). split; [|split; [|split; [|split; [|split; [|split]]]]].
      * rewrite En, Ec, <- app_assoc. reflexivity.
      * apply Forall_cons. split; [lia|].
        eapply Forall_impl; [exact Hall|]. simpl. intros x Hx. lia.
      * rewrite fmap_cons. apply Sorted_cons; [exact Hsort|].
        destruct new as [|pt' new']; [constructor|].
        rewrite fmap_cons. constructor. unfold a_minute_apart.
        rewrite (Hhead pt' eq_refl). lia.
      * intros x Hx. simpl in Hx. by inversion Hx; subst.
      * intros x Hx. destruct new as [|pt' new'].
        -- simpl in Hx. inversion Hx; subst. rewrite (Hnil eq_refl). exact Ecap.
        -- apply Hlast. exact Hx.
      * discriminate.
      * discriminate.
    + inversion Hrun; subst. exists []. rewrite app_nil_r.
      apply Z.leb_gt in Hle.
      repeat split; try done; try constructor; lia.
Qed.

Lemma min_of_le_max_of (l : list Z) (mn mx : Z) :
  min_of l = Some mn -> max_of l = Some mx -> (mn <= mx)%Z.
Proof.
  destruct l as [|x l]; [discriminate|]. simpl. intros A B.
  inversion A; inversion B; subst. clear A B.
  assert (foldr Z.min x l <= x /\ x <= foldr Z.max x l)%Z; [|lia].
  induction l as [|y l IH]; simpl; lia.
Qed.

Lemma iterations_positive (mn mx : Z) :
  (mn <= mx)%Z -> (0 < iterations mn mx)%nat.
Proof.
  intros H. unfold iterations.
  assert (0 <= (mx - mn) / Timedelta_minutes 1)%Z.
  { apply Z.div_pos; [lia|]. unfold Timedelta_minutes. lia. }
  lia.
Qed.

(** *** The trades come from the signals *)

Lemma store_evolves_keys (l l' : list Trade) :
  store_evolves l l' -> length l' = length l ->
  trade_key <$> l' = trade_key <$> l.
Proof.
  intros Hev Hlen. apply list_eq. intros i. rewrite !list_lookup_fmap.
  destruct (l !! i) as [t|] eqn:Hl.
  - destruct (Hev i t Hl) as (t' & -> & (E1 & E2 & E3 & _)).
    simpl. unfold trade_key. by rewrite E1, E2, E3.
  - apply lookup_ge_None in Hl. rewrite <- Hlen in Hl.
    apply lookup_ge_None in Hl. by rewrite Hl.
Qed.

Lemma scored_app (l l' : list Signal) :
  scored (l ++ l') = scored l ++ scored l'.
Proof. unfold scored. apply List.filter_app. Qed.

Lemma _process_signal_keys (sig : Signal) (s s' : Engine) :
  _process_signal sig s = Some s' ->
  exists new,
    trade_key <$> trades s' = (trade_key <$> trades s) ++ new /\
    new `sublist_of` signal_key <$> scored [sig].
Proof.
  intros H. apply _process_signal_admits in H
    as [->|(Hsc & _ & _ & _ & t & -> & E1 & E2 & E3 & _)].
  - exists []. rewrite app_nil_r. split; [done | apply sublist_nil_l].
  - exists [trade_key t]. simpl. rewrite fmap_app. split; [done|].
    apply Qgeb_true in Hsc. unfold scored. simpl. rewrite Hsc. simpl.
    unfold trade_key, signal_key. by rewrite E1, E2, E3.
Qed.

Lemma process_new_signals_keys (ct : Timestamp)
    (pending pending' : list Signal) (s s' : Engine) :
  process_new_signals ct pending s = Some (pending', s') ->
  exists done new,
    pending = done ++ pending' /\
    trade_key <$> trades s' = (trade_key <$> trades s) ++ new /\
    new `sublist_of` signal_key <$> scored done.
Proof.
  revert s. induction pending as [|sig rest IH]; intros s Hrun.
  - simpl in Hrun. inversion Hrun; subst. exists [], [].
    split; [done|]. split; [by rewrite app_nil_r | apply sublist_nil_l].
  - simpl in Hrun. destruct (signal_time sig <=? ct)%Z.
    + destruct (_process_signal sig s) as [s1|] eqn:Hp; [|discriminate].
      destruct (_process_signal_keys _ _ _ Hp) as (new1 & E1 & S1).
      destruct (IH s1 Hrun) as (done & new2 & -> & E2 & S2).
      exists (sig :: done), (new1 ++ new2). split; [done|]. split.
      * rewrite E2, E1, <- app_assoc. reflexivity.
      * change (sig :: done) with ([sig] ++ done).
        rewrite scored_app, fmap_app. by apply sublist_app.
    + inversion Hrun; subst. exists [], [].
      split; [done|]. split; [by rewrite app_nil_r | apply sublist_nil_l].
Qed.

Lemma run_loop_keys (fuel : nat) (pd : gmap string DataFrame)
    (max_time ct ct' : Timestamp) (pending pending' : list Signal)
    (s s' : Engine) :
  run_loop fuel pd max_time ct pending s = Some (ct', pending', s') ->
  exists new,
    trade_key <$> trades s' = (trade_key <$> trades s) ++ new /\
    new `sublist_of` signal_key <$> scored pending.
Proof.
  revert ct pending s. induction fuel as [|fuel IH]; intros ct pending s Hrun.
  - exists []. simpl in Hrun.
    assert (s' = s) as -> by (destruct (ct <=? max_time)%Z; by inversion Hrun).
    rewrite app_nil_r. split; [done | apply sublist_nil_l].
  - simpl in Hrun. destruct (ct <=? max_time)%Z.
    + destruct (run_iteration pd ct pending s) as [[[ct1 pending1] s1]|] eqn:Hit;
        [|discriminate].
      destruct (IH ct1 pending1 s1 Hrun) as (new2 & E2 & S2).
      unfold run_iteration in Hit.
      destruct (_update_trades ct pd (day_reset ct s)) as [s2|] eqn:Hu;
        [|discriminate].
      cbn [mbind option_bind] in Hit.
      destruct (process_new_signals _ _ _) as [[pending2 s3]|] eqn:Hn;
        [|discriminate].
      cbn [mbind option_bind] in Hit. inversion Hit; subst. clear Hit.
      destruct (_update_trades_store _ _ _ _ Hu) as (Hev & Hlen & _).
      pose proof (store_evolves_keys _ _ Hev Hlen) as Ek.
      destruct (day_reset_books ct s) as [Etr _]. rewrite Etr in Ek.
      destruct (process_new_signals_keys _ _ _ _ _ Hn)
        as (done & new1 & -> & E1 & S1).
      simpl in E1, E2. rewrite E1, Ek in E2.
      exists (new1 ++ new2). split.
      * rewrite E2, <- app_assoc. reflexivity.
      * rewrite scored_app, fmap_app. by apply sublist_app.
    + inversion Hrun; subst. exists []. rewrite app_nil_r.
      split; [done | apply sublist_nil_l].
Qed.

Lemma insert_by_time_perm (x : Signal) (l : list Signal) :
  insert_by_time x l ≡ₚ x :: l.
Proof.
  induction l as [|y l IH]; simpl; [done|].
  destruct (signal_time x <=? signal_time y)%Z; [done|].
  rewrite IH. apply Permutation_swap.
Qed.

Lemma sort_signals_perm (l : list Signal) : sort_signals l ≡ₚ l.
Proof.
  unfold sort_signals. induction l as [|x l IH]; simpl; [done|].
  rewrite insert_by_time_perm. by rewrite IH.
Qed.

Lemma insert_by_time_sorted (x : Signal) (l : list Signal) :
  Sorted not_later l -> Sorted not_later (insert_by_time x l).
Proof.
  induction l as [|y l IH]; intros Hs; simpl.
  - by repeat constructor.
  - destruct (signal_time x <=? signal_time y)%Z eqn:Hxy.
    + apply Z.leb_le in Hxy. constructor; [exact Hs|]. by constructor.
    + apply Z.leb_gt in Hxy. apply Sorted_inv in Hs as [Hs Hhd].
      constructor; [by apply IH|].
      destruct l as [|z l]; simpl.
      * constructor. unfold not_later. lia.
      * destruct (signal_time x <=? signal_time z)%Z.
        -- constructor. unfold not_later. lia.
        -- constructor. by inversion Hhd.
Qed.

Lemma sort_signals_sorted (l : list Signal) :
  Sorted not_later (sort_signals l).
Proof.
  unfold sort_signals. induction l as [|x l IH]; simpl; [constructor|].
  by apply insert_by_time_sorted.
Qed.


Lemma calls_entry_nonzero (cs : list Call) (s s' : Engine) :
  Forall (fun t => ~ entry_price t == 0) (trades s) -> calls cs s = Some s' ->
  Forall (fun t => ~ entry_price t == 0) (trades s').
Proof.
  revert s. induction cs as [|c cs IH]; intros s HI Hrun.
  - simpl in Hrun. by inversion Hrun; subst.
  - simpl in Hrun. destruct (call c s) as [s1|] eqn:Hc; [|discriminate].
    apply (IH s1); [|exact Hrun]. destruct c as [sig|ct pd]; simpl in Hc.
    + apply _process_signal_admits in Hc
        as [->|(_ & _ & _ & Hne & t & -> & _ & He & _)]; [done|].
      simpl. apply Forall_app. split; [done|]. apply Forall_singleton.
      by rewrite He.
    + destruct (_update_trades_store _ _ _ _ Hc) as (Hev & Hlen & _).
      eapply store_evolves_Forall; [|exact Hev|exact Hlen|exact HI].
      intros t t' Ht (_ & E & _). by rewrite E.
Qed.

(** *** Tiers and the peak *)

Lemma take_profit_1_flags (roi p : Q) (t t' : Trade) (s s' : Engine) :
  take_profit_1 roi p t s = Some (s', t') ->
  entry_price t' = entry_price t /\ ath_price t' = ath_price t /\
  tp2_hit t' = tp2_hit t /\ tp3_hit t' = tp3_hit t /\
  (tp1_hit t' = true -> tp1_hit t = true \/ 0.40 <= roi) /\
  (tp1_hit t = true \/ 0.40 <= roi -> tp1_hit t' = true).
Proof.
  unfold take_profit_1. intros H.
  destruct (Qgeb roi 0.40) eqn:Hr; cbn [andb] in H; qprop.
  - destruct (tp1_hit t) eqn:Hh; cbn [negb] in H.
    + inversion H; subst. repeat split; try done. by left.
    + destruct (_partial_close _ _ _ _ _) as [[s1 t1]|] eqn:Hpc;
        [|discriminate].
      apply _partial_close_eq in Hpc as (_ & -> & ->).
      cbn [mbind option_bind] in H. inversion H; subst.
      repeat split; try done. by right.
  - inversion H; subst. repeat split; try done; [by left|].
    intros [Hh|Hc]; [done|lra].
Qed.

Lemma take_profit_2_flags (roi p : Q) (t t' : Trade) (s s' : Engine) :
  take_profit_2 roi p t s = Some (s', t') ->
  entry_price t' = entry_price t /\ ath_price t' = ath_price t /\
  tp1_hit t' = tp1_hit t /\ tp3_hit t' = tp3_hit t /\
  (tp2_hit t' = true -> tp2_hit t = true \/ 1.00 <= roi) /\
  (tp2_hit t = true \/ 1.00 <= roi -> tp2_hit t' = true).
Proof.
  unfold take_profit_2. intros H.
  destruct (Qgeb roi 1.00) eqn:Hr; cbn [andb] in H; qprop.
  - destruct (tp2_hit t) eqn:Hh; cbn [negb] in H.
    + inversion H; subst. repeat split; try done. by left.
    + destruct (_partial_close _ _ _ _ _) as [[s1 t1]|] eqn:Hpc;
        [|discriminate].
      apply _partial_close_eq in Hpc as (_ & -> & ->).
      cbn [mbind option_bind] in H. inversion H; subst.
      repeat split; try done. by right.
  - inversion H; subst. repeat split; try done; [by left|].
    intros [Hh|Hc]; [done|lra].
Qed.

Lemma take_profit_3_flags (roi p : Q) (t t' : Trade) (s s' : Engine) :
  take_profit_3 roi p t s = Some (s', t') ->
  entry_price t' = entry_price t /\ ath_price t' = ath_price t /\
  tp1_hit t' = tp1_hit t /\ tp2_hit t' = tp2_hit t /\
  (tp3_hit t' = true -> tp3_hit t = true \/ 2.00 <= roi) /\
  (tp3_hit t = true \/ 2.00 <= roi -> tp3_hit t' = true).
Proof.
  unfold take_profit_3. intros H.
  destruct (Qgeb roi 2.00) eqn:Hr; cbn [andb] in H; qprop.
  - destruct (tp3_hit t) eqn:Hh; cbn [negb] in H.
    + inversion H; subst. repeat split; try done. by left.
    + destruct (_partial_close _ _ _ _ _) as [[s1 t1]|] eqn:Hpc;
        [|discriminate].
      apply _partial_close_eq in Hpc as (_ & -> & ->).
      cbn [mbind option_bind] in H. inversion H; subst.
      repeat split; try done. by right.
  - inversion H; subst. repeat split; try done; [by left|].
    intros [Hh|Hc]; [done|lra].
Qed.

Lemma tiers_reached_closed (p : Q) (time : Timestamp) (reason : string)
    (t : Trade) :
  0 < entry_price t /\ tiers_reached t ->
  0 < entry_price (closed_trade p time reason t) /\
  tiers_reached (closed_trade p time reason t).
Proof. intros H. exact H. Qed.

Lemma tiers_reached_levels (ct : Timestamp) (p : Q) (t t1 : Trade) :
  0 < entry_price t /\ tiers_reached t ->
  trailing_stop
    (hard_stop_phase (minutes_in ct (update_ath p t)) (update_ath p t)) =
    Some t1 ->
  (0 < entry_price t1 /\ tiers_reached t1) /\ p <= ath_price t1.
Proof.
  intros [He (A & B & C)] H.
  pose proof (update_ath_reached p t) as Hp.
  pose proof (hard_stop_phase_levels (minutes_in ct (update_ath p t))
                (update_ath p t)) as (_ & _ & L2).
  pose proof H as H'. apply trailing_stop_levels in H' as [(_ & _ & L3) _].
  apply levels_phase_levels in H.
  destruct (only_levels_fields _ _ H)
    as (_ & _ & Ee & _ & _ & E1 & E2 & E3 & _).
  destruct H as (_ & _ & La).
  split; [|lra]. unfold tiers_reached. rewrite Ee, E1, E2, E3.
  split; [done|]. split; [|split].
  - intros Hh. specialize (A Hh). lra.
  - intros Hh. destruct (B Hh). split; [done|lra].
  - intros Hh. destruct (C Hh). split; [done|lra].
Qed.

Lemma update_trade_reached (ct : Timestamp) (pd : gmap string DataFrame)
    (h : nat) (s s' : Engine) (t : Trade) :
  Forall (fun t => 0 < entry_price t /\ tiers_reached t) (trades s) ->
  trades s !! h = Some t -> update_trade ct pd h s = Some s' ->
  Forall (fun t => 0 < entry_price t /\ tiers_reached t) (trades s').
Proof.
  intros Hall Ht Hu.
  assert (HP : 0 < entry_price t /\ tiers_reached t)
    by (rewrite Forall_lookup in Hall; by apply (Hall h)).
  destruct (update_trade_cases _ _ _ _ _ _ Hu Ht)
    as [[-> _]|[(df & lt & lp & _ & _ & _ & _ & ->)|
        (df & p & t1 & _ & _ & Hlev & Hrest)]]; [done| |].
  - rewrite _close_trade_eq. simpl. apply Forall_insert; [done|].
    by apply tiers_reached_closed.
  - destruct (tiers_reached_levels _ _ _ _ HP Hlev) as [HP1 Hath].
    destruct Hrest as [[_ ->]|(_ & _ & sa & ta & sb & tb & sc & tc &
      H1 & H2 & H3 & Hend)].
    + rewrite _close_trade_eq. simpl. apply Forall_insert; [done|].
      by apply tiers_reached_closed.
    + assert (HPc : 0 < entry_price tc /\ tiers_reached tc).
      { destruct HP1 as [He (A & B & C)].
        set (roi := (p - entry_price t1) / entry_price t1) in *.
        assert (Hroi : forall x, x <= roi ->
                  entry_price t1 * (1 + x) <= ath_price t1).
        { intros x Hx.
          assert (E : p - entry_price t1 == roi * entry_price t1)
            by (unfold roi; field; lra).
          assert (x * entry_price t1 <= roi * entry_price t1)
            by (apply Qmult_le_compat_r; lra).
          lra. }
        destruct (take_profit_1_flags _ _ _ _ _ _ H1)
          as (Ea & Aa & E2a & E3a & F1 & G1).
        destruct (take_profit_2_flags _ _ _ _ _ _ H2)
          as (Eb & Ab & E1b & E3b & F2 & G2).
        destruct (take_profit_3_flags _ _ _ _ _ _ H3)
          as (Ec & Ac & E1c & E2c & F3 & G3).
        unfold tiers_reached.
        rewrite Ec, Eb, Ea, Ac, Ab, Aa, E1c, E1b, E2c.
        split; [exact He|]. split; [|split].
        - intros Hh. destruct (F1 Hh) as [Hh1|Hr].
          + by apply A.
          + specialize (Hroi 0.40 Hr). lra.
        - intros Hh. destruct (F2 Hh) as [Hh2|Hr].
          + rewrite E2a in Hh2. destruct (B Hh2) as [B1 B2].
            split; [apply G1; by left | exact B2].
          + split; [apply G1; right; lra|]. specialize (Hroi 1.00 Hr). lra.
        - intros Hh. destruct (F3 Hh) as [Hh3|Hr].
          + rewrite E3b, E3a in Hh3. destruct (C Hh3) as [C1 C2].
            split; [|exact C2]. apply G2. left. by rewrite E2a.
          + split; [apply G2; right; lra|]. specialize (Hroi 2.00 Hr). lra. }
      apply take_profit_1_value in H1 as [C1 _].
      apply take_profit_2_value in H2 as [C2 _].
      apply take_profit_3_value in H3 as [C3 _].
      pose proof (only_capital_trans _ _ _ (only_capital_trans _ _ _ C1 C2) C3)
        as C.
      destruct (only_capital_fields _ _ C) as (Etr & _).
      destruct Hend as [[_ ->]|[_ ->]].
      * rewrite _close_trade_eq. simpl. rewrite Etr.
        apply Forall_insert; [done|]. by apply tiers_reached_closed.
      * destruct (check_daily_loss_limit_fields sc) as (E1 & _).
        simpl. rewrite E1, Etr. by apply Forall_insert.
Qed.

Lemma calls_reached (cs : list Call) (s s' : Engine) :
  Forall valid_call cs ->
  Forall (fun t => 0 < entry_price t /\ tiers_reached t) (trades s) ->
  calls cs s = Some s' ->
  Forall (fun t => 0 < entry_price t /\ tiers_reached t) (trades s').
Proof.
  revert s. induction cs as [|c cs IH]; intros s Hok HI Hrun.
  - simpl in Hrun. by inversion Hrun; subst.
  - simpl in Hrun. destruct (call c s) as [s1|] eqn:Hc; [|discriminate].
    apply Forall_cons in Hok as [Hv Hok].
    apply (IH s1); [exact Hok| |exact Hrun].
    destruct c as [sig|ct pd]; simpl in Hc, Hv.
    + apply _process_signal_admits in Hc
        as [->|(_ & _ & _ & _ & t & -> & _ & He & _ & _ & _ & _ & _ & _ &
                _ & _ & H1 & H2 & H3 & _)]; [done|].
      simpl. apply Forall_app. split; [done|]. apply Forall_singleton.
      unfold tiers_reached. rewrite He, H1, H2, H3. by repeat split.
    + revert Hc.
      apply (_update_trades_inv0
               (fun s => Forall (fun t => 0 < entry_price t /\
                                          tiers_reached t) (trades s)));
        [|exact HI].
      intros h sa sb t Hall Ht Hu.
      by apply (update_trade_reached ct pd h sa sb t).
Qed.

(** *** The sort keeps the order of the signals of one time *)

Lemma insert_by_time_at_time (tau : Timestamp) (x : Signal)
    (l : list Signal) :
  List.filter (fun sig => (signal_time sig =? tau)%Z) (insert_by_time x l) =
  List.filter (fun sig => (signal_time sig =? tau)%Z) (x :: l).
Proof.
  induction l as [|y l IH]; [reflexivity|].
  cbn [insert_by_time].
  destruct (signal_time x <=? signal_time y)%Z eqn:Hle; [reflexivity|].
  apply Z.leb_gt in Hle.
  cbn [List.filter] in *.
  destruct (signal_time x =? tau)%Z eqn:Hx.
  - apply Z.eqb_eq in Hx.
    assert (Hy : (signal_time y =? tau)%Z = false)
      by (apply Z.eqb_neq; lia).
    rewrite Hy. exact IH.
  - destruct (signal_time y =? tau)%Z; by rewrite IH.
Qed.

Lemma sort_signals_at_time (tau : Timestamp) (signals : list Signal) :
  List.filter (fun sig => (signal_time sig =? tau)%Z) (sort_signals signals) =
  List.filter (fun sig => (signal_time sig =? tau)%Z) signals.
Proof.
  induction signals as [|x l IH]; [reflexivity|].
  unfold sort_signals in *. cbn [foldr].
  rewrite insert_by_time_at_time. cbn [List.filter]. by rewrite IH.
Qed.

End BacktestMore.
(** ** Further facts on the paper trader *)

Module PaperMore.
Import Paper PaperFacts.
Local Open Scope Q_scope.

(** *** The paths through one turn of the loop of [update_trades] *)

Lemma pt_take_profit_eq (th pct : Q) (level reason : string)
    (pct_used mc : Q) (h : nat) (t t' : PaperTrade) (s s' : PaperTrader)
    (ups ups' : list Update) :
  take_profit th pct level reason pct_used mc h t s ups = Some (s', t', ups') ->
  (s' = s /\ t' = t /\ ups' = ups) \/
  (th <= pct_used /\ level_hit level t = false /\ ~ entry_mc t == 0 /\
   s' = set_capital
          (capital s + sale_units pct t * exit_price_proxy mc t) s /\
   t' = set_tp_levels_hit (tp_levels_hit t ++ [level])
          (after_sale (sale_units pct t) mc t) /\
   ups' = ups ++ [TP h pct]).
Proof.
  unfold take_profit. intros H.
  destruct (Qgeb pct_used th) eqn:Hr; cbn [andb] in H; [|left; by inversion H].
  destruct (level_hit level t) eqn:Hh; cbn [negb] in H;
    [left; by inversion H|].
  destruct (_partial_close _ _ _ _ _) as [[s1 t1]|] eqn:Hpc; [|discriminate].
  apply pt_partial_close_eq in Hpc as (Hne & -> & ->).
  cbn [mbind option_bind] in H. inversion H; subst. qprop.
  right. repeat (split; [done|]). done.
Qed.

Lemma pt_update_trade_cases (now : Timestamp) (m : gmap string Q) (h : nat)
    (s s' : PaperTrader) (ups ups' : list Update) (t : PaperTrade) :
  update_trade now m h (s, ups) = Some (s', ups') ->
  trades s !! h = Some t ->
  (s' = s /\ ups' = ups /\ no_data m t) \/
  (exists mc pct_used,
     m !! token_address t = Some mc /\ ~ mc == 0 /\ ~ entry_mc t == 0 /\
     potential_used mc (update_peak mc t) = Some pct_used /\
     ((0.30 <= (entry_mc t - mc) / entry_mc t /\
       _close_trade now h (update_peak mc t) mc "STOP_LOSS_30_PCT" s =
         Some s' /\
       ups' = ups ++ [CLOSE h]) \/
      ((entry_mc t - mc) / entry_mc t < 0.30 /\
       ((90 < duration_mins now t /\ pct_used < 0.30 /\
         _close_trade now h (update_peak mc t) mc "TIME_EXIT_STAGNANT" s =
           Some s' /\
         ups' = ups ++ [CLOSE h]) \/
        (~ (90 < duration_mins now t /\ pct_used < 0.30) /\
         exists sa ta ua sb tb ub sc tc,
           take_profit 0.30 0.20 "30%" "TP_30_PCT" pct_used mc h
             (update_peak mc t) s ups = Some (sa, ta, ua) /\
           take_profit 0.50 0.25 "50%" "TP_50_PCT" pct_used mc h ta sa ua =
             Some (sb, tb, ub) /\
           take_profit 0.70 0.30 "70%" "TP_70_PCT" pct_used mc h tb sb ub =
             Some (sc, tc, ups') /\
           s' = set_trades (<[h := tc]> (trades sc)) sc))))).
Proof.
  intros Hup Ht. unfold update_trade in Hup. rewrite Ht in Hup.
  unfold no_data.
  destruct (m !! token_address t) as [mc|] eqn:Hm;
    [|left; by injection Hup as <- <-].
  destruct (Qeq_bool mc 0) eqn:Hz.
  { left. apply Qeq_bool_iff in Hz. by injection Hup as <- <-. }
  right. exists mc.
  assert (Hmc : ~ mc == 0).
  { intros Hc. apply Qeq_bool_iff in Hc. congruence. }
  destruct (update_peak_evolves mc t) as [(_ & Emc & _ & Etime & _) _].
  assert (Edur : duration_mins now (update_peak mc t) = duration_mins now t).
  { unfold duration_mins. by rewrite Etime. }
  rewrite Edur in Hup. clear Edur Etime.
  destruct (potential_used mc (update_peak mc t)) as [pct_used|] eqn:Hpu;
    [|discriminate].
  exists pct_used. cbn [mbind option_bind] in Hup.
  rewrite Emc in Hup.
  destruct (div (entry_mc t - mc) (entry_mc t)) as [loss_pct|] eqn:Hl;
    [|discriminate].
  apply div_Some in Hl as [Hne ->]. cbn [mbind option_bind] in Hup.
  repeat (split; [done|]).
  destruct (Qgeb _ 0.30) eqn:Hloss.
  { destruct (_close_trade now h _ mc "STOP_LOSS_30_PCT" s) as [s1|] eqn:C;
      [|discriminate].
    cbn [mbind option_bind] in Hup. injection Hup as <- <-. qprop.
    left. by repeat split. }
  right. qprop. split; [done|].
  destruct (Qgtb (duration_mins now t) 90) eqn:Hd;
    destruct (Qltb pct_used 0.30) eqn:Hp; cbn [andb] in Hup; qprop.
  { destruct (_close_trade now h _ mc "TIME_EXIT_STAGNANT" s) as [s1|] eqn:C;
      [|discriminate].
    cbn [mbind option_bind] in Hup. injection Hup as <- <-.
    left. by repeat split. }
  all: right; split; [intros [A B]; lra|].
  all: destruct (take_profit 0.30 _ _ _ _ _ _ _ _ _) as [[[sa ta] ua]|] eqn:T1;
    [|discriminate]; cbn [mbind option_bind] in Hup.
  all: destruct (take_profit 0.50 _ _ _ _ _ _ _ _ _) as [[[sb tb] ub]|] eqn:T2;
    [|discriminate]; cbn [mbind option_bind] in Hup.
  all: destruct (take_profit 0.70 _ _ _ _ _ _ _ _ _) as [[[sc tc] uc]|] eqn:T3;
    [|discriminate]; cbn [mbind option_bind] in Hup.
  all: injection Hup as <- <-.
  all: exists sa, ta, ua, sb, tb, ub, sc, tc; by repeat split.
Qed.


(** *** Admission, in full *)

Lemma process_signal_admits (now : Timestamp) (sd : PairDict)
    (s : PaperTrader) :
  process_signal now sd s = (s, None) \/
  ((length (active_trades s) < max_trades s)%nat /\ 0 < capital s /\
   exists t,
     process_signal now sd s =
       (set_trades (trades s ++ [t])
          (set_active_trades (active_trades s ++ [length (trades s)])
             (set_capital (capital s - capital s * 0.05) s)),
        Some (length (trades s))) /\
     token_address t = default "" (baseToken_address sd) /\
     entry_mc t = mc_of sd /\ entry_price_proxy t = price_usd_of sd /\
     entry_time t = now /\ position_size_usd t = capital s * 0.05 /\
     initial_units t = current_units t /\
     current_units t =
       (if Qeq_bool (price_usd_of sd) 0 then 0
        else capital s * 0.05 / price_usd_of sd) /\
     base_potential t = 2.0 /\ peak_mc t = mc_of sd /\
     status t = "OPEN" /\ tp_levels_hit t = [] /\ realized_pnl t = 0.0 /\
     units_sold t = []).
Proof.
  unfold process_signal.
  destruct (max_trades s <=? length (active_trades s))%nat eqn:Hfull;
    [by left|].
  destruct (Qleb (capital s) 0) eqn:Hcap; [by left|].
  right. qprop. apply Nat.leb_gt in Hfull.
  split; [done|]. split; [done|].
  eexists. split; [reflexivity|]. repeat split.
Qed.

(** *** Invariants of the trader, in general *)

Lemma pt_update_trade_books (now : Timestamp) (m : gmap string Q) (h : nat)
    (st st' : PaperTrader * list Update) :
  books_ok st.1 -> h ∈ active_trades st.1 ->
  update_trade now m h st = Some st' ->
  books_ok st'.1 /\
  (forall j, j ∈ active_trades st.1 -> j <> h -> j ∈ active_trades st'.1).
Proof.
  intros (H1 & H2 & H3) Hh Hup.
  destruct (pt_update_trade_handles _ _ _ _ _ H1 H2 Hh Hup) as (A & B & C).
  destruct (pt_update_trade_store _ _ _ _ _ Hup) as (Hev & Hlen & _).
  split; [|exact C]. split; [exact A|]. split; [exact B|].
  eapply pt_store_evolves_Forall; [apply pt_evolves_conserved | | |];
    eassumption.
Qed.

(** An invariant of the trader and of the list of updates that is kept by
    every turn taken for an active, open trade is kept by
    [update_trades]. *)
Lemma pt_update_trades_inv (I : PaperTrader -> list Update -> Prop)
    (now : Timestamp) (m : gmap string Q) :
  (forall h s ups s' ups' t,
     books_ok s -> I s ups -> h ∈ active_trades s ->
     trades s !! h = Some t -> status t = "OPEN" ->
     update_trade now m h (s, ups) = Some (s', ups') -> I s' ups') ->
  forall s s' ups',
    books_ok s -> I s [] -> update_trades now m s = Some (s', ups') ->
    I s' ups'.
Proof.
  intros Hbody s s' ups' Hok HI Hrun. unfold update_trades in Hrun.
  cut (books_ok (s', ups').1 /\ I (s', ups').1 (s', ups').2 /\
       NoDup (@nil nat) /\ [] ⊆ active_trades (s', ups').1); [simpl; tauto|].
  apply (for_each_invariant (update_trade now m)
           (fun rest st1 =>
              books_ok st1.1 /\ I st1.1 st1.2 /\ NoDup rest /\
              rest ⊆ active_trades st1.1))
    with (l := active_trades s) (s := (s, [])); [| |exact Hrun].
  - intros h rest [s1 u1] [s2 u2] (A1 & A2 & A3 & A4) Hb. cbn [fst snd] in *.
    apply NoDup_cons in A3 as [Hh A3].
    assert (Hin : h ∈ active_trades s1) by (apply A4; set_solver).
    destruct (pt_update_trade_books now m h (s1, u1) (s2, u2) A1 Hin Hb)
      as (B1 & B3). cbn [fst snd] in B1, B3.
    destruct (proj2 (proj1 A1) h Hin) as (t & Ht & Hst).
    split; [exact B1|]. split.
    + exact (Hbody h s1 u1 s2 u2 t A1 A2 Hin Ht Hst Hb).
    + split; [exact A3|].
      intros j Hj. apply B3; [apply A4; set_solver|].
      intros ->. contradiction.
  - simpl. split; [exact Hok|]. split; [exact HI|].
    split; [apply Hok | done].
Qed.

Lemma pt_update_trades_inv0 (I : PaperTrader -> Prop) (now : Timestamp)
    (m : gmap string Q) :
  (forall h s ups s' ups' t,
     I s -> trades s !! h = Some t ->
     update_trade now m h (s, ups) = Some (s', ups') -> I s') ->
  forall s s' ups', I s -> update_trades now m s = Some (s', ups') -> I s'.
Proof.
  intros Hbody s s' ups' HI Hrun. unfold update_trades in Hrun.
  change (I (s', ups').1).
  apply (for_each_invariant (update_trade now m) (fun _ st1 => I st1.1))
    with (l := active_trades s) (s := (s, [])); [|exact HI|exact Hrun].
  intros h rest [s1 u1] [s2 u2] H1 Hb. cbn [fst] in *.
  destruct (trades s1 !! h) as [t|] eqn:Ht.
  - by apply (Hbody h s1 u1 s2 u2 t).
  - rewrite pt_update_trade_no_trade in Hb by done. by inversion Hb; subst.
Qed.

Lemma pt_calls_inv (I : PaperTrader -> Prop) (ok : Call -> Prop) :
  (forall c s s', ok c -> books_ok s -> I s -> call c s = Some s' -> I s') ->
  forall cs s s',
    Forall ok cs -> books_ok s -> I s -> calls cs s = Some s' -> I s'.
Proof.
  intros Hcall cs. induction cs as [|c cs IH]; intros s s' Hok Hb HI Hrun.
  - simpl in Hrun. by inversion Hrun; subst.
  - simpl in Hrun. destruct (call c s) as [s1|] eqn:Hc; [|discriminate].
    apply Forall_cons in Hok as [Hc1 Hok].
    apply (IH s1 s'); [exact Hok| | |exact Hrun].
    + apply (pt_calls_books [c] s s1 Hb). simpl. by rewrite Hc.
    + by apply (Hcall c s s1).
Qed.

(** *** The parameters and the capacity *)

Lemma pt_call_parameters (c : Call) (s s' : PaperTrader) :
  call c s = Some s' ->
  initial_capital s' = initial_capital s /\ max_trades s' = max_trades s /\
  risk_per_trade s' = risk_per_trade s.
Proof.
  destruct c as [now sd|now m]; simpl; intros H.
  - inversion H; subst. clear H.
    destruct (process_signal_admits now sd s) as [->|(_ & _ & t & -> & _)];
      done.
  - destruct (update_trades now m s) as [[s1 u1]|] eqn:Hu; [|discriminate].
    simpl in H. inversion H; subst. clear H.
    apply (pt_update_trades_inv0
             (fun s1 => initial_capital s1 = initial_capital s /\
                        max_trades s1 = max_trades s /\
                        risk_per_trade s1 = risk_per_trade s) now m)
      with (s := s) (ups' := u1); [|done|exact Hu].
    intros h s2 u2 s3 u3 t (A & B & C) Ht Hup.
    destruct (pt_update_trade_outcome _ _ _ _ _ _ _ _ Hup Ht)
      as (t' & _ & _ & E1 & E2 & E3 & _).
    repeat split; congruence.
Qed.

Lemma pt_calls_parameters (cs : list Call) (s s' : PaperTrader) :
  calls cs s = Some s' ->
  initial_capital s' = initial_capital s /\ max_trades s' = max_trades s /\
  risk_per_trade s' = risk_per_trade s.
Proof.
  revert s. induction cs as [|c cs IH]; intros s Hrun.
  - simpl in Hrun. by inversion Hrun; subst.
  - simpl in Hrun. destruct (call c s) as [s1|] eqn:Hc; [|discriminate].
    destruct (pt_call_parameters _ _ _ Hc) as (A & B & C).
    destruct (IH s1 Hrun) as (A' & B' & C'). repeat split; congruence.
Qed.

Lemma pt_update_trades_active_length (now : Timestamp) (m : gmap string Q)
    (s s' : PaperTrader) (ups' : list Update) :
  update_trades now m s = Some (s', ups') ->
  (length (active_trades s') <= length (active_trades s))%nat.
Proof.
  apply (pt_update_trades_inv0
           (fun s1 =>
              (length (active_trades s1) <= length (active_trades s))%nat));
    [|lia].
  intros h s1 u1 s2 u2 t Hle Ht Hup.
  destruct (pt_update_trade_outcome _ _ _ _ _ _ _ _ Hup Ht)
    as (t' & _ & _ & _ & _ & _ & [(_ & _ & ->)|(_ & _ & ->)] & _); [done|].
  pose proof (list_remove_length h (active_trades s1)). lia.
Qed.

Lemma pt_calls_capacity (cs : list Call) (s s' : PaperTrader) :
  calls cs s = Some s' ->
  (length (active_trades s) <= max_trades s)%nat ->
  (length (active_trades s') <= max_trades s')%nat.
Proof.
  revert s. induction cs as [|c cs IH]; intros s Hrun Hle.
  - simpl in Hrun. by inversion Hrun; subst.
  - simpl in Hrun. destruct (call c s) as [s1|] eqn:Hc; [|discriminate].
    apply (IH s1 Hrun).
    destruct (pt_call_parameters _ _ _ Hc) as (_ & -> & _).
    destruct c as [now sd|now m]; simpl in Hc.
    + inversion Hc; subst. clear Hc.
      destruct (process_signal_admits now sd s)
        as [->|(Hlt & _ & t & -> & _)]; [done|].
      cbn. rewrite length_app. simpl. lia.
    + destruct (update_trades now m s) as [[s2 u2]|] eqn:Hu; [|discriminate].
      simpl in Hc. inversion Hc; subst.
      apply pt_update_trades_active_length in Hu. lia.
Qed.


(** *** Every trade is active or closed *)

Lemma pt_update_trade_accounted (now : Timestamp) (m : gmap string Q)
    (h : nat) (s s' : PaperTrader) (ups ups' : list Update)
    (t : PaperTrade) :
  accounted s -> h ∈ active_trades s -> trades s !! h = Some t ->
  update_trade now m h (s, ups) = Some (s', ups') -> accounted s'.
Proof.
  intros Hacc Hh Ht Hu.
  destruct (pt_update_trade_outcome _ _ _ _ _ _ _ _ Hu Ht)
    as (t' & Htr & _ & _ & _ & _ & Hact & _).
  pose proof (lookup_lt_Some _ _ _ Ht) as Hlt.
  intros j tj Hj. rewrite Htr in Hj.
  destruct (decide (j = h)) as [->|Hne].
  - rewrite list_lookup_insert_eq in Hj by done. inversion Hj; subst.
    destruct Hact as [(_ & _ & ->)|(Hc & _ & _)]; [by left | by right].
  - rewrite list_lookup_insert_ne in Hj by done.
    destruct (Hacc j tj Hj) as [Hin|Hc]; [|by right]. left.
    destruct Hact as [(_ & _ & ->)|(_ & _ & ->)]; [done|].
    by apply list_remove_elem_ne.
Qed.

Lemma pt_update_trade_closed_count (now : Timestamp) (m : gmap string Q)
    (h : nat) (s s' : PaperTrader) (ups ups' : list Update)
    (t : PaperTrade) :
  h ∈ active_trades s -> trades s !! h = Some t -> status t = "OPEN" ->
  update_trade now m h (s, ups) = Some (s', ups') ->
  (closed_count s + length (active_trades s) = length (trades s))%nat ->
  (closed_count s' + length (active_trades s') = length (trades s'))%nat.
Proof.
  intros Hh Ht Hst Hu Hinv.
  destruct (pt_update_trade_outcome _ _ _ _ _ _ _ _ Hu Ht)
    as (t' & Htr & _ & _ & _ & _ & Hact & _).
  pose proof (filter_length_insert
                (fun t => String.eqb (status t) "CLOSED") (trades s) h t t' Ht)
    as Hf.
  unfold closed_count in *. rewrite Htr, length_insert.
  rewrite Hst in Hf. simpl in Hf.
  destruct Hact as [(E & _ & ->)|(E & _ & ->)].
  - rewrite E, Hst in Hf. simpl in Hf. lia.
  - rewrite E in Hf. simpl in Hf.
    pose proof (list_remove_length_elem h _ Hh). lia.
Qed.

Lemma pt_call_accounted (c : Call) (s s' : PaperTrader) :
  books_ok s ->
  accounted s /\
  (closed_count s + length (active_trades s) = length (trades s))%nat ->
  call c s = Some s' ->
  accounted s' /\
  (closed_count s' + length (active_trades s') = length (trades s'))%nat.
Proof.
  intros Hb [Hacc Hcnt] Hc. destruct c as [now sd|now m]; simpl in Hc.
  - inversion Hc; subst. clear Hc.
    destruct (process_signal_admits now sd s)
      as [->|(_ & _ & t & -> & _ & _ & _ & _ & _ & _ & _ & _ & _ & Hst & _)];
      [done|].
    cbn [fst]. split.
    + intros j tj Hj. cbn in Hj |- *.
      apply lookup_app_Some in Hj as [Hj|[Hlen Hj]].
      * destruct (Hacc j tj Hj) as [Hin|Hcl]; [|by right].
        left. apply elem_of_app. by left.
      * left. apply elem_of_app. right.
        destruct (j - length (trades s))%nat as [|k] eqn:Hk; [|done].
        assert (j = length (trades s)) as -> by lia.
        by apply list_elem_of_singleton.
    + unfold closed_count in *. cbn.
      rewrite List.filter_app, !length_app. simpl. rewrite Hst. simpl. lia.
  - destruct (update_trades now m s) as [[s1 u1]|] eqn:Hu; [|discriminate].
    simpl in Hc. inversion Hc; subst. clear Hc.
    apply (pt_update_trades_inv
             (fun s1 _ =>
                accounted s1 /\
                (closed_count s1 + length (active_trades s1) =
                   length (trades s1))%nat) now m)
      with (s := s) (ups' := u1); [|exact Hb|done|exact Hu].
    intros h s2 u2 s3 u3 t _ [A B] Hh Ht Hst Hup. split.
    + by apply (pt_update_trade_accounted now m h s2 s3 u2 u3 t).
    + by apply (pt_update_trade_closed_count now m h s2 s3 u2 u3 t).
Qed.

Lemma pt_calls_accounted (cs : list Call) (s s' : PaperTrader) :
  books_ok s ->
  accounted s /\
  (closed_count s + length (active_trades s) = length (trades s))%nat ->
  calls cs s = Some s' ->
  accounted s' /\
  (closed_count s' + length (active_trades s') = length (trades s'))%nat.
Proof.
  intros Hb HI Hrun.
  apply (pt_calls_inv
           (fun s => accounted s /\
                     (closed_count s + length (active_trades s) =
                        length (trades s))%nat) (fun _ => True))
    with (cs := cs) (s := s); try done; [|by apply Forall_true].
  intros c s1 s2 _ Hb1 H1 Hc. by apply (pt_call_accounted c s1).
Qed.

Lemma wins_losses_closed (s : PaperTrader) :
  (wins s + losses s = closed_count s)%nat.
Proof.
  unfold wins, losses, closed_count.
  induction (trades s) as [|t l IH]; [done|].
  cbn -[String.eqb Qgtb Qleb].
  change (Qgtb (realized_pnl t) 0) with (negb (Qleb (realized_pnl t) 0)).
  destruct (Qleb (realized_pnl t) 0), (String.eqb (status t) "CLOSED");
    cbn -[String.eqb Qgtb Qleb]; lia.
Qed.

Lemma win_rate_bounds (s : PaperTrader) : 0 <= win_rate s /\ win_rate s <= 100.
Proof.
  unfold win_rate. destruct (0 <? wins s + losses s)%nat eqn:Hpos; [|lra].
  apply Nat.ltb_lt in Hpos.
  set (w := wins s) in *. set (l := losses s) in *.
  assert (Hw : 0 <= inject_Z (Z.of_nat w)).
  { change 0 with (inject_Z 0). rewrite <- Zle_Qle. lia. }
  assert (Hd : 0 < inject_Z (Z.of_nat (w + l))).
  { change 0 with (inject_Z 0). rewrite <- Zlt_Qlt. lia. }
  assert (Hle : inject_Z (Z.of_nat w) <= inject_Z (Z.of_nat (w + l))).
  { rewrite <- Zle_Qle. lia. }
  split.
  - apply Qmult_le_0_compat; [|lra]. by apply Qdiv_nonneg.
  - assert (inject_Z (Z.of_nat w) / inject_Z (Z.of_nat (w + l)) <= 1).
    { apply Qle_shift_div_r; [exact Hd|]. lra. }
    lra.
Qed.

(** *** The books balance *)

Lemma pt_only_capital_refl (s : PaperTrader) : only_capital s s.
Proof. unfold only_capital. by destruct s. Qed.

Lemma pt_only_capital_trans (s1 s2 s3 : PaperTrader) :
  only_capital s1 s2 -> only_capital s2 s3 -> only_capital s1 s3.
Proof. unfold only_capital. intros E1 E2. rewrite E2, E1. reflexivity. Qed.

Lemma pt_only_capital_fields (s s' : PaperTrader) :
  only_capital s s' ->
  trades s' = trades s /\ active_trades s' = active_trades s.
Proof. unfold only_capital. intros ->. by split. Qed.

Lemma pt_take_profit_value (th pct : Q) (level reason : string)
    (pct_used mc : Q) (h : nat) (t t' : PaperTrade) (s s' : PaperTrader)
    (ups ups' : list Update) :
  take_profit th pct level reason pct_used mc h t s ups = Some (s', t', ups') ->
  only_capital s s' /\
  capital s' + book_value t' == capital s + book_value t.
Proof.
  intros H. apply pt_take_profit_eq in H
    as [(-> & -> & _)|(_ & _ & _ & -> & -> & _)].
  - split; [apply pt_only_capital_refl | lra].
  - split; [reflexivity|].
    unfold book_value, cost_basis, unpriced_stake, after_sale. simpl. ring.
Qed.

Lemma pt_closed_trade_value (now : Timestamp) (mc : Q) (reason : string)
    (t : PaperTrade) :
  current_units t * exit_price_proxy mc t +
    book_value (closed_trade now mc reason t) == book_value t.
Proof.
  unfold book_value, cost_basis, unpriced_stake, closed_trade. simpl. ring.
Qed.

Lemma update_peak_value (mc : Q) (t : PaperTrade) :
  book_value (update_peak mc t) = book_value t /\
  current_units (update_peak mc t) = current_units t /\
  exit_price_proxy mc (update_peak mc t) = exit_price_proxy mc t.
Proof.
  destruct (update_peak_evolves mc t) as [_ ->]. by repeat split.
Qed.

Lemma pt_update_trade_value (now : Timestamp) (m : gmap string Q) (h : nat)
    (s s' : PaperTrader) (ups ups' : list Update) (t : PaperTrade) :
  update_trade now m h (s, ups) = Some (s', ups') ->
  trades s !! h = Some t ->
  exists t',
    trades s' = <[h := t']> (trades s) /\
    capital s' + book_value t' == capital s + book_value t.
Proof.
  intros Hu Ht.
  destruct (pt_update_trade_cases _ _ _ _ _ _ _ _ Hu Ht)
    as [(-> & _ & _)|(mc & pct_used & _ & _ & _ & _ & Hrest)].
  - exists t. split; [by rewrite list_insert_id | lra].
  - destruct (update_peak_value mc t) as (Eb & Eu & Ex).
    destruct Hrest as [(_ & Hc & _)|(_ & [(_ & _ & Hc & _)|
      (_ & sa & ta & ua & sb & tb & ub & sc & tc & H1 & H2 & H3 & ->)])].
    + apply pt_close_trade_eq in Hc as [_ ->]. eexists.
      split; [reflexivity|]. simpl.
      pose proof (pt_closed_trade_value now mc "STOP_LOSS_30_PCT"
                    (update_peak mc t)).
      rewrite Eb in *. lra.
    + apply pt_close_trade_eq in Hc as [_ ->]. eexists.
      split; [reflexivity|]. simpl.
      pose proof (pt_closed_trade_value now mc "TIME_EXIT_STAGNANT"
                    (update_peak mc t)).
      rewrite Eb in *. lra.
    + apply pt_take_profit_value in H1 as [C1 V1].
      apply pt_take_profit_value in H2 as [C2 V2].
      apply pt_take_profit_value in H3 as [C3 V3].
      pose proof (pt_only_capital_trans _ _ _
                    (pt_only_capital_trans _ _ _ C1 C2) C3) as C.
      destruct (pt_only_capital_fields _ _ C) as (Etr & _).
      exists tc. simpl. rewrite Etr. split; [reflexivity|].
      rewrite Eb in V1. lra.
Qed.

Lemma pt_call_ledger (c : Call) (c0 : Q) (s s' : PaperTrader) :
  capital s + Qsum (book_value <$> trades s) == c0 ->
  call c s = Some s' ->
  capital s' + Qsum (book_value <$> trades s') == c0.
Proof.
  intros HI Hc. destruct c as [now sd|now m]; simpl in Hc.
  - inversion Hc; subst. clear Hc.
    destruct (process_signal_admits now sd s)
      as [->|(_ & _ & t & -> & _ & _ & Hp & _ & Hsz & _ & Hu & _ & _ & _ & _ &
              Hr & _)]; [done|].
    cbn [fst capital trades set_trades set_active_trades set_capital].
    rewrite Qsum_fmap_app, fmap_cons, fmap_nil, Qsum_cons.
    change (Qsum []) with 0.
    unfold book_value at 2. unfold cost_basis, unpriced_stake.
    rewrite Hu, Hr, Hp, Hsz.
    destruct (Qeq_bool (price_usd_of sd) 0) eqn:Hz; [lra|].
    assert (Hne : ~ price_usd_of sd == 0).
    { intros Hq. apply Qeq_bool_iff in Hq. congruence. }
    assert (capital s * 0.05 / price_usd_of sd * price_usd_of sd ==
              capital s * 0.05) by (field; exact Hne).
    lra.
  - destruct (update_trades now m s) as [[s1 u1]|] eqn:Hu; [|discriminate].
    simpl in Hc. inversion Hc; subst. clear Hc.
    apply (pt_update_trades_inv0
             (fun s => capital s + Qsum (book_value <$> trades s) == c0)
             now m)
      with (s := s) (ups' := u1); [|exact HI|exact Hu].
    intros h s2 u2 s3 u3 t H2 Ht Hup.
    destruct (pt_update_trade_value _ _ _ _ _ _ _ _ Hup Ht) as (t' & -> & Hv).
    rewrite (Qsum_fmap_insert book_value _ _ _ t' Ht). lra.
Qed.

Lemma pt_calls_ledger (cs : list Call) (c0 : Q) (s s' : PaperTrader) :
  capital s + Qsum (book_value <$> trades s) == c0 ->
  calls cs s = Some s' ->
  capital s' + Qsum (book_value <$> trades s') == c0.
Proof.
  revert s. induction cs as [|c cs IH]; intros s HI Hrun.
  - simpl in Hrun. by inversion Hrun; subst.
  - simpl in Hrun. destruct (call c s) as [s1|] eqn:Hc; [|discriminate].
    apply (IH s1); [|exact Hrun]. by apply (pt_call_ledger c c0 s).
Qed.

Lemma pt_flat_holds_nothing (s : PaperTrader) :
  books_ok s -> accounted s -> active_trades s = [] ->
  Qsum (cost_basis <$> trades s) == 0.
Proof.
  intros (_ & Hset & _) Hacc Hflat. apply Qsum_fmap_zero.
  apply Forall_lookup. intros h t Ht.
  destruct (Hacc h t Ht) as [Hin|Hc].
  - rewrite Hflat in Hin. by apply elem_of_nil in Hin.
  - rewrite Forall_lookup in Hset. specialize (Hset h t Ht Hc).
    unfold cost_basis. rewrite Hset. lra.
Qed.


(** *** The take-profit ladder *)

Lemma level_hit_after (level level' : string) (t t0 : PaperTrade) :
  level_hit level (set_tp_levels_hit (tp_levels_hit t ++ [level']) t0) =
    (if decide (level = level') then true else level_hit level t).
Proof.
  unfold level_hit. simpl. destruct (decide (level = level')) as [->|Hne].
  - apply bool_decide_eq_true. apply elem_of_app. right.
    by apply list_elem_of_singleton.
  - apply bool_decide_ext. rewrite elem_of_app, list_elem_of_singleton.
    tauto.
Qed.

Lemma pt_after_sale_sound (pct mc : Q) (t : PaperTrade) :
  sound t -> 0 <= pct -> sound (after_sale (sale_units pct t) mc t).
Proof.
  intros Hs Hp. destruct (pt_sale_units_bounds pct t Hs Hp) as [B1 B2].
  destruct Hs as (S1 & S2 & S3 & S4 & S5). unfold sound. simpl.
  repeat split; try done; lra.
Qed.

Lemma pt_ladder_closed (now : Timestamp) (mc : Q) (reason : string)
    (t : PaperTrade) :
  sound t /\ on_ladder t ->
  sound (closed_trade now mc reason t) /\
  on_ladder (closed_trade now mc reason t).
Proof.
  intros [(S1 & S2 & S3 & S4 & S5) _]. split.
  - unfold sound. simpl. repeat split; try done; lra.
  - unfold on_ladder. simpl. discriminate.
Qed.

Lemma pt_ladder_peak (mc : Q) (t : PaperTrade) :
  sound t /\ on_ladder t ->
  sound (update_peak mc t) /\ on_ladder (update_peak mc t).
Proof.
  intros [Hs Hl]. split; [by apply update_peak_sound|].
  destruct (update_peak_evolves mc t) as [_ ->]. exact Hl.
Qed.

Lemma pt_ladder_tp30 (pct_used mc : Q) (h : nat) (t t' : PaperTrade)
    (s s' : PaperTrader) (ups ups' : list Update) :
  sound t /\ on_ladder t ->
  take_profit 0.30 0.20 "30%" "TP_30_PCT" pct_used mc h t s ups =
    Some (s', t', ups') ->
  sound t' /\ on_ladder t'.
Proof.
  intros [Hs Hl] H.
  apply pt_take_profit_eq in H
    as [(-> & -> & _)|(_ & Hh & _ & -> & -> & _)]; [done|].
  pose proof (pt_after_sale_sound 0.20 mc t Hs ltac:(lra)) as Hs'.
  split; [exact Hs'|].
  destruct Hs as (S1 & S2 & _).
  unfold on_ladder in *. intros Ho. specialize (Hl Ho).
  unfold ladder_share in *.
  rewrite !level_hit_after.
  destruct (decide ("30%" = "30%")) as [_|]; [|done].
  destruct (decide ("50%" = "30%")) as [|_]; [done|].
  destruct (decide ("70%" = "30%")) as [|_]; [done|].
  rewrite Hh in Hl. simpl. unfold sale_units.
  destruct (Qgtb (initial_units t * 0.20) (current_units t)) eqn:Hg; qprop;
    destruct (level_hit "50%" t), (level_hit "70%" t); lra.
Qed.


Lemma pt_ladder_tp50 (pct_used mc : Q) (h : nat) (t t' : PaperTrade)
    (s s' : PaperTrader) (ups ups' : list Update) :
  sound t /\ on_ladder t ->
  take_profit 0.50 0.25 "50%" "TP_50_PCT" pct_used mc h t s ups =
    Some (s', t', ups') ->
  sound t' /\ on_ladder t'.
Proof.
  intros [Hs Hl] H.
  apply pt_take_profit_eq in H
    as [(-> & -> & _)|(_ & Hh & _ & -> & -> & _)]; [done|].
  pose proof (pt_after_sale_sound 0.25 mc t Hs ltac:(lra)) as Hs'.
  split; [exact Hs'|].
  destruct Hs as (S1 & S2 & _).
  unfold on_ladder in *. intros Ho. specialize (Hl Ho).
  unfold ladder_share in *.
  rewrite !level_hit_after.
  destruct (decide ("30%" = "50%")) as [|_]; [done|].
  destruct (decide ("50%" = "50%")) as [_|]; [|done].
  destruct (decide ("70%" = "50%")) as [|_]; [done|].
  rewrite Hh in Hl. simpl. unfold sale_units.
  destruct (Qgtb (initial_units t * 0.25) (current_units t)) eqn:Hg; qprop;
    destruct (level_hit "30%" t), (level_hit "70%" t); lra.
Qed.

Lemma pt_ladder_tp70 (pct_used mc : Q) (h : nat) (t t' : PaperTrade)
    (s s' : PaperTrader) (ups ups' : list Update) :
  sound t /\ on_ladder t ->
  take_profit 0.70 0.30 "70%" "TP_70_PCT" pct_used mc h t s ups =
    Some (s', t', ups') ->
  sound t' /\ on_ladder t'.
Proof.
  intros [Hs Hl] H.
  apply pt_take_profit_eq in H
    as [(-> & -> & _)|(_ & Hh & _ & -> & -> & _)]; [done|].
  pose proof (pt_after_sale_sound 0.30 mc t Hs ltac:(lra)) as Hs'.
  split; [exact Hs'|].
  destruct Hs as (S1 & S2 & _).
  unfold on_ladder in *. intros Ho. specialize (Hl Ho).
  unfold ladder_share in *.
  rewrite !level_hit_after.
  destruct (decide ("30%" = "70%")) as [|_]; [done|].
  destruct (decide ("50%" = "70%")) as [|_]; [done|].
  destruct (decide ("70%" = "70%")) as [_|]; [|done].
  rewrite Hh in Hl. simpl. unfold sale_units.
  destruct (Qgtb (initial_units t * 0.30) (current_units t)) eqn:Hg; qprop;
    destruct (level_hit "30%" t), (level_hit "50%" t); lra.
Qed.

Lemma pt_update_trade_ladder (now : Timestamp) (m : gmap string Q) (h : nat)
    (s s' : PaperTrader) (ups ups' : list Update) (t : PaperTrade) :
  Forall (fun t => sound t /\ on_ladder t) (trades s) ->
  trades s !! h = Some t ->
  update_trade now m h (s, ups) = Some (s', ups') ->
  Forall (fun t => sound t /\ on_ladder t) (trades s').
Proof.
  intros Hall Ht Hu.
  assert (HP : sound t /\ on_ladder t).
  { rewrite Forall_lookup in Hall. by apply (Hall h). }
  destruct (pt_update_trade_cases _ _ _ _ _ _ _ _ Hu Ht)
    as [(-> & _ & _)|(mc & pct_used & _ & _ & _ & _ & Hrest)]; [done|].
  pose proof (pt_ladder_peak mc t HP) as HP0.
  destruct Hrest as [(_ & Hc & _)|(_ & [(_ & _ & Hc & _)|
    (_ & sa & ta & ua & sb & tb & ub & sc & tc & H1 & H2 & H3 & ->)])].
  - apply pt_close_trade_eq in Hc as [_ ->]. simpl.
    apply Forall_insert; [done|]. by apply pt_ladder_closed.
  - apply pt_close_trade_eq in Hc as [_ ->]. simpl.
    apply Forall_insert; [done|]. by apply pt_ladder_closed.
  - pose proof (pt_ladder_tp30 _ _ _ _ _ _ _ _ _ HP0 H1) as HPa.
    pose proof (pt_ladder_tp50 _ _ _ _ _ _ _ _ _ HPa H2) as HPb.
    pose proof (pt_ladder_tp70 _ _ _ _ _ _ _ _ _ HPb H3) as HPc.
    apply pt_take_profit_value in H1 as [C1 _].
    apply pt_take_profit_value in H2 as [C2 _].
    apply pt_take_profit_value in H3 as [C3 _].
    pose proof (pt_only_capital_trans _ _ _
                  (pt_only_capital_trans _ _ _ C1 C2) C3) as C.
    destruct (pt_only_capital_fields _ _ C) as (Etr & _).
    simpl. rewrite Etr. by apply Forall_insert.
Qed.

Lemma pt_calls_ladder (cs : list Call) (s s' : PaperTrader) :
  Forall valid_call cs -> 0 <= capital s ->
  Forall (fun t => sound t /\ on_ladder t) (trades s) ->
  calls cs s = Some s' ->
  0 <= capital s' /\ Forall (fun t => sound t /\ on_ladder t) (trades s').
Proof.
  revert s. induction cs as [|c cs IH]; intros s Hok Hc HI Hrun.
  - simpl in Hrun. by inversion Hrun; subst.
  - simpl in Hrun. destruct (call c s) as [s1|] eqn:Hcall; [|discriminate].
    apply Forall_cons in Hok as [Hv Hok].
    assert (Hsound : Forall sound (trades s)).
    { eapply Forall_impl; [exact HI|]. by intros t [A _]. }
    destruct (pt_call_cash c s Hv Hc Hsound) as (s1' & Hc' & Hcap & Hs1).
    rewrite Hcall in Hc'. inversion Hc'; subst s1'.
    apply (IH s1); [exact Hok|exact Hcap| |exact Hrun].
    destruct c as [now sd|now m]; simpl in Hcall, Hv.
    + inversion Hcall; subst. clear Hcall.
      destruct (process_signal_admits now sd s)
        as [->|(_ & Hpos & t & E & _ & Emc & Ep & _ & _ & Ei & Eu & Eb & _ &
                Est & Eh & _)]; [done|].
      rewrite E in *. cbn [fst trades set_trades] in *.
      apply Forall_app. split; [done|]. apply Forall_singleton.
      rewrite Forall_app in Hs1. destruct Hs1 as [_ Hs1].
      rewrite Forall_singleton in Hs1.
      split; [exact Hs1|].
      unfold on_ladder, ladder_share, level_hit. rewrite Eh, Ei.
      intros _. simpl. lra.
    + destruct (update_trades now m s) as [[s2 u2]|] eqn:Hu; [|discriminate].
      simpl in Hcall. inversion Hcall; subst. clear Hcall.
      apply (pt_update_trades_inv0
               (fun s => Forall (fun t => sound t /\ on_ladder t) (trades s))
               now m)
        with (s := s) (ups' := u2); [|exact HI|exact Hu].
      intros h s3 u3 s4 u4 t H3 Ht Hup.
      by apply (pt_update_trade_ladder now m h s3 s4 u3 u4 t).
Qed.

(** *** What the list of updates reports *)

Lemma pt_take_profit_report (th pct : Q) (level reason : string)
    (pct_used mc : Q) (h : nat) (t t' : PaperTrade) (s s' : PaperTrader)
    (ups ups' : list Update) :
  take_profit th pct level reason pct_used mc h t s ups = Some (s', t', ups') ->
  exists new,
    ups' = ups ++ new /\ (forall j, CLOSE j ∉ new) /\
    (new = [] -> capital s' = capital s /\ current_units t' = current_units t).
Proof.
  intros H. apply pt_take_profit_eq in H
    as [(-> & -> & ->)|(_ & _ & _ & -> & -> & ->)].
  - exists []. rewrite app_nil_r. repeat split; try done.
    intros j Hj. by apply elem_of_nil in Hj.
  - exists [TP h pct]. repeat split; try done.
    intros j Hj. apply list_elem_of_singleton in Hj. discriminate.
Qed.

Lemma pt_update_trade_report (now : Timestamp) (m : gmap string Q) (h : nat)
    (s s' : PaperTrader) (ups ups' : list Update) (t : PaperTrade) :
  update_trade now m h (s, ups) = Some (s', ups') ->
  trades s !! h = Some t ->
  exists new,
    ups' = ups ++ new /\
    (forall j, CLOSE j ∈ new -> j = h) /\
    (((CLOSE h ∈ new) /\
      active_trades s' = list_remove h (active_trades s)) \/
     ((CLOSE h ∉ new) /\ active_trades s' = active_trades s)) /\
    (new = [] ->
     capital s' = capital s /\ active_trades s' = active_trades s).
Proof.
  intros Hu Ht.
  destruct (pt_update_trade_cases _ _ _ _ _ _ _ _ Hu Ht)
    as [(-> & -> & _)|(mc & pct_used & _ & _ & _ & _ & Hrest)].
  - exists []. rewrite app_nil_r. split; [done|].
    split; [intros j Hj; by apply elem_of_nil in Hj|].
    split; [|done]. right. split; [|done].
    intros Hj. by apply elem_of_nil in Hj.
  - destruct Hrest as [(_ & Hc & ->)|(_ & [(_ & _ & Hc & ->)|
      (_ & sa & ta & ua & sb & tb & ub & sc & tc & H1 & H2 & H3 & ->)])].
    + apply pt_close_trade_eq in Hc as [_ ->]. exists [CLOSE h].
      split; [done|].
      split; [intros j Hj; apply list_elem_of_singleton in Hj; congruence|].
      split; [|done]. left. split; [|done]. by apply list_elem_of_singleton.
    + apply pt_close_trade_eq in Hc as [_ ->]. exists [CLOSE h].
      split; [done|].
      split; [intros j Hj; apply list_elem_of_singleton in Hj; congruence|].
      split; [|done]. left. split; [|done]. by apply list_elem_of_singleton.
    + pose proof (pt_take_profit_value _ _ _ _ _ _ _ _ _ _ _ _ _ H1) as [C1 _].
      pose proof (pt_take_profit_value _ _ _ _ _ _ _ _ _ _ _ _ _ H2) as [C2 _].
      pose proof (pt_take_profit_value _ _ _ _ _ _ _ _ _ _ _ _ _ H3) as [C3 _].
      pose proof (pt_only_capital_trans _ _ _
                    (pt_only_capital_trans _ _ _ C1 C2) C3) as C.
      destruct (pt_only_capital_fields _ _ C) as (_ & Eact).
      apply pt_take_profit_report in H1 as (n1 & -> & N1 & K1).
      apply pt_take_profit_report in H2 as (n2 & -> & N2 & K2).
      apply pt_take_profit_report in H3 as (n3 & -> & N3 & K3).
      exists (n1 ++ n2 ++ n3). split; [by rewrite !app_assoc|].
      assert (Hno : forall j, CLOSE j ∉ n1 ++ n2 ++ n3).
      { intros j Hj. apply elem_of_app in Hj as [Hj|Hj]; [by apply (N1 j)|].
        apply elem_of_app in Hj as [Hj|Hj]; [by apply (N2 j) | by apply (N3 j)]. }
      split; [intros j Hj; by apply Hno in Hj|].
      split; [right; split; [apply Hno | exact Eact]|].
      intros Hnil. apply app_eq_nil in Hnil as [-> Hnil].
      apply app_eq_nil in Hnil as [-> ->].
      destruct (K1 eq_refl) as [E1 _]. destruct (K2 eq_refl) as [E2 _].
      destruct (K3 eq_refl) as [E3 _].
      split; [simpl; congruence | exact Eact].
Qed.

Lemma pt_update_trades_report (now : Timestamp) (m : gmap string Q)
    (s s' : PaperTrader) (ups' : list Update) :
  books_ok s -> update_trades now m s = Some (s', ups') ->
  (forall j, CLOSE j ∈ ups' <-> j ∈ active_trades s /\ j ∉ active_trades s') /\
  (ups' = [] -> capital s' = capital s /\ active_trades s' = active_trades s).
Proof.
  intros Hb Hrun.
  cut (active_trades s' ⊆ active_trades s /\
       (forall j, CLOSE j ∈ ups' <->
                  j ∈ active_trades s /\ j ∉ active_trades s') /\
       (ups' = [] ->
        capital s' = capital s /\ active_trades s' = active_trades s));
    [tauto|].
  apply (pt_update_trades_inv
           (fun s1 u1 =>
              active_trades s1 ⊆ active_trades s /\
              (forall j, CLOSE j ∈ u1 <->
                         j ∈ active_trades s /\ j ∉ active_trades s1) /\
              (u1 = [] ->
               capital s1 = capital s /\ active_trades s1 = active_trades s))
           now m) with (s := s); [|exact Hb| |exact Hrun].
  - intros h s1 u1 s2 u2 t Hb1 (Hsub & Hiff & Hnil) Hh Ht _ Hup.
    destruct (pt_update_trade_report _ _ _ _ _ _ _ _ Hup Ht)
      as (new & -> & Hown & Hcl & Hq).
    destruct (pt_update_trade_books now m h (s1, u1) (s2, u1 ++ new) Hb1 Hh Hup)
      as (_ & Hstay). cbn [fst] in Hstay.
    destruct Hb1 as ([Hnd _] & _).
    destruct (list_remove_NoDup h _ Hnd) as [_ Hnot].
    assert (Hsub2 : active_trades s2 ⊆ active_trades s1).
    { destruct Hcl as [[_ ->]|[_ ->]]; [apply list_remove_subseteq | done]. }
    split; [|split].
    + intros j Hj. by apply Hsub, Hsub2.
    + intros j. rewrite elem_of_app, Hiff. split.
      * intros [[A B]|Hj].
        -- split; [exact A|]. intros Hc. apply B. by apply Hsub2.
        -- apply Hown in Hj as Ej. subst j. split; [by apply Hsub|].
           destruct Hcl as [[_ ->]|[Hc _]]; [exact Hnot | contradiction].
      * intros [A B]. destruct (decide (j ∈ active_trades s1)) as [Hin|Hout];
          [|by left].
        right. destruct (decide (j = h)) as [->|Hne].
        -- destruct Hcl as [[Hc _]|[_ E]]; [exact Hc|].
           rewrite E in B. contradiction.
        -- exfalso. apply B. by apply Hstay.
    + intros Hnil2. apply app_eq_nil in Hnil2 as [-> ->].
      destruct (Hnil eq_refl) as [E1 E2]. destruct (Hq eq_refl) as [E3 E4].
      split; congruence.
  - split; [done|]. split; [|done]. intros j. split.
    + intros Hj. by apply elem_of_nil in Hj.
    + intros [A B]. contradiction.
Qed.

(** *** Updates without data *)

Lemma pt_update_trade_no_data (now : Timestamp) (m : gmap string Q) (h : nat)
    (s : PaperTrader) (ups : list Update) (t : PaperTrade) :
  trades s !! h = Some t -> no_data m t ->
  update_trade now m h (s, ups) = Some (s, ups).
Proof.
  intros Ht Hn. unfold update_trade, no_data in *. rewrite Ht.
  destruct (m !! token_address t) as [mc|]; [|done].
  apply Qeq_bool_iff in Hn. by rewrite Hn.
Qed.

Lemma pt_update_trades_no_data (now : Timestamp) (m : gmap string Q)
    (s : PaperTrader) :
  (forall h t,
     h ∈ active_trades s -> trades s !! h = Some t -> no_data m t) ->
  update_trades now m s = Some (s, []).
Proof.
  unfold update_trades. generalize (active_trades s) as l.
  induction l as [|h l IH]; intros Hg; [done|].
  cbn [for_each]. destruct (trades s !! h) as [t|] eqn:Ht.
  - rewrite (pt_update_trade_no_data now m h s [] t Ht);
      [|apply (Hg h); set_solver].
    apply IH. intros j tj Hj. apply Hg. set_solver.
  - rewrite pt_update_trade_no_trade by done.
    apply IH. intros j tj Hj. apply Hg. set_solver.
Qed.

(** *** A position entered on a market cap of zero *)

Lemma pt_update_trade_zero_mc (now : Timestamp) (m : gmap string Q) (h : nat)
    (s : PaperTrader) (ups : list Update) (t : PaperTrade) (mc : Q) :
  trades s !! h = Some t -> entry_mc t == 0 ->
  m !! token_address t = Some mc -> ~ mc == 0 ->
  update_trade now m h (s, ups) = None.
Proof.
  intros Ht Hz Hm Hmc. unfold update_trade. rewrite Ht, Hm.
  destruct (Qeq_bool mc 0) eqn:Hq; [apply Qeq_bool_iff in Hq; contradiction|].
  unfold potential_used.
  destruct (update_peak_evolves mc t) as [(_ & -> & _) _].
  unfold div. apply Qeq_bool_iff in Hz. by rewrite Hz.
Qed.

Lemma pt_for_each_zero_mc (now : Timestamp) (m : gmap string Q) (h : nat)
    (mc : Q) (k : string) (l : list nat) :
  h ∈ l -> m !! k = Some mc -> ~ mc == 0 ->
  forall st t,
    trades st.1 !! h = Some t -> entry_mc t == 0 -> token_address t = k ->
    for_each (update_trade now m) l st = None.
Proof.
  intros Hh Hm Hmc. induction l as [|h0 l IH]; intros [s ups] t Ht Hz Hk;
    [by apply elem_of_nil in Hh|].
  cbn [fst] in Ht. cbn [for_each].
  destruct (decide (h0 = h)) as [->|Hne].
  - rewrite (pt_update_trade_zero_mc now m h s ups t mc); try done.
    by rewrite Hk.
  - destruct (update_trade now m h0 (s, ups)) as [[s1 u1]|] eqn:Hu; [|done].
    destruct (pt_update_trade_store _ _ _ _ _ Hu) as (Hev & _).
    cbn [fst] in Hev. destruct (Hev h t Ht) as (t' & Ht' & (Etok & Emc & _)).
    assert (Hin : h ∈ l).
    { apply elem_of_cons in Hh as [E|E]; [congruence | exact E]. }
    apply (IH Hin (s1, u1) t'); [exact Ht'| |congruence].
    by rewrite Emc.
Qed.


(** *** The stop-loss *)

Lemma pt_update_trade_stop_loss (now : Timestamp) (m : gmap string Q)
    (h : nat) (s : PaperTrader) (ups : list Update) (t : PaperTrade)
    (mc : Q) :
  trades s !! h = Some t ->
  m !! token_address t = Some mc -> ~ mc == 0 ->
  0 < entry_mc t -> ~ base_potential t - 1.0 == 0 ->
  mc <= entry_mc t * 0.70 ->
  exists s',
    _close_trade now h (update_peak mc t) mc "STOP_LOSS_30_PCT" s = Some s' /\
    update_trade now m h (s, ups) = Some (s', ups ++ [CLOSE h]).
Proof.
  intros Ht Hm Hmc He Hb Hdrop. unfold update_trade. rewrite Ht, Hm.
  destruct (Qeq_bool mc 0) eqn:Hz; [by apply Qeq_bool_iff in Hz|].
  assert (Hne : ~ entry_mc t == 0) by lra.
  destruct (potential_used_defined mc t Hne Hb) as [pct Hpot].
  rewrite potential_used_update_peak, Hpot. simpl.
  destruct (update_peak_evolves mc t) as [L0 _].
  assert (Hmceq : entry_mc (update_peak mc t) = entry_mc t) by apply L0.
  rewrite Hmceq. rewrite div_defined by done. simpl.
  assert (Hloss : Qgeb ((entry_mc t - mc) / entry_mc t) 0.30 = true).
  { apply Qgeb_true. apply Qle_shift_div_l; [exact He | lra]. }
  rewrite Hloss.
  destruct (pt_close_trade_defined now h (update_peak mc t) mc
              "STOP_LOSS_30_PCT" s) as [s' Hc]; [by rewrite Hmceq|].
  exists s'. rewrite Hc. by split.
Qed.

(** *** Levels and the peak *)

Lemma pt_take_profit_flags (th pct : Q) (level reason : string)
    (pct_used mc : Q) (h : nat) (t t' : PaperTrade) (s s' : PaperTrader)
    (ups ups' : list Update) :
  take_profit th pct level reason pct_used mc h t s ups =
    Some (s', t', ups') ->
  entry_mc t' = entry_mc t /\ base_potential t' = base_potential t /\
  peak_mc t' = peak_mc t /\
  (forall l, level_hit l t' = true ->
     level_hit l t = true \/ (l = level /\ th <= pct_used)) /\
  (forall l, level_hit l t = true -> level_hit l t' = true) /\
  (th <= pct_used -> level_hit level t' = true).
Proof.
  unfold take_profit. intros H.
  destruct (Qgeb pct_used th) eqn:Hr; cbn [andb] in H; qprop.
  - destruct (level_hit level t) eqn:Hh; cbn [negb] in H.
    + inversion H; subst. repeat split; try done. intros l Hl. by left.
    + destruct (_partial_close _ _ _ _ _) as [[s1 t1]|] eqn:Hpc;
        [|discriminate].
      apply pt_partial_close_eq in Hpc as (_ & -> & ->).
      cbn [mbind option_bind] in H. inversion H; subst. clear H.
      change (tp_levels_hit (after_sale (sale_units pct t) mc t))
        with (tp_levels_hit t).
      repeat split.
      * intros l. rewrite level_hit_after.
        destruct (decide (l = level)) as [->|_]; [by right | by left].
      * intros l Hl. rewrite level_hit_after.
        by destruct (decide (l = level)).
      * intros _. rewrite level_hit_after.
        by destruct (decide (level = level)).
  - inversion H; subst. repeat split; try done; [intros l Hl; by left|].
    intros Hc. lra.
Qed.

Lemma potential_used_value (mc pct : Q) (t : PaperTrade) :
  0 < entry_mc t -> 1 < base_potential t ->
  potential_used mc t = Some pct ->
  forall th,
    th <= pct ->
    entry_mc t + th * (entry_mc t * base_potential t - entry_mc t) <= mc.
Proof.
  intros He Hb H th Hth. unfold potential_used in H.
  destruct (div mc (entry_mc t)) as [x|]; [|discriminate].
  cbn [mbind option_bind] in H.
  destruct (div (x - 1.0) (base_potential t - 1.0)) as [y|]; [|discriminate].
  cbn [mbind option_bind] in H.
  destruct (Qleb (base_potential t) 1.0) eqn:Hle; qprop; [lra|].
  apply div_Some in H as [Hne ->].
  set (way := entry_mc t * base_potential t - entry_mc t) in *.
  assert (Hway : 0 < way) by (unfold way; nra).
  assert (E : mc - entry_mc t == (mc - entry_mc t) / way * way)
    by (field; lra).
  assert (th * way <= (mc - entry_mc t) / way * way)
    by (apply Qmult_le_compat_r; lra).
  lra.
Qed.

Lemma levels_reached_closed (now : Timestamp) (mc : Q) (reason : string)
    (t : PaperTrade) :
  (0 < entry_mc t /\ 1 < base_potential t) /\ levels_reached t ->
  (0 < entry_mc (closed_trade now mc reason t) /\
   1 < base_potential (closed_trade now mc reason t)) /\
  levels_reached (closed_trade now mc reason t).
Proof. intros H. exact H. Qed.

Lemma levels_reached_peak (mc : Q) (t : PaperTrade) :
  (0 < entry_mc t /\ 1 < base_potential t) /\ levels_reached t ->
  ((0 < entry_mc (update_peak mc t) /\ 1 < base_potential (update_peak mc t))
   /\ levels_reached (update_peak mc t)) /\
  mc <= peak_mc (update_peak mc t).
Proof.
  intros [Hs (A & B & C)]. split; [|apply update_peak_reached].
  destruct (update_peak_evolves mc t) as [(_ & _ & _ & _ & _ & _ & Hp & _) E].
  rewrite E in Hp |- *. cbn [peak_mc set_peak_mc] in Hp.
  split; [exact Hs|]. unfold levels_reached in *.
  change (level_hit "30%" (set_peak_mc (peak_mc (update_peak mc t)) t))
    with (level_hit "30%" t).
  change (level_hit "50%" (set_peak_mc (peak_mc (update_peak mc t)) t))
    with (level_hit "50%" t).
  change (level_hit "70%" (set_peak_mc (peak_mc (update_peak mc t)) t))
    with (level_hit "70%" t).
  cbn [entry_mc base_potential peak_mc set_peak_mc] in *. cbv zeta in *.
  split; [|split].
  - intros Hh. specialize (A Hh). lra.
  - intros Hh. destruct (B Hh). split; [done|lra].
  - intros Hh. destruct (C Hh). split; [done|lra].
Qed.

Lemma pt_update_trade_reached (now : Timestamp) (m : gmap string Q) (h : nat)
    (s s' : PaperTrader) (ups ups' : list Update) (t : PaperTrade) :
  Forall (fun t => (0 < entry_mc t /\ 1 < base_potential t) /\
                   levels_reached t) (trades s) ->
  trades s !! h = Some t ->
  update_trade now m h (s, ups) = Some (s', ups') ->
  Forall (fun t => (0 < entry_mc t /\ 1 < base_potential t) /\
                   levels_reached t) (trades s').
Proof.
  intros Hall Ht Hu.
  assert (HP : (0 < entry_mc t /\ 1 < base_potential t) /\ levels_reached t).
  { rewrite Forall_lookup in Hall. by apply (Hall h). }
  destruct (pt_update_trade_cases _ _ _ _ _ _ _ _ Hu Ht)
    as [(-> & _ & _)|(mc & pct_used & _ & _ & _ & Hpot & Hrest)]; [done|].
  destruct (levels_reached_peak mc t HP) as [HP0 Hpeak].
  destruct Hrest as [(_ & Hc & _)|(_ & [(_ & _ & Hc & _)|
    (_ & sa & ta & ua & sb & tb & ub & sc & tc & H1 & H2 & H3 & ->)])].
  - apply pt_close_trade_eq in Hc as [_ ->]. simpl.
    apply Forall_insert; [done|]. by apply levels_reached_closed.
  - apply pt_close_trade_eq in Hc as [_ ->]. simpl.
    apply Forall_insert; [done|]. by apply levels_reached_closed.
  - assert (HPc : (0 < entry_mc tc /\ 1 < base_potential tc) /\
                  levels_reached tc).
    { destruct HP0 as [[He Hb] (A & B & C)].
      pose proof (potential_used_value mc pct_used _ He Hb Hpot) as Hval.
      destruct (pt_take_profit_flags _ _ _ _ _ _ _ _ _ _ _ _ _ H1)
        as (Ea & Ba & Pa & F1 & M1 & G1).
      destruct (pt_take_profit_flags _ _ _ _ _ _ _ _ _ _ _ _ _ H2)
        as (Eb & Bb & Pb & F2 & M2 & G2).
      destruct (pt_take_profit_flags _ _ _ _ _ _ _ _ _ _ _ _ _ H3)
        as (Ec & Bc & Pc & F3 & M3 & G3).
      unfold levels_reached in *. cbv zeta in *.
      rewrite Ec, Eb, Ea, Bc, Bb, Ba, Pc, Pb, Pa.
      set (t0 := update_peak mc t) in *.
      assert (K30 : level_hit "30%" tc = true ->
                entry_mc t0 +
                  0.30 * (entry_mc t0 * base_potential t0 - entry_mc t0) <=
                peak_mc t0).
      { intros Hh.
        destruct (F3 _ Hh) as [Hb3|[? _]]; [|done].
        destruct (F2 _ Hb3) as [Ha3|[? _]]; [|done].
        destruct (F1 _ Ha3) as [H03|[_ Hr]]; [by apply A|].
        specialize (Hval 0.30 Hr). lra. }
      assert (K50 : level_hit "50%" tc = true ->
                level_hit "30%" tc = true /\
                entry_mc t0 +
                  0.50 * (entry_mc t0 * base_potential t0 - entry_mc t0) <=
                peak_mc t0).
      { intros Hh.
        destruct (F3 _ Hh) as [Hb5|[? _]]; [|done].
        destruct (F2 _ Hb5) as [Ha5|[_ Hr]].
        - destruct (F1 _ Ha5) as [H05|[? _]]; [|done].
          destruct (B H05) as [B1 B2]. split; [|exact B2].
          by apply M3, M2, M1.
        - split; [apply M3, M2, G1; lra|]. specialize (Hval 0.50 Hr). lra. }
      assert (K70 : level_hit "70%" tc = true ->
                level_hit "50%" tc = true /\
                entry_mc t0 +
                  0.70 * (entry_mc t0 * base_potential t0 - entry_mc t0) <=
                peak_mc t0).
      { intros Hh.
        destruct (F3 _ Hh) as [Hb7|[_ Hr]].
        - destruct (F2 _ Hb7) as [Ha7|[? _]]; [|done].
          destruct (F1 _ Ha7) as [H07|[? _]]; [|done].
          destruct (C H07) as [C1 C2]. split; [|exact C2].
          by apply M3, M2, M1.
        - split; [apply M3, G2; lra|]. specialize (Hval 0.70 Hr). lra. }
      split; [by split|]. split; [exact K30|]. split; [exact K50|exact K70]. }
    apply pt_take_profit_value in H1 as [C1 _].
    apply pt_take_profit_value in H2 as [C2 _].
    apply pt_take_profit_value in H3 as [C3 _].
    pose proof (pt_only_capital_trans _ _ _
                  (pt_only_capital_trans _ _ _ C1 C2) C3) as C.
    destruct (pt_only_capital_fields _ _ C) as (Etr & _).
    simpl. rewrite Etr. by apply Forall_insert.
Qed.

Lemma pt_calls_reached (cs : list Call) (s s' : PaperTrader) :
  Forall valid_call cs ->
  Forall (fun t => (0 < entry_mc t /\ 1 < base_potential t) /\
                   levels_reached t) (trades s) ->
  calls cs s = Some s' ->
  Forall (fun t => (0 < entry_mc t /\ 1 < base_potential t) /\
                   levels_reached t) (trades s').
Proof.
  revert s. induction cs as [|c cs IH]; intros s Hok HI Hrun.
  - simpl in Hrun. by inversion Hrun; subst.
  - simpl in Hrun. destruct (call c s) as [s1|] eqn:Hc; [|discriminate].
    apply Forall_cons in Hok as [Hv Hok].
    apply (IH s1); [exact Hok| |exact Hrun].
    destruct c as [now sd|now m]; simpl in Hc, Hv.
    + inversion Hc; subst s1. clear Hc.
      destruct (process_signal_admits now sd s)
        as [->|(_ & _ & t & -> & _ & Emc & _ & _ & _ & _ & _ & Ebp & _ & _ &
                Elv & _)]; [done|].
      simpl. apply Forall_app. split; [done|]. apply Forall_singleton.
      destruct Hv as [_ Hmc].
      unfold levels_reached, level_hit. rewrite Emc, Ebp, Elv.
      split; [split; [exact Hmc | lra]|].
      assert (Hno : forall l : string,
                bool_decide (l ∈ @nil string) = true -> False).
      { intros l Hh. apply bool_decide_eq_true in Hh.
        by apply elem_of_nil in Hh. }
      cbv zeta. split; [|split]; intros Hh; by apply Hno in Hh.
    + destruct (update_trades now m s) as [[s2 u2]|] eqn:Hu; [|discriminate].
      simpl in Hc. inversion Hc; subst s2. clear Hc. revert Hu.
      apply (pt_update_trades_inv0
               (fun s => Forall (fun t => (0 < entry_mc t /\
                                           1 < base_potential t) /\
                                          levels_reached t) (trades s)));
        [|exact HI].
      intros h sa ua sb ub t Hall Ht Hu.
      by apply (pt_update_trade_reached now m h sa sb ua ub t).
Qed.

End PaperMore.
(** ** Facts on the price path generator *)

Module SimulatorFacts.
Import Backtest Simulator.
Local Open Scope Q_scope.

Lemma length_normal (draw : nat -> Q) (size : nat) :
  length (normal draw size) = size.
Proof. unfold normal. by rewrite length_fmap, length_seq. Qed.

Lemma length_linspace (start stop : Q) (num : nat) :
  length (linspace start stop num) = num.
Proof. unfold linspace. by rewrite length_fmap, length_seq. Qed.

Lemma length_date_range (start : Timestamp) (periods : nat) :
  length (date_range start periods) = periods.
Proof. unfold date_range. by rewrite length_fmap, length_seq. Qed.

(** The loop appends one price per pair, none below the floor. *)
Lemma append_prices_spec (pairs : list (Q * Q)) (price_series : list Q) :
  exists new,
    append_prices pairs price_series = price_series ++ new /\
    length new = length pairs /\
    Forall (fun p => 0.00000001 <= p) new.
Proof.
  revert price_series. induction pairs as [|[r d] pairs IH]; intros ps.
  - exists []. by rewrite app_nil_r.
  - cbn [append_prices].
    destruct (IH (ps ++ [py_max (default 0 (last ps) * (1 + (r + d)))
                           0.00000001])) as (new & -> & Hlen & Hall).
    eexists (_ :: new). rewrite <- app_assoc. split; [reflexivity|].
    split; [simpl; by rewrite Hlen|].
    apply Forall_cons. split; [apply py_max_ge_r | exact Hall].
Qed.

Lemma loc_index (df : DataFrame) (ct : Timestamp) :
  ct ∈ df.*1 -> exists p, loc df ct = Some p /\ (ct, p) ∈ df.
Proof.
  induction df as [|[t p] df IH]; intros Hin; [by apply elem_of_nil in Hin|].
  simpl. destruct (Z.eqb t ct) eqn:Heq.
  - apply Z.eqb_eq in Heq as ->. exists p. split; [done|]. by left.
  - apply Z.eqb_neq in Heq. rewrite fmap_cons in Hin.
    apply elem_of_cons in Hin as [Hin|Hin]; [simpl in Hin; congruence|].
    destruct (IH Hin) as (q & Hq & Hel). exists q. split; [done|]. by right.
Qed.

(** Each appended price is the one before it times one plus the change,
    floored. *)
Lemma append_prices_step (pairs : list (Q * Q)) (ps : list Q) (i : nat)
    (r d : Q) :
  pairs !! i = Some (r, d) -> ps <> [] ->
  exists prev,
    append_prices pairs ps !! (length ps + i - 1)%nat = Some prev /\
    append_prices pairs ps !! (length ps + i)%nat =
      Some (py_max (prev * (1 + (r + d))) 0.00000001).
Proof.
  revert ps i. induction pairs as [|[r0 d0] pairs IH]; intros ps i Hi Hne;
    [by rewrite lookup_nil in Hi|].
  destruct i as [|i].
  - simpl in Hi. inversion Hi; subst r0 d0. cbn [append_prices].
    destruct (append_prices_spec pairs
                (ps ++ [py_max (default 0 (last ps) * (1 + (r + d)))
                          0.00000001])) as (new & -> & _).
    destruct (last ps) as [prev|] eqn:Hl;
      [|by apply last_None in Hl].
    exists prev. rewrite last_lookup in Hl.
    assert (0 < length ps)%nat by (destruct ps; [done | simpl; lia]).
    replace (length ps + 0 - 1)%nat with (pred (length ps)) by lia.
    replace (length ps + 0)%nat with (length ps) by lia.
    split.
    + rewrite <- app_assoc. rewrite lookup_app_l by lia. exact Hl.
    + rewrite lookup_app_l by (rewrite length_app; simpl; lia).
      rewrite lookup_app_r by lia. by rewrite Nat.sub_diag.
  - simpl in Hi. cbn [append_prices].
    destruct (IH (ps ++ [py_max (default 0 (last ps) * (1 + (r0 + d0)))
                           0.00000001]) i Hi) as (prev & H1 & H2).
    { by destruct ps. }
    assert (0 < length ps)%nat by (destruct ps; [done | simpl; lia]).
    rewrite length_app in H1, H2. simpl in H1, H2.
    exists prev.
    replace (length ps + S i - 1)%nat with (length ps + 1 + i - 1)%nat by lia.
    replace (length ps + S i)%nat with (length ps + 1 + i)%nat by lia.
    by split.
Qed.

(** Arrays of the length of the index give a frame on the index. *)
Lemma price_path_frame (returns drift : list Q) (start_price : Q)
    (time_index : list Timestamp) :
  length returns = length time_index ->
  length drift = length time_index ->
  exists new,
    append_prices (zip returns drift) [start_price] = start_price :: new /\
    length new = length time_index /\
    Forall (fun p => 0.00000001 <= p) new /\
    make_frame (drop 1 (append_prices (zip returns drift) [start_price]))
      time_index = Some (zip time_index new).
Proof.
  intros Hr Hd.
  destruct (append_prices_spec (zip returns drift) [start_price])
    as (new & E & Hlen & Hall).
  exists new. rewrite E.
  change (drop 1 ([start_price] ++ new)) with new.
  change ([start_price] ++ new) with (start_price :: new).
  rewrite length_zip_with in Hlen.
  assert (Hn : length new = length time_index) by lia.
  split; [reflexivity|]. split; [exact Hn|]. split; [exact Hall|].
  unfold make_frame. rewrite Hn. by rewrite Nat.eqb_refl.
Qed.

(** One element of drift against an array of returns gives one price,
    which the frame repeats over the index. *)
Lemma price_path_scalar (r : Q) (rest : list Q) (d start_price : Q)
    (time_index : list Timestamp) :
  (1 < length time_index)%nat ->
  make_frame (drop 1 (append_prices (zip (r :: rest) [d]) [start_price]))
    time_index =
  Some ((fun t => (t, py_max (start_price * (1 + (r + d))) 0.00000001))
          <$> time_index).
Proof.
  intros Hn.
  change (zip (r :: rest) [d]) with ((r, d) :: zip rest []).
  assert (E : zip rest (@nil Q) = []) by (by destruct rest).
  rewrite E. cbn [append_prices last default app drop]. unfold make_frame.
  cbn [length].
  destruct (1 =? length time_index)%nat eqn:Heq; [|reflexivity].
  apply Nat.eqb_eq in Heq. lia.
Qed.

Lemma normal_S (draw : nat -> Q) (size : nat) :
  normal draw (S size) = draw 0%nat :: (draw <$> seq 1 size).
Proof. reflexivity. Qed.

(** The minutes of a range are distinct. *)
Lemma date_range_NoDup (start : Timestamp) (periods : nat) :
  NoDup (date_range start periods).
Proof.
  unfold date_range. apply NoDup_fmap_2; [|apply NoDup_seq].
  intros i j Hij. unfold Timedelta_minutes in Hij. lia.
Qed.

Lemma date_range_lookup (start : Timestamp) (periods k : nat) :
  (k < periods)%nat ->
  date_range start periods !! k =
    Some (start + Timedelta_minutes (Z.of_nat k))%Z.
Proof.
  intros Hk. unfold date_range. rewrite list_lookup_fmap.
  rewrite lookup_seq_lt by done. reflexivity.
Qed.

(** With distinct times, [loc] returns the price of the row. *)
Lemma loc_lookup (df : DataFrame) (k : nat) (t : Timestamp) (p : Q) :
  NoDup df.*1 -> df !! k = Some (t, p) -> loc df t = Some p.
Proof.
  revert k. induction df as [|[t0 p0] df IH]; intros k Hnd Hk;
    [by destruct k|].
  rewrite fmap_cons in Hnd. apply NoDup_cons in Hnd as [Hnin Hnd].
  destruct k as [|k]; simpl in Hk.
  - inversion Hk; subst. simpl. by rewrite Z.eqb_refl.
  - simpl. destruct (Z.eqb t0 t) eqn:Heq.
    + apply Z.eqb_eq in Heq as ->. exfalso. apply Hnin. simpl.
      apply list_elem_of_fmap. exists (t, p). split; [done|].
      by apply list_elem_of_lookup_2 with k.
    + by apply (IH k).
Qed.

(** The elements of a linear drift lie between its ends. *)
Lemma linspace_lookup (stop : Q) (num i : nat) (d : Q) :
  linspace 0 stop (S num) !! i = Some d ->
  (0 <= stop -> 0 <= d /\ d <= stop) /\
  (stop <= 0 -> stop <= d /\ d <= 0).
Proof.
  intros Hd. unfold linspace in Hd. rewrite list_lookup_fmap in Hd.
  destruct (seq 0 (S num) !! i) as [j|] eqn:Hj; [|discriminate].
  apply lookup_seq in Hj as [-> Hi]. simpl in Hd. injection Hd as <-.
  rewrite Nat.sub_0_r.
  destruct num as [|n].
  - assert (i = 0%nat) as -> by lia.
    change (inject_Z (Z.of_nat 0)) with 0. split; intros; split; lra.
  - set (x := inject_Z (Z.of_nat i)).
    set (m := inject_Z (Z.of_nat (S n))).
    assert (Hx0 : 0 <= x).
    { unfold x. change 0 with (inject_Z 0). rewrite <- Zle_Qle. lia. }
    assert (Hxm : x <= m).
    { unfold x, m. rewrite <- Zle_Qle. lia. }
    assert (Hm : 0 < m).
    { unfold m. change 0 with (inject_Z 0). rewrite <- Zlt_Qlt. lia. }
    assert (E : 0 + x * ((stop - 0) / m) == stop * (x / m)) by (field; lra).
    assert (H0 : 0 <= x / m) by (apply Qle_shift_div_l; lra).
    assert (H1 : x / m <= 1) by (apply Qle_shift_div_r; lra).
    rewrite E. split; intros; split; nra.
Qed.

(** A row of the frame from the row before it. *)
Lemma price_path_step (returns drift : list Q) (start_price : Q)
    (time_index : list Timestamp) (df : DataFrame) (i : nat) (r d : Q)
    (t t' : Timestamp) (p q : Q) :
  length returns = length time_index ->
  length drift = length time_index ->
  make_frame (drop 1 (append_prices (zip returns drift) [start_price]))
    time_index = Some df ->
  returns !! S i = Some r -> drift !! S i = Some d ->
  df !! i = Some (t, p) -> df !! S i = Some (t', q) ->
  q = py_max (p * (1 + (r + d))) 0.00000001 /\ 0.00000001 <= p.
Proof.
  intros Hr Hd Hgen Hri Hdi Hp Hq.
  destruct (price_path_frame returns drift start_price time_index Hr Hd)
    as (new & Eall & Hnew & Hall & Hframe).
  rewrite Hframe in Hgen. injection Hgen as <-.
  apply lookup_zip_with_Some in Hp as (t0 & p0 & E0 & _ & Hp).
  apply lookup_zip_with_Some in Hq as (t1 & q0 & E1 & _ & Hq).
  inversion E0; subst t0 p0. inversion E1; subst t1 q0. clear E0 E1.
  destruct (append_prices_step (zip returns drift) [start_price] (S i) r d)
    as (prev & H1 & H2).
  { apply lookup_zip_with_Some. exists r, d. by repeat split. }
  { done. }
  rewrite Eall in H1, H2. cbn [length] in H1, H2.
  replace (1 + S i - 1)%nat with (S i) in H1 by lia.
  change (1 + S i)%nat with (S (S i)) in H2.
  change ((start_price :: new) !! S i) with (new !! i) in H1.
  change ((start_price :: new) !! S (S i)) with (new !! S i) in H2.
  rewrite Hp in H1. injection H1 as <-.
  rewrite Hq in H2. injection H2 as ->.
  split; [reflexivity|].
  rewrite Forall_lookup in Hall. by apply (Hall i).
Qed.

(** The frame generated for a profile with an array of drift. *)
Lemma price_path_rows :
  forall (draws : Simulator.Draws) (start_time : Backtest.Timestamp)
         (start_price : Q),
    Simulator.profile draws <> Simulator.chop ->
    (Simulator.rug_roll draws < 0.1 ->
     (Simulator.rug_idx draws < 1440)%nat) ->
    exists df,
      Simulator._generate_price_path draws start_time start_price =
        Some df /\
      df.*1 = Simulator.date_range start_time 1440 /\
      (forall k, (k < 1440)%nat ->
         exists p,
           df !! k =
             Some ((start_time +
                    Backtest.Timedelta_minutes (Z.of_nat k))%Z, p) /\
           Backtest.loc df
             (start_time + Backtest.Timedelta_minutes (Z.of_nat k))%Z =
             Some p /\
           0.00000001 <= p) /\
      (forall token : string, Backtest.prices_nonneg {[ token := df ]}).
Proof.
  intros draws start_time start_price Hprof Hrug.
  unfold Simulator._generate_price_path. cbv zeta.
  set (time_index := Simulator.date_range start_time 1440).
  set (returns := Simulator.normal (Simulator.noise draws) 1440).
  assert (Hti : length time_index = 1440%nat)
    by apply length_date_range.
  assert (Hret : length returns = 1440%nat)
    by apply length_normal.
  assert (Hr : exists returns',
            (if Qltb (Simulator.rug_roll draws) 0.1 then
               if (Simulator.rug_idx draws <? length returns)%nat
               then Some (<[Simulator.rug_idx draws := -0.90]> returns)
               else None
             else Some returns) = Some returns' /\
            length returns' = 1440%nat).
  { destruct (Qltb (Simulator.rug_roll draws) 0.1) eqn:E.
    - apply Qltb_true in E. specialize (Hrug E).
      rewrite Hret. apply Nat.ltb_lt in Hrug. rewrite Hrug.
      eexists. split; [reflexivity|]. by rewrite length_insert.
    - by exists returns. }
  destruct Hr as (returns' & -> & Hret'). cbn [mbind option_bind].
  assert (Hd : exists drift,
            match
              match Simulator.profile draws with
              | Simulator.moon =>
                  Simulator.DriftArray (Simulator.linspace 0 0.002 1440)
              | Simulator.dump =>
                  Simulator.DriftArray (Simulator.linspace 0 (-0.003) 1440)
              | Simulator.chop => Simulator.DriftInt 0
              | Simulator.volatile_up =>
                  Simulator.DriftArray
                    (Simulator.normal (Simulator.drift_noise draws) 1440)
              end
            with
            | Simulator.DriftArray a => a
            | Simulator.DriftInt n => [inject_Z n]
            end = drift /\ length drift = 1440%nat).
  { destruct (Simulator.profile draws); [| |done|]; eexists;
      (split; [reflexivity|]);
      [apply length_linspace
      |apply length_linspace
      |apply length_normal]. }
  destruct Hd as (drift & -> & Hdrift).
  destruct (price_path_frame returns' drift start_price
              time_index) as (new & _ & Hnew & Hall & ->); [lia | lia |].
  exists (zip time_index new).
  assert (Hfst : (zip time_index new).*1 = time_index)
    by (apply fst_zip; lia).
  assert (Hrow : forall k, (k < 1440)%nat ->
            exists p,
              zip time_index new !! k =
                Some ((start_time +
                       Backtest.Timedelta_minutes (Z.of_nat k))%Z, p) /\
              0.00000001 <= p).
  { intros k Hk.
    destruct (lookup_lt_is_Some_2 new k) as [p Hp]; [lia|].
    exists p. split.
    - apply lookup_zip_with_Some.
      exists (start_time + Backtest.Timedelta_minutes (Z.of_nat k))%Z, p.
      split; [reflexivity|]. split; [|exact Hp].
      by apply date_range_lookup.
    - rewrite Forall_lookup in Hall. by apply (Hall k). }
  split; [reflexivity|]. split; [exact Hfst|]. split.
  - intros k Hk. destruct (Hrow k Hk) as (p & Hp & Hfloor).
    exists p. split; [exact Hp|]. split; [|exact Hfloor].
    apply (loc_lookup _ k); [|exact Hp].
    rewrite Hfst. apply date_range_NoDup.
  - intros token k df Hk. apply lookup_singleton_Some in Hk as [_ <-].
    apply Forall_lookup. intros i [t p] Hi. simpl.
    unfold zip in Hi. apply lookup_zip_with_Some in Hi
      as (t' & p' & E & _ & Hp'). inversion E; subst t' p'.
    rewrite Forall_lookup in Hall. specialize (Hall i p Hp'). simpl in Hall.
    lra.
Qed.


End SimulatorFacts.
(** ** Further properties of the code *)

Section Further.
Local Open Scope Q_scope.

(** X1: a signal that is admitted by the backtest engine with cash that is
    not negative gets a position sized from the risk: the size is the
    fraction of the cash given by the score (2.5 percent from 90, 2
    percent from 85, 1.5 percent below) divided by the initial stop
    distance of 15 percent, which never reaches the cap at the cash
    available; the cash is debited by the size and stays non-negative;
    the units bought are worth the size at the entry price, and selling
    them at the initial stop loses exactly the fraction at risk. *)
Theorem entry_sized_by_risk :
  forall (sig : Backtest.Signal) (s : Backtest.Engine),
    80 <= Backtest.signal_score sig ->
    (length (Backtest.active_trades s) < 4)%nat ->
    Backtest.daily_loss_limit_hit s = false ->
    0 < Backtest.price_at_signal sig -> 0 <= Backtest.capital s ->
    exists s' t,
      Backtest._process_signal sig s = Some s' /\
      Backtest.trades s' = Backtest.trades s ++ [t] /\
      Backtest.active_trades s' =
        Backtest.active_trades s ++ [length (Backtest.trades s)] /\
      Backtest.position_size_usd t ==
        Backtest.capital s * Backtest.risk_pct (Backtest.signal_score sig) /
          0.15 /\
      Backtest.capital s' ==
        Backtest.capital s - Backtest.position_size_usd t /\
      0 <= Backtest.capital s' /\
      Backtest.current_units t * Backtest.entry_price t ==
        Backtest.position_size_usd t /\
      Backtest.stop_loss_price t == Backtest.entry_price t * 0.85 /\
      Backtest.current_units t *
        (Backtest.entry_price t - Backtest.stop_loss_price t) ==
        Backtest.capital s * Backtest.risk_pct (Backtest.signal_score sig) /\
      ((90 <= Backtest.signal_score sig /\
        Backtest.risk_pct (Backtest.signal_score sig) = 0.025) \/
       (85 <= Backtest.signal_score sig /\ Backtest.signal_score sig < 90 /\
        Backtest.risk_pct (Backtest.signal_score sig) = 0.020) \/
       (Backtest.signal_score sig < 85 /\
        Backtest.risk_pct (Backtest.signal_score sig) = 0.015)).
Proof.
  intros sig s Hsc Hroom Hhit Hp Hc. unfold Backtest._process_signal.
  rewrite (proj2 (Qltb_false _ _) Hsc).
  assert (Hfull : (4 <=? length (Backtest.active_trades s))%nat = false)
    by (apply Nat.leb_gt; lia).
  rewrite Hfull, Hhit.
  rewrite div_defined by lra. cbn [mbind option_bind].
  eexists _, _. split; [reflexivity|]. split; [reflexivity|].
  split; [reflexivity|]. cbn.
  fold (Backtest.risk_pct (Backtest.signal_score sig)).
  set (c := Backtest.capital s) in *.
  set (p := Backtest.price_at_signal sig) in *.
  assert (Hr : (90 <= Backtest.signal_score sig /\
                Backtest.risk_pct (Backtest.signal_score sig) = 0.025) \/
               (85 <= Backtest.signal_score sig /\
                Backtest.signal_score sig < 90 /\
                Backtest.risk_pct (Backtest.signal_score sig) = 0.020) \/
               (Backtest.signal_score sig < 85 /\
                Backtest.risk_pct (Backtest.signal_score sig) = 0.015)).
  { unfold Backtest.risk_pct.
    destruct (Qgeb (Backtest.signal_score sig) 90) eqn:H90; qprop;
      [by left|].
    destruct (Qgeb (Backtest.signal_score sig) 85) eqn:H85; qprop;
      [right; left | right; right]; by repeat split. }
  set (r := Backtest.risk_pct (Backtest.signal_score sig)) in *.
  assert (Hr' : 0 <= r /\ r <= 0.025).
  { destruct Hr as [[_ ->]|[(_ & _ & ->)|[_ ->]]]; lra. }
  assert (Hsize : 0 <= c * r / 0.15 /\ c * r / 0.15 <= c).
  { rewrite (BacktestFacts.Qdiv_015 (c * r)). split; nra. }
  assert (Hcap : Qgtb (c * r / 0.15) c = false) by (apply Qgtb_false; lra).
  rewrite Hcap.
  assert (Hu : c * r / 0.15 / p * p == c * r / 0.15) by (field; lra).
  repeat split; try lra; try exact Hr.
  - assert (c * r / 0.15 / p * (p - p * (1 - 0.15)) ==
              c * r / 0.15 / p * p * 0.15) by ring.
    rewrite H, Hu. field.
Qed.

Lemma entry_sized_by_risk_witness :
  exists s' t,
    Backtest._process_signal Scenarios.signal_A (Backtest.init 200) =
      Some s' /\
    Backtest.trades s' = [t] /\
    Backtest.position_size_usd t == 200 * 0.025 / 0.15 /\
    Backtest.current_units t *
      (Backtest.entry_price t - Backtest.stop_loss_price t) == 5.
Proof.
  destruct (entry_sized_by_risk Scenarios.signal_A (Backtest.init 200))
    as (s' & t & H1 & H2 & _ & H4 & _ & _ & _ & _ & H9 & _);
    [by vm_compute | simpl; lia | reflexivity | by vm_compute |
     by vm_compute |].
  exists s', t. split; [exact H1|]. split; [exact H2|].
  split; [exact H4|]. rewrite H9. by vm_compute.
Defined.

(** X2: neither engine ever holds more than four active positions: after
    any sequence of calls from a new backtest engine, at the end of any
    backtest run, and after any sequence of calls from a new paper
    trader. *)
Theorem at_most_four_active :
  (forall (c0 : Q) (cs : list Backtest.Call) (s : Backtest.Engine),
     Backtest.calls cs (Backtest.init c0) = Some s ->
     (length (Backtest.active_trades s) <= 4)%nat) /\
  (forall (c0 : Q) (signals : list Backtest.Signal)
          (pd : gmap string Backtest.DataFrame) (s : Backtest.Engine)
          (r : option Backtest.BacktestResult),
     Backtest.run signals pd (Backtest.init c0) = Some (s, r) ->
     (length (Backtest.active_trades s) <= 4)%nat) /\
  (forall (c0 : Q) (cs : list Paper.Call) (s : Paper.PaperTrader),
     Paper.calls cs (Paper.init c0) = Some s ->
     (length (Paper.active_trades s) <= 4)%nat).
Proof.
  split; [|split].
  - intros c0 cs s Hrun.
    apply (BacktestMore.calls_capacity cs (Backtest.init c0) s Hrun).
    simpl. lia.
  - intros c0 signals pd s r Hrun.
    apply (BacktestMore.run_capacity signals pd (Backtest.init c0) s r);
      [apply BacktestFacts.init_books | exact Hrun | simpl; lia].
  - intros c0 cs s Hrun.
    pose proof (PaperMore.pt_calls_capacity cs (Paper.init c0) s Hrun) as H.
    destruct (PaperMore.pt_calls_parameters cs _ _ Hrun) as (_ & Hm & _).
    rewrite Hm in H. simpl in H. apply H. lia.
Qed.

Lemma at_most_four_active_witness :
  (length (Backtest.active_trades Scenarios.backtest_final) <= 4)%nat /\
  (length (Paper.active_trades Scenarios.paper_final) <= 4)%nat.
Proof.
  destruct at_most_four_active as (HB & _ & HP). split.
  - apply (HB 200 Scenarios.backtest_calls). by vm_compute.
  - apply (HP 200 Scenarios.paper_calls). by vm_compute.
Defined.

(** X3: a price update of the backtest engine at a time for which no
    active position has a sample, none of them being past the end of its
    feed (no frame for the token, an empty frame, or a frame whose last row
    is at that time or later), leaves the engine exactly as it was; so
    does an update with no price data at all. *)
Theorem tick_without_sample_skipped :
  (forall (ct : Backtest.Timestamp) (pd : gmap string Backtest.DataFrame)
          (s : Backtest.Engine),
     (forall h t,
        h ∈ Backtest.active_trades s -> Backtest.trades s !! h = Some t ->
        Backtest.data_gap ct pd t) ->
     Backtest._update_trades ct pd s = Some s) /\
  (forall (ct : Backtest.Timestamp) (s : Backtest.Engine),
     Backtest._update_trades ct ∅ s = Some s).
Proof.
  split.
  - intros ct pd s. apply BacktestMore._update_trades_gap.
  - intros ct s. apply BacktestMore._update_trades_gap.
    intros h t _ _. unfold Backtest.data_gap. by rewrite lookup_empty.
Qed.

Lemma tick_without_sample_skipped_witness :
  Backtest._update_trades (Scenarios.minute 1) Scenarios.prices_gap
    Scenarios.backtest_entered = Some Scenarios.backtest_entered.
Proof.
  apply (proj1 tick_without_sample_skipped). intros h t Hh Ht.
  vm_compute in Hh. apply list_elem_of_singleton in Hh. subst h.
  vm_compute in Ht. inversion Ht; subst t. by vm_compute.
Defined.

(** X4: a position of the backtest engine that has no sample at the time
    of the update and whose feed ended earlier is closed with the reason
    END_OF_DATA at the last price of the feed, and stamped with the time
    of that last sample, not with the time of the update; the cash is
    credited with the units held at that price.  After a price update of
    an engine reached by calls, no position that is still active is in
    that situation. *)
Theorem position_closed_when_feed_ends :
  (forall (ct : Backtest.Timestamp) (pd : gmap string Backtest.DataFrame)
          (h : nat) (s : Backtest.Engine) (t : Backtest.Trade)
          (df : Backtest.DataFrame) (last_time : Backtest.Timestamp)
          (last_price : Q),
     Backtest.trades s !! h = Some t ->
     pd !! Backtest.token_address t = Some df ->
     Backtest.loc df ct = None ->
     Backtest.last_row df = Some (last_time, last_price) ->
     (last_time < ct)%Z ->
     exists s' t',
       Backtest.update_trade ct pd h s = Some s' /\
       Backtest.trades s' !! h = Some t' /\
       Backtest.status t' = "CLOSED" /\
       Backtest.exit_reason t' = "END_OF_DATA" /\
       Backtest.exit_time t' = Some last_time /\
       Backtest.current_units t' = 0 /\
       Backtest.realized_pnl t' ==
         Backtest.realized_pnl t +
         Backtest.current_units t * (last_price - Backtest.entry_price t) /\
       Backtest.capital s' ==
         Backtest.capital s + Backtest.current_units t * last_price /\
       Backtest.active_trades s' =
         list_remove h (Backtest.active_trades s)) /\
  (forall (c0 : Q) (cs : list Backtest.Call) (ct : Backtest.Timestamp)
          (pd : gmap string Backtest.DataFrame) (s s' : Backtest.Engine)
          (h : nat) (t : Backtest.Trade),
     Backtest.calls cs (Backtest.init c0) = Some s ->
     Backtest._update_trades ct pd s = Some s' ->
     h ∈ Backtest.active_trades s' -> Backtest.trades s' !! h = Some t ->
     ~ Backtest.feed_ended ct pd t).
Proof.
  split.
  - intros ct pd h s t df lt lp Ht Hdf Hloc Hlast Hlt.
    pose proof (lookup_lt_Some _ _ _ Ht) as Hlen.
    exists (Backtest._close_trade h t lp lt "END_OF_DATA" s),
           (Backtest.closed_trade lp lt "END_OF_DATA" t).
    split.
    { unfold Backtest.update_trade. rewrite Ht, Hdf, Hloc, Hlast.
      apply Z.ltb_lt in Hlt. by rewrite Hlt. }
    split; [by apply BacktestFacts._close_trade_lookup|].
    rewrite BacktestFacts._close_trade_eq. simpl.
    repeat split; try done; ring.
  - intros c0 cs ct pd s s' h t Hcs Hup.
    apply (BacktestMore._update_trades_feeds ct pd s s'); [|exact Hup].
    apply (BacktestFacts.calls_books cs (Backtest.init c0));
      [apply BacktestFacts.init_books | exact Hcs].
Qed.

Lemma position_closed_when_feed_ends_witness :
  exists s' t',
    Backtest.update_trade (Scenarios.minute 5) Scenarios.prices_crash_short
      0%nat Scenarios.backtest_entered = Some s' /\
    Backtest.trades s' !! 0%nat = Some t' /\
    Backtest.exit_reason t' = "END_OF_DATA" /\
    Backtest.exit_time t' = Some (Scenarios.minute 1).
Proof.
  destruct (proj1 position_closed_when_feed_ends (Scenarios.minute 5)
              Scenarios.prices_crash_short 0%nat Scenarios.backtest_entered
              Scenarios.trade_A
              [(Scenarios.minute 0, 1); (Scenarios.minute 1, 0.1)]
              (Scenarios.minute 1) 0.1)
    as (s' & t' & H1 & H2 & _ & H4 & H5 & _);
    [by vm_compute | by vm_compute | by vm_compute | by vm_compute |
     by vm_compute |].
  exists s', t'. by repeat split.
Defined.

(** X5: the books of the backtest engine balance.  After any sequence of
    calls from a new engine, and at the end of any run, the cash plus the
    cost of the units still held equals the initial capital plus the
    profit realized on all trades; with no active position, the cash (the
    final capital of the result) is the initial capital plus the realized
    profit. *)
Theorem backtest_books_balance :
  (forall (c0 : Q) (cs : list Backtest.Call) (s : Backtest.Engine),
     Backtest.calls cs (Backtest.init c0) = Some s ->
     Backtest.capital s + Qsum (Backtest.cost_basis <$> Backtest.trades s) ==
       c0 + Qsum (Backtest.realized_pnl <$> Backtest.trades s) /\
     (Backtest.active_trades s = [] ->
      Backtest.capital s ==
        c0 + Qsum (Backtest.realized_pnl <$> Backtest.trades s))) /\
  (forall (c0 : Q) (signals : list Backtest.Signal)
          (pd : gmap string Backtest.DataFrame) (s : Backtest.Engine)
          (res : Backtest.BacktestResult),
     Backtest.run signals pd (Backtest.init c0) = Some (s, Some res) ->
     Backtest.final_capital res +
       Qsum (Backtest.cost_basis <$> Backtest.result_trades res) ==
       c0 + Qsum (Backtest.realized_pnl <$> Backtest.result_trades res) /\
     (Backtest.active_trades s = [] ->
      Backtest.final_capital res ==
        c0 + Qsum (Backtest.realized_pnl <$> Backtest.result_trades res))).
Proof.
  assert (Hsplit : forall l,
            Qsum (Backtest.book_value <$> l) ==
              Qsum (Backtest.cost_basis <$> l) -
              Qsum (Backtest.realized_pnl <$> l)).
  { intros l. apply (Qsum_fmap_minus Backtest.cost_basis Backtest.realized_pnl). }
  assert (Hinit : forall c0,
            Backtest.capital (Backtest.init c0) +
              Qsum (Backtest.book_value <$> Backtest.trades (Backtest.init c0))
            == c0).
  { intros c0. cbn. lra. }
  split.
  - intros c0 cs s Hcs.
    pose proof (BacktestMore.calls_ledger cs c0 _ _ (Hinit c0) Hcs) as HL.
    rewrite Hsplit in HL. split; [lra|]. intros Hflat.
    pose proof (BacktestFacts.calls_books cs _ _
                  (BacktestFacts.init_books c0) Hcs) as Hb.
    pose proof (BacktestMore.calls_accounted cs _ _
                  (BacktestFacts.init_books c0)
                  (BacktestMore.init_accounted c0) Hcs) as Ha.
    pose proof (BacktestMore.flat_holds_nothing s Hb Ha Hflat). lra.
  - intros c0 signals pd s res Hrun. unfold Backtest.run in Hrun.
    destruct (Backtest.min_of _) as [mn|]; [|discriminate].
    destruct (Backtest.max_of _) as [mx|]; [|discriminate].
    destruct (Backtest.run_loop _ _ _ _ _ _) as [[[ct' pending'] s1]|] eqn:Hloop;
      [|discriminate].
    cbn [mbind option_bind] in Hrun. inversion Hrun; subst. clear Hrun.
    simpl.
    destruct (BacktestMore.run_loop_ledger pd c0 _ _ _ _ _ _ _ _
                (BacktestFacts.init_books c0)
                (BacktestMore.init_accounted c0) (Hinit c0) Hloop)
      as [Ha HL].
    rewrite Hsplit in HL. split; [lra|]. intros Hflat.
    destruct (BacktestFacts.run_loop_books _ _ _ _ _ _ _ _ _ Hloop)
      as [_ Hb].
    pose proof (BacktestMore.flat_holds_nothing s
                  (Hb (BacktestFacts.init_books c0)) Ha Hflat). lra.
Qed.

Lemma backtest_books_balance_witness :
  Backtest.capital Scenarios.backtest_final +
    Qsum (Backtest.cost_basis <$> Backtest.trades Scenarios.backtest_final) ==
    200 + Qsum (Backtest.realized_pnl <$>
                  Backtest.trades Scenarios.backtest_final).
Proof.
  destruct (proj1 backtest_books_balance 200 Scenarios.backtest_calls
              Scenarios.backtest_final) as [H _];
    [vm_compute; reflexivity | exact H].
Defined.

(** X6: a backtest run returns no result exactly when the price data
    hold no sample, and then it leaves the engine as it was.  Otherwise
    the result carries the trades, the equity curve and the cash of the
    engine; the curve of a new engine starts with a sample at the earliest
    time of the price data, its samples are a minute apart or more, in
    increasing order, none is later than the latest time of the data, and
    the cash of the last sample is the final capital. *)
Theorem run_samples_the_clock :
  (forall (signals : list Backtest.Signal)
          (pd : gmap string Backtest.DataFrame) (self : Backtest.Engine),
     Backtest.all_times pd = [] ->
     Backtest.run signals pd self = Some (self, None)) /\
  (forall (signals : list Backtest.Signal)
          (pd : gmap string Backtest.DataFrame) (self s : Backtest.Engine),
     Backtest.run signals pd self = Some (s, None) ->
     Backtest.all_times pd = [] /\ s = self) /\
  (forall (c0 : Q) (signals : list Backtest.Signal)
          (pd : gmap string Backtest.DataFrame) (s : Backtest.Engine)
          (res : Backtest.BacktestResult),
     Backtest.run signals pd (Backtest.init c0) = Some (s, Some res) ->
     Backtest.result_trades res = Backtest.trades s /\
     Backtest.result_equity_curve res = Backtest.equity_curve s /\
     Backtest.final_capital res = Backtest.capital s /\
     exists tmin tmax first final,
       Backtest.min_of (Backtest.all_times pd) = Some tmin /\
       Backtest.max_of (Backtest.all_times pd) = Some tmax /\
       head (Backtest.equity_curve s) = Some first /\
       Backtest.point_time first = tmin /\
       Forall (fun pt => (tmin <= Backtest.point_time pt <= tmax)%Z)
         (Backtest.equity_curve s) /\
       Sorted Backtest.a_minute_apart
         (Backtest.point_time <$> Backtest.equity_curve s) /\
       last (Backtest.equity_curve s) = Some final /\
       Backtest.point_capital final = Backtest.final_capital res).
Proof.
  split; [|split].
  - intros signals pd self Hnone. unfold Backtest.run. by rewrite Hnone.
  - intros signals pd self s Hrun. unfold Backtest.run in Hrun.
    destruct (Backtest.all_times pd) as [|x l]; simpl in Hrun.
    + by inversion Hrun.
    + destruct (Backtest.run_loop _ _ _ _ _ _) as [[[ct' pending'] s1]|];
        discriminate.
  - intros c0 signals pd s res Hrun. unfold Backtest.run in Hrun.
    destruct (Backtest.min_of _) as [mn|] eqn:Hmin; [|discriminate].
    destruct (Backtest.max_of _) as [mx|] eqn:Hmax; [|discriminate].
    destruct (Backtest.run_loop _ _ _ _ _ _) as [[[ct' pending'] s1]|] eqn:Hloop;
      [|discriminate].
    cbn [mbind option_bind] in Hrun. inversion Hrun; subst. clear Hrun.
    do 3 (split; [reflexivity|]).
    pose proof (BacktestMore.min_of_le_max_of _ _ _ Hmin Hmax) as Hle.
    destruct (BacktestMore.run_loop_curve _ _ _ _ _ _ _ _ _ Hloop)
      as (new & Ec & Hall & Hsort & Hhead & Hlast & _ & Hne).
    simpl in Ec. rewrite Ec.
    specialize (Hne Hle (BacktestMore.iterations_positive _ _ Hle)).
    destruct new as [|first new']; [done|].
    destruct (last (first :: new')) as [final|] eqn:Hf;
      [|by apply last_None in Hf].
    exists mn, mx, first, final.
    repeat split; try done.
    + by apply Hhead.
    + simpl. by apply Hlast.
Qed.

Lemma run_samples_the_clock_witness :
  Backtest.run [Scenarios.signal_A] ∅ (Backtest.init 200) =
    Some (Backtest.init 200, None) /\
  exists s res first,
    Backtest.run [Scenarios.signal_A] Scenarios.prices_A (Backtest.init 200) =
      Some (s, Some res) /\
    head (Backtest.equity_curve s) = Some first /\
    Backtest.point_time first = Scenarios.minute 0.
Proof.
  destruct run_samples_the_clock as (H1 & _ & H3).
  split; [apply H1; by vm_compute|].
  destruct (Backtest.run [Scenarios.signal_A] Scenarios.prices_A
              (Backtest.init 200)) as [[s [res|]]|] eqn:Hrun;
    [|vm_compute in Hrun; discriminate ..].
  destruct (H3 200 _ _ s res Hrun)
    as (_ & _ & _ & tmin & tmax & first & final & Hmin & _ & Hh & Ht & _).
  exists s, res, first. split; [reflexivity|]. split; [exact Hh|].
  rewrite Ht. vm_compute in Hmin. by inversion Hmin.
Defined.

(** X7: the trades of a backtest run, in the order of their creation, are
    a subsequence of the signals scored 80 or more taken in the order of
    their times: a trade carries the token, the price and the time of its
    signal, whenever it was admitted.  The order of their times is that of
    the stable sort: the sorted list is a permutation of the signals, no
    signal in it is later than the next, and the signals of any one time
    stand in it in the order in which they were given.  So every trade
    comes from a signal of the list scored 80 or more, and there are no
    more trades than signals. *)
Theorem trades_come_from_signals :
  forall (c0 : Q) (signals : list Backtest.Signal)
         (pd : gmap string Backtest.DataFrame) (s : Backtest.Engine)
         (r : option Backtest.BacktestResult),
    Backtest.run signals pd (Backtest.init c0) = Some (s, r) ->
    Backtest.trade_key <$> Backtest.trades s `sublist_of`
      Backtest.signal_key <$>
        Backtest.scored (Backtest.sort_signals signals) /\
    Backtest.sort_signals signals ≡ₚ signals /\
    Sorted Backtest.not_later (Backtest.sort_signals signals) /\
    (forall tau : Backtest.Timestamp,
       List.filter (fun sig => (Backtest.signal_time sig =? tau)%Z)
         (Backtest.sort_signals signals) =
       List.filter (fun sig => (Backtest.signal_time sig =? tau)%Z)
         signals) /\
    (forall t,
       t ∈ Backtest.trades s ->
       exists sig,
         sig ∈ signals /\ 80 <= Backtest.signal_score sig /\
         Backtest.token_address t = Backtest.sig_token_address sig /\
         Backtest.entry_price t = Backtest.price_at_signal sig /\
         Backtest.entry_time t = Backtest.signal_time sig) /\
    (length (Backtest.trades s) <= length signals)%nat.
Proof.
  intros c0 signals pd s r Hrun.
  assert (Hsub : Backtest.trade_key <$> Backtest.trades s `sublist_of`
                   Backtest.signal_key <$>
                     Backtest.scored (Backtest.sort_signals signals)).
  { unfold Backtest.run in Hrun.
    destruct (Backtest.min_of _) as [mn|].
    2:{ inversion Hrun; subst. simpl. apply sublist_nil_l. }
    destruct (Backtest.max_of _) as [mx|].
    2:{ inversion Hrun; subst. simpl. apply sublist_nil_l. }
    destruct (Backtest.run_loop _ _ _ _ _ _) as [[[ct' pending'] s1]|] eqn:Hloop;
      [|discriminate].
    cbn [mbind option_bind] in Hrun. inversion Hrun; subst. clear Hrun.
    destruct (BacktestMore.run_loop_keys _ _ _ _ _ _ _ _ _ Hloop)
      as (new & E & Hs).
    simpl in E. by rewrite E. }
  pose proof (BacktestMore.sort_signals_perm signals) as Hperm.
  split; [exact Hsub|]. split; [exact Hperm|].
  split; [apply BacktestMore.sort_signals_sorted|].
  split; [intros tau; apply BacktestMore.sort_signals_at_time|]. split.
  - intros t Ht.
    apply (list_elem_of_fmap_2 Backtest.trade_key) in Ht.
    apply (elem_of_sublist _ _ _ Ht) in Hsub.
    apply list_elem_of_fmap_1 in Hsub as (sig & Ekey & Hsig).
    unfold Backtest.scored in Hsig.
    apply list_elem_of_In, List.filter_In in Hsig as [Hin Hsc].
    apply list_elem_of_In in Hin. rewrite Hperm in Hin.
    apply Qgeb_true in Hsc.
    unfold Backtest.trade_key, Backtest.signal_key in Ekey.
    inversion Ekey. exists sig. by repeat split.
  - apply sublist_length in Hsub. rewrite !length_fmap in Hsub.
    pose proof (List.filter_length_le
                  (fun sig => Qgeb (Backtest.signal_score sig) 80)
                  (Backtest.sort_signals signals)) as Hf.
    unfold Backtest.scored in Hsub.
    apply Permutation_length in Hperm. lia.
Qed.

Lemma trades_come_from_signals_witness :
  exists s r,
    Backtest.run [Scenarios.signal_low; Scenarios.signal_A] Scenarios.prices_A
      (Backtest.init 200) = Some (s, r) /\
    Backtest.trade_key <$> Backtest.trades s `sublist_of`
      Backtest.signal_key <$>
        Backtest.scored
          (Backtest.sort_signals [Scenarios.signal_low; Scenarios.signal_A]).
Proof.
  destruct (Backtest.run [Scenarios.signal_low; Scenarios.signal_A]
              Scenarios.prices_A (Backtest.init 200)) as [[s r]|] eqn:Hrun;
    [|vm_compute in Hrun; discriminate].
  exists s, r. split; [reflexivity|].
  exact (proj1 (trades_come_from_signals 200 _ _ s r Hrun)).
Defined.

(** X8: what the circuit breaker of the backtest engine does.  Once set
    it stays set through any sequence of signals and price updates, and
    no position is opened meanwhile.  A price update sets it only when the
    equity, as last computed, is more than 10 percent below the equity at
    the start of the day; and it does set it then at the tick of a
    position that has a sample and stays open.  A signal never changes it.
    The day reset of [run] clears it, and takes the equity as the new
    start of day, when the date differs from the current day, and does
    nothing otherwise. *)
Theorem breaker_latches_until_day_reset :
  (forall (cs : list Backtest.Call) (s s' : Backtest.Engine),
     Backtest.daily_loss_limit_hit s = true ->
     Backtest.calls cs s = Some s' ->
     Backtest.daily_loss_limit_hit s' = true /\
     length (Backtest.trades s') = length (Backtest.trades s) /\
     Backtest.active_trades s' ⊆ Backtest.active_trades s) /\
  (forall (ct : Backtest.Timestamp) (pd : gmap string Backtest.DataFrame)
          (s s' : Backtest.Engine),
     Backtest._update_trades ct pd s = Some s' ->
     Backtest.daily_loss_limit_hit s' = true ->
     Backtest.daily_loss_limit_hit s = true \/
     Backtest.equity s - Backtest.daily_start_equity s <
       - (Backtest.daily_start_equity s * 0.10)) /\
  (forall (ct : Backtest.Timestamp) (pd : gmap string Backtest.DataFrame)
          (h : nat) (s s' : Backtest.Engine) (t t' : Backtest.Trade)
          (df : Backtest.DataFrame) (p : Q),
     Backtest.trades s !! h = Some t ->
     pd !! Backtest.token_address t = Some df ->
     Backtest.loc df ct = Some p ->
     Backtest.update_trade ct pd h s = Some s' ->
     Backtest.trades s' !! h = Some t' -> Backtest.status t' = "OPEN" ->
     Backtest.equity s - Backtest.daily_start_equity s <
       - (Backtest.daily_start_equity s * 0.10) ->
     Backtest.daily_loss_limit_hit s' = true) /\
  (forall (sig : Backtest.Signal) (s s' : Backtest.Engine),
     Backtest._process_signal sig s = Some s' ->
     Backtest.daily_loss_limit_hit s' = Backtest.daily_loss_limit_hit s) /\
  (forall (ct : Backtest.Timestamp) (s : Backtest.Engine),
     (Backtest.current_day s <> Some (Backtest.date ct) ->
      Backtest.daily_loss_limit_hit (Backtest.day_reset ct s) = false /\
      Backtest.daily_start_equity (Backtest.day_reset ct s) =
        Backtest.equity s /\
      Backtest.current_day (Backtest.day_reset ct s) =
        Some (Backtest.date ct)) /\
     (Backtest.current_day s = Some (Backtest.date ct) ->
      Backtest.day_reset ct s = s)).
Proof.
  split; [|split; [|split; [|split]]].
  - apply BacktestMore.calls_breaker_latched.
  - intros ct pd s s' Hu Hhit.
    destruct (BacktestMore._update_trades_breaker _ _ _ _ Hu) as [E|[_ Hc]];
      [left; congruence | by right].
  - intros ct pd h s s' t t' df p Ht Hdf Hloc Hu Ht' Hopen Hdrop.
    pose proof (lookup_lt_Some _ _ _ Ht) as Hlen.
    destruct (BacktestMore.update_trade_cases _ _ _ _ _ _ Hu Ht)
      as [[_ Hgap]|[(df' & lt & lp & Hdf' & Hloc' & _)|
          (df' & p' & t1 & _ & _ & Hlev & Hrest)]].
    + unfold Backtest.data_gap in Hgap. rewrite Hdf in Hgap.
      destruct Hgap as [Hn _]. congruence.
    + congruence.
    + destruct Hrest as [[_ ->]|(_ & _ & sa & ta & sb & tb & sc & tc &
        H1 & H2 & H3 & Hend)].
      { rewrite BacktestFacts._close_trade_lookup in Ht' by done.
        inversion Ht'; subst. discriminate. }
      apply BacktestMore.take_profit_1_value in H1 as [C1 _].
      apply BacktestMore.take_profit_2_value in H2 as [C2 _].
      apply BacktestMore.take_profit_3_value in H3 as [C3 _].
      pose proof (BacktestMore.only_capital_trans _ _ _
                    (BacktestMore.only_capital_trans _ _ _ C1 C2) C3) as C.
      destruct (BacktestMore.only_capital_fields _ _ C)
        as (Etr & _ & (_ & Eq & Ed & _) & _).
      destruct Hend as [[_ ->]|[_ ->]].
      { rewrite BacktestFacts._close_trade_lookup in Ht'
          by (by rewrite Etr).
        inversion Ht'; subst. discriminate. }
      cbn [Backtest.daily_loss_limit_hit Backtest.set_trades].
      unfold Backtest.check_daily_loss_limit. rewrite Eq, Ed.
      apply Qltb_true in Hdrop. by rewrite Hdrop.
  - intros sig s s' H. apply BacktestMore._process_signal_admits in H
      as [->|(_ & _ & _ & _ & t & -> & _)]; done.
  - intros ct s. unfold Backtest.day_reset. split.
    + intros Hne. rewrite bool_decide_eq_true_2 by done. by repeat split.
    + intros He. rewrite bool_decide_eq_false_2; [done|]. by intros Hc.
Qed.

Lemma breaker_latches_until_day_reset_witness :
  Backtest.daily_loss_limit_hit
    (default (Backtest.init 0)
       (Backtest.calls Scenarios.backtest_calls
          (Backtest.set_daily_loss_limit_hit true (Backtest.init 200)))) =
    true /\
  Backtest.daily_loss_limit_hit
    (default (Backtest.init 0)
       (Backtest.update_trade (Scenarios.minute 0) Scenarios.prices_A 0%nat
          (Backtest.set_equity 170 Scenarios.backtest_entered))) = true.
Proof.
  destruct breaker_latches_until_day_reset as (H1 & _ & H3 & _). split.
  - destruct (H1 Scenarios.backtest_calls
                (Backtest.set_daily_loss_limit_hit true (Backtest.init 200))
                (default (Backtest.init 0)
                   (Backtest.calls Scenarios.backtest_calls
                      (Backtest.set_daily_loss_limit_hit true
                         (Backtest.init 200)))))
      as [H _]; [reflexivity | vm_compute; reflexivity | exact H].
  - apply (H3 (Scenarios.minute 0) Scenarios.prices_A 0%nat
             (Backtest.set_equity 170 Scenarios.backtest_entered)
             (default (Backtest.init 0)
                (Backtest.update_trade (Scenarios.minute 0) Scenarios.prices_A
                   0%nat (Backtest.set_equity 170 Scenarios.backtest_entered)))
             Scenarios.trade_A Scenarios.trade_A Scenarios.frame_A 1);
      by vm_compute.
Defined.

(** X9: on well-formed inputs, an open position of the backtest engine
    holds the share of its initial units that the tiers hit so far have
    left: all of them, less a half for the first tier, a quarter for the
    second and 15 percent for the third.  So the cap of a partial close
    at the units held is never reached, a tier not yet hit sells its full
    fraction, and an open position keeps a tenth of its initial units at
    least. *)
Theorem backtest_ladder_leaves_a_tenth :
  forall (c0 : Q) (cs : list Backtest.Call) (s : Backtest.Engine)
         (t : Backtest.Trade),
    0 <= c0 -> Forall Backtest.valid_call cs ->
    Backtest.calls cs (Backtest.init c0) = Some s ->
    t ∈ Backtest.trades s -> Backtest.status t = "OPEN" ->
    Backtest.current_units t ==
      Backtest.initial_units t *
        (1 - (if Backtest.tp1_hit t then 0.50 else 0)
           - (if Backtest.tp2_hit t then 0.25 else 0)
           - (if Backtest.tp3_hit t then 0.15 else 0)) /\
    Backtest.initial_units t * 0.10 <= Backtest.current_units t /\
    (Backtest.tp1_hit t = false ->
     Backtest.sale_units 0.50 t == Backtest.initial_units t * 0.50) /\
    (Backtest.tp2_hit t = false ->
     Backtest.sale_units 0.25 t == Backtest.initial_units t * 0.25) /\
    (Backtest.tp3_hit t = false ->
     Backtest.sale_units 0.15 t == Backtest.initial_units t * 0.15).
Proof.
  intros c0 cs s t Hc0 Hok Hcs Ht Hopen.
  destruct (BacktestMore.calls_ladder cs (Backtest.init c0) s Hok)
    as [_ Hall]; [exact Hc0 | by constructor | exact Hcs |].
  rewrite Forall_forall in Hall. destruct (Hall t Ht) as [Hs Hl].
  specialize (Hl Hopen). unfold Backtest.ladder_share in Hl.
  pose proof (BacktestFacts.initial_units_nonneg t Hs) as Hi.
  split; [exact Hl|].
  unfold Backtest.sale_units.
  destruct (Backtest.tp1_hit t), (Backtest.tp2_hit t), (Backtest.tp3_hit t);
    (split; [lra|]); (split; [|split]); try discriminate; intros _.
  all: match goal with
       | |- context [Qgtb ?a ?b] =>
           destruct (Qgtb a b) eqn:Hg; qprop; lra
       end.
Qed.

Lemma backtest_ladder_leaves_a_tenth_witness :
  exists t,
    Backtest.trades Scenarios.backtest_after_tp1 !! 0%nat = Some t /\
    Backtest.tp1_hit t = true /\
    Backtest.initial_units t * 0.10 <= Backtest.current_units t.
Proof.
  destruct (Backtest.trades Scenarios.backtest_after_tp1 !! 0%nat)
    as [t|] eqn:Ht; [|vm_compute in Ht; discriminate].
  exists t. split; [reflexivity|].
  split; [vm_compute in Ht; by inversion Ht|].
  apply (backtest_ladder_leaves_a_tenth 200
           [Backtest.ProcessSignal Scenarios.signal_A;
            Backtest.UpdateTrades (Scenarios.minute 1) Scenarios.prices_A]
           Scenarios.backtest_after_tp1 t).
  - lra.
  - apply Forall_cons. split; [by vm_compute|].
    apply Forall_cons. split; [|by constructor]. simpl.
    apply prices_nonneg_singleton. repeat constructor; simpl; lra.
  - vm_compute. reflexivity.
  - by apply list_elem_of_lookup_2 in Ht.
  - vm_compute in Ht. by inversion Ht.
Defined.

(** X10: in the backtest engine the stop protects what a position has
    gained.  In every state reached by calls from a new engine, a position
    whose first tier is hit has its stop at the entry price or above, a
    position whose peak is 40 percent or more above the entry price has
    its stop at most 35 percent below the peak, and the peak is never
    below the entry price.  So once the first tier is hit, a sample at or
    below the entry price closes the position with STOP_LOSS. *)
Theorem stop_protects_gains :
  (forall (c0 : Q) (cs : list Backtest.Call) (s : Backtest.Engine)
          (t : Backtest.Trade),
     Backtest.calls cs (Backtest.init c0) = Some s ->
     t ∈ Backtest.trades s ->
     (Backtest.tp1_hit t = true ->
      Backtest.entry_price t <= Backtest.stop_loss_price t) /\
     (0.40 <= (Backtest.ath_price t - Backtest.entry_price t) /
                Backtest.entry_price t ->
      Backtest.ath_price t * (1 - 0.35) <= Backtest.stop_loss_price t) /\
     Backtest.entry_price t <= Backtest.ath_price t) /\
  (forall (c0 : Q) (cs : list Backtest.Call) (s : Backtest.Engine)
          (ct : Backtest.Timestamp) (pd : gmap string Backtest.DataFrame)
          (h : nat) (t : Backtest.Trade) (df : Backtest.DataFrame) (p : Q),
     Backtest.calls cs (Backtest.init c0) = Some s ->
     Backtest.trades s !! h = Some t -> Backtest.tp1_hit t = true ->
     pd !! Backtest.token_address t = Some df ->
     Backtest.loc df ct = Some p -> p <= Backtest.entry_price t ->
     exists s' t',
       Backtest.update_trade ct pd h s = Some s' /\
       Backtest.trades s' !! h = Some t' /\
       Backtest.status t' = "CLOSED" /\
       Backtest.exit_reason t' = "STOP_LOSS").
Proof.
  assert (Hprot : forall c0 cs s,
            Backtest.calls cs (Backtest.init c0) = Some s ->
            Forall Backtest.gains_protected (Backtest.trades s)).
  { intros c0 cs s Hcs.
    apply (BacktestMore.calls_protected cs (Backtest.init c0) s);
      [by constructor | exact Hcs]. }
  split.
  - intros c0 cs s t Hcs Ht. specialize (Hprot c0 cs s Hcs).
    rewrite Forall_forall in Hprot. exact (Hprot t Ht).
  - intros c0 cs s ct pd h t df p Hcs Ht Hh Hdf Hloc Hp.
    specialize (Hprot c0 cs s Hcs). rewrite Forall_lookup in Hprot.
    destruct (Hprot h t Ht) as (A & _ & _). specialize (A Hh).
    pose proof (lookup_lt_Some _ _ _ Ht) as Hlen.
    assert (Hne : ~ Backtest.entry_price t == 0).
    { pose proof (BacktestMore.calls_entry_nonzero cs (Backtest.init c0) s
                    ltac:(by constructor) Hcs) as Hnz.
      rewrite Forall_lookup in Hnz. exact (Hnz h t Ht). }
    destruct (BacktestFacts.update_trade_stop_loss ct pd h s t df p Ht Hdf
                Hloc Hne ltac:(lra)) as (t' & Hu).
    eexists _, _. split; [exact Hu|].
    split; [by apply BacktestFacts._close_trade_lookup|]. by split.
Qed.

Lemma stop_protects_gains_witness :
  exists t,
    Backtest.trades Scenarios.backtest_after_tp1 !! 0%nat = Some t /\
    Backtest.tp1_hit t = true /\
    Backtest.entry_price t <= Backtest.stop_loss_price t.
Proof.
  destruct (Backtest.trades Scenarios.backtest_after_tp1 !! 0%nat)
    as [t|] eqn:Ht; [|vm_compute in Ht; discriminate].
  assert (Hh : Backtest.tp1_hit t = true).
  { vm_compute in Ht. by inversion Ht. }
  exists t. split; [reflexivity|]. split; [exact Hh|].
  apply (proj1 stop_protects_gains 200
           [Backtest.ProcessSignal Scenarios.signal_A;
            Backtest.UpdateTrades (Scenarios.minute 1) Scenarios.prices_A]
           Scenarios.backtest_after_tp1 t);
    [vm_compute; reflexivity | by apply list_elem_of_lookup_2 in Ht |
     exact Hh].
Defined.

(** X11: the statistics of the paper trader count every trade once.
    After any sequence of calls from a new trader, the wins and the losses
    (closed trades with a positive, resp. non-positive, realized profit)
    and the active trades add up to the number of trades, and the win rate
    lies between 0 and 100.  [get_stats] fails with a division by zero for
    a trader created with a capital of zero; for any other it returns,
    and the trades, wins and losses it reports are these counts, so that
    the wins and losses reported and the active trades add up to the
    trades reported. *)
Theorem stats_count_every_trade :
  forall (c0 : Q) (cs : list Paper.Call) (s : Paper.PaperTrader),
    Paper.calls cs (Paper.init c0) = Some s ->
    (Paper.wins s + Paper.losses s + length (Paper.active_trades s) =
       length (Paper.trades s))%nat /\
    0 <= Paper.win_rate s /\ Paper.win_rate s <= 100 /\
    (c0 == 0 -> Paper.get_stats s = None) /\
    (~ c0 == 0 ->
     exists st,
       Paper.get_stats s = Some st /\
       Paper.stat_trades st = length (Paper.trades s) /\
       Paper.stat_wins st = Paper.wins s /\
       Paper.stat_losses st = Paper.losses s /\
       (Paper.stat_wins st + Paper.stat_losses st +
          length (Paper.active_trades s) = Paper.stat_trades st)%nat /\
       0 <= Paper.stat_win_rate st /\ Paper.stat_win_rate st <= 100).
Proof.
  intros c0 cs s Hcs.
  destruct (PaperMore.pt_calls_accounted cs (Paper.init c0) s
              (PaperFacts.pt_init_books c0)) as [_ Hcnt];
    [split; [intros h t Hh; simpl in Hh; by rewrite lookup_nil in Hh | reflexivity] |
     exact Hcs |].
  destruct (PaperMore.pt_calls_parameters cs _ _ Hcs) as (Hic & _).
  simpl in Hic.
  pose proof (PaperMore.wins_losses_closed s) as Hwl.
  destruct (PaperMore.win_rate_bounds s) as [W1 W2].
  assert (Hsum : (Paper.wins s + Paper.losses s +
                    length (Paper.active_trades s) =
                    length (Paper.trades s))%nat) by lia.
  split; [exact Hsum|]. split; [exact W1|]. split; [exact W2|].
  unfold Paper.get_stats. rewrite Hic. split.
  - intros Hz. unfold div. apply Qeq_bool_iff in Hz. by rewrite Hz.
  - intros Hnz. rewrite div_defined by exact Hnz.
    cbn [mbind option_bind]. eexists. split; [reflexivity|].
    cbn [Paper.stat_trades Paper.stat_wins Paper.stat_losses
         Paper.stat_win_rate].
    split; [reflexivity|]. split; [reflexivity|]. split; [reflexivity|].
    split; [exact Hsum|]. split; [exact W1 | exact W2].
Qed.

Lemma stats_count_every_trade_witness :
  (Paper.wins Scenarios.paper_final + Paper.losses Scenarios.paper_final +
     length (Paper.active_trades Scenarios.paper_final) =
     length (Paper.trades Scenarios.paper_final))%nat /\
  Paper.stat_losses <$> Paper.get_stats Scenarios.paper_final = Some 1%nat.
Proof.
  destruct (stats_count_every_trade 200 Scenarios.paper_calls
              Scenarios.paper_final) as (H1 & _ & _ & _ & H5);
    [vm_compute; reflexivity|].
  split; [exact H1|].
  assert (Hnz : ~ 200 == 0) by (by vm_compute).
  destruct (H5 Hnz) as (st & Hst & _ & _ & Hl & _).
  rewrite Hst. change (Some (Paper.stat_losses st) = Some 1%nat).
  rewrite Hl. vm_compute. reflexivity.
Defined.

(** X12: the list returned by [update_trades] of the paper trader reports
    every close and nothing but closes as such: it holds a CLOSE entry
    for a position exactly when the position was active before the update
    and is no longer active after it; and when the list is empty, the cash
    and the active positions are as before. *)
Theorem updates_report_every_close :
  forall (c0 : Q) (cs : list Paper.Call) (now : Paper.Timestamp)
         (m : gmap string Q) (s s' : Paper.PaperTrader)
         (ups : list Paper.Update),
    Paper.calls cs (Paper.init c0) = Some s ->
    Paper.update_trades now m s = Some (s', ups) ->
    (forall h,
       Paper.CLOSE h ∈ ups <->
       h ∈ Paper.active_trades s /\ h ∉ Paper.active_trades s') /\
    (ups = [] ->
     Paper.capital s' = Paper.capital s /\
     Paper.active_trades s' = Paper.active_trades s).
Proof.
  intros c0 cs now m s s' ups Hcs Hup.
  apply (PaperMore.pt_update_trades_report now m s s' ups); [|exact Hup].
  apply (PaperFacts.pt_calls_books cs (Paper.init c0));
    [apply PaperFacts.pt_init_books | exact Hcs].
Qed.

Lemma updates_report_every_close_witness :
  exists s' ups,
    Paper.update_trades (Paper.timedelta_minutes 2) {[ "0xA" := 600000 ]}
      Scenarios.paper_entered = Some (s', ups) /\
    (Paper.CLOSE 0%nat ∈ ups <->
     0%nat ∈ Paper.active_trades Scenarios.paper_entered /\
     0%nat ∉ Paper.active_trades s').
Proof.
  destruct (Paper.update_trades (Paper.timedelta_minutes 2)
              {[ "0xA" := 600000 ]} Scenarios.paper_entered)
    as [[s' ups]|] eqn:Hup; [|vm_compute in Hup; discriminate].
  exists s', ups. split; [reflexivity|].
  destruct (updates_report_every_close 200
              [Paper.ProcessSignal 0%Z Scenarios.pair_A]
              (Paper.timedelta_minutes 2) {[ "0xA" := 600000 ]}
              Scenarios.paper_entered s' ups) as [H _];
    [vm_compute; reflexivity | exact Hup | exact (H 0%nat)].
Defined.

(** X13: an update of the paper trader whose map has no market cap, or a
    market cap of zero, for every active position changes nothing and
    returns the empty list: a market cap of zero is taken for a missing
    one.  So does an update with an empty map. *)
Theorem update_without_data_changes_nothing :
  (forall (now : Paper.Timestamp) (m : gmap string Q) (s : Paper.PaperTrader),
     (forall h t,
        h ∈ Paper.active_trades s -> Paper.trades s !! h = Some t ->
        Paper.no_data m t) ->
     Paper.update_trades now m s = Some (s, [])) /\
  (forall (now : Paper.Timestamp) (s : Paper.PaperTrader),
     Paper.update_trades now ∅ s = Some (s, [])).
Proof.
  split.
  - intros now m s. apply PaperMore.pt_update_trades_no_data.
  - intros now s. apply PaperMore.pt_update_trades_no_data.
    intros h t _ _. unfold Paper.no_data. by rewrite lookup_empty.
Qed.

Lemma update_without_data_changes_nothing_witness :
  Paper.update_trades (Paper.timedelta_minutes 1) {[ "0xA" := 0 ]}
    Scenarios.paper_entered = Some (Scenarios.paper_entered, []).
Proof.
  apply (proj1 update_without_data_changes_nothing). intros h t Hh Ht.
  vm_compute in Hh. apply list_elem_of_singleton in Hh. subst h.
  vm_compute in Ht. inversion Ht; subst t. by vm_compute.
Defined.

(** X14: the stop-loss of the paper trader.  A position entered on a
    positive market cap that is updated with a market cap at or below 70
    percent of its entry market cap is closed with the reason
    STOP_LOSS_30_PCT, whatever its age and the levels hit, and one CLOSE
    entry is reported; the cash is credited with the units held at the
    entry price scaled by the ratio of the market caps, and the loss
    realized is 30 percent of the cost of these units at least. *)
Theorem paper_stop_loss_at_30_percent :
  forall (now : Paper.Timestamp) (m : gmap string Q) (h : nat)
         (s : Paper.PaperTrader) (ups : list Paper.Update)
         (t : Paper.PaperTrade) (mc : Q),
    Paper.trades s !! h = Some t ->
    m !! Paper.token_address t = Some mc -> 0 < mc ->
    0 < Paper.entry_mc t -> 1 < Paper.base_potential t ->
    0 <= Paper.current_units t -> 0 <= Paper.entry_price_proxy t ->
    mc <= Paper.entry_mc t * 0.70 ->
    exists s' t',
      Paper.update_trade now m h (s, ups) =
        Some (s', ups ++ [Paper.CLOSE h]) /\
      Paper.trades s' !! h = Some t' /\
      Paper.status t' = "CLOSED" /\
      Paper.exit_reason t' = "STOP_LOSS_30_PCT" /\
      Paper.exit_time t' = Some now /\
      Paper.current_units t' = 0 /\
      Paper.capital s' ==
        Paper.capital s +
        Paper.current_units t *
          (Paper.entry_price_proxy t * (mc / Paper.entry_mc t)) /\
      Paper.realized_pnl t' - Paper.realized_pnl t <=
        - (0.30 * (Paper.current_units t * Paper.entry_price_proxy t)) /\
      Paper.active_trades s' = list_remove h (Paper.active_trades s).
Proof.
  intros now m h s ups t mc Ht Hm Hmc He Hb Hu Hp Hdrop.
  pose proof (lookup_lt_Some _ _ _ Ht) as Hlen.
  destruct (PaperMore.pt_update_trade_stop_loss now m h s ups t mc Ht Hm)
    as (s' & Hc & Hup); [lra | exact He | lra | exact Hdrop |].
  exists s', (Paper.closed_trade now mc "STOP_LOSS_30_PCT"
                (Paper.update_peak mc t)).
  split; [exact Hup|].
  split; [by apply (PaperFacts.pt_close_trade_lookup now h _ mc _ s s')|].
  apply PaperFacts.pt_close_trade_eq in Hc as [_ ->].
  destruct (PaperMore.update_peak_value mc t) as (_ & Eu & Ex).
  destruct (PaperFacts.update_peak_evolves mc t) as [(_ & _ & Ep & _) Epeak].
  simpl. rewrite Eu, Ex, Ep. unfold Paper.exit_price_proxy.
  assert (Hk : mc / Paper.entry_mc t <= 0.70).
  { apply Qle_shift_div_r; [exact He | lra]. }
  assert (Hreal : Paper.realized_pnl (Paper.update_peak mc t) =
                  Paper.realized_pnl t) by (by rewrite Epeak).
  rewrite Hreal.
  set (k := mc / Paper.entry_mc t) in *.
  set (u := Paper.current_units t) in *.
  set (p := Paper.entry_price_proxy t) in *.
  repeat split; try done; try lra.
  assert (0 <= u * p) by (by apply Qmult_le_0_compat).
  nra.
Qed.

Lemma paper_stop_loss_at_30_percent_witness :
  exists s' t',
    Paper.update_trade (Paper.timedelta_minutes 2) {[ "0xA" := 600000 ]}
      0%nat (Scenarios.paper_entered, []) = Some (s', [Paper.CLOSE 0%nat]) /\
    Paper.trades s' !! 0%nat = Some t' /\
    Paper.exit_reason t' = "STOP_LOSS_30_PCT".
Proof.
  destruct (Paper.trades Scenarios.paper_entered !! 0%nat) as [t|] eqn:Ht;
    [|vm_compute in Ht; discriminate].
  assert (Et : t = default t (Paper.trades Scenarios.paper_entered !! 0%nat))
    by (by rewrite Ht).
  destruct (paper_stop_loss_at_30_percent (Paper.timedelta_minutes 2)
              {[ "0xA" := 600000 ]} 0%nat Scenarios.paper_entered [] t 600000)
    as (s' & t' & H1 & H2 & _ & H4 & _);
    [exact Ht | | lra | | | | | |].
  7:{ exists s', t'. by repeat split. }
  all: vm_compute in Ht; inversion Ht; subst t; by vm_compute.
Defined.

(** X15: a pair without market cap and without liquidity is entered by the
    paper trader with an entry market cap of zero, and such a position
    breaks the updates: as long as it is active, every [update_trades]
    whose map carries a market cap other than zero for its token fails
    with a division by zero, whatever the other positions are. *)
Theorem zero_market_cap_entry_breaks_updates :
  (forall (now : Paper.Timestamp) (sd : Paper.PairDict)
          (s : Paper.PaperTrader),
     Paper.mc_of sd == 0 ->
     (length (Paper.active_trades s) < Paper.max_trades s)%nat ->
     0 < Paper.capital s ->
     exists t,
       (Paper.process_signal now sd s).2 = Some (length (Paper.trades s)) /\
       Paper.trades (Paper.process_signal now sd s).1 =
         Paper.trades s ++ [t] /\
       Paper.active_trades (Paper.process_signal now sd s).1 =
         Paper.active_trades s ++ [length (Paper.trades s)] /\
       Paper.entry_mc t == 0) /\
  (forall (now : Paper.Timestamp) (m : gmap string Q)
          (s : Paper.PaperTrader) (h : nat) (t : Paper.PaperTrade) (mc : Q),
     h ∈ Paper.active_trades s -> Paper.trades s !! h = Some t ->
     Paper.entry_mc t == 0 ->
     m !! Paper.token_address t = Some mc -> ~ mc == 0 ->
     Paper.update_trades now m s = None).
Proof.
  split.
  - intros now sd s Hz Hroom Hcap.
    destruct (PaperMore.process_signal_admits now sd s)
      as [E|(_ & _ & t & E & _ & Emc & _)].
    + unfold Paper.process_signal in E.
      apply Nat.leb_gt in Hroom. rewrite Hroom in E.
      assert (Hq : Qleb (Paper.capital s) 0 = false) by (by apply Qleb_false).
      rewrite Hq in E. discriminate.
    + exists t. rewrite E. cbn [fst snd]. repeat split; try done.
      by rewrite Emc.
  - intros now m s h t mc Hh Ht Hz Hm Hmc. unfold Paper.update_trades.
    by apply (PaperMore.pt_for_each_zero_mc now m h mc
                (Paper.token_address t) (Paper.active_trades s) Hh Hm Hmc
                (s, []) t).
Qed.

Lemma zero_market_cap_entry_breaks_updates_witness :
  Paper.update_trades (Paper.timedelta_minutes 1) {[ "0xU" := 5 ]}
    (Paper.process_signal 0%Z Scenarios.pair_unpriced (Paper.init 200)).1 =
    None.
Proof.
  destruct (Paper.trades
              (Paper.process_signal 0%Z Scenarios.pair_unpriced
                 (Paper.init 200)).1 !! 0%nat) as [t|] eqn:Ht;
    [|vm_compute in Ht; discriminate].
  apply (proj2 zero_market_cap_entry_breaks_updates
           (Paper.timedelta_minutes 1) {[ "0xU" := 5 ]} _ 0%nat t 5).
  - vm_compute. by apply list_elem_of_singleton.
  - exact Ht.
  - vm_compute in Ht. inversion Ht; subst t. by vm_compute.
  - vm_compute in Ht. inversion Ht; subst t. by vm_compute.
  - by vm_compute.
Defined.

(** X16: the books of the paper trader balance.  After any sequence
    of calls from a new trader, the cash plus what the units still held
    have cost plus the stakes paid for positions entered at a price of
    zero (which buy no unit and are never paid back) equals the initial
    capital plus the profits realized on all trades; with no active
    position nothing is held, so the cash plus the lost stakes equals the
    initial capital plus the realized profits. *)
Theorem paper_books_balance :
  forall (c0 : Q) (cs : list Paper.Call) (s : Paper.PaperTrader),
    Paper.calls cs (Paper.init c0) = Some s ->
    Paper.capital s + Qsum (Paper.cost_basis <$> Paper.trades s) +
      Qsum (Paper.unpriced_stake <$> Paper.trades s) ==
      c0 + Qsum (Paper.realized_pnl <$> Paper.trades s) /\
    (Paper.active_trades s = [] ->
     Paper.capital s + Qsum (Paper.unpriced_stake <$> Paper.trades s) ==
       c0 + Qsum (Paper.realized_pnl <$> Paper.trades s)).
Proof.
  intros c0 cs s Hcs.
  assert (Hl : Paper.capital s + Qsum (Paper.book_value <$> Paper.trades s)
               == c0).
  { apply (PaperMore.pt_calls_ledger cs c0 (Paper.init c0)); [|exact Hcs].
    cbn. lra. }
  assert (Hsplit : Qsum (Paper.book_value <$> Paper.trades s) ==
                   Qsum (Paper.cost_basis <$> Paper.trades s) +
                   Qsum (Paper.unpriced_stake <$> Paper.trades s) -
                   Qsum (Paper.realized_pnl <$> Paper.trades s)).
  { unfold Paper.book_value.
    rewrite (Qsum_fmap_minus
               (fun t => Paper.cost_basis t + Paper.unpriced_stake t)
               Paper.realized_pnl).
    by rewrite (Qsum_fmap_plus Paper.cost_basis Paper.unpriced_stake). }
  split; [lra|]. intros Hflat.
  assert (Hb : Paper.books_ok s).
  { apply (PaperFacts.pt_calls_books cs (Paper.init c0));
      [apply PaperFacts.pt_init_books | exact Hcs]. }
  destruct (PaperMore.pt_calls_accounted cs (Paper.init c0) s
              (PaperFacts.pt_init_books c0)) as [Hacc _];
    [split; [intros h t Hh; simpl in Hh; by rewrite lookup_nil in Hh
            | reflexivity] | exact Hcs |].
  pose proof (PaperMore.pt_flat_holds_nothing s Hb Hacc Hflat). lra.
Qed.

Lemma paper_books_balance_witness :
  Paper.capital Scenarios.paper_final +
    Qsum (Paper.unpriced_stake <$> Paper.trades Scenarios.paper_final) ==
    200 + Qsum (Paper.realized_pnl <$> Paper.trades Scenarios.paper_final).
Proof.
  destruct (paper_books_balance 200 Scenarios.paper_calls
              Scenarios.paper_final) as [_ H];
    [vm_compute; reflexivity | apply H; vm_compute; reflexivity].
Defined.

(** X17: the take-profit levels of the paper trader sell fixed shares of
    the units bought.  After any sequence of calls on pairs with a
    positive market cap and non-negative prices, an open trade holds its
    initial units less 20 percent of them if the 30% level was hit, less
    25 percent if the 50% level was hit and less 30 percent if the 70%
    level was hit: the cap of a sale at the units held never applies, and
    a quarter of the units at least stays until the trade is closed. *)
Theorem paper_ladder_leaves_a_quarter :
  forall (c0 : Q) (cs : list Paper.Call) (s : Paper.PaperTrader)
         (t : Paper.PaperTrade),
    0 <= c0 -> Forall Paper.valid_call cs ->
    Paper.calls cs (Paper.init c0) = Some s ->
    t ∈ Paper.trades s -> Paper.status t = "OPEN" ->
    Paper.current_units t ==
      Paper.initial_units t *
        (1 - (if Paper.level_hit "30%" t then 0.20 else 0)
           - (if Paper.level_hit "50%" t then 0.25 else 0)
           - (if Paper.level_hit "70%" t then 0.30 else 0)) /\
    Paper.initial_units t * 0.25 <= Paper.current_units t /\
    Paper.current_units t <= Paper.initial_units t /\
    (Paper.level_hit "30%" t = false ->
     Paper.sale_units 0.20 t == Paper.initial_units t * 0.20) /\
    (Paper.level_hit "50%" t = false ->
     Paper.sale_units 0.25 t == Paper.initial_units t * 0.25) /\
    (Paper.level_hit "70%" t = false ->
     Paper.sale_units 0.30 t == Paper.initial_units t * 0.30).
Proof.
  intros c0 cs s t Hc0 Hok Hcs Hin Hopen.
  destruct (PaperMore.pt_calls_ladder cs (Paper.init c0) s Hok)
    as [_ Hall]; [exact Hc0 | by apply Forall_nil | exact Hcs |].
  rewrite Forall_forall in Hall.
  destruct (Hall t Hin) as [(_ & Hi & _) Hl].
  specialize (Hl Hopen). unfold Paper.ladder_share in Hl.
  assert (Hsale : forall p, 0 <= p ->
            Paper.initial_units t * p <= Paper.current_units t ->
            Paper.sale_units p t == Paper.initial_units t * p).
  { intros p Hp Hle. unfold Paper.sale_units.
    destruct (Qgtb _ _) eqn:E; [|reflexivity].
    apply Qgtb_true in E. lra. }
  split; [exact Hl|].
  destruct (Paper.level_hit "30%" t), (Paper.level_hit "50%" t),
    (Paper.level_hit "70%" t);
    repeat split; try discriminate; try nra;
    intros _; apply Hsale; nra.
Qed.

Lemma paper_ladder_leaves_a_quarter_witness :
  exists t,
    Paper.trades Scenarios.paper_after_tp !! 0%nat = Some t /\
    Paper.initial_units t * 0.25 <= Paper.current_units t.
Proof.
  destruct (Paper.trades Scenarios.paper_after_tp !! 0%nat) as [t|] eqn:Ht;
    [|vm_compute in Ht; discriminate].
  exists t. split; [reflexivity|].
  apply (paper_ladder_leaves_a_quarter 200 (take 2 Scenarios.paper_calls)
           Scenarios.paper_after_tp t).
  - lra.
  - apply Forall_take, paper_calls_valid.
  - vm_compute. reflexivity.
  - by apply list_elem_of_lookup_2 with 0%nat.
  - vm_compute in Ht. inversion Ht; subst t. reflexivity.
Defined.

(** X18: the final score.  A pair that failed the hard filters scores
    0.  For a pair that passed, with an AI risk score and a social score
    between 0 and 100, the score is 70 plus a fifth of (100 - AI risk)
    plus a tenth of the social score and lies between 70 and 100, so the
    cap at 100 does not apply and the AI risk moves the score by 20
    points at most.  For all inputs the score is at most 100, a higher AI
    risk never raises it and a higher social score never lowers it. *)
Theorem score_of_a_pair :
  (forall ai social : Q, Scoring.calculate_score false ai social == 0) /\
  (forall ai social : Q,
     0 <= ai -> ai <= 100 -> 0 <= social -> social <= 100 ->
     Scoring.calculate_score true ai social ==
       70 + (100 - ai) * 0.20 + social * 0.10 /\
     70 <= Scoring.calculate_score true ai social /\
     Scoring.calculate_score true ai social <= 100) /\
  (forall ai ai' social : Q,
     0 <= ai -> ai <= 100 -> 0 <= ai' -> ai' <= 100 ->
     0 <= social -> social <= 100 ->
     Qabs (Scoring.calculate_score true ai social -
           Scoring.calculate_score true ai' social) <= 20) /\
  (forall (passed : bool) (ai social : Q),
     Scoring.calculate_score passed ai social <= 100) /\
  (forall ai ai' social social' : Q,
     ai <= ai' -> social' <= social ->
     Scoring.calculate_score true ai' social' <=
     Scoring.calculate_score true ai social).
Proof.
  assert (Hmin : forall x, Scoring.py_min 100.0 x <= 100 /\
                           Scoring.py_min 100.0 x <= x /\
                           (x <= 100 -> Scoring.py_min 100.0 x == x) /\
                           (100 <= x -> Scoring.py_min 100.0 x == 100)).
  { intros x. unfold Scoring.py_min. destruct (Qltb x 100.0) eqn:E.
    - apply Qltb_true in E. repeat split; intros; lra.
    - apply Qltb_false in E. repeat split; intros; lra. }
  assert (Hin : forall ai social,
            0 <= ai -> ai <= 100 -> 0 <= social -> social <= 100 ->
            Scoring.calculate_score true ai social ==
              70 + (100 - ai) * 0.20 + social * 0.10).
  { intros ai social H1 H2 H3 H4. unfold Scoring.calculate_score.
    cbn [negb]. cbv zeta.
    destruct (Hmin (70.0 + (100 - ai) * 0.20 + social * 0.10))
      as (_ & _ & H & _). rewrite H; lra. }
  split; [intros ai social; reflexivity|].
  split.
  { intros ai social H1 H2 H3 H4. rewrite (Hin ai social H1 H2 H3 H4).
    split; [reflexivity|]. split; lra. }
  split.
  { intros ai ai' social H1 H2 H3 H4 H5 H6.
    rewrite (Hin ai social H1 H2 H5 H6), (Hin ai' social H3 H4 H5 H6).
    apply Qabs_Qle_condition. split; lra. }
  split.
  { intros [|] ai social; unfold Scoring.calculate_score; cbn [negb];
      cbv zeta; [apply Hmin | lra]. }
  intros ai ai' social social' Hai Hso. unfold Scoring.calculate_score.
  cbn [negb]. cbv zeta.
  set (x := 70.0 + (100 - ai) * 0.20 + social * 0.10).
  set (y := 70.0 + (100 - ai') * 0.20 + social' * 0.10).
  assert (Hyx : y <= x) by (unfold x, y; lra).
  destruct (Hmin x) as (X1 & X2 & X3 & X4).
  destruct (Hmin y) as (Y1 & Y2 & Y3 & Y4).
  destruct (Qlt_le_dec x 100) as [Hx|Hx].
  - rewrite X3 by lra. lra.
  - rewrite X4 by lra. lra.
Qed.

Lemma score_of_a_pair_witness :
  Scoring.calculate_score true 20 50 == 91.
Proof.
  destruct (proj1 (proj2 score_of_a_pair) 20 50) as [H _]; try lra.
Defined.

(** X19: the price path generated for a profile other than chop covers
    one day.  When the profile drawn is moon, dump or volatile_up (and the
    index of the rug pull, if one is drawn, lies within the day), the
    generator returns a frame of 1440 rows, one for each minute from the
    start time on; every price is at least 0.00000001, whatever the
    noise, the drift and the start price are; and the lookup of the
    engine finds the price of each of these minutes. *)
Theorem price_path_covers_a_day :
  forall (draws : Simulator.Draws) (start_time : Backtest.Timestamp)
         (start_price : Q),
    Simulator.profile draws <> Simulator.chop ->
    (Simulator.rug_roll draws < 0.1 ->
     (Simulator.rug_idx draws < 1440)%nat) ->
    exists df,
      Simulator._generate_price_path draws start_time start_price =
        Some df /\
      df.*1 = Simulator.date_range start_time 1440 /\
      (forall k, (k < 1440)%nat ->
         exists p,
           df !! k =
             Some ((start_time +
                    Backtest.Timedelta_minutes (Z.of_nat k))%Z, p) /\
           Backtest.loc df
             (start_time + Backtest.Timedelta_minutes (Z.of_nat k))%Z =
             Some p /\
           0.00000001 <= p) /\
      (forall token : string, Backtest.prices_nonneg {[ token := df ]}).
Proof. exact SimulatorFacts.price_path_rows. Qed.

Lemma price_path_covers_a_day_witness :
  exists df,
    Simulator._generate_price_path
      {| Simulator.profile := Simulator.moon;
         Simulator.noise := fun _ => 0.01;
         Simulator.drift_noise := fun _ => 0;
         Simulator.rug_roll := 0.05;
         Simulator.rug_idx := 10 |} 0%Z 0.001 = Some df /\
    df.*1 = Simulator.date_range 0%Z 1440.
Proof.
  destruct (price_path_covers_a_day
              {| Simulator.profile := Simulator.moon;
                 Simulator.noise := fun _ => 0.01;
                 Simulator.drift_noise := fun _ => 0;
                 Simulator.rug_roll := 0.05;
                 Simulator.rug_idx := 10 |} 0%Z 0.001)
    as (df & H1 & H2 & _); [done | intros _; cbn; lia |].
  exists df. split; [exact H1 | exact H2].
Defined.

(** X20: the profile chop gives a flat path.  Its drift is the integer
    0, which the loop pairs as an array of one element with the first
    return only, so that one price is computed; the frame repeats it over
    the index of 1440 minutes.  So (when the index of the rug pull, if one
    is drawn, lies after the first minute and within the day) every minute
    of the day carries the same price: the start price changed by the
    first return, or the floor of 0.00000001 if that is higher. *)
Theorem chop_profile_is_flat :
  forall (draws : Simulator.Draws) (start_time : Backtest.Timestamp)
         (start_price : Q),
    Simulator.profile draws = Simulator.chop ->
    (Simulator.rug_roll draws < 0.1 ->
     (0 < Simulator.rug_idx draws < 1440)%nat) ->
    Simulator._generate_price_path draws start_time start_price =
      Some ((fun t =>
               (t, py_max (start_price *
                             (1 + (Simulator.noise draws 0%nat + 0)))
                     0.00000001))
              <$> Simulator.date_range start_time 1440).
Proof.
  intros draws start_time start_price Hprof Hrug.
  unfold Simulator._generate_price_path. cbv zeta. rewrite Hprof.
  rewrite SimulatorFacts.length_normal.
  rewrite (SimulatorFacts.normal_S (Simulator.noise draws) 1439).
  set (rest := Simulator.noise draws <$> seq 1 1439).
  assert (Hr : exists rest',
            (if Qltb (Simulator.rug_roll draws) 0.1 then
               if (Simulator.rug_idx draws <? 1440)%nat
               then Some (<[Simulator.rug_idx draws := -0.90]>
                            (Simulator.noise draws 0%nat :: rest))
               else None
             else Some (Simulator.noise draws 0%nat :: rest)) =
            Some (Simulator.noise draws 0%nat :: rest')).
  { destruct (Qltb (Simulator.rug_roll draws) 0.1) eqn:E;
      [|by exists rest].
    apply Qltb_true in E. destruct (Hrug E) as [H0 H1].
    apply Nat.ltb_lt in H1. rewrite H1.
    destruct (Simulator.rug_idx draws) as [|k]; [lia|].
    by exists (<[k := -0.90]> rest). }
  destruct Hr as (rest' & ->). cbn [mbind option_bind].
  apply (SimulatorFacts.price_path_scalar (Simulator.noise draws 0%nat)
           rest' (inject_Z 0) start_price).
  rewrite SimulatorFacts.length_date_range. lia.
Qed.

Lemma chop_profile_is_flat_witness :
  Simulator._generate_price_path
    {| Simulator.profile := Simulator.chop;
       Simulator.noise := fun _ => 0.01;
       Simulator.drift_noise := fun _ => 0;
       Simulator.rug_roll := 0.5;
       Simulator.rug_idx := 10 |} 0%Z 0.001 =
    Some ((fun t => (t, py_max (0.001 * (1 + (0.01 + 0))) 0.00000001))
            <$> Simulator.date_range 0%Z 1440).
Proof.
  apply (chop_profile_is_flat
           {| Simulator.profile := Simulator.chop;
              Simulator.noise := fun _ => 0.01;
              Simulator.drift_noise := fun _ => 0;
              Simulator.rug_roll := 0.5;
              Simulator.rug_idx := 10 |} 0%Z 0.001).
  - reflexivity.
  - intros H. exfalso. revert H. by vm_compute.
Defined.

(** X21: a rug pull drops the price by nine tenths.  In a path generated
    with the profile moon or dump and a rug pull at an index after the
    first, the price at this index is at most 10.2 percent of the price of
    the minute before, unless it is the floor of 0.00000001. *)
Theorem rug_pull_drops_the_price :
  forall (draws : Simulator.Draws) (start_time : Backtest.Timestamp)
         (start_price : Q) (df : Backtest.DataFrame) (i : nat)
         (t t' : Backtest.Timestamp) (p q : Q),
    Simulator._generate_price_path draws start_time start_price = Some df ->
    Simulator.rug_roll draws < 0.1 -> Simulator.rug_idx draws = S i ->
    Simulator.profile draws = Simulator.moon \/
    Simulator.profile draws = Simulator.dump ->
    df !! i = Some (t, p) -> df !! S i = Some (t', q) ->
    q <= 0.102 * p \/ q == 0.00000001.
Proof.
  intros draws start_time start_price df i t t' p q Hgen Hroll Hidx Hprof
         Hp Hq.
  unfold Simulator._generate_price_path in Hgen. cbv zeta in Hgen.
  apply Qltb_true in Hroll. rewrite Hroll, Hidx in Hgen.
  rewrite SimulatorFacts.length_normal in Hgen.
  destruct (S i <? 1440)%nat eqn:Hin; [|discriminate].
  apply Nat.ltb_lt in Hin. cbn [mbind option_bind] in Hgen.
  assert (Hd : exists stop,
            match
              match Simulator.profile draws with
              | Simulator.moon =>
                  Simulator.DriftArray (Simulator.linspace 0 0.002 1440)
              | Simulator.dump =>
                  Simulator.DriftArray (Simulator.linspace 0 (-0.003) 1440)
              | Simulator.chop => Simulator.DriftInt 0
              | Simulator.volatile_up =>
                  Simulator.DriftArray
                    (Simulator.normal (Simulator.drift_noise draws) 1440)
              end
            with
            | Simulator.DriftArray a => a
            | Simulator.DriftInt n => [inject_Z n]
            end = Simulator.linspace 0 stop 1440 /\
            -0.003 <= stop /\ stop <= 0.002).
  { destruct Hprof as [-> | ->];
      [exists 0.002 | exists (-0.003)]; (split; [reflexivity|]); lra. }
  destruct Hd as (stop & Ed & Hs1 & Hs2). rewrite Ed in Hgen. clear Ed.
  destruct (lookup_lt_is_Some_2 (Simulator.linspace 0 stop 1440) (S i))
    as [d Hd]; [by rewrite SimulatorFacts.length_linspace|].
  destruct (SimulatorFacts.price_path_step
              (<[S i := -0.90]>
                 (Simulator.normal (Simulator.noise draws) 1440))
              (Simulator.linspace 0 stop 1440) start_price
              (Simulator.date_range start_time 1440)
              df i (-0.90) d t t' p q) as [-> Hfloor];
    [rewrite length_insert, SimulatorFacts.length_normal;
       by rewrite SimulatorFacts.length_date_range
    |by rewrite SimulatorFacts.length_linspace,
          SimulatorFacts.length_date_range
    |exact Hgen
    |apply list_lookup_insert_eq;
       by rewrite SimulatorFacts.length_normal
    |exact Hd | exact Hp | exact Hq |].
  assert (Hdb : -0.003 <= d /\ d <= 0.002).
  { destruct (SimulatorFacts.linspace_lookup stop 1439 (S i) d Hd)
      as [Hpos Hneg].
    destruct (Qlt_le_dec stop 0) as [Hlt|Hge].
    - destruct Hneg; lra.
    - destruct Hpos; lra. }
  clear Hgen Hd Hp Hq Hin.
  unfold py_max.
  destruct (Qgtb _ _) eqn:E; [right; reflexivity|left]. nra.
Qed.

Lemma rug_pull_drops_the_price_witness :
  exists df t t' p q,
    Simulator._generate_price_path
      {| Simulator.profile := Simulator.dump;
         Simulator.noise := fun _ => 0.01;
         Simulator.drift_noise := fun _ => 0;
         Simulator.rug_roll := 0.05;
         Simulator.rug_idx := 10 |} 0%Z 1 = Some df /\
    df !! 9%nat = Some (t, p) /\ df !! 10%nat = Some (t', q) /\
    (q <= 0.102 * p \/ q == 0.00000001).
Proof.
  destruct (SimulatorFacts.price_path_rows
              {| Simulator.profile := Simulator.dump;
                 Simulator.noise := fun _ => 0.01;
                 Simulator.drift_noise := fun _ => 0;
                 Simulator.rug_roll := 0.05;
                 Simulator.rug_idx := 10 |} 0%Z 1)
    as (df & Hgen & _ & Hrows & _); [done | intros _; cbn; lia |].
  destruct (Hrows 9%nat) as (p & Hp & _); [lia|].
  destruct (Hrows 10%nat) as (q & Hq & _); [lia|].
  exists df, (0 + Backtest.Timedelta_minutes (Z.of_nat 9))%Z,
    (0 + Backtest.Timedelta_minutes (Z.of_nat 10))%Z, p, q.
  split; [exact Hgen|]. split; [exact Hp|]. split; [exact Hq|].
  eapply (rug_pull_drops_the_price _ 0%Z 1 df 9%nat _ _ p q Hgen);
    [by vm_compute | reflexivity | by right | exact Hp | exact Hq].
Defined.

(** X22: the tiers of the backtest engine are hit in order, at the
    prices that trigger them.  In every state reached by calls on
    well-formed inputs, a trade whose second tier is marked hit has its
    first tier marked hit, and one whose third tier is marked hit has its
    second; the peak price of a trade is at least 1.4 times the entry
    price once the first tier is hit, twice the entry price once the
    second is and three times once the third is.  So an open trade holds
    all of its initial units, a half, a quarter or a tenth of them. *)
Theorem backtest_tiers_hit_in_order :
  forall (c0 : Q) (cs : list Backtest.Call) (s : Backtest.Engine)
         (t : Backtest.Trade),
    0 <= c0 -> Forall Backtest.valid_call cs ->
    Backtest.calls cs (Backtest.init c0) = Some s ->
    t ∈ Backtest.trades s ->
    (Backtest.tp2_hit t = true -> Backtest.tp1_hit t = true) /\
    (Backtest.tp3_hit t = true -> Backtest.tp2_hit t = true) /\
    (Backtest.tp1_hit t = true ->
     Backtest.entry_price t * 1.40 <= Backtest.ath_price t) /\
    (Backtest.tp2_hit t = true ->
     Backtest.entry_price t * 2.00 <= Backtest.ath_price t) /\
    (Backtest.tp3_hit t = true ->
     Backtest.entry_price t * 3.00 <= Backtest.ath_price t) /\
    (Backtest.status t = "OPEN" ->
     Backtest.current_units t ==
       Backtest.initial_units t *
         (if Backtest.tp3_hit t then 0.10
          else if Backtest.tp2_hit t then 0.25
          else if Backtest.tp1_hit t then 0.50 else 1)).
Proof.
  intros c0 cs s t Hc0 Hok Hcs Ht.
  pose proof (BacktestMore.calls_reached cs (Backtest.init c0) s Hok
                ltac:(by constructor) Hcs) as Hall.
  rewrite Forall_forall in Hall. destruct (Hall t Ht) as [_ (A & B & C)].
  destruct (BacktestMore.calls_ladder cs (Backtest.init c0) s Hok)
    as [_ Hlad]; [exact Hc0 | by constructor | exact Hcs |].
  rewrite Forall_forall in Hlad. destruct (Hlad t Ht) as [_ Hl].
  split; [intros H; by destruct (B H)|].
  split; [intros H; by destruct (C H)|].
  split; [exact A|].
  split; [intros H; by destruct (B H)|].
  split; [intros H; by destruct (C H)|].
  intros Hopen. specialize (Hl Hopen). unfold Backtest.ladder_share in Hl.
  destruct (Backtest.tp3_hit t) eqn:E3.
  - destruct (C eq_refl) as [E2 _]. destruct (B E2) as [E1 _].
    rewrite E1, E2 in Hl. rewrite Hl. ring.
  - destruct (Backtest.tp2_hit t) eqn:E2.
    + destruct (B eq_refl) as [E1 _]. rewrite E1 in Hl. rewrite Hl. ring.
    + rewrite Hl. destruct (Backtest.tp1_hit t); ring.
Qed.

Lemma backtest_tiers_hit_in_order_witness :
  exists t,
    Backtest.trades Scenarios.backtest_after_tp1 !! 0%nat = Some t /\
    Backtest.tp1_hit t = true /\
    Backtest.entry_price t * 1.40 <= Backtest.ath_price t.
Proof.
  destruct (Backtest.trades Scenarios.backtest_after_tp1 !! 0%nat)
    as [t|] eqn:Ht; [|vm_compute in Ht; discriminate].
  assert (H1 : Backtest.tp1_hit t = true)
    by (vm_compute in Ht; by inversion Ht).
  exists t. split; [reflexivity|]. split; [exact H1|].
  destruct (backtest_tiers_hit_in_order 200
              [Backtest.ProcessSignal Scenarios.signal_A;
               Backtest.UpdateTrades (Scenarios.minute 1) Scenarios.prices_A]
              Scenarios.backtest_after_tp1 t) as (_ & _ & H & _).
  - lra.
  - apply Forall_cons. split; [by vm_compute|].
    apply Forall_cons. split; [|by constructor]. simpl.
    apply prices_nonneg_singleton. repeat constructor; simpl; lra.
  - vm_compute. reflexivity.
  - by apply list_elem_of_lookup_2 in Ht.
  - exact (H H1).
Defined.

(** X23: the levels of the paper trader are hit in order, at the market
    caps that trigger them.  In every state reached by calls on pairs
    with a positive market cap, a trade that has hit the 50% level has
    hit the 30% level, and one that has hit the 70% level has hit the 50%
    level; the peak market cap of a trade that has hit a level has covered
    that share of the way from the entry market cap to the target (the
    entry market cap times the base potential).  So an open trade holds
    all of its initial units, 80, 55 or 25 percent of them. *)
Theorem paper_levels_hit_in_order :
  forall (c0 : Q) (cs : list Paper.Call) (s : Paper.PaperTrader)
         (t : Paper.PaperTrade),
    0 <= c0 -> Forall Paper.valid_call cs ->
    Paper.calls cs (Paper.init c0) = Some s ->
    t ∈ Paper.trades s ->
    (Paper.level_hit "50%" t = true -> Paper.level_hit "30%" t = true) /\
    (Paper.level_hit "70%" t = true -> Paper.level_hit "50%" t = true) /\
    (Paper.level_hit "30%" t = true ->
     Paper.entry_mc t +
       0.30 * (Paper.entry_mc t * Paper.base_potential t - Paper.entry_mc t)
       <= Paper.peak_mc t) /\
    (Paper.level_hit "50%" t = true ->
     Paper.entry_mc t +
       0.50 * (Paper.entry_mc t * Paper.base_potential t - Paper.entry_mc t)
       <= Paper.peak_mc t) /\
    (Paper.level_hit "70%" t = true ->
     Paper.entry_mc t +
       0.70 * (Paper.entry_mc t * Paper.base_potential t - Paper.entry_mc t)
       <= Paper.peak_mc t) /\
    (Paper.status t = "OPEN" ->
     Paper.current_units t ==
       Paper.initial_units t *
         (if Paper.level_hit "70%" t then 0.25
          else if Paper.level_hit "50%" t then 0.55
          else if Paper.level_hit "30%" t then 0.80 else 1)).
Proof.
  intros c0 cs s t Hc0 Hok Hcs Ht.
  pose proof (PaperMore.pt_calls_reached cs (Paper.init c0) s Hok
                ltac:(by constructor) Hcs) as Hall.
  rewrite Forall_forall in Hall. destruct (Hall t Ht) as [_ (A & B & C)].
  destruct (PaperMore.pt_calls_ladder cs (Paper.init c0) s Hok)
    as [_ Hlad]; [exact Hc0 | by apply Forall_nil | exact Hcs |].
  rewrite Forall_forall in Hlad. destruct (Hlad t Ht) as [_ Hl].
  split; [intros H; by destruct (B H)|].
  split; [intros H; by destruct (C H)|].
  split; [exact A|].
  split; [intros H; by destruct (B H)|].
  split; [intros H; by destruct (C H)|].
  intros Hopen. specialize (Hl Hopen). unfold Paper.ladder_share in Hl.
  destruct (Paper.level_hit "70%" t) eqn:E3.
  - destruct (C eq_refl) as [E2 _]. destruct (B E2) as [E1 _].
    rewrite E1, E2 in Hl. rewrite Hl. ring.
  - destruct (Paper.level_hit "50%" t) eqn:E2.
    + destruct (B eq_refl) as [E1 _]. rewrite E1 in Hl. rewrite Hl. ring.
    + rewrite Hl. destruct (Paper.level_hit "30%" t); ring.
Qed.

Lemma paper_levels_hit_in_order_witness :
  exists t,
    Paper.trades Scenarios.paper_after_tp !! 0%nat = Some t /\
    Paper.level_hit "30%" t = true /\
    Paper.current_units t == Paper.initial_units t * 0.80.
Proof.
  destruct (Paper.trades Scenarios.paper_after_tp !! 0%nat) as [t|] eqn:Ht;
    [|vm_compute in Ht; discriminate].
  assert (H1 : Paper.level_hit "30%" t = true /\
               Paper.level_hit "50%" t = false /\
               Paper.level_hit "70%" t = false /\ Paper.status t = "OPEN")
    by (vm_compute in Ht; by inversion Ht).
  destruct H1 as (H1 & H2 & H3 & Ho).
  exists t. split; [reflexivity|]. split; [exact H1|].
  destruct (paper_levels_hit_in_order 200 (take 2 Scenarios.paper_calls)
              Scenarios.paper_after_tp t) as (_ & _ & _ & _ & _ & H).
  - lra.
  - apply Forall_take, paper_calls_valid.
  - vm_compute. reflexivity.
  - by apply list_elem_of_lookup_2 with 0%nat.
  - specialize (H Ho). by rewrite H1, H2, H3 in H.
Defined.

End Further.
